(** * SMP utilities: request construction, response length resolution and
      response decoding of smp_rep_general, smp_conf_general,
      smp_rep_broadcast and smp_discover.

    The C programs are embedded shallowly.  A C [int] is a [Z]: the values
    that occur are bytes, 16-bit quantities or [4 + 4 * byte], far from
    the limits of [int], except for the sum [phy_id + do_num] of
    [do_multiple], which is wrapped to 32 bits ([s32]).  A byte buffer is a
    [list Z]; a read outside an array is undefined in C and reads 0 here,
    so the theorems that depend on such a read state that it stays inside
    the array.  What a program
    prints, and each call it makes into smp_lib, is an [event] of its
    trace; [goto err_out] and early [return] are the exit branch of a small
    writer-with-exit monad. *)

From Stdlib Require Import ZArith List String Bool Lia.
Import ListNotations.
Local Open Scope string_scope.
Local Open Scope list_scope.
Local Open Scope Z_scope.

(** ** Buffers *)

(** [b[i]] for a byte buffer.  An index outside the buffer is undefined
    behaviour in C; the model reads 0 there. *)
Definition byte_at (b : list Z) (i : Z) : Z :=
  if i <? 0 then 0 else nth (Z.to_nat i) b 0.

(** [b[i] = v] on an [unsigned char] array: the value is reduced to a byte.
    An index outside the buffer leaves it unchanged. *)
Fixpoint store_nat (n : nat) (v : Z) (b : list Z) : list Z :=
  match b, n with
  | [], _ => []
  | _ :: t, O => v :: t
  | h :: t, S n' => h :: store_nat n' v t
  end.

Definition u8 (v : Z) : Z := v mod 256.
Definition u16 (v : Z) : Z := v mod 65536.

(** An arithmetic result stored into an [int]: the 32-bit two's-complement
    value, which is what the sum of two [int]s that overflows comes out
    as on the machines the programs run on. *)
Definition s32 (v : Z) : Z := (v + 2 ^ 31) mod 2 ^ 32 - 2 ^ 31.

Definition store (i : Z) (v : Z) (b : list Z) : list Z :=
  if i <? 0 then b else store_nat (Z.to_nat i) (u8 v) b.

(** [b[i] |= m] *)
Definition or_store (i : Z) (m : Z) (b : list Z) : list Z :=
  store i (Z.lor (byte_at b i) m) b.

(** Modelled from the spec: sg_unaligned.h is not among the sources; the
    spec fixes multi-byte integers as big-endian and unsigned. *)
Definition sg_get_unaligned_be16 (b : list Z) (off : Z) : Z :=
  Z.lor (Z.shiftl (byte_at b off) 8) (byte_at b (off + 1)).

Definition sg_get_unaligned_be32 (b : list Z) (off : Z) : Z :=
  Z.lor (Z.shiftl (sg_get_unaligned_be16 b off) 16)
        (sg_get_unaligned_be16 b (off + 2)).

Definition sg_get_unaligned_be64 (b : list Z) (off : Z) : Z :=
  Z.lor (Z.shiftl (sg_get_unaligned_be32 b off) 32)
        (sg_get_unaligned_be32 b (off + 4)).

Definition sg_put_unaligned_be16 (v : Z) (off : Z) (b : list Z) : list Z :=
  store (off + 1) (Z.land v 255) (store off (Z.shiftr v 8) b).

(** [memset(b, 0, n)] *)
Definition memset0 (b : list Z) (n : Z) : list Z :=
  repeat 0 (Nat.min (Z.to_nat n) (List.length b)) ++ skipn (Z.to_nat n) b.

(** The bytes a transport stores into the response buffer overwrite its
    front; the rest of the buffer keeps what it held. *)
Definition write_resp (buf data : list Z) : list Z :=
  firstn (List.length buf) (data ++ skipn (List.length data) buf).

(** [!!(x & m)] *)
Definition bit (x m : Z) : Z := if Z.land x m =? 0 then 0 else 1.

(** C truth value of an [int]. *)
Definition truthy (x : Z) : bool := negb (x =? 0).

(** [0, 1, ..., n-1] as C loop indices. *)
Definition upto (n : Z) : list Z := map Z.of_nat (seq 0 (Z.to_nat n)).

(** ** Traces *)

(** An argument of a printf-like call.  [ASn fmt args] is a string that
    the program first formatted into a local buffer with [snprintf]. *)
Inductive arg : Type :=
| AInt (z : Z)
| AStr (s : string)
| ASn (fmt : string) (args : list Z)
| ABytes (bytes : list Z).     (* a pointer into a buffer, for [%.6s] *)

Inductive event : Type :=
| Printf (fmt : string) (args : list arg)      (* printf, to stdout *)
| Pr2serr (fmt : string) (args : list arg)     (* pr2serr / fprintf(stderr) *)
| HexDump (buf : list Z) (len : Z)             (* hex2stdout / dStrHex *)
| DefRespLen (fn : Z)                          (* smp_get_func_def_resp_len *)
| SendReq (req : list Z) (max_resp_len : Z)    (* smp_send_req *)
| CloseTarget.                                 (* smp_initiator_close *)

Definition trace := list event.

(** Computation that appends to the trace and either leaves through an
    exit (a [goto err_out] or [return] carrying an [E]) or goes on with
    an [A]. *)
Definition M (E A : Type) : Type := (trace * (E + A))%type.

Definition ret {E A} (a : A) : M E A := ([], inr a).
Definition leave {E A} (e : E) : M E A := ([], inl e).
Definition emit {E} (ev : event) : M E unit := ([ev], inr tt).
Definition emits {E} (evs : trace) : M E unit := (evs, inr tt).

Definition bind {E A B} (m : M E A) (f : A -> M E B) : M E B :=
  match m with
  | (t, inl e) => (t, inl e)
  | (t, inr a) => let (t', r) := f a in (t ++ t', r)
  end.

Definition when {E} (c : bool) (m : M E unit) : M E unit :=
  if c then m else ret tt.

Declare Scope smp_scope.
Delimit Scope smp_scope with smp.
Notation "x <- m ;; k" := (bind m (fun x => k))
  (at level 61, m at next level, right associativity) : smp_scope.
Notation "m ;; k" := (bind m (fun _ => k))
  (at level 61, right associativity) : smp_scope.
Local Open Scope smp_scope.

(** What a computation printed and how it ended. *)
Definition out {E A} (m : M E A) : trace := fst m.
Definition outcome {E A} (m : M E A) : E + A := snd m.

(** [all_events P m]: every event that [m] emits satisfies [P]. *)
Definition all_events {E A} (P : event -> Prop) (m : M E A) : Prop :=
  Forall P (out m).

(** A function body whose exits and whose normal end both carry the
    returned value. *)
Definition run {A} (m : M A A) : trace * A :=
  match m with
  | (t, inl a) => (t, a)
  | (t, inr a) => (t, a)
  end.

Definition printf {E} (fmt : string) (args : list arg) : M E unit :=
  emit (Printf fmt args).
Definition pr2serr {E} (fmt : string) (args : list arg) : M E unit :=
  emit (Pr2serr fmt args).

(** [dStrRaw]: writes [len] bytes of [str] to stdout, one [%c] each.
    The function has no bound but [len]: past the end of the array the C
    code prints whatever memory follows, where this model prints 0, so
    what is proved of a dump is stated for [len] within the array
    ([dump_inside]). *)
Definition dStrRaw {E} (str : list Z) (len : Z) : M E unit :=
  emits (map (fun k => Printf "%c" [AInt (byte_at str k)]) (upto len)).

(** ** What smp_lib provides *)

(** Modelled from the spec: smp_lib.h is not among the sources; the spec
    gives the two frame-type markers. *)
Definition SMP_FRAME_TYPE_REQ : Z := 0x40.
Definition SMP_FRAME_TYPE_RESP : Z := 0x41.

(** The other constants and the functions of smp_lib that the programs
    use.  They are parameters of the development. *)
Record smp_lib : Type := {
  SMP_FN_REPORT_GENERAL : Z;
  SMP_FN_REPORT_BROADCAST : Z;
  SMP_FN_DISCOVER : Z;
  SMP_FN_CONFIG_GENERAL : Z;
  SMP_FRES_NO_PHY : Z;
  SMP_FRES_PHY_VACANT : Z;
  SMP_LIB_FILE_ERROR : Z;
  SMP_LIB_RESOURCE_ERROR : Z;
  SMP_LIB_CAT_MALFORMED : Z;
  SMP_LIB_CAT_OTHER : Z;
  (* default response length in dwords per function code, negative
     when the function code is not known *)
  def_resp_len_table : Z -> Z;
  smp_get_func_res_str : Z -> string;
  smp_get_connector_type_str : Z -> bool -> string;
  smp_get_phy_pwr_cond_str : Z -> string;
  smp_get_pwr_dis_signal_str : Z -> string
}.

(** What one [smp_send_req] call comes back with: its return value, the
    two result fields of [struct smp_req_resp], and the bytes that the
    transport stored into the response buffer. *)
Record send_result : Type := {
  send_res : Z;
  transport_err : Z;
  act_response_len : Z;
  resp_data : list Z
}.

(** The SMP target behind the transport: its answer to a request frame,
    given the size of the response buffer. *)
Definition smp_target : Type := list Z -> Z -> send_result.

(** How the transport behaves during one run of a program: the result of
    [smp_initiator_open], the target that answers [smp_send_req], and the
    result of [smp_initiator_close]. *)
Record interface : Type := {
  initiator_open_res : Z;
  send : smp_target;
  initiator_close_res : Z;
  close_strerror : string       (* safe_strerror(errno) after a failed close *)
}.

(** [smp_send_req]: the request goes to the target, which stores at most
    [max_response_len] bytes into the response buffer. *)
Definition smp_send_req {E} (tobj : interface) (request : list Z)
    (response : list Z) (max_response_len : Z) : M E (send_result * list Z) :=
  emit (SendReq request max_response_len);;
  let rr := send tobj request max_response_len in
  ret (rr, write_resp response
             (firstn (Z.to_nat max_response_len) (resp_data rr))).

(** [smp_get_func_def_resp_len]: a look-up in the table of smp_lib. *)
Definition smp_get_func_def_resp_len {E} (L : smp_lib) (fn : Z) : M E Z :=
  emit (DefRespLen fn);;
  ret (def_resp_len_table L fn).

(** [for (k = 0; k < n; ++k) printf("%02x", b[off + k]);] *)
Definition printf_bytes {E} (fmt : string) (b : list Z) (off n : Z)
  : M E unit :=
  emits (map (fun k => Printf fmt [AInt (byte_at b (off + k))]) (upto n)).

(** ** smp_rep_general.c *)

Module RepGeneral.

Record opts : Type := {
  do_change : Z;
  do_hex : Z;
  do_raw : Z;
  verbose : Z
}.

Section Program.
Variable L : smp_lib.
Variable tobj : interface.

Definition smp_req : list Z :=
  [SMP_FRAME_TYPE_REQ; SMP_FN_REPORT_GENERAL L; 0; 0; 0; 0; 0; 0].

(** [sizeof(smp_resp)] *)
Definition smp_resp_size : Z := 128.

(** The length of the response in bytes as [main] works it out from the
    response header (lines 274-283). *)
Definition resolve_len {E} (op : opts) (smp_resp : list Z) : M E Z :=
  let len := byte_at smp_resp 3 in
  len <- (if len =? 0 then
            len <- smp_get_func_def_resp_len L (byte_at smp_resp 1);;
            if len <? 0 then
              when (verbose op >? 0)
                   (pr2serr "unable to determine response length\n" []);;
              ret 0
            else ret len
          else ret len);;
  ret (4 + len * 4).

(** The field report of [main] (lines 320-394). *)
Definition report (op : opts) (smp_resp : list Z) (len : Z) : M Z unit :=
  let r := byte_at smp_resp in
  printf "Report general response:\n" [];;
  printf "  expander change count: %d\n" [AInt (Z.shiftl (r 4) 8 + r 5)];;
  printf "  expander route indexes: %d\n" [AInt (Z.shiftl (r 6) 8 + r 7)];;
  printf "  number of phys: %d\n" [AInt (r 9)];;
  printf "  table to table supported: %d\n" [AInt (bit (r 10) 0x80)];;
  printf "  configures others: %d\n" [AInt (bit (r 10) 0x4)];;
  printf "  configuring: %d\n" [AInt (bit (r 10) 0x2)];;
  printf "  externally configurable route table: %d\n"
         [AInt (bit (r 10) 0x1)];;
  when (truthy (r 12))
       (printf "  enclosure logical identifier (hex): " [];;
        printf_bytes "%02x" smp_resp 12 8;;
        printf "\n" []);;
  when ((r 12 =? 0) && truthy (verbose op))
       (printf "  enclosure logical identifier <empty>\n" []);;
  when (len <? 36) (leave 0);;
  printf "  STP bus inactivity timer: %d (unit: 100ms)\n"
         [AInt (Z.shiftl (r 30) 8 + r 31)];;
  printf "  STP maximum connect time: %d (unit: 100ms)\n"
         [AInt (Z.shiftl (r 32) 8 + r 33)];;
  printf "  STP SMP I_T nexus loss time: %d (unit: ms)\n"
         [AInt (Z.shiftl (r 34) 8 + r 35)];;
  when (len <? 40) (leave 0);;
  printf "  number of zone groups: %d (0->128, 1->256)\n"
         [AInt (Z.shiftr (Z.land (r 36) 0xc0) 6)];;
  printf "  zone locked: %d\n" [AInt (bit (r 36) 0x10)];;
  printf "  physical presence supported: %d\n" [AInt (bit (r 36) 0x8)];;
  printf "  physical presence asserted: %d\n" [AInt (bit (r 36) 0x4)];;
  printf "  zoning supported: %d\n" [AInt (bit (r 36) 0x2)];;
  printf "  zoning enabled: %d\n" [AInt (bit (r 36) 0x1)];;
  printf "  maximum number of routed SAS addresses: %d\n"
         [AInt (Z.shiftl (r 38) 8 + r 39)];;
  when (len <? 48) (leave 0);;
  printf "  active zone manager SAS address (hex): " [];;
  printf_bytes "%02x" smp_resp 40 8;;
  printf "\n" [];;
  when (len <? 50) (leave 0);;
  printf "  zone lock inactivity time limit: %d (unit: 100ms)\n"
         [AInt (Z.shiftl (r 48) 8 + r 49)];;
  when (len <? 56) (leave 0);;
  printf "  first enclosure connector element index: %d\n" [AInt (r 53)];;
  printf "  number of enclosure connector element indexes: %d\n"
         [AInt (r 54)];;
  when (len <? 60) (leave 0);;
  printf "  reduced functionality: %d\n" [AInt (bit (r 56) 0x80)];;
  printf "  time to reduced functionality: %d (unit: 100ms)\n"
         [AInt (r 57)];;
  printf "  initial time to reduced functionality: %d (unit: 100ms)\n"
         [AInt (r 58)];;
  printf "  maximum reduced functionality time: %d (unit: second)\n"
         [AInt (r 59)];;
  when (len <? 68) (leave 0);;
  printf "  last self-configuarion status descriptor index: %d\n"
         [AInt (Z.shiftl (r 60) 8 + r 61)];;
  printf
    "  maximum number of stored self-configuarion status descriptors: %d\n"
    [AInt (Z.shiftl (r 62) 8 + r 63)];;
  printf "  last phy event information descriptor index: %d\n"
         [AInt (Z.shiftl (r 64) 8 + r 65)];;
  printf "  maximum number of stored phy event information descriptors: %d\n"
         [AInt (Z.shiftl (r 66) 8 + r 67)].

(** Lines 242-247 of [main]: the request as --verbose shows it. *)
Definition dump_req (op : opts) : trace :=
  if truthy (verbose op)
  then [Pr2serr "    Report general request: " []]
       ++ map (fun k => Pr2serr "%02x " [AInt (byte_at smp_req k)]) (upto 8)
       ++ [Pr2serr "\n" []]
  else [].

(** Lines 248-273 of [main]: the request goes out and the answer of the
    transport is checked.  [smp_resp0] is what the array [smp_resp] holds
    before the call, which the program does not initialise.  The value is
    the outcome of the send and the array after it. *)
Definition exchange (op : opts) (smp_resp0 : list Z)
  : M Z (send_result * list Z) :=
  emits (dump_req op);;
  sr <- smp_send_req tobj smp_req smp_resp0 smp_resp_size;;
  let rr := fst sr in
  when (truthy (send_res rr))
       (pr2serr "smp_send_req failed, res=%d\n" [AInt (send_res rr)];;
        when (verbose op =? 0)
             (pr2serr "    try adding '-v' option for more debug\n" []);;
        leave (-1));;
  when (truthy (transport_err rr))
       (pr2serr "smp_send_req transport_error=%d\n"
                [AInt (transport_err rr)];;
        leave (-1));;
  when ((act_response_len rr >=? 0) && (act_response_len rr <? 4))
       (pr2serr "response too short, len=%d\n"
                [AInt (act_response_len rr)];;
        leave (SMP_LIB_CAT_MALFORMED L));;
  ret sr.

(** Lines 284-296 of [main]: what is done with the response when --hex
    or --raw was given; the value left is [ret]. *)
Definition hex_or_raw (op : opts) (smp_resp : list Z) (len : Z) : M Z unit :=
  (if truthy (do_hex op)
   then emit (HexDump smp_resp len)
   else dStrRaw smp_resp len);;
  let ret0 := 0 in
  let ret1 := if negb (SMP_FRAME_TYPE_RESP =? byte_at smp_resp 0)
              then SMP_LIB_CAT_MALFORMED L else ret0 in
  let ret2 := if negb (byte_at smp_resp 1 =? byte_at smp_req 1)
              then SMP_LIB_CAT_MALFORMED L else ret1 in
  let ret3 := if truthy (byte_at smp_resp 2)
              then byte_at smp_resp 2 else ret2 in
  leave ret3.

(** Lines 297-315 of [main]: the checks of the response header. *)
Definition validate (smp_resp : list Z) : M Z unit :=
  when (negb (SMP_FRAME_TYPE_RESP =? byte_at smp_resp 0))
       (pr2serr "expected SMP frame response type, got=0x%x\n"
                [AInt (byte_at smp_resp 0)];;
        leave (SMP_LIB_CAT_MALFORMED L));;
  when (negb (byte_at smp_resp 1 =? byte_at smp_req 1))
       (pr2serr "Expected function code=0x%x, got=0x%x\n"
                [AInt (byte_at smp_req 1); AInt (byte_at smp_resp 1)];;
        leave (SMP_LIB_CAT_MALFORMED L));;
  when (truthy (byte_at smp_resp 2))
       (pr2serr "Report general result: %s\n"
                [AStr (smp_get_func_res_str L (byte_at smp_resp 2))];;
        leave (byte_at smp_resp 2)).

(** [main] from the request dump to the label [err_out]; the value is
    [ret] as it stands there. *)
Definition main_body (op : opts) (smp_resp0 : list Z) : M Z Z :=
  sr <- exchange op smp_resp0;;
  let smp_resp := snd sr in
  len <- resolve_len op smp_resp;;
  when (truthy (do_hex op) || truthy (do_raw op))
       (hex_or_raw op smp_resp len);;
  validate smp_resp;;
  when (truthy (do_change op))
       (printf "%d\n" [AInt (Z.shiftl (byte_at smp_resp 4) 8
                             + byte_at smp_resp 5)];;
        leave 0);;
  report op smp_resp len;;
  ret 0.

(** [main] after the command line has been read: open, exchange, report,
    close; the value is the exit status. *)
Definition main (op : opts) (smp_resp0 : list Z) : trace * Z :=
  if initiator_open_res tobj <? 0 then ([], SMP_LIB_FILE_ERROR L)
  else
    let (t, ret) := run (main_body op smp_resp0) in
    let t' := t ++ [CloseTarget] in
    if (initiator_close_res tobj <? 0) && (ret =? 0)
    then (t', SMP_LIB_FILE_ERROR L)
    else (t', if ret >=? 0 then ret else SMP_LIB_CAT_OTHER L).

End Program.
End RepGeneral.

(** ** smp_conf_general.c *)

Module ConfGeneral.

(** The variables of [main] that the option loop sets. *)
Record opts : Type := {
  do_connect : bool;
  do_inactivity : bool;
  do_itdefoi : bool;
  do_nexus : bool;
  do_open : bool;
  do_pdt : bool;
  do_raw : bool;
  do_reduced : bool;
  do_ssp : bool;
  connect_val : Z;
  expected_cc : Z;
  do_hex : Z;
  inactivity_val : Z;
  itdefoi_val : Z;
  nexus_val : Z;
  open_val : Z;
  power_val : Z;
  reduced_val : Z;
  ssp_ctl : Z;
  verbose : Z
}.

(** The ranges that the option loop enforces before it accepts a value
    (it returns [SMP_LIB_SYNTAX_ERROR] otherwise). *)
Definition in_range (lo hi v : Z) : bool := (lo <=? v) && (v <=? hi).

Definition opts_ok (op : opts) : bool :=
  in_range 0 65535 (connect_val op) && in_range 0 255 (itdefoi_val op) &&
  in_range 0 65535 (expected_cc op) && in_range 0 65535 (inactivity_val op) &&
  in_range 0 65535 (nexus_val op) && in_range 0 65535 (open_val op) &&
  in_range 0 255 (power_val op) && in_range 0 255 (reduced_val op) &&
  in_range 0 65535 (ssp_ctl op).

Section Program.
Variable L : smp_lib.
Variable tobj : interface.

(** The initialiser of [smp_req]. *)
Definition smp_req_init : list Z :=
  [SMP_FRAME_TYPE_REQ; SMP_FN_CONFIG_GENERAL L; 0; 4;
   0; 0; 0; 0; 0; 0; 0; 0; 0; 0; 0; 0;
   0; 0; 0; 0; 0; 0; 0; 0].

(** Lines 356-388: the request frame that [main] sends. *)
Definition build_req (op : opts) : list Z :=
  let q := sg_put_unaligned_be16 (u16 (expected_cc op)) 4 smp_req_init in
  let q := if do_itdefoi op
           then store 9 (itdefoi_val op) (or_store 8 0x80 q) else q in
  let q := if do_connect op
           then sg_put_unaligned_be16 (u16 (connect_val op)) 12
                  (or_store 8 0x2 q) else q in
  let q := if do_inactivity op
           then sg_put_unaligned_be16 (u16 (inactivity_val op)) 10
                  (or_store 8 0x1 q) else q in
  let q := if do_nexus op
           then sg_put_unaligned_be16 (u16 (nexus_val op)) 14
                  (or_store 8 0x4 q) else q in
  let q := if do_open op
           then sg_put_unaligned_be16 (u16 (open_val op)) 18
                  (or_store 8 0x10 q) else q in
  let q := if do_pdt op
           then store 17 (Z.land (power_val op) 0xff) (or_store 8 0x20 q)
           else q in
  let q := if do_reduced op
           then store 16 (Z.land (reduced_val op) 0xff) (or_store 8 0x8 q)
           else q in
  let q := if do_ssp op
           then sg_put_unaligned_be16 (u16 (ssp_ctl op)) 6
                  (or_store 8 0x40 q) else q in
  q.

(** [sizeof(smp_resp)] *)
Definition smp_resp_size : Z := 8.

(** Lines 389-399 of [main]: the request as --verbose shows it. *)
Definition dump_req (op : opts) : trace :=
  let smp_req := build_req op in
  if truthy (verbose op)
  then [Pr2serr "    Configure general request: " []]
       ++ flat_map
            (fun k =>
               (if k mod 16 =? 0 then [Pr2serr "\n      " []]
                else if k mod 8 =? 0 then [Pr2serr " " []] else [])
               ++ [Pr2serr "%02x " [AInt (byte_at smp_req k)]])
            (upto 24)
       ++ [Pr2serr "\n" []]
  else [].

(** Lines 425-440: the length of the response in bytes. *)
Definition resolve_len {E} (op : opts) (smp_resp : list Z)
    (act_resplen : Z) : M E Z :=
  let len := byte_at smp_resp 3 in
  len <- (if (len =? 0) && (byte_at smp_resp 2 =? 0) then
            len <- smp_get_func_def_resp_len L (byte_at smp_resp 1);;
            if len <? 0 then
              when (verbose op >? 0)
                   (pr2serr "unable to determine response length\n" []);;
              ret 0
            else ret len
          else ret len);;
  let len := 4 + len * 4 in
  if (act_resplen >=? 0) && (len >? act_resplen) then
    when (truthy (verbose op))
         (pr2serr
            "actual response length [%d] less than deduced length [%d]\n"
            [AInt act_resplen; AInt len]);;
    ret act_resplen
  else ret len.

(** Lines 400-424 of [main]: the request goes out and the answer of the
    transport is checked. *)
Definition exchange (op : opts) (smp_resp0 : list Z)
  : M Z (send_result * list Z) :=
  let smp_req := build_req op in
  emits (dump_req op);;
  sr <- smp_send_req tobj smp_req smp_resp0 smp_resp_size;;
  let rr := fst sr in
  when (truthy (send_res rr))
       (pr2serr "smp_send_req failed, res=%d\n" [AInt (send_res rr)];;
        when (verbose op =? 0)
             (pr2serr "    try adding '-v' option for more debug\n" []);;
        leave (-1));;
  when (truthy (transport_err rr))
       (pr2serr "smp_send_req transport_error=%d\n"
                [AInt (transport_err rr)];;
        leave (-1));;
  let act_resplen := act_response_len rr in
  when ((act_resplen >=? 0) && (act_resplen <? 4))
       (pr2serr "response too short, len=%d\n" [AInt act_resplen];;
        leave (SMP_LIB_CAT_MALFORMED L));;
  ret sr.

(** Lines 441-457 of [main]: what is done with the response when --hex
    or --raw was given. *)
Definition hex_or_raw (op : opts) (smp_resp : list Z) (len : Z) : M Z unit :=
  let smp_req := build_req op in
  (if truthy (do_hex op)
   then emit (HexDump smp_resp len)
   else dStrRaw smp_resp len);;
  if negb (SMP_FRAME_TYPE_RESP =? byte_at smp_resp 0)
  then leave (SMP_LIB_CAT_MALFORMED L)
  else if negb (byte_at smp_resp 1 =? byte_at smp_req 1)
  then leave (SMP_LIB_CAT_MALFORMED L)
  else if truthy (byte_at smp_resp 2)
  then
    when (truthy (verbose op))
         (pr2serr "Configure general result: %s\n"
            [AStr (smp_get_func_res_str L (byte_at smp_resp 2))]);;
    leave (byte_at smp_resp 2)
  else leave 0.

(** Lines 458-474 of [main]: the checks of the response header. *)
Definition validate (op : opts) (smp_resp : list Z) : M Z unit :=
  let smp_req := build_req op in
  when (negb (SMP_FRAME_TYPE_RESP =? byte_at smp_resp 0))
       (pr2serr "expected SMP frame response type, got=0x%x\n"
                [AInt (byte_at smp_resp 0)];;
        leave (SMP_LIB_CAT_MALFORMED L));;
  when (negb (byte_at smp_resp 1 =? byte_at smp_req 1))
       (pr2serr "Expected function code=0x%x, got=0x%x\n"
                [AInt (byte_at smp_req 1); AInt (byte_at smp_resp 1)];;
        leave (SMP_LIB_CAT_MALFORMED L));;
  when (truthy (byte_at smp_resp 2))
       (pr2serr "Configure general result: %s\n"
                [AStr (smp_get_func_res_str L (byte_at smp_resp 2))];;
        leave (byte_at smp_resp 2)).

(** [main] from the construction of the request to the label [err_out]. *)
Definition main_body (op : opts) (smp_resp0 : list Z) : M Z Z :=
  sr <- exchange op smp_resp0;;
  let smp_resp := snd sr in
  len <- resolve_len op smp_resp (act_response_len (fst sr));;
  when (truthy (do_hex op) || do_raw op) (hex_or_raw op smp_resp len);;
  validate op smp_resp;;
  ret 0.

(** The end of [main], from the label [err_out] on. *)
Definition err_out (op : opts) (t : trace) (ret : Z) : trace * Z :=
  let t1 := t ++ [CloseTarget]
              ++ (if initiator_close_res tobj <? 0
                  then [Pr2serr "close error: %s\n"
                                [AStr (close_strerror tobj)]]
                  else []) in
  if (initiator_close_res tobj <? 0) && (ret =? 0)
  then (t1, SMP_LIB_FILE_ERROR L)
  else
    let ret' := if ret <? 0 then SMP_LIB_CAT_OTHER L else ret in
    (t1 ++ (if truthy (verbose op) && truthy ret'
            then [Pr2serr "Exit status %d indicates error detected\n"
                          [AInt ret']]
            else []), ret').

Definition main (op : opts) (smp_resp0 : list Z) : trace * Z :=
  if initiator_open_res tobj <? 0 then ([], SMP_LIB_FILE_ERROR L)
  else
    let (t, ret) := run (main_body op smp_resp0) in
    err_out op t ret.

End Program.
End ConfGeneral.

(** ** smp_rep_broadcast.c *)

Module RepBroadcast.

Record opts : Type := {
  do_raw : bool;
  btype : Z;
  do_hex : Z;
  verbose : Z
}.

Definition broadcast_type_name : list string :=
  ["Broadcast (Change)";
   "Broadcast (Reserved Change 0)";
   "Broadcast (Reserved Change 1)";
   "Broadcast (SES)";
   "Broadcast (Expander)";
   "Broadcast (Asynchronous event)";
   "Broadcast (Reserved 3)";
   "Broadcast (Reserved 4)";
   "Broadcast (Zone activate)"].

Definition get_broadcast_type_str (bt_num : Z) : arg :=
  let max_num := Z.of_nat (List.length broadcast_type_name) in
  if (bt_num <? 0) || (bt_num >=? max_num)
  then ASn "Reserved [0x%x]" [bt_num]
  else AStr (nth (Z.to_nat bt_num) broadcast_type_name "").

Section Program.
Variable L : smp_lib.
Variable tobj : interface.

Definition SMP_FN_REPORT_BROADCAST_RESP_LEN : Z := 1020 + 4 + 4.

(** Lines 153-154 and 272-274: the request frame. *)
Definition build_req (op : opts) : list Z :=
  let q := [SMP_FRAME_TYPE_REQ; SMP_FN_REPORT_BROADCAST L; 0; 1;
            0; 0; 0; 0; 0; 0; 0; 0] in
  let len := (SMP_FN_REPORT_BROADCAST_RESP_LEN - 8) / 4 in
  let q := store 2 (if len <? 0x100 then len else 0xff) q in
  store 4 (Z.land (btype op) 0xf) q.

(** Lines 306-321: the length of the response in bytes. *)
Definition resolve_len {E} (op : opts) (smp_resp : list Z)
    (act_resplen : Z) : M E Z :=
  let len := byte_at smp_resp 3 in
  len <- (if (len =? 0) && (byte_at smp_resp 2 =? 0) then
            len <- smp_get_func_def_resp_len L (byte_at smp_resp 1);;
            if len <? 0 then
              when (verbose op >? 0)
                   (pr2serr "unable to determine response length\n" []);;
              ret 0
            else ret len
          else ret len);;
  let len := 4 + len * 4 in
  if (act_resplen >=? 0) && (len >? act_resplen) then
    when (truthy (verbose op))
         (pr2serr
            "actual response length [%d] less than deduced length [%d]\n"
            [AInt act_resplen; AInt len]);;
    ret act_resplen
  else ret len.

(** The body of the descriptor loop (lines 374-390): the descriptor
    with index [k], which the pointer [bdp] places at offset [bdp] of the
    response.  The code does not test [bdp] against the array
    [smp_resp]: for a count and a stride that lead past its 1028 bytes
    the C code reads outside the array, where this model reads 0, so what
    is proved of the loop is stated for descriptors that lie inside the
    array ([descriptors_inside]). *)
Definition descriptor (op : opts) (smp_resp : list Z) (bt_hdr bd_len : Z)
    (k bdp : Z) : trace :=
  let bt := Z.land (byte_at smp_resp bdp) 0xf in
  [Printf "   Descriptor %d:\n" [AInt (k + 1)]]
  ++ (if truthy (verbose op) || negb (bt_hdr =? bt)
      then [Printf "     broadcast type: %d [%s]\n"
                   [AInt bt; get_broadcast_type_str bt]]
      else [])
  ++ (if 0xff =? byte_at smp_resp (bdp + 1)
      then [Printf "     no specific phy id\n" []]
      else [Printf "     phy id: %d\n" [AInt (byte_at smp_resp (bdp + 1))]])
  ++ [Printf "     broadcast reason: %d\n"
             [AInt (Z.land (byte_at smp_resp (bdp + 2)) 0xf)];
      Printf "     broadcast count: %d\n"
             [AInt (sg_get_unaligned_be16 smp_resp (bdp + 4))]]
  ++ (if verbose op >? 1
      then [Printf "     " []]
           ++ map (fun j => Printf "%02x " [AInt (byte_at smp_resp (bdp + j))])
                  (upto bd_len)
           ++ [Printf "\n" []]
      else []).

(** [for (k = 0; k < num_bd; ++k, bdp += bd_len)], with [n] the number
    of iterations that remain. *)
Fixpoint descriptor_loop (op : opts) (smp_resp : list Z) (bt_hdr bd_len : Z)
    (n : nat) (k bdp : Z) : trace :=
  match n with
  | O => []
  | S n' => descriptor op smp_resp bt_hdr bd_len k bdp
            ++ descriptor_loop op smp_resp bt_hdr bd_len n' (k + 1)
                 (bdp + bd_len)
  end.

(** Lines 356-391: the report of a validated response. *)
Definition report (op : opts) (smp_resp : list Z) : M Z unit :=
  printf "Report broadcast response:\n" [];;
  let res := sg_get_unaligned_be16 smp_resp 4 in
  when (truthy (verbose op) || truthy res)
       (printf "  Expander change count: %d\n" [AInt res]);;
  let bt_hdr := Z.land (byte_at smp_resp 6) 0xf in
  printf "  broadcast type: %d [%s]\n"
         [AInt bt_hdr; get_broadcast_type_str bt_hdr];;
  printf "  broadcast descriptor length: %d dwords\n"
         [AInt (byte_at smp_resp 10)];;
  let bd_len := byte_at smp_resp 10 * 4 in
  let num_bd := byte_at smp_resp 11 in
  printf "  number of broadcast descriptors: %d\n" [AInt num_bd];;
  when (bd_len <? 8)
       (pr2serr "Unexpectedly low descriptor length: %d bytes\n"
                [AInt bd_len];;
        leave (-1));;
  emits (descriptor_loop op smp_resp bt_hdr bd_len (Z.to_nat num_bd) 0 12).

(** Lines 275-280 of [main]: the request as --verbose shows it. *)
Definition dump_req (op : opts) : trace :=
  let smp_req := build_req op in
  if truthy (verbose op)
  then [Pr2serr "    Report broadcast request: " []]
       ++ map (fun k => Pr2serr "%02x " [AInt (byte_at smp_req k)]) (upto 12)
       ++ [Pr2serr "\n" []]
  else [].

(** Lines 281-305 of [main]: the request goes out and the answer of the
    transport is checked. *)
Definition exchange (op : opts) (smp_resp0 : list Z)
  : M Z (send_result * list Z) :=
  let smp_req := build_req op in
  emits (dump_req op);;
  sr <- smp_send_req tobj smp_req smp_resp0
          SMP_FN_REPORT_BROADCAST_RESP_LEN;;
  let rr := fst sr in
  when (truthy (send_res rr))
       (pr2serr "smp_send_req failed, res=%d\n" [AInt (send_res rr)];;
        when (verbose op =? 0)
             (pr2serr "    try adding '-v' option for more debug\n" []);;
        leave (-1));;
  when (truthy (transport_err rr))
       (pr2serr "smp_send_req transport_error=%d\n"
                [AInt (transport_err rr)];;
        leave (-1));;
  let act_resplen := act_response_len rr in
  when ((act_resplen >=? 0) && (act_resplen <? 4))
       (pr2serr "response too short, len=%d\n" [AInt act_resplen];;
        leave (SMP_LIB_CAT_MALFORMED L));;
  ret sr.

(** Lines 322-338 of [main]: what is done with the response when --hex
    or --raw was given. *)
Definition hex_or_raw (op : opts) (smp_resp : list Z) (len : Z) : M Z unit :=
  let smp_req := build_req op in
  (if truthy (do_hex op)
   then emit (HexDump smp_resp len)
   else dStrRaw smp_resp len);;
  let ret0 := 0 in
  let ret1 := if negb (SMP_FRAME_TYPE_RESP =? byte_at smp_resp 0)
              then SMP_LIB_CAT_MALFORMED L else ret0 in
  let ret2 := if negb (byte_at smp_resp 1 =? byte_at smp_req 1)
              then SMP_LIB_CAT_MALFORMED L else ret1 in
  if truthy (byte_at smp_resp 2)
  then
    let ret3 := byte_at smp_resp 2 in
    when (truthy (verbose op))
         (pr2serr "Report broadcast result: %s\n"
                  [AStr (smp_get_func_res_str L ret3)]);;
    leave ret3
  else leave ret2.

(** Lines 339-355 of [main]: the checks of the response header. *)
Definition validate (op : opts) (smp_resp : list Z) : M Z unit :=
  let smp_req := build_req op in
  when (negb (SMP_FRAME_TYPE_RESP =? byte_at smp_resp 0))
       (pr2serr "expected SMP frame response type, got=0x%x\n"
                [AInt (byte_at smp_resp 0)];;
        leave (SMP_LIB_CAT_MALFORMED L));;
  when (negb (byte_at smp_resp 1 =? byte_at smp_req 1))
       (pr2serr "Expected function code=0x%x, got=0x%x\n"
                [AInt (byte_at smp_req 1); AInt (byte_at smp_resp 1)];;
        leave (SMP_LIB_CAT_MALFORMED L));;
  when (truthy (byte_at smp_resp 2))
       (pr2serr "Report broadcast result: %s\n"
                [AStr (smp_get_func_res_str L (byte_at smp_resp 2))];;
        leave (byte_at smp_resp 2)).

(** [main] from the construction of the request to the label [err_out]. *)
Definition main_body (op : opts) (smp_resp0 : list Z) : M Z Z :=
  sr <- exchange op smp_resp0;;
  let smp_resp := snd sr in
  len <- resolve_len op smp_resp (act_response_len (fst sr));;
  when (truthy (do_hex op) || do_raw op) (hex_or_raw op smp_resp len);;
  validate op smp_resp;;
  report op smp_resp;;
  ret 0.

(** The end of [main], from the label [err_out] on. *)
Definition err_out (op : opts) (t : trace) (ret : Z) : trace * Z :=
  let t1 := t ++ [CloseTarget]
              ++ (if initiator_close_res tobj <? 0
                  then [Pr2serr "close error: %s\n"
                                [AStr (close_strerror tobj)]]
                  else []) in
  if (initiator_close_res tobj <? 0) && (ret =? 0)
  then (t1, SMP_LIB_FILE_ERROR L)
  else
    let ret' := if ret <? 0 then SMP_LIB_CAT_OTHER L else ret in
    (t1 ++ (if truthy (verbose op) && truthy ret'
            then [Pr2serr "Exit status %d indicates error detected\n"
                          [AInt ret']]
            else []), ret').

Definition main (op : opts) (smp_resp0 : list Z) : trace * Z :=
  if initiator_open_res tobj <? 0 then ([], SMP_LIB_FILE_ERROR L)
  else
    let (t, ret) := run (main_body op smp_resp0) in
    err_out op t ret.

End Program.
End RepBroadcast.

(** ** smp_discover.c *)

Module Discover.

Definition SMP_FN_DISCOVER_RESP_LEN : Z := 124.
Definition SMP_FN_REPORT_GENERAL_RESP_LEN : Z := 76.
Definition MAX_PHY_ID : Z := 254.

Record opts_t : Type := {
  do_adn : bool;
  do_cap_phy : bool;
  do_dsn : bool;
  ign_zp : bool;
  do_list : bool;
  do_my : bool;
  phy_id_given : bool;
  do_raw : bool;
  do_summary : bool;
  do_zero : bool;
  sa_given : bool;
  do_brief : Z;
  do_hex : Z;
  multiple : Z;
  do_num : Z;
  phy_id : Z;
  verbose : Z;
  sa : Z
}.

Definition smp_attached_device_type : list string :=
  ["no device attached";
   "SAS or SATA device";
   "expander device";
   "expander device (fanout)";
   "reserved [4]";
   "reserved [5]";
   "reserved [6]";
   "reserved [7]"].

Definition smp_short_attached_device_type : list string :=
  [""; ""; "exp"; "fex"; "res"; "res"; "res"; "res"].

Definition smp_get_plink_rate (val : Z) (prog : bool) : arg :=
  if val =? 8 then AStr "1.5 Gbps"
  else if val =? 9 then AStr "3 Gbps"
  else if val =? 0xa then AStr "6 Gbps"
  else if val =? 0xb then AStr "12 Gbps"
  else if val =? 0xc then AStr "22.5 Gbps"
  else if prog && (0 =? val) then AStr "not programmable"
  else ASn "reserved [%d]" [val].

Definition smp_get_reason (val : Z) : arg :=
  if val =? 0 then AStr "unknown"
  else if val =? 1 then AStr "power on"
  else if val =? 2 then AStr "hard reset"
  else if val =? 3 then AStr "SMP phy control requested"
  else if val =? 4 then AStr "loss of dword synchronization"
  else if val =? 5 then AStr "error in multiplexing (MUX) sequence"
  else if val =? 6 then AStr "I_T nexus loss timeout STP/SATA"
  else if val =? 7 then AStr "break timeout timer expired"
  else if val =? 8 then AStr "phy test function stopped"
  else if val =? 9 then AStr "expander reduced functionality"
  else ASn "reserved [%d]" [val].

Definition smp_get_neg_xxx_link_rate (val : Z) : arg :=
  if val =? 0 then AStr "phy enabled; unknown"
  else if val =? 1 then AStr "phy disabled"
  else if val =? 2 then AStr "phy enabled; speed negotiation failed"
  else if val =? 3 then AStr "phy enabled; SATA spinup hold state"
  else if val =? 4 then AStr "phy enabled; port selector"
  else if val =? 5 then AStr "phy enabled; reset in progress"
  else if val =? 6 then AStr "phy enabled; unsupported phy attached"
  else if val =? 8 then AStr "phy enabled, 1.5 Gbps"
  else if val =? 9 then AStr "phy enabled, 3 Gbps"
  else if val =? 0xa then AStr "phy enabled, 6 Gbps"
  else if val =? 0xb then AStr "phy enabled, 12 Gbps"
  else if val =? 0xc then AStr "phy enabled, 22.5 Gbps"
  else ASn "reserved [%d]" [val].

Section Program.
Variable L : smp_lib.
Variable tobj : interface.

(** The request of [get_num_phys]. *)
Definition rg_smp_req : list Z :=
  [SMP_FRAME_TYPE_REQ; SMP_FN_REPORT_GENERAL L; 0; 0; 0; 0; 0; 0].

(** Lines 210-215 of [get_num_phys]: the request as --verbose shows
    it. *)
Definition rg_dump_req (op : opts_t) : trace :=
  if truthy (verbose op)
  then [Pr2serr "    Report general request: " []]
       ++ map (fun k => Pr2serr "%02x " [AInt (byte_at rg_smp_req k)])
              (upto 8)
       ++ [Pr2serr "\n" []]
  else [].

(** Lines 216-241 of [get_num_phys]: the REPORT GENERAL request goes out
    and the answer of the transport is checked. *)
Definition rg_exchange (op : opts_t) (rp0 : list Z)
  : M (Z * option bool) (send_result * list Z) :=
  emits (rg_dump_req op);;
  sr <- smp_send_req tobj rg_smp_req rp0 SMP_FN_REPORT_GENERAL_RESP_LEN;;
  let rr := fst sr in
  when (truthy (send_res rr))
       (pr2serr "RG smp_send_req failed, res=%d\n" [AInt (send_res rr)];;
        when (verbose op =? 0)
             (pr2serr "    try adding '-v' option for more debug\n" []);;
        leave (-1, None));;
  when (truthy (transport_err rr))
       (pr2serr "RG smp_send_req transport_error=%d\n"
                [AInt (transport_err rr)];;
        leave (-1, None));;
  let act_resplen := act_response_len rr in
  when ((act_resplen >=? 0) && (act_resplen <? 4))
       (pr2serr "RG response too short, len=%d\n" [AInt act_resplen];;
        leave (-4 - SMP_LIB_CAT_MALFORMED L, None));;
  ret sr.

(** Lines 242-257 of [get_num_phys]: the length of the response in
    bytes. *)
Definition rg_resolve_len {E} (op : opts_t) (rp : list Z) (act_resplen : Z)
  : M E Z :=
  let len := byte_at rp 3 in
  len <- (if (len =? 0) && (byte_at rp 2 =? 0) then
            len <- smp_get_func_def_resp_len L (byte_at rp 1);;
            if len <? 0 then
              when (verbose op >? 1)
                   (pr2serr "unable to determine RG response length\n" []);;
              ret 0
            else ret len
          else ret len);;
  let len := 4 + len * 4 in
  if (act_resplen >=? 0) && (len >? act_resplen) then
    when (truthy (verbose op))
         (pr2serr
          "actual RG response length [%d] less than deduced length [%d]\n"
            [AInt act_resplen; AInt len]);;
    ret act_resplen
  else ret len.

(** [get_num_phys]: the number of phys from a REPORT GENERAL exchange,
    together with the value it stores through [t2t_routingp] when it gets
    that far.  [block] is what [smp_memalign] returned: nothing, or a
    block with the contents it happens to hold. *)
Definition get_num_phys_body (op : opts_t) (rp0 : list Z)
  : M (Z * option bool) (Z * option bool) :=
  sr <- rg_exchange op rp0;;
  let rp := snd sr in
  len <- rg_resolve_len op rp (act_response_len (fst sr));;
  when (negb (SMP_FRAME_TYPE_RESP =? byte_at rp 0))
       (pr2serr "RG expected SMP frame response type, got=0x%x\n"
                [AInt (byte_at rp 0)];;
        leave (-4 - SMP_LIB_CAT_MALFORMED L, None));;
  when (negb (byte_at rp 1 =? byte_at rg_smp_req 1))
       (pr2serr "RG Expected function code=0x%x, got=0x%x\n"
                [AInt (byte_at rg_smp_req 1); AInt (byte_at rp 1)];;
        leave (-4 - SMP_LIB_CAT_MALFORMED L, None));;
  when (truthy (byte_at rp 2))
       (when (verbose op >? 1)
             (pr2serr "Report General result: %s\n"
                      [AStr (smp_get_func_res_str L (byte_at rp 2))]);;
        leave (-4 - byte_at rp 2, None));;
  let t2t := if len >? 10 then truthy (Z.land 0x80 (byte_at rp 10))
             else false in
  when (verbose op >? 2)
       (pr2serr "%s: len=%d, number of phys: %u, t2t=%d\n"
                [AStr "get_num_phys"; AInt len; AInt (byte_at rp 9);
                 AInt (if t2t then 1 else 0)]);;
  ret (if len >? 9 then byte_at rp 9 else 0, Some t2t).

Definition get_num_phys (op : opts_t) (block : option (list Z))
  : trace * (Z * option bool) :=
  match block with
  | None => ([Pr2serr "%s: heap allocation problem\n" [AStr "get_num_phys"]],
             (SMP_LIB_RESOURCE_ERROR L, None))
  | Some rp0 => run (get_num_phys_body op rp0)
  end.

(** Lines 401-414 of [do_discover]: the request frame. *)
Definition build_req (disc_phy_id : Z) (max_resp_len : Z) (op : opts_t)
  : list Z :=
  let q := [SMP_FRAME_TYPE_REQ; SMP_FN_DISCOVER L; 0; 0;
            0; 0; 0; 0; 0; 0; 0; 0; 0; 0; 0; 0] in
  let q := if negb (do_zero op) then
             let len := (max_resp_len - 8) / 4 in
             store 3 2 (store 2 (if len <? 0x100 then len else 0xff) q)
           else q in
  let q := if ign_zp op then or_store 8 0x1 q else q in
  store 9 disc_phy_id q.

(** Lines 415-420 of [do_discover]: the request as --verbose shows it. *)
Definition dump_req (disc_phy_id : Z) (max_resp_len : Z) (op : opts_t)
  : trace :=
  let smp_req := build_req disc_phy_id max_resp_len op in
  if truthy (verbose op)
  then [Pr2serr "    Discover request: " []]
       ++ map (fun k => Pr2serr "%02x " [AInt (byte_at smp_req k)]) (upto 16)
       ++ [Pr2serr "\n" []]
  else [].

(** Lines 406-443 of [do_discover]: the response buffer is cleared, the
    request goes out and the answer of the transport is checked.  The
    value is the outcome of the send and the buffer after it; an exit
    carries what [do_discover] returns and the buffer. *)
Definition exchange (disc_phy_id : Z) (resp : list Z) (max_resp_len : Z)
    (op : opts_t) : M (Z * list Z) (send_result * list Z) :=
  let resp := memset0 resp max_resp_len in
  let smp_req := build_req disc_phy_id max_resp_len op in
  emits (dump_req disc_phy_id max_resp_len op);;
  sr <- smp_send_req tobj smp_req resp max_resp_len;;
  let rr := fst sr in
  let resp := snd sr in
  when (truthy (send_res rr))
       (pr2serr "smp_send_req failed, res=%d\n" [AInt (send_res rr)];;
        when (verbose op =? 0)
             (pr2serr "    try adding '-v' option for more debug\n" []);;
        leave (-1, resp));;
  when (truthy (transport_err rr))
       (pr2serr "smp_send_req transport_error=%d\n"
                [AInt (transport_err rr)];;
        leave (-1, resp));;
  let act_resplen := act_response_len rr in
  when ((act_resplen >=? 0) && (act_resplen <? 4))
       (pr2serr "response too short, len=%d\n" [AInt act_resplen];;
        leave (-4 - SMP_LIB_CAT_MALFORMED L, resp));;
  ret sr.

(** Lines 444-459 of [do_discover]: the length of the response in
    bytes. *)
Definition resolve_len {E} (op : opts_t) (resp : list Z) (act_resplen : Z)
  : M E Z :=
  let len := byte_at resp 3 in
  len <- (if (len =? 0) && (byte_at resp 2 =? 0) then
            len <- smp_get_func_def_resp_len L (byte_at resp 1);;
            if len <? 0 then
              when (verbose op >? 1)
                   (pr2serr "unable to determine response length\n" []);;
              ret 0
            else ret len
          else ret len);;
  let len := 4 + len * 4 in
  if (act_resplen >=? 0) && (len >? act_resplen) then
    when (truthy (verbose op))
         (pr2serr
            "actual response length [%d] less than deduced length [%d]\n"
            [AInt act_resplen; AInt len]);;
    ret act_resplen
  else ret len.

(** Lines 460-476 of [do_discover]: what is done with the response when
    --hex or --raw was given. *)
Definition hex_or_raw (disc_phy_id : Z) (max_resp_len : Z) (op : opts_t)
    (resp : list Z) (len : Z) : M (Z * list Z) unit :=
  let smp_req := build_req disc_phy_id max_resp_len op in
  (if truthy (do_hex op)
   then emit (HexDump resp len)
   else dStrRaw resp len);;
  when (negb (SMP_FRAME_TYPE_RESP =? byte_at resp 0))
       (leave (-4 - SMP_LIB_CAT_MALFORMED L, resp));;
  when (negb (byte_at resp 1 =? byte_at smp_req 1))
       (leave (-4 - SMP_LIB_CAT_MALFORMED L, resp));;
  when (truthy (byte_at resp 2))
       (when (truthy (verbose op))
             (pr2serr "Discover result: %s\n"
                [AStr (smp_get_func_res_str L (byte_at resp 2))]);;
        leave (-4 - byte_at resp 2, resp));;
  leave (len, resp).

(** Lines 477-492 of [do_discover]: the checks of the response header. *)
Definition validate (disc_phy_id : Z) (max_resp_len : Z)
    (silence_err_report : bool) (op : opts_t) (resp : list Z)
  : M (Z * list Z) unit :=
  let smp_req := build_req disc_phy_id max_resp_len op in
  when (negb (SMP_FRAME_TYPE_RESP =? byte_at resp 0))
       (pr2serr "expected SMP frame response type, got=0x%x\n"
                [AInt (byte_at resp 0)];;
        leave (-4 - SMP_LIB_CAT_MALFORMED L, resp));;
  when (negb (byte_at resp 1 =? byte_at smp_req 1))
       (pr2serr "Expected function code=0x%x, got=0x%x\n"
                [AInt (byte_at smp_req 1); AInt (byte_at resp 1)];;
        leave (-4 - SMP_LIB_CAT_MALFORMED L, resp));;
  when (truthy (byte_at resp 2))
       (when ((verbose op >? 0) || negb silence_err_report)
             (pr2serr "Discover result: %s\n"
                      [AStr (smp_get_func_res_str L (byte_at resp 2))]);;
        leave (-4 - byte_at resp 2, resp)).

(** [do_discover]: one DISCOVER exchange for the phy [disc_phy_id].  The
    value is what the function returns together with the response
    buffer [resp] as the function leaves it to its caller. *)
Definition do_discover_body (disc_phy_id : Z) (resp : list Z)
    (max_resp_len : Z) (silence_err_report : bool) (op : opts_t)
  : M (Z * list Z) (Z * list Z) :=
  sr <- exchange disc_phy_id resp max_resp_len op;;
  let resp := snd sr in
  len <- resolve_len op resp (act_response_len (fst sr));;
  when (truthy (do_hex op) || do_raw op)
       (hex_or_raw disc_phy_id max_resp_len op resp len);;
  validate disc_phy_id max_resp_len silence_err_report op resp;;
  ret (len, resp).

Definition do_discover (disc_phy_id : Z) (resp : list Z) (max_resp_len : Z)
    (silence_err_report : bool) (op : opts_t) : trace * (Z * list Z) :=
  run (do_discover_body disc_phy_id resp max_resp_len silence_err_report op).

(** [print_single_list]: the attribute=value form of one response. *)
Definition print_single_list (rp : list Z) (len : Z) (show_exp_cc : bool)
    (do_brief' : Z) : M Z unit :=
  let r := byte_at rp in
  let brief := truthy do_brief' in
  let sas2 := truthy (r 3) in
  when (sas2 && show_exp_cc && negb brief)
       (printf "expander_cc=%u\n" [AInt (sg_get_unaligned_be16 rp 4)]);;
  printf "phy_id=%d\n" [AInt (r 9)];;
  when (negb brief)
       (when sas2
             (printf "  att_apta_cap=%d\n" [AInt (bit 0x4 (r 34))];;
              printf "  att_br_cap=%d\n" [AInt (bit 0x1 (r 33))]);;
        when (len >? 59)
             (printf "  att_dev_name=0x%lx\n"
                     [AInt (sg_get_unaligned_be64 rp 52)]));;
  printf "  att_dev_type=%d\n" [AInt (Z.shiftr (Z.land 0x70 (r 12)) 4)];;
  when (sas2 && negb brief)
       (printf "  att_iz_per=%d\n" [AInt (bit 0x4 (r 33))];;
        printf "  att_pa_cap=%d\n" [AInt (bit 0x8 (r 33))];;
        printf "  att_per_cap=%d\n" [AInt (bit 0x80 (r 33))]);;
  printf "  att_phy_id=%d\n" [AInt (r 32)];;
  when (sas2 && negb brief)
       (printf "  att_pow_cap=%d\n" [AInt (Z.land (Z.shiftr (r 33) 5) 0x3)];;
        printf "  att_pwr_dis_cap=%d\n" [AInt (bit (r 34) 1)];;
        printf "  att_reason=%d\n" [AInt (Z.land 0xf (r 12))];;
        printf "  att_req_iz=%d\n" [AInt (bit 0x2 (r 33))]);;
  printf "  att_sas_addr=0x%lx\n" [AInt (sg_get_unaligned_be64 rp 24)];;
  printf "  att_sata_dev=%d\n" [AInt (bit 0x1 (r 15))];;
  printf "  att_sata_host=%d\n" [AInt (bit 0x1 (r 14))];;
  printf "  att_sata_ps=%d\n" [AInt (bit 0x80 (r 15))];;
  when (sas2 && negb brief)
       (printf "  att_sl_cap=%d\n" [AInt (bit 0x10 (r 33))]);;
  printf "  att_smp_init=%d\n" [AInt (bit 0x2 (r 14))];;
  when (sas2 && negb brief)
       (printf "  att_smp_prior_cap=%d\n" [AInt (bit 0x2 (r 34))]);;
  printf "  att_smp_targ=%d\n" [AInt (bit 0x2 (r 15))];;
  printf "  att_ssp_init=%d\n" [AInt (bit 0x8 (r 14))];;
  printf "  att_ssp_targ=%d\n" [AInt (bit 0x8 (r 15))];;
  printf "  att_stp_init=%d\n" [AInt (bit 0x4 (r 14))];;
  printf "  att_stp_targ=%d\n" [AInt (bit 0x4 (r 15))];;
  when (negb brief)
       (when (len >? 118)
             (printf "  buff_phy_bs=%d\n" [AInt (r 118)]);;
        when (sas2 || truthy (Z.land (r 45) 0x7f))
             (printf "  conn_elem_ind=%d\n" [AInt (r 46)];;
              printf "  conn_p_link=%d\n" [AInt (r 47)];;
              printf "  conn_type=%d\n" [AInt (Z.land 0x7f (r 45))]);;
        when (len >? 109)
             (printf "  dev_slot_num=%d\n" [AInt (r 108)];;
              printf "  dev_slot_grp_num=%d\n" [AInt (r 109)]));;
  when (negb brief)
       (printf "  hw_max_p_lrate=%d\n" [AInt (Z.land 0xf (r 41))];;
        printf "  hw_min_p_lrate=%d\n" [AInt (Z.land 0xf (r 40))];;
        when (len >? 95)
             (printf "  hw_mux_sup=%d\n" [AInt (bit (r 95) 0x1)]));;
  when (negb brief)
       (printf "  iz=%d\n" [AInt (bit 0x2 (r 60))];;
        printf "  iz_pers=%d\n" [AInt (bit 0x20 (r 60))]);;
  printf "  neg_log_lrate=%d\n" [AInt (Z.land 0xf (r 13))];;
  when (negb brief)
       (when (len >? 95)
             (printf "  neg_phy_lrate=%d\n" [AInt (Z.land 0xf (r 94))];;
              printf "  opt_m_en=%d\n" [AInt (bit (r 95) 0x4)]);;
        printf "  phy_cc=%d\n" [AInt (r 42)];;
        printf "  phy_power_cond=%d\n"
               [AInt (Z.shiftr (Z.land 0xc0 (r 48)) 6)];;
        printf "  pp_timeout=%d\n" [AInt (Z.land 0xf (r 43))];;
        printf "  pr_max_p_lrate=%d\n"
               [AInt (Z.shiftr (Z.land 0xf0 (r 41)) 4)];;
        printf "  pr_min_p_lrate=%d\n"
               [AInt (Z.shiftr (Z.land 0xf0 (r 40)) 4)];;
        when sas2
             (printf "  pwr_dis_ctl_cap=%d\n"
                     [AInt (Z.shiftr (Z.land (r 49) 0x30) 4)];;
              printf "  pwr_dis_sig=%d\n"
                     [AInt (Z.shiftr (Z.land (r 49) 0xc0) 6)]));;
  when (negb brief && (len >? 95))
       (printf "  reason=%d\n" [AInt (Z.shiftr (Z.land 0xf0 (r 94)) 4)]);;
  when (negb brief)
       (printf "  req_iz=%d\n" [AInt (bit 0x10 (r 60))];;
        printf "  req_iz_cbe=%d\n" [AInt (bit 0x40 (r 60))]);;
  printf "  routing_attr=%d\n" [AInt (Z.land (r 44) 0xf)];;
  printf "  sas_addr=0x%lx\n" [AInt (sg_get_unaligned_be64 rp 16)];;
  when (negb brief)
       (printf "  sas_pa_cap=%d\n" [AInt (bit 0x4 (r 48))];;
        printf "  sas_pa_en=%d\n" [AInt (bit 0x4 (r 49))];;
        printf "  sas_pow_cap=%d\n" [AInt (Z.land (Z.shiftr (r 48) 4) 0x3)];;
        printf "  sas_sl_cap=%d\n" [AInt (bit 0x8 (r 48))];;
        printf "  sas_sl_en=%d\n" [AInt (bit 0x8 (r 49))];;
        printf "  sata_pa_cap=%d\n" [AInt (bit 0x1 (r 48))];;
        printf "  sata_pa_en=%d\n" [AInt (bit 0x1 (r 49))];;
        printf "  sata_sl_cap=%d\n" [AInt (bit 0x2 (r 48))];;
        printf "  sata_sl_en=%d\n" [AInt (bit 0x2 (r 49))];;
        printf "  stp_buff_tsmall=%d\n" [AInt (bit 0x10 (r 15))]);;
  printf "  virt_phy=%d\n" [AInt (bit 0x80 (r 43))];;
  when (negb brief)
       (printf "  zg=%d\n" [AInt (r 63)];;
        printf "  zg_pers=%d\n" [AInt (bit 0x4 (r 60))];;
        printf "  zoning_en=%d\n" [AInt (bit 0x1 (r 60))]).

Definition g_name : list string := ["G1"; "G2"; "G3"; "G4"; "G5"].
Definition g_name_long : list string :=
  ["G1 (1.5 Gbps)"; "G2 (3 Gbps)"; "G3 (6 Gbps)"; "G4 (12 Gbps)";
   "G5 (22.5 Gbps)"].

(** One turn of the loop of [decode_phy_cap], for [k] from 4 down to 0;
    the state is [(skip, prev_nl)] and the text printed so far. *)
Definition decode_phy_cap_step (op : opts_t) (g15_val : Z)
    (st : Z * bool * trace) (k : Z) : Z * bool * trace :=
  let '(skip, prev_nl, t) := st in
  let cp := AStr (nth (Z.to_nat (4 - k))
                      (if truthy (verbose op) then g_name_long else g_name)
                      "") in
  let g := Z.land (Z.shiftr g15_val (k * 2)) 0x3 in
  let '(skip, prev_nl, t) :=
    if g =? 0 then (skip + 1, prev_nl, t)
    else if g =? 1 then (skip, false, t ++ [Printf "    %s: with SSC" [cp]])
    else if g =? 2
    then (skip, false, t ++ [Printf "    %s: without SSC" [cp]])
    else if g =? 3
    then (skip, false, t ++ [Printf "    %s: with+without SSC" [cp]])
    else (skip, false,
          t ++ [Printf "    %s: g15_val=0x%x, k=%d" [cp; AInt g15_val; AInt k]])
  in
  let '(skip, prev_nl, t) :=
    if (3 =? k) && (0 =? skip) then (2, true, t ++ [Printf "\n" []])
    else (skip, prev_nl, t) in
  if (1 =? k) && (skip <? 2) then (skip, true, t ++ [Printf "\n" []])
  else (skip, prev_nl, t).

Definition decode_phy_cap (p_cap : Z) (op : opts_t) : trace :=
  let t0 :=
    [Printf
   "    Tx SSC type: %d, Requested interleaved SPL: %d, [Req logical lr: 0x%x]\n"
       [AInt (Z.land (Z.shiftr p_cap 30) 0x1);
        AInt (Z.land (Z.shiftr p_cap 28) 0x3);
        AInt (Z.land (Z.shiftr p_cap 24) 0xf)]] in
  let g15_val := Z.land (Z.shiftr p_cap 14) 0x3ff in
  let '(_, prev_nl, t) :=
    fold_left (decode_phy_cap_step op g15_val) [4; 3; 2; 1; 0]
              (0, true, t0) in
  t ++ (if negb prev_nl then [Printf "\n" []] else [])
    ++ [Printf "    Extended coefficient settings: %d\n"
               [AInt (Z.land (Z.shiftr p_cap 1) 0x1)]].

(** [print_single]: the full report of one DISCOVER response [rp] whose
    resolved length is [len]. *)
Definition print_single (rp : list Z) (len : Z) (just1 : bool)
    (op : opts_t) : M Z unit :=
  let r := byte_at rp in
  let ull := if len >? 23 then sg_get_unaligned_be64 rp 16 else 0 in
  (if just1
   then printf "Discover response%s:\n"
               [AStr (if truthy (do_brief op) then " (brief)" else "")]
   else printf "phy identifier: %d\n" [AInt (r 9)]);;
  let sas2 := truthy (r 3) in
  let res := sg_get_unaligned_be16 rp 4 in
  when ((sas2 && negb (truthy (do_brief op))) || (verbose op >? 3))
       (when (truthy (verbose op) || (res >? 0))
             (printf "  expander change count: %d\n" [AInt res]));;
  when just1 (printf "  phy identifier: %d\n" [AInt (r 9)]);;
  let res := Z.shiftr (Z.land 0x70 (r 12)) 4 in
  when (res <? 8)
       (printf "  attached SAS device type: %s\n"
               [AStr (nth (Z.to_nat res) smp_attached_device_type "")]);;
  when ((do_brief op >? 1) && (0 =? res)) (leave 0);;
  when (sas2 || (verbose op >? 3))
       (printf "  attached reason: %s\n"
               [smp_get_reason (Z.land 0xf (r 12))]);;
  printf "  negotiated logical link rate: %s\n"
         [smp_get_neg_xxx_link_rate (Z.land 0xf (r 13))];;
  printf "  attached initiator: ssp=%d stp=%d smp=%d sata_host=%d\n"
         [AInt (bit (r 14) 8); AInt (bit (r 14) 4); AInt (bit (r 14) 2);
          AInt (Z.land (r 14) 1)];;
  when (0 =? do_brief op)
       (printf "  attached sata port selector: %d\n"
               [AInt (bit (r 15) 0x80)];;
        printf "  STP buffer too small: %d\n" [AInt (bit (r 15) 0x10)]);;
  printf "  attached target: ssp=%d stp=%d smp=%d sata_device=%d\n"
         [AInt (bit (r 15) 8); AInt (bit (r 15) 4); AInt (bit (r 15) 2);
          AInt (Z.land (r 15) 1)];;
  printf "  SAS address: 0x%lx\n" [AInt ull];;
  printf "  attached SAS address: 0x%lx\n"
         [AInt (sg_get_unaligned_be64 rp 24)];;
  printf "  attached phy identifier: %d\n" [AInt (r 32)];;
  when (0 =? do_brief op)
       (when (sas2 || (verbose op >? 3))
             (printf "  attached persistent capable: %d\n"
                     [AInt (bit (r 33) 0x80)];;
              printf "  attached power capable: %d\n"
                     [AInt (Z.land (Z.shiftr (r 33) 5) 0x3)];;
              printf "  attached slumber capable: %d\n"
                     [AInt (bit (r 33) 0x10)];;
              printf "  attached partial capable: %d\n"
                     [AInt (bit (r 33) 0x8)];;
              printf "  attached inside ZPSDS persistent: %d\n"
                     [AInt (bit (r 33) 4)];;
              printf "  attached requested inside ZPSDS: %d\n"
                     [AInt (bit (r 33) 2)];;
              printf "  attached break_reply capable: %d\n"
                     [AInt (bit (r 33) 1)];;
              printf "  attached apta capable: %d\n" [AInt (bit (r 34) 4)];;
              printf "  attached smp priority capable: %d\n"
                     [AInt (bit (r 34) 2)];;
              printf "  attached pwr_dis capable: %d\n"
                     [AInt (bit (r 34) 1)]);;
        printf "  programmed minimum physical link rate: %s\n"
               [smp_get_plink_rate (Z.land (Z.shiftr (r 40) 4) 0xf) true];;
        printf "  hardware minimum physical link rate: %s\n"
               [smp_get_plink_rate (Z.land (r 40) 0xf) false];;
        printf "  programmed maximum physical link rate: %s\n"
               [smp_get_plink_rate (Z.land (Z.shiftr (r 41) 4) 0xf) true];;
        printf "  hardware maximum physical link rate: %s\n"
               [smp_get_plink_rate (Z.land (r 41) 0xf) false];;
        printf "  phy change count: %d\n" [AInt (r 42)];;
        printf "  virtual phy: %d\n" [AInt (bit (r 43) 0x80)];;
        printf "  partial pathway timeout value: %d microsecs\n"
               [AInt (Z.land (r 43) 0xf)]);;
  let res := Z.land 0xf (r 44) in
  let b := if res =? 0 then AStr "direct"
           else if res =? 1 then AStr "subtractive"
           else if res =? 2 then AStr "table"
           else ASn "reserved [%d]" [res] in
  printf "  routing attribute: %s\n" [b];;
  when (truthy (do_brief op))
       (when ((len >? 63) && truthy (bit (r 60) 0x1))
             (printf "  zone group: %d\n" [AInt (r 63)]);;
        leave 0);;
  when (sas2 || truthy (Z.land (r 45) 0x7f))
       (printf "  connector type: %s\n"
               [AStr (smp_get_connector_type_str L (Z.land (r 45) 0x7f) true)];;
        printf "  connector element index: %d\n" [AInt (r 46)];;
        printf "  connector physical link: %d\n" [AInt (r 47)];;
        printf "  phy power condition: %s\n"
               [AStr (smp_get_phy_pwr_cond_str L
                        (Z.shiftr (Z.land (r 48) 0xc0) 6))];;
        printf "  sas power capable: %d\n"
               [AInt (Z.land (Z.shiftr (r 48) 4) 0x3)];;
        printf "  sas slumber capable: %d\n" [AInt (bit (r 48) 0x8)];;
        printf "  sas partial capable: %d\n" [AInt (bit (r 48) 0x4)];;
        printf "  sata slumber capable: %d\n" [AInt (bit (r 48) 0x2)];;
        printf "  sata partial capable: %d\n" [AInt (bit (r 48) 0x1)];;
        printf "  pwr_dis signal: %s\n"
               [AStr (smp_get_pwr_dis_signal_str L
                        (Z.shiftr (Z.land (r 49) 0xc0) 6))];;
        printf "  pwr_dis control capable: %d\n"
               [AInt (Z.shiftr (Z.land (r 49) 0x30) 4)];;
        printf "  sas slumber enabled: %d\n" [AInt (bit (r 49) 0x8)];;
        printf "  sas partial enabled: %d\n" [AInt (bit (r 49) 0x4)];;
        printf "  sata slumber enabled: %d\n" [AInt (bit (r 49) 0x2)];;
        printf "  sata partial enabled: %d\n" [AInt (bit (r 49) 0x1)]);;
  when (len >? 59)
       (printf "  attached device name: 0x%lx\n"
               [AInt (sg_get_unaligned_be64 rp 52)];;
        printf "  requested inside ZPSDS changed by expander: %d\n"
               [AInt (bit (r 60) 0x40)];;
        printf "  inside ZPSDS persistent: %d\n" [AInt (bit (r 60) 0x20)];;
        printf "  requested inside ZPSDS: %d\n" [AInt (bit (r 60) 0x10)];;
        printf "  zone group persistent: %d\n" [AInt (bit (r 60) 0x4)];;
        printf "  inside ZPSDS: %d\n" [AInt (bit (r 60) 0x2)];;
        printf "  zoning enabled: %d\n" [AInt (bit (r 60) 0x1)];;
        printf "  zone group: %d\n" [AInt (r 63)];;
        when (len <? 76) (leave 0);;
        printf "  self-configuration status: %d\n" [AInt (r 64)];;
        printf "  self-configuration levels completed: %d\n" [AInt (r 65)];;
        printf "  self-configuration sas address: 0x%lx\n"
               [AInt (sg_get_unaligned_be64 rp 68)];;
        let ui := sg_get_unaligned_be32 rp 76 in
        printf "  programmed phy capabilities: 0x%x\n" [AInt ui];;
        when (do_cap_phy op) (emits (decode_phy_cap ui op));;
        let ui := sg_get_unaligned_be32 rp 80 in
        printf "  current phy capabilities: 0x%x\n" [AInt ui];;
        when (do_cap_phy op) (emits (decode_phy_cap ui op));;
        let ui := sg_get_unaligned_be32 rp 84 in
        printf "  attached phy capabilities: 0x%x\n" [AInt ui];;
        when (do_cap_phy op) (emits (decode_phy_cap ui op)));;
  when (len >? 95)
       (printf "  reason: %s\n"
               [smp_get_reason (Z.shiftr (Z.land 0xf0 (r 94)) 4)];;
        printf "  negotiated physical link rate: %s\n"
               [smp_get_neg_xxx_link_rate (Z.land 0xf (r 94))];;
        printf "  optical mode enabled: %d\n" [AInt (bit (r 95) 0x4)];;
        printf "  negotiated SSC: %d\n" [AInt (bit (r 95) 0x2)];;
        printf "  hardware muxing supported: %d\n" [AInt (bit (r 95) 0x1)]);;
  when (len >? 107)
       (printf "  default inside ZPSDS persistent: %d\n"
               [AInt (bit (r 96) 0x20)];;
        printf "  default requested inside ZPSDS: %d\n"
               [AInt (bit (r 96) 0x10)];;
        printf "  default zone group persistent: %d\n"
               [AInt (bit (r 96) 0x4)];;
        printf "  default zoning enabled: %d\n" [AInt (bit (r 96) 0x1)];;
        printf "  default zone group: %d\n" [AInt (r 99)];;
        printf "  saved inside ZPSDS persistent: %d\n"
               [AInt (bit (r 100) 0x20)];;
        printf "  saved requested inside ZPSDS: %d\n"
               [AInt (bit (r 100) 0x10)];;
        printf "  saved zone group persistent: %d\n"
               [AInt (bit (r 100) 0x4)];;
        printf "  saved zoning enabled: %d\n" [AInt (bit (r 100) 0x1)];;
        printf "  saved zone group: %d\n" [AInt (r 103)];;
        printf "  shadow inside ZPSDS persistent: %d\n"
               [AInt (bit (r 104) 0x20)];;
        printf "  shadow requested inside ZPSDS: %d\n"
               [AInt (bit (r 104) 0x10)];;
        printf "  shadow zone group persistent: %d\n"
               [AInt (bit (r 104) 0x4)];;
        printf "  shadow zoning enabled: %d\n" [AInt (bit (r 104) 0x1)];;
        printf "  shadow zone group: %d\n" [AInt (r 107)]);;
  when (len >? 109)
       (printf "  device slot number: %d\n" [AInt (r 108)];;
        let ui := r 109 in
        printf "  device slot group number: " [];;
        (if 255 =? ui then printf "not available\n" []
         else printf "%d\n" [AInt ui]));;
  when (len >? 115)
       (printf "  device slot group output connector: %.6s\n"
               [ABytes (map (fun j => r (110 + j)) (upto 6))]);;
  when (len >? 117)
       (printf "  STP buffer size: %u\n"
               [AInt (sg_get_unaligned_be16 rp 116)]);;
  when (len >? 118)
       (printf "  Buffered phy burst size (KiB): %u\n" [AInt (r 118)]).

(** [ret] as [do_single] and [do_multiple] derive it from what
    [do_discover] returned. *)
Definition ret_of_len (len : Z) : Z :=
  if len <? 0 then (if len <? -2 then -4 - len else len) else 0.

(** [do_single].  [block] is what [smp_memalign] returned. *)
Definition do_single_body (op : opts_t) (rp0 : list Z) : M Z Z :=
  let '(t, (len, rp)) :=
    do_discover (phy_id op) rp0 SMP_FN_DISCOVER_RESP_LEN false op in
  emits t;;
  let ret0 := ret_of_len len in
  when (truthy (do_hex op) || do_raw op) (leave ret0);;
  let ull := if len >? 23 then sg_get_unaligned_be64 rp 16 else 0 in
  when (do_my op)
       (printf "0x%lx\n" [AInt ull];;
        if (ull >? 0) && (SMP_FRES_PHY_VACANT L =? ret0)
        then leave 0 else leave ret0);;
  when (truthy ret0)
       (when (SMP_FRES_PHY_VACANT L =? ret0)
             (printf "  phy identifier: %d  inaccessible (phy vacant)\n"
                     [AInt (phy_id op)]);;
        leave ret0);;
  (if do_list op
   then emits (fst (print_single_list rp len true (do_brief op)))
   else emits (fst (print_single rp len true op)));;
  ret 0.

Definition do_single (op : opts_t) (block : option (list Z)) : trace * Z :=
  match block with
  | None => ([Pr2serr "%s: heap allocation problem\n" [AStr "do_single"]],
             SMP_LIB_RESOURCE_ERROR L)
  | Some rp0 => run (do_single_body op rp0)
  end.

(** The variables of [do_multiple] that live across the turns of its
    loop.  [dsn] is the text in the array [dsn]: empty, or the slot number
    that an earlier turn formatted into it. *)
Record loop_state : Type := {
  first : bool;
  expander_sa : Z;
  dsn : option Z;
  rp : list Z;
  ret_var : Z
}.

(** How a turn of the loop ends: it goes on to the next phy, or it jumps
    to [fini] with the value to return. *)
Inductive ctl : Type :=
| Next (st : loop_state)
| Fini (ret : Z).

Definition dsn_arg (d : option Z) : arg :=
  match d with
  | None => AStr ""
  | Some v => ASn "  dsn=%d" [v]
  end.

Definition dsn_set (d : option Z) : bool :=
  match d with None => false | Some _ => true end.

(** [off += snprintf(b + off, ..., "%sNAME", (plus ? "+" : ""))] under
    its condition; the state is the text in [b] and [plus]. *)
Definition add_proto (c : bool) (name : string) (st : string * bool)
  : string * bool :=
  if c then (String.append (fst st)
               (String.append (if snd st then "+" else "") name), true)
  else st.

(** The body of the loop of [do_multiple] for the phy [k]. *)
Definition multiple_turn (op : opts_t) (has_t2t : bool) (k : Z)
    (st : loop_state) : M ctl ctl :=
  let '(t, (len, rp)) :=
    do_discover k (rp st) SMP_FN_DISCOVER_RESP_LEN true op in
  emits t;;
  let ret0 := ret_of_len len in
  let r := byte_at rp in
  when (SMP_FRES_NO_PHY L =? ret0) (leave (Fini 0));;
  when (SMP_FRES_PHY_VACANT L =? ret0)
       (printf "  phy %3d: inaccessible (phy vacant)\n" [AInt k];;
        leave (Next {| first := first st; expander_sa := expander_sa st;
                       dsn := dsn st; rp := rp; ret_var := ret0 |}));;
  when (truthy ret0) (leave (Fini ret0));;
  let ull := sg_get_unaligned_be64 rp 16 in
  exp_sa <- (if 0 =? expander_sa st then ret ull
             else if negb (ull =? expander_sa st) then
               if ull >? 0 then
                 pr2serr
  ">> expander's SAS address is changing?? phy_id=%d, was=0x%lx, now=0x%lx\n"
                   [AInt (r 9); AInt (expander_sa st); AInt ull];;
                 ret ull
               else
                 when (truthy (verbose op))
                      (pr2serr
                 ">> expander's SAS address shown as 0 at phy_id=%d\n"
                         [AInt (r 9)]);;
                 ret (expander_sa st)
             else ret (expander_sa st));;
  fst' <- (if first st && negb (do_raw op) then
             when (sa_given op && negb (sa op =? exp_sa))
                  (printf
  "  <<< Warning: reported expander address is not the one requested >>>\n"
                     []);;
             ret false
           else ret (first st));;
  let next d := Next {| first := fst'; expander_sa := exp_sa; dsn := d;
                        rp := rp; ret_var := ret0 |} in
  when (truthy (do_hex op) || do_raw op) (leave (next (dsn st)));;
  when (do_list op)
       (emits (fst (print_single_list rp len false (do_brief op)));;
        leave (next (dsn st)));;
  when (multiple op >? 1)
       (emits (fst (print_single rp len false op));;
        leave (next (dsn st)));;
  let adt := Z.shiftr (Z.land 0x70 (r 12)) 4 in
  when ((do_brief op >? 1) && (0 =? adt)) (leave (next (dsn st)));;
  let negot := Z.land (r 13) 0xf in
  let ra := Z.land (r 44) 0xf in
  let cp := AStr (if ra =? 0 then "D"
                  else if ra =? 1 then "S"
                  else if ra =? 2 then (if has_t2t then "U" else "T")
                  else "R") in
  let d := if do_dsn op && (len >? 108) && negb (0xff =? r 108)
           then Some (r 108) else dsn st in
  let line fmt := printf fmt [AInt (r 9); cp; dsn_arg d];;
                  leave (next d) in
  when (negot =? 1) (line "  phy %3d:%s:disabled%s\n");;
  when (negot =? 2) (line "  phy %3d:%s:reset problem%s\n");;
  when (negot =? 3) (line "  phy %3d:%s:spinup hold%s\n");;
  when (negot =? 4) (line "  phy %3d:%s:port selector%s\n");;
  when (negot =? 5) (line "  phy %3d:%s:reset in progress%s\n");;
  when (negot =? 6) (line "  phy %3d:%s:unsupported phy attached%s\n");;
  when ((do_brief op >? 0) && (0 =? adt)) (leave (next d));;
  when (negb (k =? r 9))
       (pr2serr ">> requested phy_id=%d differs from response phy=%d\n"
                [AInt k; AInt (r 9)]);;
  let ull := sg_get_unaligned_be64 rp 24 in
  when ((0 =? adt) || (adt >? 3))
       (printf "  phy %3d:%s:attached:[0000000000000000:00]" [AInt k; cp];;
        when ((do_brief op >? 1) || do_adn op || (len <? 64))
             (printf "\n" [];; leave (next d));;
        let zg := r 63 in
        when (truthy (Z.land (r 60) 0x1) && negb (1 =? zg))
             (printf "  ZG:%d" [AInt zg]);;
        when (dsn_set d) (printf "%s" [dsn_arg d]);;
        printf "\n" [];;
        leave (next d));;
  let short := AStr (nth (Z.to_nat adt) smp_short_attached_device_type "") in
  let virt := AStr (if truthy (Z.land (r 43) 0x80) then " V" else "") in
  (if do_adn op && (len >? 59) then
     let adn := sg_get_unaligned_be64 rp 52 in
     printf "  phy %3d:%s:attached:[%016lx:%02d %016lx %s%s"
            [AInt k; cp; AInt ull; AInt (r 32); AInt adn; short; virt]
   else
     printf "  phy %3d:%s:attached:[%016lx:%02d %s%s"
            [AInt k; cp; AInt ull; AInt (r 32); short; virt]);;
  when (truthy (Z.land (r 14) 0xf))
       (let b := (" i(", false) in
        let b := if truthy (Z.land (r 14) 0x8)
                 then (String.append (fst b) "SSP", true) else b in
        let b := add_proto (truthy (Z.land (r 14) 0x4)) "STP" b in
        let b := add_proto (truthy (Z.land (r 14) 0x2)) "SMP" b in
        let b := add_proto (truthy (Z.land (r 14) 0x1)) "SATA" b in
        printf "%s)" [AStr (fst b)]);;
  when (truthy (Z.land (r 15) 0xf))
       (let b := (" t(", false) in
        let b := if truthy (Z.land (r 15) 0x80)
                 then (String.append (fst b) "PORT_SEL", true) else b in
        let b := add_proto (truthy (Z.land (r 15) 0x8)) "SSP" b in
        let b := add_proto (truthy (Z.land (r 15) 0x4)) "STP" b in
        let b := add_proto (truthy (Z.land (r 15) 0x2)) "SMP" b in
        let b := add_proto (truthy (Z.land (r 15) 0x1)) "SATA" b in
        printf "%s)" [AStr (fst b)]);;
  when ((do_brief op >? 1) || do_adn op)
       (printf "]" [];;
        when (dsn_set d) (printf "%s" [dsn_arg d]);;
        printf "\n" [];;
        leave (next d));;
  printf "]" [];;
  let cp := AStr (if negot =? 8 then "  1.5 Gbps"
                  else if negot =? 9 then "  3 Gbps"
                  else if negot =? 0xa then "  6 Gbps"
                  else if negot =? 0xb then "  12 Gbps"
                  else if negot =? 0xc then "  22.5 Gbps"
                  else "") in
  printf "%s" [cp];;
  when (len >? 63)
       (let zg := r 63 in
        when (truthy (Z.land (r 60) 0x1) && negb (1 =? zg))
             (printf "  ZG:%d" [AInt zg]));;
  when (dsn_set d) (printf "%s" [dsn_arg d]);;
  printf "\n" [];;
  ret (next d).

(** [for (k = ...; k < num; ++k)]: [n] turns remain, the next one is for
    the phy [k].  When the loop runs out, [ret] is what the last turn
    left in it. *)
Fixpoint multiple_loop (op : opts_t) (has_t2t : bool) (n : nat) (k : Z)
    (st : loop_state) : trace * Z :=
  match n with
  | O => ([], ret_var st)
  | S n' =>
    match run (multiple_turn op has_t2t k st) with
    | (t, Fini r) => (t, r)
    | (t, Next st') =>
      let (t', r) := multiple_loop op has_t2t n' (k + 1) st' in
      (t ++ t', r)
    end
  end.

(** The two blocks that [smp_memalign] hands out during a run: the one
    for REPORT GENERAL responses and the one for DISCOVER responses. *)
Record heap : Type := {
  rg_block : option (list Z);
  disc_block : option (list Z)
}.

(** [do_multiple] up to [fini].  [op->phy_id + op->do_num] is a sum of
    two [int]s stored into the [int] [num]. *)
Definition do_multiple (op : opts_t) (h : heap) : trace * Z :=
  match disc_block h with
  | None => ([Pr2serr "%s: heap allocation problem\n" [AStr "do_multiple"]],
             SMP_LIB_RESOURCE_ERROR L)
  | Some rp0 =>
    let '(t, (num, t2t)) := get_num_phys op (rg_block h) in
    let has_t2t := match t2t with Some b => b | None => false end in
    let st := {| first := true; expander_sa := 0; dsn := None; rp := rp0;
                 ret_var := 0 |} in
    if num <=? 0 then
      let num := if truthy (do_num op) then s32 (phy_id op + do_num op)
                 else MAX_PHY_ID in
      let (t', r) := multiple_loop op has_t2t (Z.to_nat (num - phy_id op))
                       (phy_id op) st in
      (t ++ t', r)
    else if phy_id op >=? num then
      (t ++ [Printf "Given phy_id=%d at or beyond number of phys (%d)\n"
                    [AInt (phy_id op); AInt num]], 0)
    else
      let num := num - phy_id op in
      let num := if truthy (do_num op)
                 then (if num >? do_num op then do_num op else num)
                 else num in
      let (t', r) := multiple_loop op has_t2t (Z.to_nat (num - phy_id op))
                       (phy_id op) st in
      (t ++ t', r)
  end.

(** Lines 1353-1368 of [main]: the options as the rest of the program
    sees them.  [dsn_env] tells whether SMP_UTILS_DSN is set. *)
Definition settle_opts (op : opts_t) (dsn_env : bool) : opts_t :=
  let dsn' := if negb (do_dsn op) then dsn_env else do_dsn op in
  let '(mult, summ, num) :=
    if do_my op then (0, false, 1)
    else if negb (do_summary op) && (0 =? multiple op) && (0 =? do_num op)
            && negb (phy_id_given op)
    then (multiple op, true, do_num op)
    else (multiple op, do_summary op, do_num op) in
  let '(brief, mult) :=
    if summ then (do_brief op + 1, 1) else (do_brief op, mult) in
  {| do_adn := do_adn op; do_cap_phy := do_cap_phy op; do_dsn := dsn';
     ign_zp := ign_zp op; do_list := do_list op; do_my := do_my op;
     phy_id_given := phy_id_given op; do_raw := do_raw op;
     do_summary := summ; do_zero := do_zero op; sa_given := sa_given op;
     do_brief := brief; do_hex := do_hex op; multiple := mult;
     do_num := num; phy_id := phy_id op; verbose := verbose op;
     sa := sa op |}.

(** [main] after the command line has been read. *)
Definition main (op0 : opts_t) (dsn_env : bool) (h : heap) : trace * Z :=
  let op := settle_opts op0 dsn_env in
  if initiator_open_res tobj <? 0 then ([], SMP_LIB_FILE_ERROR L)
  else
    let (t, ret) := if truthy (multiple op) then do_multiple op h
                    else do_single op (disc_block h) in
    let t1 := t ++ [CloseTarget] in
    if (initiator_close_res tobj <? 0) && (ret =? 0)
    then (t1, SMP_LIB_FILE_ERROR L)
    else
      let ret' := if ret <? 0 then SMP_LIB_CAT_OTHER L else ret in
      (t1 ++ (if truthy (verbose op) && truthy ret'
              then [Pr2serr "Exit status %d indicates error detected\n"
                            [AInt ret']]
              else []), ret').

End Program.
End Discover.

(** ** A concrete setting for running the programs *)

(** Values for the parameters of [smp_lib], used where the model is run
    on concrete inputs: the function codes and function results of the
    SMP standard, exit statuses in the range that smp_lib reserves for
    them, a default-length table with entries for the four functions, and
    short names for the strings. *)
Definition sample_lib : smp_lib := {|
  SMP_FN_REPORT_GENERAL := 0x0;
  SMP_FN_REPORT_BROADCAST := 0x6;
  SMP_FN_DISCOVER := 0x10;
  SMP_FN_CONFIG_GENERAL := 0x80;
  SMP_FRES_NO_PHY := 0x10;
  SMP_FRES_PHY_VACANT := 0x16;
  SMP_LIB_FILE_ERROR := 92;
  SMP_LIB_RESOURCE_ERROR := 93;
  SMP_LIB_CAT_MALFORMED := 97;
  SMP_LIB_CAT_OTHER := 99;
  def_resp_len_table := fun fn =>
    if fn =? 0x0 then 6
    else if fn =? 0x10 then 12
    else if fn =? 0x80 then 0
    else -1;
  smp_get_func_res_str := fun r =>
    if r =? 0x10 then "Phy does not exist"
    else if r =? 0x16 then "Phy vacant"
    else "other function result";
  smp_get_connector_type_str := fun _ _ => "connector";
  smp_get_phy_pwr_cond_str := fun _ => "power condition";
  smp_get_pwr_dis_signal_str := fun _ => "pwr_dis signal"
|}.

(** A transport that opens and closes without error and hands every
    request to [tgt]. *)
Definition plain_interface (tgt : smp_target) : interface := {|
  initiator_open_res := 0;
  send := tgt;
  initiator_close_res := 0;
  close_strerror := ""
|}.

(** A send that worked: the bytes [data] arrive and the transport reports
    [act] as their number ([-1] when it does not know it). *)
Definition delivered (act : Z) (data : list Z) : send_result := {|
  send_res := 0;
  transport_err := 0;
  act_response_len := act;
  resp_data := data
|}.

(** ** Vocabulary of the statements *)

(** The optional parameters of CONFIGURE GENERAL, with, for each, the
    flag and the value that the option loop sets, the bit it owns in the
    control byte 8 of the request, and the place of its value in the
    request (lines 357-388). *)
Inductive cg_param : Type :=
| P_itdefoi | P_connect | P_inactivity | P_nexus
| P_open | P_pdt | P_reduced | P_ssp.

Definition cg_supplied (op : ConfGeneral.opts) (p : cg_param) : bool :=
  match p with
  | P_itdefoi => ConfGeneral.do_itdefoi op
  | P_connect => ConfGeneral.do_connect op
  | P_inactivity => ConfGeneral.do_inactivity op
  | P_nexus => ConfGeneral.do_nexus op
  | P_open => ConfGeneral.do_open op
  | P_pdt => ConfGeneral.do_pdt op
  | P_reduced => ConfGeneral.do_reduced op
  | P_ssp => ConfGeneral.do_ssp op
  end.

Definition cg_value (op : ConfGeneral.opts) (p : cg_param) : Z :=
  match p with
  | P_itdefoi => ConfGeneral.itdefoi_val op
  | P_connect => ConfGeneral.connect_val op
  | P_inactivity => ConfGeneral.inactivity_val op
  | P_nexus => ConfGeneral.nexus_val op
  | P_open => ConfGeneral.open_val op
  | P_pdt => ConfGeneral.power_val op
  | P_reduced => ConfGeneral.reduced_val op
  | P_ssp => ConfGeneral.ssp_ctl op
  end.

Definition cg_modifier_bit (p : cg_param) : Z :=
  match p with
  | P_itdefoi => 0x80
  | P_connect => 0x2
  | P_inactivity => 0x1
  | P_nexus => 0x4
  | P_open => 0x10
  | P_pdt => 0x20
  | P_reduced => 0x8
  | P_ssp => 0x40
  end.

Definition cg_field (q : list Z) (p : cg_param) : Z :=
  match p with
  | P_itdefoi => byte_at q 9
  | P_connect => sg_get_unaligned_be16 q 12
  | P_inactivity => sg_get_unaligned_be16 q 10
  | P_nexus => sg_get_unaligned_be16 q 14
  | P_open => sg_get_unaligned_be16 q 18
  | P_pdt => byte_at q 17
  | P_reduced => byte_at q 16
  | P_ssp => sg_get_unaligned_be16 q 6
  end.

(** What the claim about the CONFIGURE GENERAL request says of the frame
    [q] built for the options [op]. *)
Definition cg_frame_ok (L : smp_lib) (op : ConfGeneral.opts) (q : list Z)
  : Prop :=
  List.length q = 24%nat /\
  byte_at q 0 = 0x40 /\
  byte_at q 1 = SMP_FN_CONFIG_GENERAL L /\
  (forall p p', cg_modifier_bit p = cg_modifier_bit p' -> p = p') /\
  (forall p, Z.land (byte_at q 8) (cg_modifier_bit p)
             = if cg_supplied op p then cg_modifier_bit p else 0) /\
  (forall p, cg_field q p = if cg_supplied op p then cg_value op p else 0).

(** Options for a run of smp_conf_general that gives --connect=300,
    --power=7 and --ssp=65535. *)
Definition cg_sample_opts : ConfGeneral.opts := {|
  ConfGeneral.do_connect := true;
  ConfGeneral.do_inactivity := false;
  ConfGeneral.do_itdefoi := false;
  ConfGeneral.do_nexus := false;
  ConfGeneral.do_open := false;
  ConfGeneral.do_pdt := true;
  ConfGeneral.do_raw := false;
  ConfGeneral.do_reduced := false;
  ConfGeneral.do_ssp := true;
  ConfGeneral.connect_val := 300;
  ConfGeneral.expected_cc := 0;
  ConfGeneral.do_hex := 0;
  ConfGeneral.inactivity_val := 0;
  ConfGeneral.itdefoi_val := 0;
  ConfGeneral.nexus_val := 0;
  ConfGeneral.open_val := 0;
  ConfGeneral.power_val := 7;
  ConfGeneral.reduced_val := 0;
  ConfGeneral.ssp_ctl := 65535;
  ConfGeneral.verbose := 0
|}.

(** A send that the transport reports as done. *)
Definition send_ok (rr : send_result) : Prop :=
  send_res rr = 0 /\ transport_err rr = 0.

(** The transport knows how many bytes came back, and they are fewer
    than the four bytes of a response header. *)
Definition too_short (rr : send_result) : Prop :=
  0 <= act_response_len rr < 4.

(** The transport does not know the number of bytes, or it is at least
    a header. *)
Definition long_enough (rr : send_result) : Prop :=
  act_response_len rr < 0 \/ 4 <= act_response_len rr.

(** Two transports that differ at most in the bytes they deliver: they
    report the same results for opening, sending and closing. *)
Definition same_reports (t1 t2 : interface) : Prop :=
  initiator_open_res t1 = initiator_open_res t2 /\
  initiator_close_res t1 = initiator_close_res t2 /\
  close_strerror t1 = close_strerror t2 /\
  forall req n,
    send_res (send t1 req n) = send_res (send t2 req n) /\
    transport_err (send t1 req n) = transport_err (send t2 req n) /\
    act_response_len (send t1 req n) = act_response_len (send t2 req n).

(** *** The response length as the specification resolves it *)

(** The length in dwords: the declared length of byte 3, or, when that is
    zero and the function result of byte 2 is zero too, the default of
    the table for the function code of byte 1 (0 when the table does not
    know the code). *)
Definition spec_consults_table (resp : list Z) : bool :=
  (byte_at resp 3 =? 0) && (byte_at resp 2 =? 0).

Definition spec_length_dwords (L : smp_lib) (resp : list Z) : Z :=
  if spec_consults_table resp
  then (let d := def_resp_len_table L (byte_at resp 1) in
        if d <? 0 then 0 else d)
  else byte_at resp 3.

(** The length in bytes: [4 + 4 * dwords], cut down to the number of
    bytes that the transport reports when that number is known and
    smaller. *)
Definition spec_resolved_len (L : smp_lib) (resp : list Z) (act : Z) : Z :=
  let resolved := 4 + 4 * spec_length_dwords L resp in
  if (act >=? 0) && (resolved >? act) then act else resolved.

(** Whether a trace holds a look-up in the default-length table. *)
Definition is_table_lookup (ev : event) : bool :=
  match ev with
  | DefRespLen _ => true
  | _ => false
  end.

Definition consults_table (t : trace) : bool := existsb is_table_lookup t.

(** The length handed to the hex dump, when the trace holds one. *)
Fixpoint hex_dump_len (t : trace) : option Z :=
  match t with
  | [] => None
  | HexDump _ len :: _ => Some len
  | _ :: t' => hex_dump_len t'
  end.

(** *** The checks of the response header *)

(** The response buffer after a send: what the transport delivered, on
    top of what the buffer held. *)
Definition received (tobj : interface) (req : list Z) (n : Z) (buf : list Z)
  : list Z :=
  write_resp buf (firstn (Z.to_nat n) (resp_data (send tobj req n))).

(** The three checks of the specification: the frame type is the
    response marker, the function code is the one that was sent, the
    function result is zero. *)
Definition header_valid (fn : Z) (resp : list Z) : bool :=
  (SMP_FRAME_TYPE_RESP =? byte_at resp 0) && (byte_at resp 1 =? fn)
  && (byte_at resp 2 =? 0).

(** An exit status that reflects those checks: zero when they pass, and
    otherwise the malformed status or the function result, and not
    zero. *)
Definition status_reflects (malformed fn : Z) (resp : list Z) (status : Z)
  : Prop :=
  if header_valid fn resp then status = 0
  else status <> 0 /\ (status = malformed \/ status = byte_at resp 2).

(** [ret] after the checks that smp_rep_general (lines 289-294) and
    smp_rep_broadcast (lines 327-335) make with --hex or --raw: three
    [if]s in a row, so that a function result that is not zero replaces
    the status of a wrong frame type or function code. *)
Definition overriding_status (malformed fn : Z) (resp : list Z) : Z :=
  if truthy (byte_at resp 2) then byte_at resp 2
  else if negb (SMP_FRAME_TYPE_RESP =? byte_at resp 0)
          || negb (byte_at resp 1 =? fn)
  then malformed
  else 0.

(** [len] as smp_rep_general resolves it (lines 274-283): the table is
    consulted whenever byte 3 is zero, and the length is not cut down to
    the count of the transport. *)
Definition rep_general_len (L : smp_lib) (resp : list Z) : Z :=
  4 + (if byte_at resp 3 =? 0
       then (let d := def_resp_len_table L (byte_at resp 1) in
             if d <? 0 then 0 else d)
       else byte_at resp 3) * 4.

(** The reads of a dump stay inside the response array: the array of
    [size] bytes is [buf], and when the response is dumped ([dump], with
    --hex or --raw) the [len] bytes that are dumped are within it. *)
Definition dump_inside (size : Z) (buf : list Z) (dump : bool) (len : Z)
  : Prop :=
  Z.of_nat (List.length buf) = size /\ (dump = true -> len <= size).

(** The blocks that [smp_memalign] handed out have the sizes that were
    asked for. *)
Definition heap_sized (h : Discover.heap) : Prop :=
  (forall b, Discover.rg_block h = Some b ->
             Z.of_nat (List.length b)
             = Discover.SMP_FN_REPORT_GENERAL_RESP_LEN) /\
  (forall b, Discover.disc_block h = Some b ->
             Z.of_nat (List.length b) = Discover.SMP_FN_DISCOVER_RESP_LEN).

(** The descriptors that the header of a REPORT BROADCAST response
    announces lie inside the response array of smp_rep_broadcast. *)
Definition descriptors_inside (resp : list Z) : Prop :=
  12 + byte_at resp 11 * (byte_at resp 10 * 4)
  <= RepBroadcast.SMP_FN_REPORT_BROADCAST_RESP_LEN.

(** An event that is not part of a field report: anything but a
    [printf], or the [printf] of one raw byte. *)
Definition not_decoded (ev : event) : Prop :=
  match ev with
  | Printf fmt _ => fmt = "%c"
  | _ => True
  end.

(** A buffer of bytes. *)
Definition bytes (l : list Z) : Prop := Forall (fun b => 0 <= b < 256) l.

(** *** The report of REPORT BROADCAST *)

(** The lines that smp_rep_broadcast prints before it turns to the
    descriptors (lines 356-366). *)
Definition rb_header (op : RepBroadcast.opts) (resp : list Z) : trace :=
  let res := sg_get_unaligned_be16 resp 4 in
  let bt_hdr := Z.land (byte_at resp 6) 0xf in
  [Printf "Report broadcast response:\n" []]
  ++ (if truthy (RepBroadcast.verbose op) || truthy res
      then [Printf "  Expander change count: %d\n" [AInt res]] else [])
  ++ [Printf "  broadcast type: %d [%s]\n"
             [AInt bt_hdr; RepBroadcast.get_broadcast_type_str bt_hdr];
      Printf "  broadcast descriptor length: %d dwords\n"
             [AInt (byte_at resp 10)];
      Printf "  number of broadcast descriptors: %d\n"
             [AInt (byte_at resp 11)]].

(** The descriptors as the claim lays them out: [num] of them, the one
    with index [k] read at offset [12 + k * stride]. *)
Definition rb_descriptors (op : RepBroadcast.opts) (resp : list Z)
    (stride num : Z) : trace :=
  flat_map
    (fun k => RepBroadcast.descriptor op resp (Z.land (byte_at resp 6) 0xf)
                stride k (12 + k * stride))
    (upto num).

(** *** The report of REPORT GENERAL *)




(** *** The enumeration of smp_discover *)

(** The response buffer as [do_discover] has it after the exchange for
    the phy [k], when it was given the buffer [buf]. *)
Definition discover_answer (L : smp_lib) (tobj : interface)
    (op : Discover.opts_t) (k : Z) (buf : list Z) : list Z :=
  received tobj
    (Discover.build_req L k Discover.SMP_FN_DISCOVER_RESP_LEN op)
    Discover.SMP_FN_DISCOVER_RESP_LEN
    (memset0 buf Discover.SMP_FN_DISCOVER_RESP_LEN).

(** The send for the phy [k] worked and brought a DISCOVER response frame
    whose function result is [code]. *)
Definition discover_result_is (L : smp_lib) (tobj : interface)
    (op : Discover.opts_t) (k : Z) (buf : list Z) (code : Z) : Prop :=
  let rr := send tobj
              (Discover.build_req L k Discover.SMP_FN_DISCOVER_RESP_LEN op)
              Discover.SMP_FN_DISCOVER_RESP_LEN in
  let resp := discover_answer L tobj op k buf in
  send_ok rr /\ long_enough rr /\
  byte_at resp 0 = SMP_FRAME_TYPE_RESP /\
  byte_at resp 1 = SMP_FN_DISCOVER L /\
  byte_at resp 2 = code.


(** The bound [num] of the loop of [do_multiple], from the value [num0]
    that [get_num_phys] returned (lines 944-956): the loop runs for
    [k = phy_id; k < num].  The sum [phy_id + do_num] is an [int]: it
    wraps when --num is close to the largest [int]. *)
Definition multiple_limit (op : Discover.opts_t) (num0 : Z) : Z :=
  if num0 <=? 0 then
    if truthy (Discover.do_num op)
    then s32 (Discover.phy_id op + Discover.do_num op)
    else Discover.MAX_PHY_ID
  else
    let num := num0 - Discover.phy_id op in
    if truthy (Discover.do_num op)
    then (if num >? Discover.do_num op then Discover.do_num op else num)
    else num.



(** *** The length gates of the DISCOVER report *)

(** The lines of [print_single] that are under a test of the response
    length, each with the length that [len] has to exceed: the expander's
    SAS address, fetched under [len > 23] (lines 686-687) and printed at
    line 723; the block under [len > 59]; the lines after
    [if (len < 76) return 0] (with those of [decode_phy_cap]); and the
    blocks under [len > 95], [len > 107], [len > 109], [len > 115],
    [len > 117], [len > 118]. *)
Definition discover_gates : list (string * Z) :=
  [("  SAS address: 0x%lx\n", 23);
   ("  attached device name: 0x%lx\n", 59);
   ("  requested inside ZPSDS changed by expander: %d\n", 59);
   ("  inside ZPSDS persistent: %d\n", 59);
   ("  requested inside ZPSDS: %d\n", 59);
   ("  zone group persistent: %d\n", 59);
   ("  inside ZPSDS: %d\n", 59);
   ("  zoning enabled: %d\n", 59);
   ("  self-configuration status: %d\n", 75);
   ("  self-configuration levels completed: %d\n", 75);
   ("  self-configuration sas address: 0x%lx\n", 75);
   ("  programmed phy capabilities: 0x%x\n", 75);
   ("  current phy capabilities: 0x%x\n", 75);
   ("  attached phy capabilities: 0x%x\n", 75);
   ("    Tx SSC type: %d, Requested interleaved SPL: %d, [Req logical lr: 0x%x]\n",
    75);
   ("    %s: with SSC", 75);
   ("    %s: without SSC", 75);
   ("    %s: with+without SSC", 75);
   ("    %s: g15_val=0x%x, k=%d", 75);
   ("\n", 75);
   ("    Extended coefficient settings: %d\n", 75);
   ("  reason: %s\n", 95);
   ("  negotiated physical link rate: %s\n", 95);
   ("  optical mode enabled: %d\n", 95);
   ("  negotiated SSC: %d\n", 95);
   ("  hardware muxing supported: %d\n", 95);
   ("  default inside ZPSDS persistent: %d\n", 107);
   ("  default requested inside ZPSDS: %d\n", 107);
   ("  default zone group persistent: %d\n", 107);
   ("  default zoning enabled: %d\n", 107);
   ("  default zone group: %d\n", 107);
   ("  saved inside ZPSDS persistent: %d\n", 107);
   ("  saved requested inside ZPSDS: %d\n", 107);
   ("  saved zone group persistent: %d\n", 107);
   ("  saved zoning enabled: %d\n", 107);
   ("  saved zone group: %d\n", 107);
   ("  shadow inside ZPSDS persistent: %d\n", 107);
   ("  shadow requested inside ZPSDS: %d\n", 107);
   ("  shadow zone group persistent: %d\n", 107);
   ("  shadow zoning enabled: %d\n", 107);
   ("  shadow zone group: %d\n", 107);
   ("  device slot number: %d\n", 109);
   ("  device slot group number: ", 109);
   ("not available\n", 109);
   ("%d\n", 109);
   ("  device slot group output connector: %.6s\n", 115);
   ("  STP buffer size: %u\n", 117);
   ("  Buffered phy burst size (KiB): %u\n", 118)].

Fixpoint lookup_gate (fmt : string) (tbl : list (string * Z)) : option Z :=
  match tbl with
  | [] => None
  | (f, t) :: rest => if String.eqb fmt f then Some t else lookup_gate fmt rest
  end.

(** The threshold of a line, if it has one.  The zone group is printed
    under [len > 63] with --brief and under [len > 59] without. *)
Definition min_len_gate (op : Discover.opts_t) (fmt : string) : option Z :=
  if String.eqb fmt "  zone group: %d\n"
  then Some (if truthy (Discover.do_brief op) then 63 else 59)
  else lookup_gate fmt discover_gates.

(** A line may be printed for the length [len]: it has no threshold, or
    [len] exceeds it. *)
Definition fmt_ok (op : Discover.opts_t) (len : Z) (fmt : string) : Prop :=
  match min_len_gate op fmt with
  | Some t => t < len
  | None => True
  end.

Definition gate_ok (op : Discover.opts_t) (len : Z) (ev : event) : Prop :=
  match ev with
  | Printf fmt _ => fmt_ok op len fmt
  | _ => True
  end.

(** The line of the expander's SAS address as [print_single] prints it
    when [len] does not exceed 23: the address was not fetched, and the
    line shows 0. *)
Definition sas_address_unread : event :=
  Printf "  SAS address: 0x%lx\n" [AInt 0].

(** A line may be printed for the length [len], or it is the line of a
    SAS address that was not fetched. *)
Definition gate_ok_or_unread (op : Discover.opts_t) (len : Z) (ev : event)
  : Prop :=
  gate_ok op len ev \/ ev = sas_address_unread.

(** [print_single] returns at line 704, before the lines that follow the
    device type: --brief was given twice and no device is attached. *)
Definition stops_at_device_type (op : Discover.opts_t) (rp : list Z)
  : bool :=
  (Discover.do_brief op >? 1)
  && (0 =? Z.shiftr (Z.land 0x70 (byte_at rp 12)) 4).

(** The lines without a test of the length that [print_single] prints
    in every report that gets past line 704, and those that it prints
    when --brief is not given. *)
Definition discover_always : list string :=
  ["  negotiated logical link rate: %s\n";
   "  attached initiator: ssp=%d stp=%d smp=%d sata_host=%d\n";
   "  attached target: ssp=%d stp=%d smp=%d sata_device=%d\n";
   "  attached SAS address: 0x%lx\n";
   "  attached phy identifier: %d\n";
   "  routing attribute: %s\n"].

Definition discover_always_plain : list string :=
  ["  attached sata port selector: %d\n";
   "  STP buffer too small: %d\n";
   "  programmed minimum physical link rate: %s\n";
   "  hardware minimum physical link rate: %s\n";
   "  programmed maximum physical link rate: %s\n";
   "  hardware maximum physical link rate: %s\n";
   "  phy change count: %d\n";
   "  virtual phy: %d\n";
   "  partial pathway timeout value: %d microsecs\n"].

(** The same as a test, to filter a trace with. *)
Definition fmt_passes (op : Discover.opts_t) (len : Z) (fmt : string)
  : bool :=
  match min_len_gate op fmt with
  | Some t => t <? len
  | None => true
  end.

Definition passes_gate (op : Discover.opts_t) (len : Z) (ev : event)
  : bool :=
  match ev with
  | Printf fmt _ => fmt_passes op len fmt
  | _ => true
  end.

(** The formats that [decode_phy_cap] prints with. *)
Definition phy_cap_formats : list string :=
  ["    Tx SSC type: %d, Requested interleaved SPL: %d, [Req logical lr: 0x%x]\n";
   "    %s: with SSC";
   "    %s: without SSC";
   "    %s: with+without SSC";
   "    %s: g15_val=0x%x, k=%d";
   "\n";
   "    Extended coefficient settings: %d\n"].

Definition is_phy_cap_line (ev : event) : Prop :=
  match ev with
  | Printf fmt _ => In fmt phy_cap_formats
  | _ => False
  end.

(** [m] is [m'] cut down to the events that [keep] lets through: both
    end the same way, and [m] prints what [m'] prints and [keep] keeps,
    in the same order. *)
Definition shortened {E A} (keep : event -> bool) (m m' : M E A) : Prop :=
  outcome m = outcome m' /\ out m = filter keep (out m').

(** The same of the output alone: [m] may have stopped where [m'] went
    on. *)
Definition same_output {E A} (keep : event -> bool) (m m' : M E A) : Prop :=
  out m = filter keep (out m').

(** [m'] runs to its end and prints nothing that [keep] lets through. *)
Definition suppressed {E} (keep : event -> bool) (m' : M E unit) : Prop :=
  outcome m' = inr tt /\ filter keep (out m') = [].

(** *** Sample runs *)

Definition rg_opts_hex : RepGeneral.opts := {|
  RepGeneral.do_change := 0;
  RepGeneral.do_hex := 1;
  RepGeneral.do_raw := 0;
  RepGeneral.verbose := 0
|}.

Definition rg_opts_plain : RepGeneral.opts := {|
  RepGeneral.do_change := 0;
  RepGeneral.do_hex := 0;
  RepGeneral.do_raw := 0;
  RepGeneral.verbose := 0
|}.

(** Two targets whose answers the transport reports as two bytes long;
    the bytes differ. *)
Definition short_target : smp_target := fun _ _ => delivered 2 [0x41; 0x10].
Definition short_target' : smp_target :=
  fun _ _ => delivered 2 [0xff; 0xff; 0xff; 0xff; 0xff; 0xff].

(** A REPORT GENERAL response that reports a function result of 1
    (unknown function) and a response length of zero; the transport
    reports its four bytes. *)
Definition rg_error_target : smp_target :=
  fun _ _ => delivered 4 [0x41; 0x0; 0x1; 0x0].

(** A target that answers with a request frame type and the function
    result 1: 40 00 01 00. *)
Definition wrong_frame_target : smp_target :=
  fun _ _ => delivered 4 [0x40; 0x0; 0x1; 0x0].

(** smp_conf_general --hex without parameters. *)
Definition cg_opts_hex : ConfGeneral.opts := {|
  ConfGeneral.do_connect := false;
  ConfGeneral.do_inactivity := false;
  ConfGeneral.do_itdefoi := false;
  ConfGeneral.do_nexus := false;
  ConfGeneral.do_open := false;
  ConfGeneral.do_pdt := false;
  ConfGeneral.do_raw := false;
  ConfGeneral.do_reduced := false;
  ConfGeneral.do_ssp := false;
  ConfGeneral.connect_val := 0;
  ConfGeneral.expected_cc := 0;
  ConfGeneral.do_hex := 1;
  ConfGeneral.inactivity_val := 0;
  ConfGeneral.itdefoi_val := 0;
  ConfGeneral.nexus_val := 0;
  ConfGeneral.open_val := 0;
  ConfGeneral.power_val := 0;
  ConfGeneral.reduced_val := 0;
  ConfGeneral.ssp_ctl := 0;
  ConfGeneral.verbose := 0
|}.

(** A REPORT GENERAL response that declares five dwords (24 bytes) while
    the transport reports that ten bytes arrived. *)
Definition rg_truncated_target : smp_target :=
  fun _ _ => delivered 10 [0x41; 0x0; 0x0; 0x5; 0; 1; 0; 2; 0; 12].

Definition rb_opts_plain : RepBroadcast.opts := {|
  RepBroadcast.do_raw := false;
  RepBroadcast.btype := 3;
  RepBroadcast.do_hex := 0;
  RepBroadcast.verbose := 0
|}.

(** A REPORT BROADCAST response with a valid header that gives a
    descriptor length of one dword (four bytes) and two descriptors. *)
Definition rb_low_stride_target : smp_target :=
  fun _ _ => delivered 20
    [0x41; 0x6; 0x0; 0x4; 0; 1; 3; 0; 0; 0; 1; 2;
     3; 5; 1; 0; 3; 6; 2; 0].

(** A REPORT BROADCAST response with two descriptors of two dwords. *)
Definition rb_two_target : smp_target :=
  fun _ _ => delivered 28
    [0x41; 0x6; 0x0; 0x6; 0; 1; 3; 0; 0; 0; 2; 2;
     3; 5; 1; 0; 0; 9; 0; 0;
     4; 0xff; 2; 0; 1; 0; 0; 0].

(** smp_discover without options, and with --multiple. *)
Definition disc_opts_plain : Discover.opts_t := {|
  Discover.do_adn := false;
  Discover.do_cap_phy := false;
  Discover.do_dsn := false;
  Discover.ign_zp := false;
  Discover.do_list := false;
  Discover.do_my := false;
  Discover.phy_id_given := false;
  Discover.do_raw := false;
  Discover.do_summary := false;
  Discover.do_zero := false;
  Discover.sa_given := false;
  Discover.do_brief := 0;
  Discover.do_hex := 0;
  Discover.multiple := 0;
  Discover.do_num := 0;
  Discover.phy_id := 0;
  Discover.verbose := 0;
  Discover.sa := 0
|}.

Definition disc_opts_hex : Discover.opts_t := {|
  Discover.do_adn := false;
  Discover.do_cap_phy := false;
  Discover.do_dsn := false;
  Discover.ign_zp := false;
  Discover.do_list := false;
  Discover.do_my := false;
  Discover.phy_id_given := true;
  Discover.do_raw := false;
  Discover.do_summary := false;
  Discover.do_zero := false;
  Discover.sa_given := false;
  Discover.do_brief := 0;
  Discover.do_hex := 1;
  Discover.multiple := 0;
  Discover.do_num := 0;
  Discover.phy_id := 0;
  Discover.verbose := 0;
  Discover.sa := 0
|}.

Definition disc_opts_multiple : Discover.opts_t := {|
  Discover.do_adn := false;
  Discover.do_cap_phy := false;
  Discover.do_dsn := false;
  Discover.ign_zp := false;
  Discover.do_list := false;
  Discover.do_my := false;
  Discover.phy_id_given := false;
  Discover.do_raw := false;
  Discover.do_summary := false;
  Discover.do_zero := false;
  Discover.sa_given := false;
  Discover.do_brief := 0;
  Discover.do_hex := 0;
  Discover.multiple := 1;
  Discover.do_num := 0;
  Discover.phy_id := 0;
  Discover.verbose := 0;
  Discover.sa := 0
|}.

(** smp_discover --multiple --phy=254 --num=2147483647: the sum of the
    two numbers is past the largest [int]. *)
Definition disc_opts_overflow : Discover.opts_t := {|
  Discover.do_adn := false;
  Discover.do_cap_phy := false;
  Discover.do_dsn := false;
  Discover.ign_zp := false;
  Discover.do_list := false;
  Discover.do_my := false;
  Discover.phy_id_given := true;
  Discover.do_raw := false;
  Discover.do_summary := false;
  Discover.do_zero := false;
  Discover.sa_given := false;
  Discover.do_brief := 0;
  Discover.do_hex := 0;
  Discover.multiple := 1;
  Discover.do_num := 2147483647;
  Discover.phy_id := 254;
  Discover.verbose := 0;
  Discover.sa := 0
|}.

(** A DISCOVER response of 52 bytes for the phy [k]: eleven dwords after
    the header, an end device attached at 6 Gbps. *)
Definition disc_resp (k : Z) : list Z :=
  [0x41; 0x10; 0x0; 12; 0; 1; 0; 0; 0; k; 0; 0;
   0x10; 0x0a; 0x00; 0x08;
   0x50; 0x00; 0xc5; 0x00; 0x11; 0x22; 0x33; 0x3f;
   0x50; 0x00; 0xc5; 0x00; 0x44; 0x55; 0x66; k;
   0; 0; 0; 0; 0; 0; 0; 0;
   0x8a; 0x8b; 3; 0; 0x01; 0x20; 0; k;
   0x00; 0; 0; 0].

(** A REPORT GENERAL response of 28 bytes: eight phys, and an enclosure
    logical identifier that starts with 0x50. *)
Definition rg_resp : list Z :=
  [0x41; 0x0; 0x0; 6; 0; 1; 0; 2; 0; 8; 0; 0;
   0x50; 0x01; 0x02; 0x03; 0x04; 0x05; 0x06; 0x07;
   0; 0; 0; 0; 0; 0; 0; 0].

(** An expander with the phys 0 to 4, of which the phy 2 is vacant: it
    answers REPORT GENERAL with [rg_resp]; DISCOVER with [disc_resp] for
    the phys 0, 1, 3 and 4, with the function result "phy vacant" for
    the phy 2 and with "phy does not exist" from the phy 5 on. *)
Definition enum_target : smp_target := fun req _ =>
  if byte_at req 1 =? 0x10 then
    if byte_at req 9 =? 2 then delivered 4 [0x41; 0x10; 0x16; 0x0]
    else if byte_at req 9 <? 5 then delivered 52 (disc_resp (byte_at req 9))
    else delivered 4 [0x41; 0x10; 0x10; 0x0]
  else delivered 28 rg_resp.

(** The state in which [do_multiple] enters its loop, with a DISCOVER
    block that holds 0xee in every byte. *)
Definition enum_start : Discover.loop_state := {|
  Discover.first := true;
  Discover.expander_sa := 0;
  Discover.dsn := None;
  Discover.rp := repeat 0xee 124%nat;
  Discover.ret_var := 0
|}.

Definition enum_heap : Discover.heap := {|
  Discover.rg_block := Some (repeat 0xee 76%nat);
  Discover.disc_block := Some (repeat 0xee 124%nat)
|}.

(** A DISCOVER response of 20 bytes (4 dwords after the header) in the
    124-byte buffer that [do_discover] cleared: bytes 16 to 19 are set,
    the rest of the SAS address was not received. *)
Definition disc_short_resp : list Z :=
  [0x41; 0x10; 0x0; 4] ++ map (fun k => 1 + k) (upto 16)
  ++ repeat 0 104%nat.

(** A DISCOVER response of 120 bytes, every field set. *)
Definition disc_full_resp : list Z :=
  [0x41; 0x10; 0x0; 29] ++ map (fun k => 1 + k mod 250) (upto 116).

(** ** Output channels, length tables and the command line *)

(** *** Where an event goes *)

(** What reaches stdout: the [printf]s and the hex dump. *)
Definition on_stdout (ev : event) : bool :=
  match ev with
  | Printf _ _ | HexDump _ _ => true
  | _ => false
  end.

Definition is_send (ev : event) : bool :=
  match ev with
  | SendReq _ _ => true
  | _ => false
  end.

Definition is_close (ev : event) : bool :=
  match ev with
  | CloseTarget => true
  | _ => false
  end.

(** [P] holds of everything that a program prints and of its look-ups in
    the table of default lengths: of every event but a send and the
    close. *)
Definition holds_of_output (P : event -> Prop) : Prop :=
  (forall fmt args, P (Printf fmt args)) /\
  (forall fmt args, P (Pr2serr fmt args)) /\
  (forall buf len, P (HexDump buf len)) /\
  (forall fn, P (DefRespLen fn)).

(** A send that failed: [smp_send_req] returned non-zero, or it left a
    transport error in [struct smp_req_resp]. *)
Definition send_failed (rr : send_result) : Prop :=
  send_res rr <> 0 \/ transport_err rr <> 0.

(** What an exchange reports on stderr after such a send; the messages
    of [get_num_phys] start with [pre = "RG "], the others with nothing. *)
Definition send_failure_lines (pre : string) (verbose : Z)
    (rr : send_result) : trace :=
  if truthy (send_res rr)
  then Pr2serr (pre ++ "smp_send_req failed, res=%d\n") [AInt (send_res rr)]
       :: (if verbose =? 0
           then [Pr2serr "    try adding '-v' option for more debug\n" []]
           else [])
  else [Pr2serr (pre ++ "smp_send_req transport_error=%d\n")
                [AInt (transport_err rr)]].

(** What [err_out] of smp_conf_general and smp_rep_broadcast adds to the
    trace for the value [ret]: the close, the complaint when the close
    failed, and the exit status with --verbose. *)
Definition close_lines (tobj : interface) (verbose status : Z) : trace :=
  [CloseTarget]
  ++ (if initiator_close_res tobj <? 0
      then [Pr2serr "close error: %s\n" [AStr (close_strerror tobj)]]
      else [])
  ++ (if truthy verbose && truthy status
      then [Pr2serr "Exit status %d indicates error detected\n"
                    [AInt status]]
      else []).

(** [ret] after the three checks of the response header, in the order in
    which the programs make them outside --hex and --raw: the frame type,
    the function code, the function result. *)
Definition header_status (malformed fn : Z) (resp : list Z) : Z :=
  if negb (SMP_FRAME_TYPE_RESP =? byte_at resp 0) then malformed
  else if negb (byte_at resp 1 =? fn) then malformed
  else byte_at resp 2.

(** The DISCOVER requests for the [m] phys from [k] on, in ascending
    order. *)
Definition discover_requests (L : smp_lib) (op : Discover.opts_t) (k : Z)
    (m : nat) : trace :=
  map (fun j => SendReq (Discover.build_req L (k + Z.of_nat j)
                           Discover.SMP_FN_DISCOVER_RESP_LEN op)
                        Discover.SMP_FN_DISCOVER_RESP_LEN)
      (seq 0 m).

(** What --hex and --raw put on stdout for the response [resp] and the
    length [len]: one hex dump of [len] bytes, or the bytes
    [resp[0 .. len-1]], one [%c] each. *)
Definition dump_events (hex : bool) (resp : list Z) (len : Z) : trace :=
  if hex then [HexDump resp len]
  else map (fun k => Printf "%c" [AInt (byte_at resp k)]) (upto len).

(** *** The report of REPORT GENERAL by length *)

(** Whether a trace holds a [printf] with the format [fmt]. *)
Definition prints (fmt : string) (t : trace) : bool :=
  existsb (fun ev => match ev with
                     | Printf f _ => String.eqb f fmt
                     | _ => false
                     end) t.

(** The lines of the report of smp_rep_general that come after one of
    its [if (len < ...) goto err_out], each with the least length for
    which it is printed. *)
Definition rg_gates : list (string * Z) :=
  [("  STP bus inactivity timer: %d (unit: 100ms)\n", 36);
   ("  STP maximum connect time: %d (unit: 100ms)\n", 36);
   ("  STP SMP I_T nexus loss time: %d (unit: ms)\n", 36);
   ("  number of zone groups: %d (0->128, 1->256)\n", 40);
   ("  zone locked: %d\n", 40);
   ("  physical presence supported: %d\n", 40);
   ("  physical presence asserted: %d\n", 40);
   ("  zoning supported: %d\n", 40);
   ("  zoning enabled: %d\n", 40);
   ("  maximum number of routed SAS addresses: %d\n", 40);
   ("  active zone manager SAS address (hex): ", 48);
   ("  zone lock inactivity time limit: %d (unit: 100ms)\n", 50);
   ("  first enclosure connector element index: %d\n", 56);
   ("  number of enclosure connector element indexes: %d\n", 56);
   ("  reduced functionality: %d\n", 60);
   ("  time to reduced functionality: %d (unit: 100ms)\n", 60);
   ("  initial time to reduced functionality: %d (unit: 100ms)\n", 60);
   ("  maximum reduced functionality time: %d (unit: second)\n", 60);
   ("  last self-configuarion status descriptor index: %d\n", 68);
   ("  maximum number of stored self-configuarion status descriptors: %d\n",
    68);
   ("  last phy event information descriptor index: %d\n", 68);
   ("  maximum number of stored phy event information descriptors: %d\n",
    68)].

(** The lines of the report that are printed for every length. *)
Definition rg_always : list string :=
  ["Report general response:\n";
   "  expander change count: %d\n";
   "  expander route indexes: %d\n";
   "  number of phys: %d\n";
   "  table to table supported: %d\n";
   "  configures others: %d\n";
   "  configuring: %d\n";
   "  externally configurable route table: %d\n"].

(** Two buffers that hold the same bytes below the index [n]. *)
Definition same_below (n : Z) (b1 b2 : list Z) : Prop :=
  forall i, i < n -> byte_at b1 i = byte_at b2 i.

(** *** The length gates of the attribute list of smp_discover *)

(** The lines of [print_single_list] that are under a test of the
    response length, each with the length that [len] has to exceed. *)
Definition list_gates : list (string * Z) :=
  [("  att_dev_name=0x%lx\n", 59);
   ("  hw_mux_sup=%d\n", 95);
   ("  neg_phy_lrate=%d\n", 95);
   ("  opt_m_en=%d\n", 95);
   ("  reason=%d\n", 95);
   ("  dev_slot_num=%d\n", 109);
   ("  dev_slot_grp_num=%d\n", 109);
   ("  buff_phy_bs=%d\n", 118)].

(** Whether a line of the list may be printed for the length [len]. *)
Definition list_passes (len : Z) (ev : event) : bool :=
  match ev with
  | Printf fmt _ =>
    match lookup_gate fmt list_gates with
    | Some t => t <? len
    | None => true
    end
  | _ => true
  end.

(** A transport whose every send fails. *)
Definition dead_target : smp_target := fun _ _ =>
  {| send_res := 0; transport_err := 5; act_response_len := -1;
     resp_data := [] |}.

(** A target that answers every request with a header that carries the
    function result [code] and nothing else. *)
Definition fres_target (code : Z) : smp_target := fun req _ =>
  delivered 4 [0x41; byte_at req 1; code; 0x0].

(** *** The command line of smp_conf_general *)

(** A character constant of C, as the [int] it is. *)
Definition chr (s : string) : Z :=
  match s with
  | String a _ => Z.of_N (Ascii.N_of_ascii a)
  | EmptyString => 0
  end.

(** [long_options] of smp_conf_general.c: the name of a long option and
    the value [getopt_long] returns for it. *)
Definition cg_long_options : list (string * Z) :=
  [("connect", chr "c"); ("expander", chr "e"); ("expected", chr "E");
   ("help", chr "h"); ("hex", chr "H"); ("inactivity", chr "i");
   ("interface", chr "I"); ("nexus", chr "p"); ("open", chr "o");
   ("power", chr "p"); ("raw", chr "r"); ("reduced", chr "R");
   ("sa", chr "s"); ("ssp", chr "S"); ("verbose", chr "v");
   ("version", chr "V")].

(** What [getopt_long] returns for the long option [name] written out in
    full: the value of the first entry of the table with that name, and
    '?' when there is none. *)
Fixpoint long_option_val (tbl : list (string * Z)) (name : string) : Z :=
  match tbl with
  | [] => chr "?"
  | (n, c) :: rest => if String.eqb n name then c
                      else long_option_val rest name
  end.

(** [usage] of smp_conf_general.c. *)
Definition cg_usage {E} : M E unit :=
  pr2serr
    ("Usage: smp_conf_general [--connect=CO] [--expander=ITDEFOI] "
     ++ "[--expected=EX]\n"
     ++ "                        [--help] [--hex] [--inactivity=IN]\n"
     ++ "                        [--interface=PARAMS] [--nexus=NE] "
     ++ "[--open=OP]\n"
     ++ "                        [--power=PD] [--raw] [--reduced=RE]\n"
     ++ "                        [--sa=SAS_ADDR] [--ssp=CTL] "
     ++ "[--verbose]\n"
     ++ "                        [--version] SMP_DEVICE[,N]\n"
     ++ "  where:\n"
     ++ "    --connect=CO|-c CO     STP maximum connect time limit "
     ++ "(100 us)\n"
     ++ "    --expander=ITDEFOI|-e ITDEFOI    initial time to delay "
     ++ "expander\n"
     ++ "                                     forward open indication "
     ++ "(def: 0,\n"
     ++ "                                     units: 100 ns)\n"
     ++ "    --expected=EX|-E EX    set expected expander change "
     ++ "count to EX\n"
     ++ "    --help|-h              print out usage message then exit\n"
     ++ "    --hex|-H               print response in hexadecimal\n"
     ++ "    --inactivity=IN|-i IN    STP bus inactivity time "
     ++ "limit (100 us)\n"
     ++ "    --interface=PARAMS|-I PARAMS   specify or override "
     ++ "interface\n"
     ++ "    --nexus=NE|-n NE       STP SMP I_T nexus loss time "
     ++ "(ms)\n"
     ++ "    --open=OP|-o OP        STP reject to open limit "
     ++ "(10 us)\n"
     ++ "    --power=PD|-p PD       power done timeout (unit: second)\n"
     ++ "    --raw|-r               output response in binary\n"
     ++ "    --reduced=RE|-R RE     initial time to reduced "
     ++ "functionality (100 ms)\n"
     ++ "    --sa=SAS_ADDR|-s SAS_ADDR    SAS address of SMP "
     ++ "target (use leading\n"
     ++ "                                 '0x' or trailing 'h'). "
     ++ "Depending on\n"
     ++ "                                 the interface, may not be "
     ++ "needed\n"
     ++ "    --ssp=CTL|-S CTL       SSP maximum connect time limit "
     ++ "(100 us)\n"
     ++ "    --verbose|-v           increase verbosity\n"
     ++ "    --version|-V           print version string and exit\n\n"
     ++ "Performs a SMP CONFIGURE GENERAL function\n") [].

Definition cg_version_str : string := "1.15 20180724".

(** The variables of [main] of smp_conf_general that the option loop
    sets: the ones the request is built from, the SAS address and the
    interface parameters. *)
Record cg_vars : Type := {
  cg_opts : ConfGeneral.opts;
  cg_sa : Z;
  cg_i_params : string
}.

(** The values the variables are initialised to. *)
Definition cg_opts_init : ConfGeneral.opts := {|
  ConfGeneral.do_connect := false;
  ConfGeneral.do_inactivity := false;
  ConfGeneral.do_itdefoi := false;
  ConfGeneral.do_nexus := false;
  ConfGeneral.do_open := false;
  ConfGeneral.do_pdt := false;
  ConfGeneral.do_raw := false;
  ConfGeneral.do_reduced := false;
  ConfGeneral.do_ssp := false;
  ConfGeneral.connect_val := 0;
  ConfGeneral.expected_cc := 0;
  ConfGeneral.do_hex := 0;
  ConfGeneral.inactivity_val := 0;
  ConfGeneral.itdefoi_val := 0;
  ConfGeneral.nexus_val := 0;
  ConfGeneral.open_val := 0;
  ConfGeneral.power_val := 0;
  ConfGeneral.reduced_val := 0;
  ConfGeneral.ssp_ctl := 0;
  ConfGeneral.verbose := 0
|}.

Definition cg_vars_init : cg_vars :=
  {| cg_opts := cg_opts_init; cg_sa := 0; cg_i_params := "" |}.

(** The two assignments of a case that reads the parameter [p]: its
    value and its flag ([connect_val = val; do_connect = true;] for
    --connect); the other variables stay. *)
Definition cg_assign (p : cg_param) (val : Z) (op : ConfGeneral.opts)
  : ConfGeneral.opts :=
  let given q := match p, q with
              | P_itdefoi, P_itdefoi | P_connect, P_connect
              | P_inactivity, P_inactivity | P_nexus, P_nexus
              | P_open, P_open | P_pdt, P_pdt
              | P_reduced, P_reduced | P_ssp, P_ssp => true
              | _, _ => false
              end in
  {|
    ConfGeneral.do_connect := given P_connect || ConfGeneral.do_connect op;
    ConfGeneral.do_inactivity :=
      given P_inactivity || ConfGeneral.do_inactivity op;
    ConfGeneral.do_itdefoi := given P_itdefoi || ConfGeneral.do_itdefoi op;
    ConfGeneral.do_nexus := given P_nexus || ConfGeneral.do_nexus op;
    ConfGeneral.do_open := given P_open || ConfGeneral.do_open op;
    ConfGeneral.do_pdt := given P_pdt || ConfGeneral.do_pdt op;
    ConfGeneral.do_raw := ConfGeneral.do_raw op;
    ConfGeneral.do_reduced := given P_reduced || ConfGeneral.do_reduced op;
    ConfGeneral.do_ssp := given P_ssp || ConfGeneral.do_ssp op;
    ConfGeneral.connect_val :=
      if given P_connect then val else ConfGeneral.connect_val op;
    ConfGeneral.expected_cc := ConfGeneral.expected_cc op;
    ConfGeneral.do_hex := ConfGeneral.do_hex op;
    ConfGeneral.inactivity_val :=
      if given P_inactivity then val else ConfGeneral.inactivity_val op;
    ConfGeneral.itdefoi_val :=
      if given P_itdefoi then val else ConfGeneral.itdefoi_val op;
    ConfGeneral.nexus_val :=
      if given P_nexus then val else ConfGeneral.nexus_val op;
    ConfGeneral.open_val :=
      if given P_open then val else ConfGeneral.open_val op;
    ConfGeneral.power_val :=
      if given P_pdt then val else ConfGeneral.power_val op;
    ConfGeneral.reduced_val :=
      if given P_reduced then val else ConfGeneral.reduced_val op;
    ConfGeneral.ssp_ctl :=
      if given P_ssp then val else ConfGeneral.ssp_ctl op;
    ConfGeneral.verbose := ConfGeneral.verbose op
  |}.

(** [expected_cc = ...], [++do_hex], [do_raw = true] and [++verbose]. *)
Definition cg_assign_other (expected hex : Z) (raw : bool) (verb : Z)
    (op : ConfGeneral.opts) : ConfGeneral.opts := {|
  ConfGeneral.do_connect := ConfGeneral.do_connect op;
  ConfGeneral.do_inactivity := ConfGeneral.do_inactivity op;
  ConfGeneral.do_itdefoi := ConfGeneral.do_itdefoi op;
  ConfGeneral.do_nexus := ConfGeneral.do_nexus op;
  ConfGeneral.do_open := ConfGeneral.do_open op;
  ConfGeneral.do_pdt := ConfGeneral.do_pdt op;
  ConfGeneral.do_raw := raw;
  ConfGeneral.do_reduced := ConfGeneral.do_reduced op;
  ConfGeneral.do_ssp := ConfGeneral.do_ssp op;
  ConfGeneral.connect_val := ConfGeneral.connect_val op;
  ConfGeneral.expected_cc := expected;
  ConfGeneral.do_hex := hex;
  ConfGeneral.inactivity_val := ConfGeneral.inactivity_val op;
  ConfGeneral.itdefoi_val := ConfGeneral.itdefoi_val op;
  ConfGeneral.nexus_val := ConfGeneral.nexus_val op;
  ConfGeneral.open_val := ConfGeneral.open_val op;
  ConfGeneral.power_val := ConfGeneral.power_val op;
  ConfGeneral.reduced_val := ConfGeneral.reduced_val op;
  ConfGeneral.ssp_ctl := ConfGeneral.ssp_ctl op;
  ConfGeneral.verbose := verb
|}.

Definition cg_with_opts (v : cg_vars) (op : ConfGeneral.opts) : cg_vars :=
  {| cg_opts := op; cg_sa := cg_sa v; cg_i_params := cg_i_params v |}.

Section CommandLine.
(** Of smp_lib: the exit status for a bad command line and the two
    functions that read a number from an option's argument. *)
Variable SMP_LIB_SYNTAX_ERROR : Z.
Variable smp_get_num : string -> Z.
Variable smp_get_llnum_nomult : string -> Z.

(** A case of the switch that reads a number into a variable of the
    request: the number outside 0..[hi] ends the program. *)
Definition cg_number (v : cg_vars) (p : cg_param) (hi : Z) (msg : string)
    (optarg : string) : M Z cg_vars :=
  let val := smp_get_num optarg in
  when ((val <? 0) || (val >? hi))
       (pr2serr msg [];; leave SMP_LIB_SYNTAX_ERROR);;
  ret (cg_with_opts v (cg_assign p val (cg_opts v))).

(** Lines 183-292: the body of the option loop for the value [c] that
    [getopt_long] returned, with [optarg]. *)
Definition cg_option (v : cg_vars) (c : Z) (optarg : string)
  : M Z cg_vars :=
  let op := cg_opts v in
  if c =? chr "c" then
    cg_number v P_connect 65535 "bad argument to '--connect'\n" optarg
  else if c =? chr "e" then
    cg_number v P_itdefoi 255 "bad argument to '--expander'\n" optarg
  else if c =? chr "E" then
    let expected_cc := smp_get_num optarg in
    when ((expected_cc <? 0) || (expected_cc >? 65535))
         (pr2serr "bad argument to '--expected'\n" [];;
          leave SMP_LIB_SYNTAX_ERROR);;
    ret (cg_with_opts v
           (cg_assign_other expected_cc (ConfGeneral.do_hex op)
              (ConfGeneral.do_raw op) (ConfGeneral.verbose op) op))
  else if (c =? chr "h") || (c =? chr "?") then
    cg_usage;; leave 0
  else if c =? chr "H" then
    ret (cg_with_opts v
           (cg_assign_other (ConfGeneral.expected_cc op)
              (ConfGeneral.do_hex op + 1)
              (ConfGeneral.do_raw op) (ConfGeneral.verbose op) op))
  else if c =? chr "I" then
    ret {| cg_opts := op; cg_sa := cg_sa v;
           cg_i_params := substring 0 255 optarg |}
  else if c =? chr "i" then
    cg_number v P_inactivity 65535
      "bad argument to '--inactivity', expect value from 0 to 65535\n"
      optarg
  else if c =? chr "n" then
    cg_number v P_nexus 65535
      "bad argument to '--nexus', expect value from 0 to 65535\n" optarg
  else if c =? chr "o" then
    cg_number v P_open 65535
      "bad argument to '--open', expect value from 0 to 65535\n" optarg
  else if c =? chr "p" then
    cg_number v P_pdt 255
      "bad argument to '--power', expect value from 0 to 255\n" optarg
  else if c =? chr "r" then
    ret (cg_with_opts v
           (cg_assign_other (ConfGeneral.expected_cc op)
              (ConfGeneral.do_hex op) true (ConfGeneral.verbose op) op))
  else if c =? chr "R" then
    cg_number v P_reduced 255
      "bad argument to '--reduced', expect value from 0 to 255\n" optarg
  else if c =? chr "s" then
    let sa_ll := smp_get_llnum_nomult optarg in
    when (-1 =? sa_ll)
         (pr2serr "bad argument to '--sa'\n" [];;
          leave SMP_LIB_SYNTAX_ERROR);;
    ret {| cg_opts := op; cg_sa := sa_ll mod 2 ^ 64;
           cg_i_params := cg_i_params v |}
  else if c =? chr "S" then
    cg_number v P_ssp 65535
      "bad argument to '--ssp', expect value from 0 to 65535\n" optarg
  else if c =? chr "v" then
    ret (cg_with_opts v
           (cg_assign_other (ConfGeneral.expected_cc op)
              (ConfGeneral.do_hex op) (ConfGeneral.do_raw op)
              (ConfGeneral.verbose op + 1) op))
  else if c =? chr "V" then
    pr2serr "version: %s\n" [AStr cg_version_str];; leave 0
  else
    pr2serr "unrecognised switch code 0x%x ??\n" [AInt c];;
    cg_usage;;
    leave SMP_LIB_SYNTAX_ERROR.

(** Lines 177-294: the option loop, over what the calls of [getopt_long]
    return one after the other until it returns -1: the option character
    and the option's argument. *)
Fixpoint cg_option_loop (v : cg_vars) (turns : list (Z * string))
  : M Z cg_vars :=
  match turns with
  | [] => ret v
  | (c, optarg) :: rest =>
      v' <- cg_option v c optarg;;
      cg_option_loop v' rest
  end.

End CommandLine.

(** *** What the option loop accepts *)

(** The option characters that take a number for the request, with the
    variable and the highest number. *)
Definition cg_numbers : list (Z * (option cg_param * Z)) :=
  [(chr "c", (Some P_connect, 65535)); (chr "e", (Some P_itdefoi, 255));
   (chr "E", (None, 65535)); (chr "i", (Some P_inactivity, 65535));
   (chr "n", (Some P_nexus, 65535)); (chr "o", (Some P_open, 65535));
   (chr "p", (Some P_pdt, 255)); (chr "R", (Some P_reduced, 255));
   (chr "S", (Some P_ssp, 65535))].

Fixpoint cg_lookup {A} (c : Z) (tbl : list (Z * A)) : option A :=
  match tbl with
  | [] => None
  | (k, a) :: rest => if c =? k then Some a else cg_lookup c rest
  end.

(** The turns after which the loop goes on. *)
Definition cg_accepted (smp_get_num smp_get_llnum_nomult : string -> Z)
    (turn : Z * string) : bool :=
  let '(c, optarg) := turn in
  match cg_lookup c cg_numbers with
  | Some (_, hi) => ConfGeneral.in_range 0 hi (smp_get_num optarg)
  | None =>
      if c =? chr "s" then negb (smp_get_llnum_nomult optarg =? -1)
      else existsb (Z.eqb c) [chr "H"; chr "I"; chr "r"; chr "v"]
  end.

(** The last turn, if any, that gives the parameter [p]. *)
Fixpoint cg_last_given (p : cg_param) (turns : list (Z * string))
  : option string :=
  match turns with
  | [] => None
  | (c, optarg) :: rest =>
      match cg_last_given p rest with
      | Some a => Some a
      | None =>
          match cg_lookup c cg_numbers with
          | Some (Some q, _) =>
              if cg_modifier_bit p =? cg_modifier_bit q then Some optarg
              else None
          | _ => None
          end
      end
  end.

(** What turns that the loop accepts do to the variables of the request:
    [v] before them and [v'] after them. *)
Definition cg_turns_ok (smp_get_num : string -> Z) (v v' : cg_vars)
    (turns : list (Z * string)) : Prop :=
  (ConfGeneral.opts_ok (cg_opts v) = true ->
   ConfGeneral.opts_ok (cg_opts v') = true) /\
  (forall p,
      cg_supplied (cg_opts v') p
      = match cg_last_given p turns with
        | Some _ => true
        | None => cg_supplied (cg_opts v) p
        end) /\
  (forall p,
      cg_value (cg_opts v') p
      = match cg_last_given p turns with
        | Some a => smp_get_num a
        | None => cg_value (cg_opts v) p
        end).

Definition stderr_line (ev : event) : Prop :=
  exists fmt args, ev = Pr2serr fmt args.

(** A reading of unsigned decimal numbers, -1 for anything else, for the
    sample runs. *)
Fixpoint decimal_from (acc : Z) (s : string) : Z :=
  match s with
  | EmptyString => acc
  | String a rest =>
      let d := Z.of_N (Ascii.N_of_ascii a) - 48 in
      if (0 <=? d) && (d <=? 9) then decimal_from (10 * acc + d) rest
      else -1
  end.

Definition decimal (s : string) : Z :=
  match s with
  | EmptyString => -1
  | _ => decimal_from 0 s
  end.

(** * Theorems *)

(** ** Bytes and big-endian pairs *)

Lemma u8_small (v : Z) : 0 <= v < 256 -> u8 v = v.
Proof. intros H. unfold u8. now apply Z.mod_small. Qed.

Lemma u16_small (v : Z) : 0 <= v < 65536 -> u16 v = v.
Proof. intros H. unfold u16. now apply Z.mod_small. Qed.

Lemma lor_high_low (a b : Z) :
  0 <= a -> 0 <= b < 256 -> Z.lor (Z.shiftl a 8) b = a * 256 + b.
Proof.
  intros Ha Hb.
  rewrite Z.shiftl_mul_pow2 by lia.
  change (2 ^ 8) with 256.
  assert (Hland : Z.land (a * 256) b = 0).
  2: { rewrite <- Z.lxor_lor by exact Hland.
       symmetry. now apply Z.add_nocarry_lxor. }
  apply Z.bits_inj'. intros n Hn.
  rewrite Z.land_spec, Z.bits_0.
  destruct (Z.ltb_spec n 8) as [Hlt | Hge].
  - replace (a * 256) with (a * 2 ^ 8) by reflexivity.
    rewrite Z.mul_pow2_bits_low by lia. reflexivity.
  - replace (Z.testbit b n) with false; [apply andb_false_r|].
    symmetry. destruct (Z.eq_dec b 0) as [-> | Hnz].
    + apply Z.bits_0.
    + apply Z.bits_above_log2; [lia|].
      assert (Z.log2 b < 8) by (apply Z.log2_lt_pow2; lia). lia.
Qed.

(** A 16-bit value that [sg_put_unaligned_be16] has split into two bytes
    reads back from them. *)
Lemma be16_bytes (v : Z) :
  0 <= v < 65536 ->
  Z.lor (Z.shiftl (u8 (Z.shiftr (u16 v) 8)) 8) (u8 (Z.land (u16 v) 255)) = v.
Proof.
  intros Hv. rewrite u16_small by assumption.
  rewrite Z.shiftr_div_pow2 by lia. change (2 ^ 8) with 256.
  change 255 with (Z.ones 8). rewrite Z.land_ones by lia.
  change (2 ^ 8) with 256.
  assert (0 <= v / 256 < 256)
    by (split; [apply Z.div_pos; lia | apply Z.div_lt_upper_bound; lia]).
  assert (0 <= v mod 256 < 256) by (apply Z.mod_pos_bound; lia).
  rewrite !u8_small by assumption.
  rewrite lor_high_low by lia.
  rewrite (Z.div_mod v 256) at 3 by lia. lia.
Qed.

Lemma land_255_small (v : Z) : 0 <= v < 256 -> Z.land v 255 = v.
Proof.
  intros Hv. change 255 with (Z.ones 8). rewrite Z.land_ones by lia.
  apply Z.mod_small. exact Hv.
Qed.

(** ** The CONFIGURE GENERAL request *)

Lemma in_range_bounds (lo hi v : Z) :
  ConfGeneral.in_range lo hi v = true -> lo <= v <= hi.
Proof. unfold ConfGeneral.in_range. intros H. lia. Qed.

Example cg_sample_request :
  ConfGeneral.build_req sample_lib cg_sample_opts
  = [0x40; 0x80; 0; 4; 0; 0; 0xff; 0xff; 0x62; 0; 0; 0; 1; 44; 0; 0;
     0; 7; 0; 0; 0; 0; 0; 0].
Proof. reflexivity. Qed.

(** C8.  Whatever options are given (within the ranges that the option
    loop accepts), the CONFIGURE GENERAL request is a frame of 24 bytes
    that starts with 0x40 and the function code; the eight optional
    parameters own eight different bits of byte 8; the bit of a parameter
    is set exactly when the parameter was given; and the value field of a
    parameter holds the value when it was given and zero otherwise. *)
Theorem conf_general_request_frame (L : smp_lib) (op : ConfGeneral.opts)
    (Hok : ConfGeneral.opts_ok op = true) :
  cg_frame_ok L op (ConfGeneral.build_req L op).
Proof.
  destruct op as [dc di dt dn dopn dp draw dr ds
                  cv ecc hx iv tv nv ov pv rv sv vb].
  unfold ConfGeneral.opts_ok in Hok. cbn in Hok.
  repeat (apply andb_prop in Hok; destruct Hok as [Hok ?]).
  repeat match goal with
         | H : ConfGeneral.in_range _ _ _ = true |- _ =>
           apply in_range_bounds in H
         end.
  unfold cg_frame_ok, ConfGeneral.build_req. cbn [ConfGeneral.do_connect
    ConfGeneral.do_inactivity ConfGeneral.do_itdefoi ConfGeneral.do_nexus
    ConfGeneral.do_open ConfGeneral.do_pdt ConfGeneral.do_reduced
    ConfGeneral.do_ssp ConfGeneral.connect_val ConfGeneral.expected_cc
    ConfGeneral.inactivity_val ConfGeneral.itdefoi_val ConfGeneral.nexus_val
    ConfGeneral.open_val ConfGeneral.power_val ConfGeneral.reduced_val
    ConfGeneral.ssp_ctl].
  repeat split.
  - destruct dc, di, dt, dn, dopn, dp, dr, ds; reflexivity.
  - destruct dc, di, dt, dn, dopn, dp, dr, ds; reflexivity.
  - destruct dc, di, dt, dn, dopn, dp, dr, ds; reflexivity.
  - intros p p'. destruct p, p'; cbn; intros E; try reflexivity;
      discriminate E.
  - intros p. destruct p; cbn [cg_supplied cg_modifier_bit
      ConfGeneral.do_connect ConfGeneral.do_inactivity
      ConfGeneral.do_itdefoi ConfGeneral.do_nexus ConfGeneral.do_open
      ConfGeneral.do_pdt ConfGeneral.do_reduced ConfGeneral.do_ssp];
      destruct dc, di, dt, dn, dopn, dp, dr, ds; lazy; reflexivity.
  - intros p.
    destruct p; cbn [cg_supplied cg_value cg_field
      ConfGeneral.do_connect ConfGeneral.do_inactivity
      ConfGeneral.do_itdefoi ConfGeneral.do_nexus ConfGeneral.do_open
      ConfGeneral.do_pdt ConfGeneral.do_reduced ConfGeneral.do_ssp
      ConfGeneral.connect_val ConfGeneral.inactivity_val
      ConfGeneral.itdefoi_val ConfGeneral.nexus_val ConfGeneral.open_val
      ConfGeneral.power_val ConfGeneral.reduced_val ConfGeneral.ssp_ctl];
      destruct dc, di, dt, dn, dopn, dp, dr, ds;
      lazy -[Z.modulo Z.land Z.shiftr Z.lor Z.shiftl];
      try reflexivity;
      first [ apply be16_bytes; lia
            | apply u8_small; lia
            | rewrite land_255_small by lia; apply u8_small; lia ].
Qed.

Lemma conf_general_request_frame_witness :
  ConfGeneral.opts_ok cg_sample_opts = true /\
  cg_frame_ok sample_lib cg_sample_opts
    (ConfGeneral.build_req sample_lib cg_sample_opts).
Proof.
  split.
  - reflexivity.
  - apply (@conf_general_request_frame sample_lib cg_sample_opts).
    reflexivity.
Defined.

(** ** Computations and their traces *)

Section MonadFacts.
Context {E A B : Type}.

Lemma out_bind (m : M E A) (f : A -> M E B) :
  out (bind m f)
  = out m ++ match outcome m with
             | inl _ => []
             | inr a => out (f a)
             end.
Proof.
  destruct m as [t [e | a]]; cbn.
  - now rewrite app_nil_r.
  - now destruct (f a).
Qed.

Lemma outcome_bind (m : M E A) (f : A -> M E B) :
  outcome (bind m f)
  = match outcome m with
    | inl e => inl e
    | inr a => outcome (f a)
    end.
Proof.
  destruct m as [t [e | a]]; cbn.
  - reflexivity.
  - now destruct (f a).
Qed.

Lemma bind_inl (m : M E A) (f : A -> M E B) (e : E) :
  outcome m = inl e -> bind m f = (out m, inl e).
Proof. destruct m as [t [e' | a]]; cbn; congruence. Qed.

Lemma bind_inr (m : M E A) (f : A -> M E B) (a : A) :
  outcome m = inr a -> bind m f = (out m ++ out (f a), outcome (f a)).
Proof.
  destruct m as [t [e' | a']]; cbn; try congruence.
  intros [= ->]. now destruct (f a).
Qed.

End MonadFacts.

Lemma out_when {E} (c : bool) (m : M E unit) :
  out (when c m) = if c then out m else [].
Proof. now destruct c. Qed.

Lemma outcome_when {E} (c : bool) (m : M E unit) :
  outcome (when c m) = if c then outcome m else inr tt.
Proof. now destruct c. Qed.

Lemma run_out {A} (m : M A A) : fst (run m) = out m.
Proof. now destruct m as [t [a | a]]. Qed.

Lemma run_outcome {A} (m : M A A) :
  snd (run m) = match outcome m with inl a => a | inr a => a end.
Proof. now destruct m as [t [a | a]]. Qed.

Section AllEvents.
Context {E : Type} (P : event -> Prop).

Lemma all_ret {A} (a : A) : all_events P (ret a : M E A).
Proof. constructor. Qed.

Lemma all_leave {A} (e : E) : all_events P (leave e : M E A).
Proof. constructor. Qed.

Lemma all_emit (ev : event) : P ev -> all_events P (emit ev : M E unit).
Proof. intros H. constructor; [exact H | constructor]. Qed.

Lemma all_emits (t : trace) : Forall P t -> all_events P (emits t : M E unit).
Proof. intros H. exact H. Qed.

Lemma all_bind {A B} (m : M E A) (f : A -> M E B) :
  all_events P m ->
  (forall a, outcome m = inr a -> all_events P (f a)) ->
  all_events P (bind m f).
Proof.
  unfold all_events. intros Hm Hf. rewrite out_bind.
  apply Forall_app. split; [exact Hm|].
  destruct (outcome m) as [e | a]; [constructor | now apply Hf].
Qed.

Lemma all_when (c : bool) (m : M E unit) :
  (c = true -> all_events P m) -> all_events P (when c m).
Proof. destruct c; intros H; [now apply H | constructor]. Qed.

Lemma all_if {A} (c : bool) (m1 m2 : M E A) :
  (c = true -> all_events P m1) -> (c = false -> all_events P m2) ->
  all_events P (if c then m1 else m2).
Proof. destruct c; intros H1 H2; [now apply H1 | now apply H2]. Qed.

End AllEvents.

(** A computation that ends by leaving does not go on. *)
Lemma outcome_then_leave {E A} (m : M E unit) (e : E) (a : A) :
  outcome (bind m (fun _ => leave e : M E A)) <> inr a.
Proof.
  rewrite outcome_bind. destruct (outcome m); discriminate.
Qed.

Lemma outcome_when_leave {E} (c : bool) (m : M E unit) (e : E) :
  outcome (when c (bind m (fun _ => leave e))) = inr tt -> c = false.
Proof.
  destruct c; [|reflexivity].
  intros H. now apply outcome_then_leave in H.
Qed.

Lemma bind_ret_l {E A B} (a : A) (f : A -> M E B) : bind (ret a) f = f a.
Proof. unfold bind, ret. now destruct (f a). Qed.

Lemma bind_when_false {E B} (m : M E unit) (f : unit -> M E B) :
  bind (when false m) f = f tt.
Proof. apply bind_ret_l. Qed.

Lemma bind_emits {E B} (t : trace) (f : unit -> M E B) :
  bind (emits t) f = (t ++ out (f tt), outcome (f tt)).
Proof. unfold bind, emits. now destruct (f tt). Qed.

Lemma bind_send_req {E B} (tobj : interface) (req buf : list Z) (n : Z)
    (f : send_result * list Z -> M E B) :
  bind (smp_send_req tobj req buf n) f
  = (SendReq req n
       :: out (f (send tobj req n,
                  write_resp buf (firstn (Z.to_nat n)
                                         (resp_data (send tobj req n))))),
     outcome (f (send tobj req n,
                 write_resp buf (firstn (Z.to_nat n)
                                        (resp_data (send tobj req n)))))).
Proof.
  unfold smp_send_req, bind, emit, ret.
  now destruct (f _).
Qed.

Lemma short_cond (a : Z) : 0 <= a < 4 -> (a >=? 0) && (a <? 4) = true.
Proof. intros H. apply andb_true_intro. split; lia. Qed.

Lemma long_cond (a : Z) : a < 0 \/ 4 <= a -> (a >=? 0) && (a <? 4) = false.
Proof. intros H. apply andb_false_iff. lia. Qed.

(** ** The exchange with the transport, site by site *)

(** Unfolds an [exchange] up to its check of the response length, for a
    send that worked. *)
Ltac exchange_prefix rr Hok :=
  destruct Hok as [Hs Ht];
  rewrite bind_emits, bind_send_req;
  cbn [fst snd]; fold rr;
  rewrite Hs, Ht;
  change (truthy 0) with false;
  rewrite !bind_when_false.

Section ExchangeFacts.
Variable L : smp_lib.
Variable tobj : interface.

Lemma rep_general_exchange_short (op : RepGeneral.opts) (buf : list Z) :
  let rr := send tobj (RepGeneral.smp_req L) RepGeneral.smp_resp_size in
  send_ok rr -> too_short rr ->
  RepGeneral.exchange L tobj op buf
  = (RepGeneral.dump_req L op
       ++ [SendReq (RepGeneral.smp_req L) RepGeneral.smp_resp_size;
           Pr2serr "response too short, len=%d\n"
                   [AInt (act_response_len rr)]],
     inl (SMP_LIB_CAT_MALFORMED L)).
Proof.
  intros rr Hok Hshort. unfold RepGeneral.exchange.
  exchange_prefix rr Hok.
  rewrite (short_cond _ Hshort). reflexivity.
Qed.

Lemma rep_general_exchange_ok (op : RepGeneral.opts) (buf : list Z) :
  let rr := send tobj (RepGeneral.smp_req L) RepGeneral.smp_resp_size in
  send_ok rr -> long_enough rr ->
  RepGeneral.exchange L tobj op buf
  = (RepGeneral.dump_req L op
       ++ [SendReq (RepGeneral.smp_req L) RepGeneral.smp_resp_size],
     inr (rr, write_resp buf
                (firstn (Z.to_nat RepGeneral.smp_resp_size) (resp_data rr)))).
Proof.
  intros rr Hok Hlong. unfold RepGeneral.exchange.
  exchange_prefix rr Hok.
  rewrite (long_cond _ Hlong). reflexivity.
Qed.

Lemma conf_general_exchange_short (op : ConfGeneral.opts) (buf : list Z) :
  let rr := send tobj (ConfGeneral.build_req L op)
                 ConfGeneral.smp_resp_size in
  send_ok rr -> too_short rr ->
  ConfGeneral.exchange L tobj op buf
  = (ConfGeneral.dump_req L op
       ++ [SendReq (ConfGeneral.build_req L op) ConfGeneral.smp_resp_size;
           Pr2serr "response too short, len=%d\n"
                   [AInt (act_response_len rr)]],
     inl (SMP_LIB_CAT_MALFORMED L)).
Proof.
  intros rr Hok Hshort. unfold ConfGeneral.exchange.
  exchange_prefix rr Hok.
  rewrite (short_cond _ Hshort). reflexivity.
Qed.

Lemma conf_general_exchange_ok (op : ConfGeneral.opts) (buf : list Z) :
  let rr := send tobj (ConfGeneral.build_req L op)
                 ConfGeneral.smp_resp_size in
  send_ok rr -> long_enough rr ->
  ConfGeneral.exchange L tobj op buf
  = (ConfGeneral.dump_req L op
       ++ [SendReq (ConfGeneral.build_req L op) ConfGeneral.smp_resp_size],
     inr (rr, write_resp buf
                (firstn (Z.to_nat ConfGeneral.smp_resp_size)
                        (resp_data rr)))).
Proof.
  intros rr Hok Hlong. unfold ConfGeneral.exchange.
  exchange_prefix rr Hok.
  rewrite (long_cond _ Hlong). reflexivity.
Qed.

Lemma rep_broadcast_exchange_short (op : RepBroadcast.opts) (buf : list Z) :
  let rr := send tobj (RepBroadcast.build_req L op)
                 RepBroadcast.SMP_FN_REPORT_BROADCAST_RESP_LEN in
  send_ok rr -> too_short rr ->
  RepBroadcast.exchange L tobj op buf
  = (RepBroadcast.dump_req L op
       ++ [SendReq (RepBroadcast.build_req L op)
                   RepBroadcast.SMP_FN_REPORT_BROADCAST_RESP_LEN;
           Pr2serr "response too short, len=%d\n"
                   [AInt (act_response_len rr)]],
     inl (SMP_LIB_CAT_MALFORMED L)).
Proof.
  intros rr Hok Hshort. unfold RepBroadcast.exchange.
  exchange_prefix rr Hok.
  rewrite (short_cond _ Hshort). reflexivity.
Qed.

Lemma rep_broadcast_exchange_ok (op : RepBroadcast.opts) (buf : list Z) :
  let rr := send tobj (RepBroadcast.build_req L op)
                 RepBroadcast.SMP_FN_REPORT_BROADCAST_RESP_LEN in
  send_ok rr -> long_enough rr ->
  RepBroadcast.exchange L tobj op buf
  = (RepBroadcast.dump_req L op
       ++ [SendReq (RepBroadcast.build_req L op)
                   RepBroadcast.SMP_FN_REPORT_BROADCAST_RESP_LEN],
     inr (rr, write_resp buf
                (firstn
                   (Z.to_nat RepBroadcast.SMP_FN_REPORT_BROADCAST_RESP_LEN)
                   (resp_data rr)))).
Proof.
  intros rr Hok Hlong. unfold RepBroadcast.exchange.
  exchange_prefix rr Hok.
  rewrite (long_cond _ Hlong). reflexivity.
Qed.

Lemma get_num_phys_exchange_short (op : Discover.opts_t) (buf : list Z) :
  let rr := send tobj (Discover.rg_smp_req L)
                 Discover.SMP_FN_REPORT_GENERAL_RESP_LEN in
  send_ok rr -> too_short rr ->
  Discover.rg_exchange L tobj op buf
  = (Discover.rg_dump_req L op
       ++ [SendReq (Discover.rg_smp_req L)
                   Discover.SMP_FN_REPORT_GENERAL_RESP_LEN;
           Pr2serr "RG response too short, len=%d\n"
                   [AInt (act_response_len rr)]],
     inl (-4 - SMP_LIB_CAT_MALFORMED L, None)).
Proof.
  intros rr Hok Hshort. unfold Discover.rg_exchange.
  exchange_prefix rr Hok.
  rewrite (short_cond _ Hshort). reflexivity.
Qed.

Lemma get_num_phys_exchange_ok (op : Discover.opts_t) (buf : list Z) :
  let rr := send tobj (Discover.rg_smp_req L)
                 Discover.SMP_FN_REPORT_GENERAL_RESP_LEN in
  send_ok rr -> long_enough rr ->
  Discover.rg_exchange L tobj op buf
  = (Discover.rg_dump_req L op
       ++ [SendReq (Discover.rg_smp_req L)
                   Discover.SMP_FN_REPORT_GENERAL_RESP_LEN],
     inr (rr, write_resp buf
                (firstn (Z.to_nat Discover.SMP_FN_REPORT_GENERAL_RESP_LEN)
                        (resp_data rr)))).
Proof.
  intros rr Hok Hlong. unfold Discover.rg_exchange.
  exchange_prefix rr Hok.
  rewrite (long_cond _ Hlong). reflexivity.
Qed.

Lemma do_discover_exchange_short (op : Discover.opts_t) (k : Z)
    (buf : list Z) (n : Z) :
  let req := Discover.build_req L k n op in
  let rr := send tobj req n in
  send_ok rr -> too_short rr ->
  Discover.exchange L tobj k buf n op
  = (Discover.dump_req L k n op
       ++ [SendReq req n;
           Pr2serr "response too short, len=%d\n"
                   [AInt (act_response_len rr)]],
     inl (-4 - SMP_LIB_CAT_MALFORMED L,
          write_resp (memset0 buf n) (firstn (Z.to_nat n) (resp_data rr)))).
Proof.
  intros req rr Hok Hshort. unfold Discover.exchange.
  fold req.
  exchange_prefix rr Hok.
  rewrite (short_cond _ Hshort). reflexivity.
Qed.

Lemma do_discover_exchange_ok (op : Discover.opts_t) (k : Z)
    (buf : list Z) (n : Z) :
  let req := Discover.build_req L k n op in
  let rr := send tobj req n in
  send_ok rr -> long_enough rr ->
  Discover.exchange L tobj k buf n op
  = (Discover.dump_req L k n op ++ [SendReq req n],
     inr (rr, write_resp (memset0 buf n)
                (firstn (Z.to_nat n) (resp_data rr)))).
Proof.
  intros req rr Hok Hlong. unfold Discover.exchange.
  fold req.
  exchange_prefix rr Hok.
  rewrite (long_cond _ Hlong). reflexivity.
Qed.

End ExchangeFacts.

(** ** A response shorter than its header *)

Section ShortResponse.
Variable L : smp_lib.
Variable tobj : interface.
Hypothesis Hshort :
  forall req n, send_ok (send tobj req n) /\ too_short (send tobj req n).

Lemma rep_general_body_short (op : RepGeneral.opts) (buf : list Z) :
  RepGeneral.main_body L tobj op buf
  = (RepGeneral.dump_req L op
       ++ [SendReq (RepGeneral.smp_req L) RepGeneral.smp_resp_size;
           Pr2serr "response too short, len=%d\n"
             [AInt (act_response_len
                      (send tobj (RepGeneral.smp_req L)
                            RepGeneral.smp_resp_size))]],
     inl (SMP_LIB_CAT_MALFORMED L)).
Proof.
  unfold RepGeneral.main_body.
  destruct (Hshort (RepGeneral.smp_req L) RepGeneral.smp_resp_size)
    as [Hok Hs].
  rewrite (rep_general_exchange_short L tobj op buf Hok Hs); reflexivity.
Qed.

Lemma conf_general_body_short (op : ConfGeneral.opts) (buf : list Z) :
  ConfGeneral.main_body L tobj op buf
  = (ConfGeneral.dump_req L op
       ++ [SendReq (ConfGeneral.build_req L op) ConfGeneral.smp_resp_size;
           Pr2serr "response too short, len=%d\n"
             [AInt (act_response_len
                      (send tobj (ConfGeneral.build_req L op)
                            ConfGeneral.smp_resp_size))]],
     inl (SMP_LIB_CAT_MALFORMED L)).
Proof.
  unfold ConfGeneral.main_body.
  destruct (Hshort (ConfGeneral.build_req L op) ConfGeneral.smp_resp_size)
    as [Hok Hs].
  rewrite (conf_general_exchange_short L tobj op buf Hok Hs); reflexivity.
Qed.

Lemma rep_broadcast_body_short (op : RepBroadcast.opts) (buf : list Z) :
  RepBroadcast.main_body L tobj op buf
  = (RepBroadcast.dump_req L op
       ++ [SendReq (RepBroadcast.build_req L op)
                   RepBroadcast.SMP_FN_REPORT_BROADCAST_RESP_LEN;
           Pr2serr "response too short, len=%d\n"
             [AInt (act_response_len
                      (send tobj (RepBroadcast.build_req L op)
                            RepBroadcast.SMP_FN_REPORT_BROADCAST_RESP_LEN))]],
     inl (SMP_LIB_CAT_MALFORMED L)).
Proof.
  unfold RepBroadcast.main_body.
  destruct (Hshort (RepBroadcast.build_req L op)
                   RepBroadcast.SMP_FN_REPORT_BROADCAST_RESP_LEN)
    as [Hok Hs].
  rewrite (rep_broadcast_exchange_short L tobj op buf Hok Hs); reflexivity.
Qed.

Lemma get_num_phys_short (op : Discover.opts_t) (buf : list Z) :
  Discover.get_num_phys L tobj op (Some buf)
  = (Discover.rg_dump_req L op
       ++ [SendReq (Discover.rg_smp_req L)
                   Discover.SMP_FN_REPORT_GENERAL_RESP_LEN;
           Pr2serr "RG response too short, len=%d\n"
             [AInt (act_response_len
                      (send tobj (Discover.rg_smp_req L)
                            Discover.SMP_FN_REPORT_GENERAL_RESP_LEN))]],
     (-4 - SMP_LIB_CAT_MALFORMED L, None)).
Proof.
  unfold Discover.get_num_phys, Discover.get_num_phys_body.
  destruct (Hshort (Discover.rg_smp_req L)
                   Discover.SMP_FN_REPORT_GENERAL_RESP_LEN) as [Hok Hs].
  rewrite (get_num_phys_exchange_short L tobj op buf Hok Hs); reflexivity.
Qed.

Lemma do_discover_short (op : Discover.opts_t) (k : Z) (buf : list Z)
    (n : Z) (silence : bool) :
  Discover.do_discover L tobj k buf n silence op
  = (Discover.dump_req L k n op
       ++ [SendReq (Discover.build_req L k n op) n;
           Pr2serr "response too short, len=%d\n"
             [AInt (act_response_len
                      (send tobj (Discover.build_req L k n op) n))]],
     (-4 - SMP_LIB_CAT_MALFORMED L,
      write_resp (memset0 buf n)
        (firstn (Z.to_nat n)
                (resp_data (send tobj (Discover.build_req L k n op) n))))).
Proof.
  unfold Discover.do_discover, Discover.do_discover_body.
  destruct (Hshort (Discover.build_req L k n op) n) as [Hok Hs].
  rewrite (do_discover_exchange_short L tobj op k buf n Hok Hs); reflexivity.
Qed.

End ShortResponse.

Lemma same_reports_short (t1 t2 : interface) :
  same_reports t1 t2 ->
  (forall req n, send_ok (send t1 req n) /\ too_short (send t1 req n)) ->
  forall req n, send_ok (send t2 req n) /\ too_short (send t2 req n).
Proof.
  intros (_ & _ & _ & Hsend) H req n.
  destruct (H req n) as [[Hs Ht] Hl].
  destruct (Hsend req n) as (E1 & E2 & E3).
  unfold send_ok, too_short. rewrite <- E1, <- E2, <- E3. auto.
Qed.

Lemma ret_of_len_malformed (m : Z) :
  0 < m -> Discover.ret_of_len (-4 - m) = m.
Proof.
  intros Hm. unfold Discover.ret_of_len.
  replace (-4 - m <? 0) with true by lia.
  replace (-4 - m <? -2) with true by lia. lia.
Qed.

Lemma do_single_short (L : smp_lib) (tobj : interface)
    (op : Discover.opts_t) (buf : list Z) :
  0 < SMP_LIB_CAT_MALFORMED L ->
  (forall req n, send_ok (send tobj req n) /\ too_short (send tobj req n)) ->
  let req := Discover.build_req L (Discover.phy_id op)
               Discover.SMP_FN_DISCOVER_RESP_LEN op in
  Discover.do_single L tobj op (Some buf)
  = (Discover.dump_req L (Discover.phy_id op)
       Discover.SMP_FN_DISCOVER_RESP_LEN op
       ++ [SendReq req Discover.SMP_FN_DISCOVER_RESP_LEN;
           Pr2serr "response too short, len=%d\n"
             [AInt (act_response_len
                      (send tobj req Discover.SMP_FN_DISCOVER_RESP_LEN))]]
       ++ (if truthy (Discover.do_hex op) || Discover.do_raw op then []
           else if Discover.do_my op then [Printf "0x%lx\n" [AInt 0]]
           else if SMP_FRES_PHY_VACANT L =? SMP_LIB_CAT_MALFORMED L
           then [Printf "  phy identifier: %d  inaccessible (phy vacant)\n"
                        [AInt (Discover.phy_id op)]]
           else []),
     SMP_LIB_CAT_MALFORMED L).
Proof.
  intros Hm Hshort req.
  unfold Discover.do_single, Discover.do_single_body.
  rewrite (do_discover_short L tobj Hshort). fold req.
  rewrite (ret_of_len_malformed _ Hm).
  replace (-4 - SMP_LIB_CAT_MALFORMED L >? 23) with false by lia.
  assert (Htr : truthy (SMP_LIB_CAT_MALFORMED L) = true).
  { unfold truthy. replace (SMP_LIB_CAT_MALFORMED L =? 0) with false by lia.
    reflexivity. }
  rewrite Htr.
  destruct (truthy (Discover.do_hex op) || Discover.do_raw op).
  { cbn. now rewrite app_nil_r. }
  destruct (Discover.do_my op).
  { cbn. now rewrite <- !app_assoc. }
  destruct (SMP_FRES_PHY_VACANT L =? SMP_LIB_CAT_MALFORMED L).
  { cbn. now rewrite <- !app_assoc. }
  cbn. now rewrite !app_nil_r.
Qed.

(** C4.  When the transport reports a response of fewer than four bytes,
    every exchange fails as malformed: the three [main]s exit with
    [SMP_LIB_CAT_MALFORMED], [get_num_phys] and [do_discover] return
    [-4 - SMP_LIB_CAT_MALFORMED], and [do_single] turns that into the exit
    status [SMP_LIB_CAT_MALFORMED].  No byte of the response is looked at:
    the whole behaviour (what is printed and what is returned) is the same
    for every content of the response buffer and every sequence of bytes
    that the transport delivered. *)
Theorem short_response_fails_unread (L : smp_lib) (tobj tobj' : interface)
    (Hm : 0 < SMP_LIB_CAT_MALFORMED L)
    (Hopen : 0 <= initiator_open_res tobj)
    (Hsame : same_reports tobj tobj')
    (Hshort : forall req n,
        send_ok (send tobj req n) /\ too_short (send tobj req n)) :
  (forall op buf buf',
      RepGeneral.main L tobj op buf = RepGeneral.main L tobj' op buf' /\
      snd (RepGeneral.main L tobj op buf) = SMP_LIB_CAT_MALFORMED L) /\
  (forall op buf buf',
      ConfGeneral.main L tobj op buf = ConfGeneral.main L tobj' op buf' /\
      snd (ConfGeneral.main L tobj op buf) = SMP_LIB_CAT_MALFORMED L) /\
  (forall op buf buf',
      RepBroadcast.main L tobj op buf = RepBroadcast.main L tobj' op buf' /\
      snd (RepBroadcast.main L tobj op buf) = SMP_LIB_CAT_MALFORMED L) /\
  (forall op buf buf',
      Discover.get_num_phys L tobj op (Some buf)
      = Discover.get_num_phys L tobj' op (Some buf') /\
      fst (snd (Discover.get_num_phys L tobj op (Some buf)))
      = -4 - SMP_LIB_CAT_MALFORMED L) /\
  (forall op k buf buf' n silence,
      fst (Discover.do_discover L tobj k buf n silence op)
      = fst (Discover.do_discover L tobj' k buf' n silence op) /\
      fst (snd (Discover.do_discover L tobj k buf n silence op))
      = fst (snd (Discover.do_discover L tobj' k buf' n silence op)) /\
      fst (snd (Discover.do_discover L tobj k buf n silence op))
      = -4 - SMP_LIB_CAT_MALFORMED L) /\
  (forall op buf buf',
      Discover.do_single L tobj op (Some buf)
      = Discover.do_single L tobj' op (Some buf') /\
      snd (Discover.do_single L tobj op (Some buf))
      = SMP_LIB_CAT_MALFORMED L).
Proof.
  pose proof (same_reports_short _ _ Hsame Hshort) as Hshort'.
  destruct Hsame as (Eopen & Eclose & Estr & Esend).
  assert (Eact : forall req n,
             act_response_len (send tobj' req n)
             = act_response_len (send tobj req n)).
  { intros req n. now destruct (Esend req n) as (_ & _ & ->). }
  assert (Hz : (SMP_LIB_CAT_MALFORMED L =? 0) = false) by lia.
  assert (Hneg : (SMP_LIB_CAT_MALFORMED L <? 0) = false) by lia.
  assert (Hge : (SMP_LIB_CAT_MALFORMED L >=? 0) = true) by lia.
  assert (Hopen' : (initiator_open_res tobj <? 0) = false) by lia.
  repeat split.
  - unfold RepGeneral.main.
    rewrite <- Eopen, <- Eclose, Hopen'.
    rewrite (rep_general_body_short L tobj Hshort),
            (rep_general_body_short L tobj' Hshort'), Eact.
    reflexivity.
  - unfold RepGeneral.main. rewrite Hopen'.
    rewrite (rep_general_body_short L tobj Hshort).
    cbn [run]. rewrite Hz, andb_false_r, Hge. reflexivity.
  - unfold ConfGeneral.main, ConfGeneral.err_out.
    rewrite <- Eopen, <- Eclose, <- Estr, Hopen'.
    rewrite (conf_general_body_short L tobj Hshort),
            (conf_general_body_short L tobj' Hshort'), Eact.
    reflexivity.
  - unfold ConfGeneral.main, ConfGeneral.err_out. rewrite Hopen'.
    rewrite (conf_general_body_short L tobj Hshort).
    cbn [run]. rewrite Hz, andb_false_r, Hneg. reflexivity.
  - unfold RepBroadcast.main, RepBroadcast.err_out.
    rewrite <- Eopen, <- Eclose, <- Estr, Hopen'.
    rewrite (rep_broadcast_body_short L tobj Hshort),
            (rep_broadcast_body_short L tobj' Hshort'), Eact.
    reflexivity.
  - unfold RepBroadcast.main, RepBroadcast.err_out. rewrite Hopen'.
    rewrite (rep_broadcast_body_short L tobj Hshort).
    cbn [run]. rewrite Hz, andb_false_r, Hneg. reflexivity.
  - rewrite (get_num_phys_short L tobj Hshort),
            (get_num_phys_short L tobj' Hshort'), Eact.
    reflexivity.
  - rewrite (get_num_phys_short L tobj Hshort). reflexivity.
  - rewrite (do_discover_short L tobj Hshort),
            (do_discover_short L tobj' Hshort'), Eact.
    reflexivity.
  - rewrite (do_discover_short L tobj Hshort),
            (do_discover_short L tobj' Hshort').
    reflexivity.
  - rewrite (do_discover_short L tobj Hshort). reflexivity.
  - rewrite (@do_single_short L tobj op buf Hm Hshort),
            (@do_single_short L tobj' op buf' Hm Hshort'), Eact.
    reflexivity.
  - rewrite (@do_single_short L tobj op buf Hm Hshort). reflexivity.
Qed.

Lemma short_response_fails_unread_witness :
  snd (RepGeneral.main sample_lib (plain_interface short_target)
         rg_opts_plain (repeat 0 128%nat)) = 97 /\
  RepGeneral.main sample_lib (plain_interface short_target)
    rg_opts_plain (repeat 0 128%nat)
  = RepGeneral.main sample_lib (plain_interface short_target')
      rg_opts_plain (repeat 255 128%nat).
Proof.
  assert (Hm : 0 < SMP_LIB_CAT_MALFORMED sample_lib) by reflexivity.
  assert (Hopen : 0 <= initiator_open_res (plain_interface short_target))
    by (simpl; lia).
  assert (Hsame : same_reports (plain_interface short_target)
                               (plain_interface short_target'))
    by (repeat split; reflexivity).
  assert (Hshort : forall req n,
             send_ok (send (plain_interface short_target) req n) /\
             too_short (send (plain_interface short_target) req n))
    by (intros req n; repeat split; simpl; lia).
  destruct (@short_response_fails_unread sample_lib _ _ Hm Hopen Hsame Hshort)
    as [Hrg _].
  destruct (Hrg rg_opts_plain (repeat 0 128%nat) (repeat 255 128%nat))
    as [Heq Hst].
  split; [exact Hst | exact Heq].
Defined.

(** ** The resolution of the response length *)

(** Runs the monad without touching the arithmetic. *)
Ltac crunch :=
  cbv beta iota zeta
      delta [bind ret when leave emit emits pr2serr printf out outcome
             fst snd app existsb consults_table is_table_lookup orb
             smp_get_func_def_resp_len].

Section ResolveLen.
Variable L : smp_lib.
Context {E : Type}.

(** smp_conf_general, smp_rep_broadcast and both functions of
    smp_discover resolve the length as the specification says. *)
Lemma conf_general_resolve_len (op : ConfGeneral.opts) (resp : list Z)
    (act : Z) :
  outcome (ConfGeneral.resolve_len L op resp act : M E Z)
  = inr (spec_resolved_len L resp act) /\
  consults_table (out (ConfGeneral.resolve_len L op resp act : M E Z))
  = spec_consults_table resp.
Proof.
  unfold ConfGeneral.resolve_len, spec_resolved_len, spec_length_dwords,
    spec_consults_table, smp_get_func_def_resp_len.
  rewrite !(Z.mul_comm 4).
  repeat (crunch;
          match goal with
          | |- context [if ?c then _ else _] => destruct c
          end);
    crunch; split; reflexivity.
Qed.

Lemma rep_broadcast_resolve_len (op : RepBroadcast.opts) (resp : list Z)
    (act : Z) :
  outcome (RepBroadcast.resolve_len L op resp act : M E Z)
  = inr (spec_resolved_len L resp act) /\
  consults_table (out (RepBroadcast.resolve_len L op resp act : M E Z))
  = spec_consults_table resp.
Proof.
  unfold RepBroadcast.resolve_len, spec_resolved_len, spec_length_dwords,
    spec_consults_table, smp_get_func_def_resp_len.
  rewrite !(Z.mul_comm 4).
  repeat (crunch;
          match goal with
          | |- context [if ?c then _ else _] => destruct c
          end);
    crunch; split; reflexivity.
Qed.

Lemma get_num_phys_resolve_len (op : Discover.opts_t) (resp : list Z)
    (act : Z) :
  outcome (Discover.rg_resolve_len L op resp act : M E Z)
  = inr (spec_resolved_len L resp act) /\
  consults_table (out (Discover.rg_resolve_len L op resp act : M E Z))
  = spec_consults_table resp.
Proof.
  unfold Discover.rg_resolve_len, spec_resolved_len, spec_length_dwords,
    spec_consults_table, smp_get_func_def_resp_len.
  rewrite !(Z.mul_comm 4).
  repeat (crunch;
          match goal with
          | |- context [if ?c then _ else _] => destruct c
          end);
    crunch; split; reflexivity.
Qed.

Lemma do_discover_resolve_len (op : Discover.opts_t) (resp : list Z)
    (act : Z) :
  outcome (Discover.resolve_len L op resp act : M E Z)
  = inr (spec_resolved_len L resp act) /\
  consults_table (out (Discover.resolve_len L op resp act : M E Z))
  = spec_consults_table resp.
Proof.
  unfold Discover.resolve_len, spec_resolved_len, spec_length_dwords,
    spec_consults_table, smp_get_func_def_resp_len.
  rewrite !(Z.mul_comm 4).
  repeat (crunch;
          match goal with
          | |- context [if ?c then _ else _] => destruct c
          end);
    crunch; split; reflexivity.
Qed.

(** smp_rep_general looks the default up whenever byte 3 is zero, and it
    does not cut the length down to what the transport reports. *)
Lemma rep_general_resolve_len (op : RepGeneral.opts) (resp : list Z) :
  outcome (RepGeneral.resolve_len L op resp : M E Z)
  = inr (4 + (if byte_at resp 3 =? 0
              then (let d := def_resp_len_table L (byte_at resp 1) in
                    if d <? 0 then 0 else d)
              else byte_at resp 3) * 4) /\
  consults_table (out (RepGeneral.resolve_len L op resp : M E Z))
  = (byte_at resp 3 =? 0).
Proof.
  unfold RepGeneral.resolve_len, smp_get_func_def_resp_len.
  repeat (crunch;
          match goal with
          | |- context [if ?c then _ else _] => destruct c
          end);
    crunch; split; reflexivity.
Qed.

End ResolveLen.

(** ** Output in hexadecimal or in binary *)

(** Splits a claim about all events of a computation along its
    structure; [leaf] closes the claims about single events. *)
Ltac all_ev leaf :=
  repeat first
    [ apply all_ret
    | apply all_leave
    | apply all_bind; [ | intros ? ? ]
    | apply all_when; intros ?
    | apply all_if; intros ?
    | apply all_emit; leaf
    | apply all_emits; leaf
    | progress cbv beta zeta ].

Lemma Forall_map_intro {A B} (P : B -> Prop) (f : A -> B) (l : list A) :
  (forall x, P (f x)) -> Forall P (map f l).
Proof. intros H. induction l; cbn; constructor; auto. Qed.

Lemma Forall_flat_map_intro {A B} (P : B -> Prop) (f : A -> list B)
    (l : list A) :
  (forall x, Forall P (f x)) -> Forall P (flat_map f l).
Proof.
  intros H. induction l; cbn; [constructor|].
  apply Forall_app. split; auto.
Qed.

(** Closes [Forall P t] for a trace [t] put together from literal events,
    [++], [map] and [flat_map], when [P] holds of every event by
    computation. *)
Ltac forall_ev :=
  repeat first
    [ apply Forall_nil
    | apply Forall_cons; [ first [ exact I | reflexivity ] | ]
    | apply Forall_app; split
    | apply Forall_map_intro; intros ?; first [ exact I | reflexivity ]
    | apply Forall_flat_map_intro; intros ?
    | match goal with
      | |- Forall _ (if ?c then _ else _) => destruct c
      end ].

Lemma dStrRaw_not_decoded {E} (str : list Z) (len : Z) :
  all_events not_decoded (dStrRaw str len : M E unit).
Proof. unfold dStrRaw. apply all_emits. forall_ev. Qed.

Lemma outcome_dump {E} (c : bool) (resp : list Z) (len : Z) :
  outcome (if c then emit (HexDump resp len) else dStrRaw resp len : M E unit)
  = inr tt.
Proof. now destruct c. Qed.

(** Brings the outcome of a computation that ends in [leave] into the
    form [inl _]. *)
Ltac outcome_inl :=
  repeat first
    [ rewrite outcome_bind
    | rewrite outcome_dump
    | rewrite outcome_when
    | match goal with
      | |- context [if ?c then _ else _] => destruct c eqn:?
      end ];
  cbv beta iota zeta delta [outcome leave ret snd pr2serr emit].

Section HexOrRaw.
Variable L : smp_lib.
Hypothesis Hm : 0 < SMP_LIB_CAT_MALFORMED L.

Lemma rep_general_hex_or_raw (op : RepGeneral.opts) (resp : list Z)
    (len : Z) :
  0 <= byte_at resp 2 ->
  exists st,
    outcome (RepGeneral.hex_or_raw L op resp len) = inl st /\
    status_reflects (SMP_LIB_CAT_MALFORMED L) (SMP_FN_REPORT_GENERAL L)
                    resp st /\
    0 <= st /\
    all_events not_decoded (RepGeneral.hex_or_raw L op resp len).
Proof.
  intros Hb.
  assert (Hst : exists st,
             outcome (RepGeneral.hex_or_raw L op resp len) = inl st /\
             status_reflects (SMP_LIB_CAT_MALFORMED L)
               (SMP_FN_REPORT_GENERAL L) resp st /\ 0 <= st).
  { unfold RepGeneral.hex_or_raw, status_reflects, header_valid.
    change (byte_at (RepGeneral.smp_req L) 1)
      with (SMP_FN_REPORT_GENERAL L).
    unfold truthy.
    outcome_inl; cbn [negb andb] in *;
      (eexists; split; [reflexivity|]); repeat split; auto; lia. }
  destruct Hst as (st & H1 & H2 & H3).
  exists st. repeat split; auto.
  unfold RepGeneral.hex_or_raw.
  all_ev ltac:(exact I). apply dStrRaw_not_decoded.
Qed.

Lemma conf_general_req_fn (op : ConfGeneral.opts) :
  byte_at (ConfGeneral.build_req L op) 1 = SMP_FN_CONFIG_GENERAL L.
Proof.
  unfold ConfGeneral.build_req.
  destruct (ConfGeneral.do_itdefoi op), (ConfGeneral.do_connect op),
    (ConfGeneral.do_inactivity op), (ConfGeneral.do_nexus op),
    (ConfGeneral.do_open op), (ConfGeneral.do_pdt op),
    (ConfGeneral.do_reduced op), (ConfGeneral.do_ssp op);
    lazy -[Z.modulo Z.land Z.shiftr Z.lor Z.shiftl]; reflexivity.
Qed.

Lemma rep_broadcast_req_fn (op : RepBroadcast.opts) :
  byte_at (RepBroadcast.build_req L op) 1 = SMP_FN_REPORT_BROADCAST L.
Proof.
  unfold RepBroadcast.build_req.
  lazy -[Z.modulo Z.land Z.shiftr Z.lor Z.shiftl]. reflexivity.
Qed.

Lemma discover_req_fn (k n : Z) (op : Discover.opts_t) :
  byte_at (Discover.build_req L k n op) 1 = SMP_FN_DISCOVER L.
Proof.
  unfold Discover.build_req.
  destruct (Discover.do_zero op), (Discover.ign_zp op);
    lazy -[Z.modulo Z.land Z.shiftr Z.lor Z.shiftl Z.div Z.ltb Z.sub];
    reflexivity.
Qed.

Lemma conf_general_hex_or_raw (op : ConfGeneral.opts) (resp : list Z)
    (len : Z) :
  0 <= byte_at resp 2 ->
  exists st,
    outcome (ConfGeneral.hex_or_raw L op resp len) = inl st /\
    status_reflects (SMP_LIB_CAT_MALFORMED L) (SMP_FN_CONFIG_GENERAL L)
                    resp st /\
    0 <= st /\
    all_events not_decoded (ConfGeneral.hex_or_raw L op resp len).
Proof.
  intros Hb.
  assert (Hst : exists st,
             outcome (ConfGeneral.hex_or_raw L op resp len) = inl st /\
             status_reflects (SMP_LIB_CAT_MALFORMED L)
               (SMP_FN_CONFIG_GENERAL L) resp st /\ 0 <= st).
  { unfold ConfGeneral.hex_or_raw, status_reflects, header_valid.
    cbv zeta. rewrite conf_general_req_fn.
    unfold truthy.
    outcome_inl; cbn [negb andb] in *; try discriminate;
      (eexists; split; [reflexivity|]); repeat split; auto; lia. }
  destruct Hst as (st & H1 & H2 & H3).
  exists st. repeat split; auto.
  unfold ConfGeneral.hex_or_raw.
  all_ev ltac:(exact I). apply dStrRaw_not_decoded.
Qed.

Lemma rep_broadcast_hex_or_raw (op : RepBroadcast.opts) (resp : list Z)
    (len : Z) :
  0 <= byte_at resp 2 ->
  exists st,
    outcome (RepBroadcast.hex_or_raw L op resp len) = inl st /\
    status_reflects (SMP_LIB_CAT_MALFORMED L) (SMP_FN_REPORT_BROADCAST L)
                    resp st /\
    0 <= st /\
    all_events not_decoded (RepBroadcast.hex_or_raw L op resp len).
Proof.
  intros Hb.
  assert (Hst : exists st,
             outcome (RepBroadcast.hex_or_raw L op resp len) = inl st /\
             status_reflects (SMP_LIB_CAT_MALFORMED L)
               (SMP_FN_REPORT_BROADCAST L) resp st /\ 0 <= st).
  { unfold RepBroadcast.hex_or_raw, status_reflects, header_valid.
    cbv zeta. rewrite rep_broadcast_req_fn.
    unfold truthy.
    outcome_inl; cbn [negb andb] in *; try discriminate;
      (eexists; split; [reflexivity|]); repeat split; auto; lia. }
  destruct Hst as (st & H1 & H2 & H3).
  exists st. repeat split; auto.
  unfold RepBroadcast.hex_or_raw.
  all_ev ltac:(exact I). apply dStrRaw_not_decoded.
Qed.

(** [do_discover] returns the length when the header is valid and
    [-4 - status] otherwise; [ret_of_len] is how its callers read that. *)
Lemma do_discover_hex_or_raw (k n : Z) (op : Discover.opts_t)
    (resp : list Z) (len : Z) :
  0 <= byte_at resp 2 -> 0 <= len ->
  exists v,
    outcome (Discover.hex_or_raw L k n op resp len) = inl (v, resp) /\
    (if header_valid (SMP_FN_DISCOVER L) resp then v = len
     else v = -4 - SMP_LIB_CAT_MALFORMED L \/ v = -4 - byte_at resp 2) /\
    status_reflects (SMP_LIB_CAT_MALFORMED L) (SMP_FN_DISCOVER L) resp
                    (Discover.ret_of_len v) /\
    all_events not_decoded (Discover.hex_or_raw L k n op resp len).
Proof.
  intros Hb Hlen.
  assert (Hst : exists v,
    outcome (Discover.hex_or_raw L k n op resp len) = inl (v, resp) /\
    (if header_valid (SMP_FN_DISCOVER L) resp then v = len
     else v = -4 - SMP_LIB_CAT_MALFORMED L \/ v = -4 - byte_at resp 2) /\
    status_reflects (SMP_LIB_CAT_MALFORMED L) (SMP_FN_DISCOVER L) resp
                    (Discover.ret_of_len v)).
  { unfold Discover.hex_or_raw, status_reflects, header_valid,
      Discover.ret_of_len.
    cbv zeta. rewrite discover_req_fn.
    unfold truthy.
    outcome_inl; cbn [negb andb] in *; try discriminate;
      (eexists; split; [reflexivity|]);
      repeat match goal with
             | |- context [if ?c then _ else _] =>
               let Hc := fresh in destruct c eqn:Hc
             end;
      repeat split; auto; lia. }
  destruct Hst as (v & H1 & H2 & H3).
  exists v. repeat split; auto.
  unfold Discover.hex_or_raw.
  all_ev ltac:(exact I). apply dStrRaw_not_decoded.
Qed.

End HexOrRaw.

Lemma byte_at_bytes (l : list Z) (i : Z) : bytes l -> 0 <= byte_at l i < 256.
Proof.
  intros Hl. unfold byte_at. destruct (i <? 0); [lia|].
  destruct (nth_in_or_default (Z.to_nat i) l 0) as [Hin | ->]; [|lia].
  unfold bytes in Hl. rewrite Forall_forall in Hl. now apply Hl.
Qed.

Lemma Forall_firstn_skipn {A} (P : A -> Prop) (n : nat) (l : list A) :
  Forall P l -> Forall P (firstn n l) /\ Forall P (skipn n l).
Proof.
  intros H. rewrite <- (firstn_skipn n l) in H.
  now apply Forall_app in H.
Qed.

Lemma bytes_firstn (n : nat) (l : list Z) : bytes l -> bytes (firstn n l).
Proof. intros H. now apply (Forall_firstn_skipn _ n) in H. Qed.

Lemma bytes_skipn (n : nat) (l : list Z) : bytes l -> bytes (skipn n l).
Proof. intros H. now apply (Forall_firstn_skipn _ n) in H. Qed.

Lemma bytes_write_resp (buf data : list Z) :
  bytes buf -> bytes data -> bytes (write_resp buf data).
Proof.
  intros Hb Hd. unfold write_resp. apply bytes_firstn.
  apply Forall_app. split; [exact Hd | now apply bytes_skipn].
Qed.

Lemma bytes_received (tobj : interface) (req : list Z) (n : Z)
    (buf : list Z) :
  bytes buf -> bytes (resp_data (send tobj req n)) ->
  bytes (received tobj req n buf).
Proof.
  intros Hb Hd. unfold received.
  apply bytes_write_resp; [exact Hb | now apply bytes_firstn].
Qed.

Lemma bytes_memset0 (buf : list Z) (n : Z) : bytes buf -> bytes (memset0 buf n).
Proof.
  unfold bytes, memset0. intros Hb. apply Forall_app. split.
  - apply Forall_forall. intros x Hx. apply repeat_spec in Hx. lia.
  - now apply bytes_skipn.
Qed.

Lemma run_inl {A} (m : M A A) (a : A) :
  outcome m = inl a -> run m = (out m, a).
Proof. destruct m as [t [x | x]]; cbn; congruence. Qed.

Lemma run_inr {A} (m : M A A) (a : A) :
  outcome m = inr a -> run m = (out m, a).
Proof. destruct m as [t [x | x]]; cbn; congruence. Qed.

(** The resolved length of the specification is not negative when the
    transport delivered at least a header or does not know. *)
Lemma spec_resolved_len_nonneg (L : smp_lib) (resp : list Z) (act : Z) :
  0 <= byte_at resp 3 -> act < 0 \/ 4 <= act ->
  0 <= spec_resolved_len L resp act.
Proof.
  intros Hb Hact. unfold spec_resolved_len, spec_length_dwords.
  destruct (spec_consults_table resp);
    cbv zeta;
    repeat match goal with
           | |- context [if ?c then _ else _] =>
             let Hc := fresh in destruct c eqn:Hc
           end; lia.
Qed.

(** Nothing of what the length resolution prints is a field report. *)
Lemma resolve_len_not_decoded (L : smp_lib) {E : Type} :
  (forall op resp,
      all_events not_decoded (RepGeneral.resolve_len L op resp : M E Z)) /\
  (forall op resp act,
      all_events not_decoded (ConfGeneral.resolve_len L op resp act : M E Z))
  /\
  (forall op resp act,
      all_events not_decoded
        (RepBroadcast.resolve_len L op resp act : M E Z)) /\
  (forall op resp act,
      all_events not_decoded (Discover.rg_resolve_len L op resp act : M E Z))
  /\
  (forall op resp act,
      all_events not_decoded (Discover.resolve_len L op resp act : M E Z)).
Proof.
  repeat split; intros;
    unfold RepGeneral.resolve_len, ConfGeneral.resolve_len,
      RepBroadcast.resolve_len, Discover.rg_resolve_len,
      Discover.resolve_len, smp_get_func_def_resp_len;
    all_ev ltac:(exact I).
Qed.

Lemma dump_req_not_decoded (L : smp_lib) :
  (forall op, Forall not_decoded (RepGeneral.dump_req L op)) /\
  (forall op, Forall not_decoded (ConfGeneral.dump_req L op)) /\
  (forall op, Forall not_decoded (RepBroadcast.dump_req L op)) /\
  (forall op, Forall not_decoded (Discover.rg_dump_req L op)) /\
  (forall k n op, Forall not_decoded (Discover.dump_req L k n op)).
Proof.
  repeat split; intros;
    unfold RepGeneral.dump_req, ConfGeneral.dump_req,
      RepBroadcast.dump_req, Discover.rg_dump_req, Discover.dump_req;
    cbv zeta; forall_ev.
Qed.

Lemma bind_pair_inr {E A B} (t : trace) (a : A) (f : A -> M E B) :
  bind (t, inr a) f = (t ++ out (f a), outcome (f a)).
Proof. unfold bind. now destruct (f a). Qed.

Lemma bind_when_true_inl {E B} (m : M E unit) (f : unit -> M E B) (e : E) :
  outcome m = inl e -> bind (when true m) f = (out m, inl e).
Proof. intros H. now apply bind_inl. Qed.

Section HexMode.
Variable L : smp_lib.
Variable tobj : interface.
Hypothesis Hm : 0 < SMP_LIB_CAT_MALFORMED L.
Hypothesis Hgood :
  forall req n, send_ok (send tobj req n) /\ long_enough (send tobj req n).
Hypothesis Hdata : forall req n, bytes (resp_data (send tobj req n)).

Lemma rep_general_body_hex (op : RepGeneral.opts) (buf : list Z) :
  bytes buf ->
  truthy (RepGeneral.do_hex op) || truthy (RepGeneral.do_raw op) = true ->
  exists t st,
    RepGeneral.main_body L tobj op buf = (t, inl st) /\
    0 <= st /\
    status_reflects (SMP_LIB_CAT_MALFORMED L) (SMP_FN_REPORT_GENERAL L)
      (received tobj (RepGeneral.smp_req L) RepGeneral.smp_resp_size buf) st
    /\ Forall not_decoded t.
Proof.
  intros Hbuf Hhex.
  set (req := RepGeneral.smp_req L).
  set (resp := received tobj req RepGeneral.smp_resp_size buf).
  destruct (Hgood req RepGeneral.smp_resp_size) as [Hok Hlong].
  assert (Hresp : bytes resp) by (apply bytes_received; auto).
  pose proof (proj1 (rep_general_resolve_len L (E:=Z) op resp)) as Hlen.
  set (len := 4 + _ * 4) in Hlen.
  destruct (rep_general_hex_or_raw L Hm op resp len
              (proj1 (byte_at_bytes resp 2 Hresp)))
    as (st & Hst & Hrefl & Hnn & Hev).
  eexists. exists st. split; [|split; [exact Hnn | split; [exact Hrefl|]]].
  - unfold RepGeneral.main_body.
    rewrite (rep_general_exchange_ok L tobj op buf Hok Hlong), bind_pair_inr.
    cbv beta zeta. cbn [fst snd]. fold req. fold (received tobj req
      RepGeneral.smp_resp_size buf). fold resp.
    rewrite (bind_inr _ _ _ Hlen), Hhex, (bind_when_true_inl _ _ _ Hst).
    cbn [out outcome fst snd]. reflexivity.
  - repeat (apply Forall_app; split).
    + apply dump_req_not_decoded.
    + forall_ev.
    + apply resolve_len_not_decoded.
    + exact Hev.
Qed.

Lemma conf_general_body_hex (op : ConfGeneral.opts) (buf : list Z) :
  bytes buf ->
  truthy (ConfGeneral.do_hex op) || ConfGeneral.do_raw op = true ->
  exists t st,
    ConfGeneral.main_body L tobj op buf = (t, inl st) /\
    0 <= st /\
    status_reflects (SMP_LIB_CAT_MALFORMED L) (SMP_FN_CONFIG_GENERAL L)
      (received tobj (ConfGeneral.build_req L op) ConfGeneral.smp_resp_size
                buf) st
    /\ Forall not_decoded t.
Proof.
  intros Hbuf Hhex.
  set (req := ConfGeneral.build_req L op).
  set (resp := received tobj req ConfGeneral.smp_resp_size buf).
  destruct (Hgood req ConfGeneral.smp_resp_size) as [Hok Hlong].
  assert (Hresp : bytes resp) by (apply bytes_received; auto).
  set (act := act_response_len (send tobj req ConfGeneral.smp_resp_size)).
  pose proof (proj1 (conf_general_resolve_len L (E:=Z) op resp act)) as Hlen.
  destruct (conf_general_hex_or_raw L Hm op resp
              (spec_resolved_len L resp act)
              (proj1 (byte_at_bytes resp 2 Hresp)))
    as (st & Hst & Hrefl & Hnn & Hev).
  eexists. exists st. split; [|split; [exact Hnn | split; [exact Hrefl|]]].
  - unfold ConfGeneral.main_body.
    rewrite (conf_general_exchange_ok L tobj op buf Hok Hlong), bind_pair_inr.
    cbv beta zeta. cbn [fst snd]. fold req. fold (received tobj req
      ConfGeneral.smp_resp_size buf). fold resp. fold act.
    rewrite (bind_inr _ _ _ Hlen), Hhex, (bind_when_true_inl _ _ _ Hst).
    cbn [out outcome fst snd]. reflexivity.
  - repeat (apply Forall_app; split).
    + apply dump_req_not_decoded.
    + forall_ev.
    + apply resolve_len_not_decoded.
    + exact Hev.
Qed.

Lemma rep_broadcast_body_hex (op : RepBroadcast.opts) (buf : list Z) :
  bytes buf ->
  truthy (RepBroadcast.do_hex op) || RepBroadcast.do_raw op = true ->
  exists t st,
    RepBroadcast.main_body L tobj op buf = (t, inl st) /\
    0 <= st /\
    status_reflects (SMP_LIB_CAT_MALFORMED L) (SMP_FN_REPORT_BROADCAST L)
      (received tobj (RepBroadcast.build_req L op)
                RepBroadcast.SMP_FN_REPORT_BROADCAST_RESP_LEN buf) st
    /\ Forall not_decoded t.
Proof.
  intros Hbuf Hhex.
  set (req := RepBroadcast.build_req L op).
  set (n := RepBroadcast.SMP_FN_REPORT_BROADCAST_RESP_LEN).
  set (resp := received tobj req n buf).
  destruct (Hgood req n) as [Hok Hlong].
  assert (Hresp : bytes resp) by (apply bytes_received; auto).
  set (act := act_response_len (send tobj req n)).
  pose proof (proj1 (rep_broadcast_resolve_len L (E:=Z) op resp act)) as Hlen.
  destruct (rep_broadcast_hex_or_raw L Hm op resp
              (spec_resolved_len L resp act)
              (proj1 (byte_at_bytes resp 2 Hresp)))
    as (st & Hst & Hrefl & Hnn & Hev).
  eexists. exists st. split; [|split; [exact Hnn | split; [exact Hrefl|]]].
  - unfold RepBroadcast.main_body.
    rewrite (rep_broadcast_exchange_ok L tobj op buf Hok Hlong),
      bind_pair_inr.
    cbv beta zeta. cbn [fst snd]. fold req n. fold (received tobj req n buf).
    fold resp. fold act.
    rewrite (bind_inr _ _ _ Hlen), Hhex, (bind_when_true_inl _ _ _ Hst).
    cbn [out outcome fst snd]. reflexivity.
  - repeat (apply Forall_app; split).
    + apply dump_req_not_decoded.
    + forall_ev.
    + apply resolve_len_not_decoded.
    + exact Hev.
Qed.

Lemma do_discover_hex (op : Discover.opts_t) (k : Z) (buf : list Z) (n : Z)
    (silence : bool) :
  bytes buf ->
  truthy (Discover.do_hex op) || Discover.do_raw op = true ->
  let resp := received tobj (Discover.build_req L k n op) n
                (memset0 buf n) in
  exists t v,
    Discover.do_discover L tobj k buf n silence op = (t, (v, resp)) /\
    (if header_valid (SMP_FN_DISCOVER L) resp
     then v = spec_resolved_len L resp
                (act_response_len (send tobj (Discover.build_req L k n op) n))
     else v = -4 - SMP_LIB_CAT_MALFORMED L \/ v = -4 - byte_at resp 2) /\
    status_reflects (SMP_LIB_CAT_MALFORMED L) (SMP_FN_DISCOVER L) resp
      (Discover.ret_of_len v)
    /\ Forall not_decoded t.
Proof.
  intros Hbuf Hhex.
  set (req := Discover.build_req L k n op).
  intros resp.
  destruct (Hgood req n) as [Hok Hlong].
  assert (Hresp : bytes resp)
    by (apply bytes_received; auto using bytes_memset0).
  set (act := act_response_len (send tobj req n)).
  pose proof (proj1 (do_discover_resolve_len L (E:=Z * list Z) op resp act))
    as Hlen.
  destruct (do_discover_hex_or_raw L Hm k n op resp
              (spec_resolved_len L resp act)
              (proj1 (byte_at_bytes resp 2 Hresp))
              (spec_resolved_len_nonneg L resp act
                 (proj1 (byte_at_bytes resp 3 Hresp)) Hlong))
    as (v & Hv & Hval & Hrefl & Hev).
  eexists. exists v. split; [|split; [exact Hval | split; [exact Hrefl|]]].
  - unfold Discover.do_discover, Discover.do_discover_body.
    rewrite (do_discover_exchange_ok L tobj op k buf n Hok Hlong),
      bind_pair_inr.
    cbv beta zeta. cbn [fst snd]. fold req.
    fold (received tobj req n (memset0 buf n)). fold resp. fold act.
    rewrite (bind_inr _ _ _ Hlen), Hhex, (bind_when_true_inl _ _ _ Hv).
    cbn [out outcome fst snd run]. reflexivity.
  - repeat (apply Forall_app; split).
    + apply dump_req_not_decoded.
    + forall_ev.
    + apply resolve_len_not_decoded.
    + exact Hev.
Qed.

End HexMode.

Lemma header_status_pos (m fn : Z) (resp : list Z) :
  0 < m -> 0 <= byte_at resp 2 -> header_valid fn resp = false ->
  0 < header_status m fn resp.
Proof.
  unfold header_valid, header_status. intros Hm Hb Hv.
  destruct (SMP_FRAME_TYPE_RESP =? byte_at resp 0); [|exact Hm].
  destruct (byte_at resp 1 =? fn); [|exact Hm].
  cbn [andb negb] in Hv |- *. apply Z.eqb_neq in Hv. lia.
Qed.

Lemma header_status_zero (m fn : Z) (resp : list Z) :
  0 < m -> header_status m fn resp = 0 <-> header_valid fn resp = true.
Proof.
  unfold header_valid, header_status. intros Hm.
  destruct (SMP_FRAME_TYPE_RESP =? byte_at resp 0);
    [| cbn [negb andb]; split; [lia | discriminate]].
  destruct (byte_at resp 1 =? fn);
    [| cbn [negb andb]; split; [lia | discriminate]].
  cbn [negb andb]. symmetry. apply Z.eqb_eq.
Qed.

Lemma overriding_status_zero (m fn : Z) (resp : list Z) :
  0 < m -> overriding_status m fn resp = 0 <-> header_valid fn resp = true.
Proof.
  unfold header_valid, overriding_status, truthy. intros Hm.
  destruct (byte_at resp 2 =? 0) eqn:H2; cbn [negb].
  - rewrite andb_true_r.
    destruct (SMP_FRAME_TYPE_RESP =? byte_at resp 0);
      [| cbn [negb andb orb]; split; [lia | discriminate]].
    destruct (byte_at resp 1 =? fn);
      cbn [negb andb orb]; split; try reflexivity; try lia; discriminate.
  - rewrite andb_false_r. apply Z.eqb_neq in H2.
    split; [contradiction | discriminate].
Qed.

(** ** The status that --hex and --raw leave *)

Section HexStatus.
Variable L : smp_lib.
Variable tobj : interface.
Hypothesis Hgood :
  forall req n, send_ok (send tobj req n) /\ long_enough (send tobj req n).

Lemma rep_general_hex_status (op : RepGeneral.opts) (resp : list Z)
    (len : Z) :
  outcome (RepGeneral.hex_or_raw L op resp len)
  = inl (overriding_status (SMP_LIB_CAT_MALFORMED L)
           (SMP_FN_REPORT_GENERAL L) resp).
Proof.
  unfold RepGeneral.hex_or_raw, overriding_status. cbv zeta.
  change (byte_at (RepGeneral.smp_req L) 1) with (SMP_FN_REPORT_GENERAL L).
  rewrite outcome_bind, outcome_dump.
  destruct (truthy (byte_at resp 2)),
    (negb (SMP_FRAME_TYPE_RESP =? byte_at resp 0)),
    (negb (byte_at resp 1 =? SMP_FN_REPORT_GENERAL L)); reflexivity.
Qed.

Lemma rep_broadcast_hex_status (op : RepBroadcast.opts) (resp : list Z)
    (len : Z) :
  outcome (RepBroadcast.hex_or_raw L op resp len)
  = inl (overriding_status (SMP_LIB_CAT_MALFORMED L)
           (SMP_FN_REPORT_BROADCAST L) resp).
Proof.
  unfold RepBroadcast.hex_or_raw, overriding_status. cbv zeta.
  rewrite rep_broadcast_req_fn, outcome_bind, outcome_dump.
  destruct (truthy (byte_at resp 2)),
    (negb (SMP_FRAME_TYPE_RESP =? byte_at resp 0)),
    (negb (byte_at resp 1 =? SMP_FN_REPORT_BROADCAST L));
    rewrite ?outcome_bind, ?outcome_when;
    try destruct (truthy (RepBroadcast.verbose op)); reflexivity.
Qed.

Lemma conf_general_hex_status (op : ConfGeneral.opts) (resp : list Z)
    (len : Z) :
  outcome (ConfGeneral.hex_or_raw L op resp len)
  = inl (header_status (SMP_LIB_CAT_MALFORMED L)
           (SMP_FN_CONFIG_GENERAL L) resp).
Proof.
  unfold ConfGeneral.hex_or_raw, header_status, truthy. cbv zeta.
  rewrite conf_general_req_fn, outcome_bind, outcome_dump.
  destruct (negb (SMP_FRAME_TYPE_RESP =? byte_at resp 0)); [reflexivity |].
  destruct (negb (byte_at resp 1 =? SMP_FN_CONFIG_GENERAL L));
    [reflexivity |].
  destruct (byte_at resp 2 =? 0) eqn:H2; cbn [negb].
  - apply Z.eqb_eq in H2. now rewrite H2.
  - rewrite outcome_bind, outcome_when.
    now destruct (negb (ConfGeneral.verbose op =? 0)).
Qed.

Lemma discover_hex_status (k n : Z) (op : Discover.opts_t) (resp : list Z)
    (len v : Z) :
  0 < SMP_LIB_CAT_MALFORMED L -> 0 <= byte_at resp 2 -> 0 <= len ->
  outcome (Discover.hex_or_raw L k n op resp len) = inl (v, resp) ->
  Discover.ret_of_len v
  = header_status (SMP_LIB_CAT_MALFORMED L) (SMP_FN_DISCOVER L) resp.
Proof.
  intros Hm Hb Hlen.
  assert (Hret : forall s, 0 < s -> Discover.ret_of_len (-4 - s) = s).
  { intros s Hs. unfold Discover.ret_of_len.
    replace (-4 - s <? 0) with true by lia.
    replace (-4 - s <? -2) with true by lia. lia. }
  unfold Discover.hex_or_raw, header_status, truthy. cbv zeta.
  rewrite discover_req_fn, outcome_bind, outcome_dump.
  rewrite outcome_bind, outcome_when.
  destruct (negb (SMP_FRAME_TYPE_RESP =? byte_at resp 0)).
  { intros H.
    cbv beta iota zeta delta [outcome leave snd] in H.
    assert (Hv : v = -4 - SMP_LIB_CAT_MALFORMED L) by congruence.
    rewrite Hv. now apply Hret. }
  rewrite outcome_bind, outcome_when.
  destruct (negb (byte_at resp 1 =? SMP_FN_DISCOVER L)).
  { intros H.
    cbv beta iota zeta delta [outcome leave snd] in H.
    assert (Hv : v = -4 - SMP_LIB_CAT_MALFORMED L) by congruence.
    rewrite Hv. now apply Hret. }
  rewrite outcome_bind, outcome_when.
  destruct (byte_at resp 2 =? 0) eqn:H2; cbn [negb].
  - apply Z.eqb_eq in H2. intros H.
    cbv beta iota zeta delta [outcome leave snd] in H.
    assert (Hv : v = len) by congruence.
    rewrite Hv, H2. unfold Discover.ret_of_len.
    now replace (len <? 0) with false by lia.
  - apply Z.eqb_neq in H2.
    rewrite outcome_bind, outcome_when.
    intros H.
    assert (Hv : v = -4 - byte_at resp 2)
      by (destruct (negb (Discover.verbose op =? 0));
          cbv beta iota zeta delta [outcome leave snd pr2serr emit] in H;
          congruence).
    rewrite Hv. apply Hret. lia.
Qed.

Lemma rep_general_body_status (op : RepGeneral.opts) (buf : list Z) :
  truthy (RepGeneral.do_hex op) || truthy (RepGeneral.do_raw op) = true ->
  outcome (RepGeneral.main_body L tobj op buf)
  = inl (overriding_status (SMP_LIB_CAT_MALFORMED L)
           (SMP_FN_REPORT_GENERAL L)
           (received tobj (RepGeneral.smp_req L) RepGeneral.smp_resp_size
                     buf)).
Proof.
  intros Hhex.
  set (req := RepGeneral.smp_req L).
  set (resp := received tobj req RepGeneral.smp_resp_size buf).
  destruct (Hgood req RepGeneral.smp_resp_size) as [Hok Hlong].
  pose proof (proj1 (rep_general_resolve_len L (E:=Z) op resp)) as Hlen.
  set (len := 4 + _ * 4) in Hlen.
  unfold RepGeneral.main_body.
  rewrite (rep_general_exchange_ok L tobj op buf Hok Hlong), bind_pair_inr.
  cbv beta zeta. cbn [fst snd]. fold req.
  fold (received tobj req RepGeneral.smp_resp_size buf). fold resp.
  rewrite (bind_inr _ _ _ Hlen), Hhex,
    (bind_when_true_inl _ _ _ (rep_general_hex_status op resp len)).
  reflexivity.
Qed.

Lemma conf_general_body_status (op : ConfGeneral.opts) (buf : list Z) :
  truthy (ConfGeneral.do_hex op) || ConfGeneral.do_raw op = true ->
  outcome (ConfGeneral.main_body L tobj op buf)
  = inl (header_status (SMP_LIB_CAT_MALFORMED L) (SMP_FN_CONFIG_GENERAL L)
           (received tobj (ConfGeneral.build_req L op)
                     ConfGeneral.smp_resp_size buf)).
Proof.
  intros Hhex.
  set (req := ConfGeneral.build_req L op).
  set (resp := received tobj req ConfGeneral.smp_resp_size buf).
  destruct (Hgood req ConfGeneral.smp_resp_size) as [Hok Hlong].
  set (act := act_response_len (send tobj req ConfGeneral.smp_resp_size)).
  pose proof (proj1 (conf_general_resolve_len L (E:=Z) op resp act)) as Hlen.
  unfold ConfGeneral.main_body.
  rewrite (conf_general_exchange_ok L tobj op buf Hok Hlong), bind_pair_inr.
  cbv beta zeta. cbn [fst snd]. fold req.
  fold (received tobj req ConfGeneral.smp_resp_size buf). fold resp.
  fold act.
  rewrite (bind_inr _ _ _ Hlen), Hhex,
    (bind_when_true_inl _ _ _
       (conf_general_hex_status op resp (spec_resolved_len L resp act))).
  reflexivity.
Qed.

Lemma rep_broadcast_body_status (op : RepBroadcast.opts) (buf : list Z) :
  truthy (RepBroadcast.do_hex op) || RepBroadcast.do_raw op = true ->
  outcome (RepBroadcast.main_body L tobj op buf)
  = inl (overriding_status (SMP_LIB_CAT_MALFORMED L)
           (SMP_FN_REPORT_BROADCAST L)
           (received tobj (RepBroadcast.build_req L op)
                     RepBroadcast.SMP_FN_REPORT_BROADCAST_RESP_LEN buf)).
Proof.
  intros Hhex.
  set (req := RepBroadcast.build_req L op).
  set (n := RepBroadcast.SMP_FN_REPORT_BROADCAST_RESP_LEN).
  set (resp := received tobj req n buf).
  destruct (Hgood req n) as [Hok Hlong].
  set (act := act_response_len (send tobj req n)).
  pose proof (proj1 (rep_broadcast_resolve_len L (E:=Z) op resp act)) as Hlen.
  unfold RepBroadcast.main_body.
  rewrite (rep_broadcast_exchange_ok L tobj op buf Hok Hlong),
    bind_pair_inr.
  cbv beta zeta. cbn [fst snd]. fold req n. fold (received tobj req n buf).
  fold resp. fold act.
  rewrite (bind_inr _ _ _ Hlen), Hhex,
    (bind_when_true_inl _ _ _
       (rep_broadcast_hex_status op resp (spec_resolved_len L resp act))).
  reflexivity.
Qed.

End HexStatus.

(** C6.  With --hex or --raw the response header is still checked.  For
    a send that worked, a response of at least a header and a dump that
    stays inside the response array, the exit status is exactly the one
    that the three checks give.  In smp_conf_general and in [do_single]
    of smp_discover the first check that fails decides: the status is
    [SMP_LIB_CAT_MALFORMED] for a wrong frame type or function code, and
    else the function result.  In smp_rep_general and smp_rep_broadcast
    the three checks are made in a row, so a function result that is not
    zero is the status even when the frame type or the function code is
    wrong.  In all four the status is zero exactly when the frame type is
    the response marker, the function code is the one sent and the
    function result is zero.  Nothing is decoded: stdout receives the
    dump only. *)
Theorem hex_and_raw_still_validate (L : smp_lib) (tobj : interface)
    (Hm : 0 < SMP_LIB_CAT_MALFORMED L)
    (Hopen : 0 <= initiator_open_res tobj)
    (Hclose : 0 <= initiator_close_res tobj)
    (Hgood : forall req n,
        send_ok (send tobj req n) /\ long_enough (send tobj req n))
    (Hdata : forall req n, bytes (resp_data (send tobj req n))) :
  (forall op buf,
      let resp := received tobj (RepGeneral.smp_req L)
                    RepGeneral.smp_resp_size buf in
      let status := snd (RepGeneral.main L tobj op buf) in
      bytes buf ->
      truthy (RepGeneral.do_hex op) || truthy (RepGeneral.do_raw op) = true ->
      dump_inside RepGeneral.smp_resp_size buf true (rep_general_len L resp) ->
      status = overriding_status (SMP_LIB_CAT_MALFORMED L)
                 (SMP_FN_REPORT_GENERAL L) resp /\
      (status = 0 <-> header_valid (SMP_FN_REPORT_GENERAL L) resp = true) /\
      Forall not_decoded (fst (RepGeneral.main L tobj op buf))) /\
  (forall op buf,
      let req := ConfGeneral.build_req L op in
      let resp := received tobj req ConfGeneral.smp_resp_size buf in
      let status := snd (ConfGeneral.main L tobj op buf) in
      bytes buf ->
      truthy (ConfGeneral.do_hex op) || ConfGeneral.do_raw op = true ->
      dump_inside ConfGeneral.smp_resp_size buf true
        (spec_resolved_len L resp
           (act_response_len (send tobj req ConfGeneral.smp_resp_size))) ->
      status = header_status (SMP_LIB_CAT_MALFORMED L)
                 (SMP_FN_CONFIG_GENERAL L) resp /\
      (status = 0 <-> header_valid (SMP_FN_CONFIG_GENERAL L) resp = true) /\
      Forall not_decoded (fst (ConfGeneral.main L tobj op buf))) /\
  (forall op buf,
      let req := RepBroadcast.build_req L op in
      let n := RepBroadcast.SMP_FN_REPORT_BROADCAST_RESP_LEN in
      let resp := received tobj req n buf in
      let status := snd (RepBroadcast.main L tobj op buf) in
      bytes buf ->
      truthy (RepBroadcast.do_hex op) || RepBroadcast.do_raw op = true ->
      dump_inside n buf true
        (spec_resolved_len L resp (act_response_len (send tobj req n))) ->
      status = overriding_status (SMP_LIB_CAT_MALFORMED L)
                 (SMP_FN_REPORT_BROADCAST L) resp /\
      (status = 0 <-> header_valid (SMP_FN_REPORT_BROADCAST L) resp = true) /\
      Forall not_decoded (fst (RepBroadcast.main L tobj op buf))) /\
  (forall op buf,
      let n := Discover.SMP_FN_DISCOVER_RESP_LEN in
      let req := Discover.build_req L (Discover.phy_id op) n op in
      let resp := received tobj req n (memset0 buf n) in
      let status := snd (Discover.do_single L tobj op (Some buf)) in
      bytes buf ->
      truthy (Discover.do_hex op) || Discover.do_raw op = true ->
      dump_inside n buf true
        (spec_resolved_len L resp (act_response_len (send tobj req n))) ->
      status = header_status (SMP_LIB_CAT_MALFORMED L)
                 (SMP_FN_DISCOVER L) resp /\
      (status = 0 <-> header_valid (SMP_FN_DISCOVER L) resp = true) /\
      Forall not_decoded (fst (Discover.do_single L tobj op (Some buf)))).
Proof.
  assert (Ho : (initiator_open_res tobj <? 0) = false) by lia.
  assert (Hc : (initiator_close_res tobj <? 0) = false) by lia.
  repeat apply conj; intros op buf; cbv zeta; intros Hbuf Hhex _.
  - destruct (rep_general_body_hex L tobj Hm Hgood Hdata op buf Hbuf Hhex)
      as (t & st & Hbody & Hnn & _ & Hev).
    pose proof (rep_general_body_status L tobj Hgood op buf Hhex) as Hst.
    rewrite Hbody in Hst. injection Hst as Hst.
    assert (Hmain : RepGeneral.main L tobj op buf = (t ++ [CloseTarget], st)).
    { unfold RepGeneral.main. rewrite Ho, Hbody. cbn [run]. rewrite Hc.
      cbn [andb fst snd]. now replace (st >=? 0) with true by lia. }
    rewrite Hmain. cbn [fst snd].
    split; [exact Hst | split].
    + rewrite Hst. now apply overriding_status_zero.
    + apply Forall_app. split; [exact Hev | forall_ev].
  - destruct (conf_general_body_hex L tobj Hm Hgood Hdata op buf Hbuf Hhex)
      as (t & st & Hbody & Hnn & _ & Hev).
    pose proof (conf_general_body_status L tobj Hgood op buf Hhex) as Hst.
    rewrite Hbody in Hst. injection Hst as Hst.
    unfold ConfGeneral.main, ConfGeneral.err_out.
    rewrite Ho, Hbody. cbn [run]. rewrite Hc.
    cbn [andb fst snd].
    replace (st <? 0) with false by lia.
    split; [exact Hst | split].
    + rewrite Hst. now apply header_status_zero.
    + repeat (apply Forall_app; split); try exact Hev; forall_ev.
  - destruct (rep_broadcast_body_hex L tobj Hm Hgood Hdata op buf Hbuf Hhex)
      as (t & st & Hbody & Hnn & _ & Hev).
    pose proof (rep_broadcast_body_status L tobj Hgood op buf Hhex) as Hst.
    rewrite Hbody in Hst. injection Hst as Hst.
    unfold RepBroadcast.main, RepBroadcast.err_out.
    rewrite Ho, Hbody. cbn [run]. rewrite Hc.
    cbn [andb fst snd].
    replace (st <? 0) with false by lia.
    split; [exact Hst | split].
    + rewrite Hst. now apply overriding_status_zero.
    + repeat (apply Forall_app; split); try exact Hev; forall_ev.
  - set (n := Discover.SMP_FN_DISCOVER_RESP_LEN).
    set (req := Discover.build_req L (Discover.phy_id op) n op).
    set (resp := received tobj req n (memset0 buf n)).
    destruct (Hgood req n) as [Hok Hlong].
    assert (Hresp : bytes resp)
      by (apply bytes_received; auto using bytes_memset0).
    set (act := act_response_len (send tobj req n)).
    pose proof (proj1 (do_discover_resolve_len L (E:=Z * list Z) op resp act))
      as Hlen.
    destruct (do_discover_hex_or_raw L Hm (Discover.phy_id op) n op resp
                (spec_resolved_len L resp act)
                (proj1 (byte_at_bytes resp 2 Hresp))
                (spec_resolved_len_nonneg L resp act
                   (proj1 (byte_at_bytes resp 3 Hresp)) Hlong))
      as (v & Hv & _ & _ & Hev).
    pose proof (discover_hex_status L (Discover.phy_id op) n op resp
                  (spec_resolved_len L resp act) v Hm
                  (proj1 (byte_at_bytes resp 2 Hresp))
                  (spec_resolved_len_nonneg L resp act
                     (proj1 (byte_at_bytes resp 3 Hresp)) Hlong) Hv) as Hst.
    assert (Hd : Discover.do_discover L tobj (Discover.phy_id op) buf n false
                   op
                 = ((Discover.dump_req L (Discover.phy_id op) n op
                       ++ [SendReq req n])
                      ++ out (Discover.resolve_len L op resp act
                              : M (Z * list Z) Z)
                      ++ out (Discover.hex_or_raw L (Discover.phy_id op) n
                                op resp (spec_resolved_len L resp act)),
                    (v, resp))).
    { unfold Discover.do_discover, Discover.do_discover_body.
      rewrite (do_discover_exchange_ok L tobj op (Discover.phy_id op) buf n
                 Hok Hlong), bind_pair_inr.
      cbv beta zeta. cbn [fst snd]. fold req.
      fold (received tobj req n (memset0 buf n)). fold resp. fold act.
      rewrite (bind_inr _ _ _ Hlen), Hhex, (bind_when_true_inl _ _ _ Hv).
      cbn [out outcome fst snd run]. reflexivity. }
    unfold Discover.do_single, Discover.do_single_body. fold n.
    rewrite Hd, Hhex.
    rewrite bind_emits. cbn [out outcome fst snd bind when leave run].
    rewrite app_nil_r.
    split; [exact Hst | split].
    + rewrite Hst. now apply header_status_zero.
    + repeat (apply Forall_app; split).
      * apply dump_req_not_decoded.
      * forall_ev.
      * apply resolve_len_not_decoded.
      * exact Hev.
Qed.

(** smp_rep_general with --hex on the response 41 00 01 00 (a function
    result of 1) exits with the status 1; on the response 40 00 01 00 (a
    request frame type as well) it still exits with 1, the function
    result, where smp_conf_general exits with the status of a malformed
    response (97). *)
Lemma hex_and_raw_still_validate_witness :
  snd (RepGeneral.main sample_lib (plain_interface rg_error_target)
         rg_opts_hex (repeat 0 128%nat)) = 1 /\
  Forall not_decoded
    (fst (RepGeneral.main sample_lib (plain_interface rg_error_target)
            rg_opts_hex (repeat 0 128%nat))) /\
  snd (RepGeneral.main sample_lib (plain_interface wrong_frame_target)
         rg_opts_hex (repeat 0 128%nat)) = 1 /\
  snd (ConfGeneral.main sample_lib (plain_interface wrong_frame_target)
         cg_opts_hex (repeat 0 8%nat)) = 97.
Proof.
  assert (Hm : 0 < SMP_LIB_CAT_MALFORMED sample_lib) by reflexivity.
  assert (Hbuf : forall n, bytes (repeat 0 n))
    by (intros n; apply Forall_forall; intros x Hx;
        apply repeat_spec in Hx; lia).
  assert (Hhex : truthy (RepGeneral.do_hex rg_opts_hex)
                 || truthy (RepGeneral.do_raw rg_opts_hex) = true)
    by reflexivity.
  assert (Hhex' : truthy (ConfGeneral.do_hex cg_opts_hex)
                  || ConfGeneral.do_raw cg_opts_hex = true)
    by reflexivity.
  split; [| split; [| split]].
  - assert (Hopen : 0 <= initiator_open_res (plain_interface rg_error_target))
      by (simpl; lia).
    assert (Hclose : 0 <= initiator_close_res
                            (plain_interface rg_error_target))
      by (simpl; lia).
    assert (Hgood : forall req n,
               send_ok (send (plain_interface rg_error_target) req n) /\
               long_enough (send (plain_interface rg_error_target) req n))
      by (intros req n; split; [split; reflexivity | right; simpl; lia]).
    assert (Hdata : forall req n,
               bytes (resp_data (send (plain_interface rg_error_target)
                                   req n)))
      by (intros req n; simpl; repeat constructor; lia).
    destruct (hex_and_raw_still_validate sample_lib
                (plain_interface rg_error_target) Hm Hopen Hclose Hgood
                Hdata) as [Hrg _].
    destruct (Hrg rg_opts_hex (repeat 0 128%nat) (Hbuf _) Hhex) as [Hst _].
    + split; [reflexivity | intros _; vm_compute; discriminate].
    + rewrite Hst. reflexivity.
  - vm_compute. repeat constructor.
  - assert (Hopen : 0 <= initiator_open_res
                           (plain_interface wrong_frame_target))
      by (simpl; lia).
    assert (Hclose : 0 <= initiator_close_res
                            (plain_interface wrong_frame_target))
      by (simpl; lia).
    assert (Hgood : forall req n,
               send_ok (send (plain_interface wrong_frame_target) req n) /\
               long_enough (send (plain_interface wrong_frame_target) req n))
      by (intros req n; split; [split; reflexivity | right; simpl; lia]).
    assert (Hdata : forall req n,
               bytes (resp_data (send (plain_interface wrong_frame_target)
                                   req n)))
      by (intros req n; simpl; repeat constructor; lia).
    destruct (hex_and_raw_still_validate sample_lib
                (plain_interface wrong_frame_target) Hm Hopen Hclose Hgood
                Hdata) as [Hrg _].
    destruct (Hrg rg_opts_hex (repeat 0 128%nat) (Hbuf _) Hhex) as [Hst _].
    + split; [reflexivity | intros _; vm_compute; discriminate].
    + rewrite Hst. reflexivity.
  - assert (Hopen : 0 <= initiator_open_res
                           (plain_interface wrong_frame_target))
      by (simpl; lia).
    assert (Hclose : 0 <= initiator_close_res
                            (plain_interface wrong_frame_target))
      by (simpl; lia).
    assert (Hgood : forall req n,
               send_ok (send (plain_interface wrong_frame_target) req n) /\
               long_enough (send (plain_interface wrong_frame_target) req n))
      by (intros req n; split; [split; reflexivity | right; simpl; lia]).
    assert (Hdata : forall req n,
               bytes (resp_data (send (plain_interface wrong_frame_target)
                                   req n)))
      by (intros req n; simpl; repeat constructor; lia).
    destruct (hex_and_raw_still_validate sample_lib
                (plain_interface wrong_frame_target) Hm Hopen Hclose Hgood
                Hdata) as (_ & Hcg & _).
    destruct (Hcg cg_opts_hex (repeat 0 8%nat) (Hbuf _) Hhex') as [Hst _].
    + split; [reflexivity | intros _; vm_compute; discriminate].
    + rewrite Hst. reflexivity.
Defined.

(** ** smp_rep_general against the resolution of the specification *)

(** C1 (the code departs from the claim).  smp_rep_general looks the
    default length up whenever byte 3 is zero; it does not test the
    function result.  For the response 41 00 01 00 (function result 1,
    length 0) the specification does not consult the table and resolves
    four bytes, while [main] consults it and dumps 4 + 4 * 6 = 28
    bytes. *)
Theorem rep_general_lookup_ignores_function_result :
  (forall (L : smp_lib) (op : RepGeneral.opts) (resp : list Z),
      consults_table (out (RepGeneral.resolve_len L op resp : M Z Z))
      = (byte_at resp 3 =? 0)) /\
  (let tobj := plain_interface rg_error_target in
   let buf := repeat 0 128%nat in
   let resp := received tobj (RepGeneral.smp_req sample_lib)
                 RepGeneral.smp_resp_size buf in
   let r := RepGeneral.main sample_lib tobj rg_opts_hex buf in
   byte_at resp 2 = 1 /\
   spec_consults_table resp = false /\
   spec_resolved_len sample_lib resp 4 = 4 /\
   consults_table (fst r) = true /\
   hex_dump_len (fst r) = Some 28 /\
   snd r = 1).
Proof.
  split.
  - intros L op resp. apply (rep_general_resolve_len L (E:=Z)).
  - vm_compute. repeat split; reflexivity.
Qed.

(** C2 (the code departs from the claim).  smp_rep_general never cuts
    the length down to the number of bytes that the transport reports:
    its length is [4 + 4 * dwords] whatever that number is.  For a
    response that declares five dwords of which ten bytes arrived, the
    specification resolves ten bytes, while [main] dumps 24. *)
Theorem rep_general_length_not_clamped :
  (forall (L : smp_lib) (op : RepGeneral.opts) (resp : list Z),
      outcome (RepGeneral.resolve_len L op resp : M Z Z)
      = inr (4 + (if byte_at resp 3 =? 0
                  then (let d := def_resp_len_table L (byte_at resp 1) in
                        if d <? 0 then 0 else d)
                  else byte_at resp 3) * 4)) /\
  (let tobj := plain_interface rg_truncated_target in
   let buf := repeat 0 128%nat in
   let resp := received tobj (RepGeneral.smp_req sample_lib)
                 RepGeneral.smp_resp_size buf in
   let r := RepGeneral.main sample_lib tobj rg_opts_hex buf in
   act_response_len (send tobj (RepGeneral.smp_req sample_lib)
                          RepGeneral.smp_resp_size) = 10 /\
   spec_resolved_len sample_lib resp 10 = 10 /\
   hex_dump_len (fst r) = Some 24 /\
   snd r = 0).
Proof.
  split.
  - intros L op resp. apply (rep_general_resolve_len L (E:=Z)).
  - vm_compute. repeat split; reflexivity.
Qed.

(** ** The descriptors of REPORT BROADCAST *)

Lemma upto_succ (n : nat) :
  upto (Z.of_nat (S n)) = 0 :: map (fun i => i + 1) (upto (Z.of_nat n)).
Proof.
  unfold upto. rewrite !Nat2Z.id.
  change (seq 0 (S n)) with (0%nat :: seq 1 n).
  rewrite <- seq_shift. cbn [map]. rewrite !map_map.
  f_equal. apply map_ext. intros i. lia.
Qed.

Lemma length_upto (n : Z) : 0 <= n -> Z.of_nat (List.length (upto n)) = n.
Proof.
  intros Hn. unfold upto. rewrite length_map, length_seq. lia.
Qed.

Lemma flat_map_map {A B C} (g : B -> list C) (h : A -> B) (l : list A) :
  flat_map g (map h l) = flat_map (fun x => g (h x)) l.
Proof. induction l; cbn; [reflexivity | now f_equal]. Qed.

(** The loop over the descriptors visits the indices and the offsets of
    an arithmetic progression. *)
Lemma descriptor_loop_flat_map (op : RepBroadcast.opts) (resp : list Z)
    (bt_hdr bd_len : Z) (n : nat) (k bdp : Z) :
  RepBroadcast.descriptor_loop op resp bt_hdr bd_len n k bdp
  = flat_map (fun i => RepBroadcast.descriptor op resp bt_hdr bd_len
                         (k + i) (bdp + i * bd_len))
             (upto (Z.of_nat n)).
Proof.
  revert k bdp. induction n as [|n IH]; intros k bdp.
  - reflexivity.
  - rewrite upto_succ. cbn [RepBroadcast.descriptor_loop flat_map].
    rewrite IH. f_equal.
    + f_equal; lia.
    + rewrite flat_map_map.
      apply flat_map_ext. intros i. f_equal; lia.
Qed.

Lemma rep_broadcast_report (op : RepBroadcast.opts) (resp : list Z) :
  0 <= byte_at resp 11 ->
  RepBroadcast.report op resp
  = if byte_at resp 10 * 4 <? 8
    then (rb_header op resp
            ++ [Pr2serr "Unexpectedly low descriptor length: %d bytes\n"
                        [AInt (byte_at resp 10 * 4)]],
          inl (-1))
    else (rb_header op resp
            ++ rb_descriptors op resp (byte_at resp 10 * 4)
                 (byte_at resp 11),
          inr tt).
Proof.
  intros Hn. unfold RepBroadcast.report, rb_header, rb_descriptors.
  rewrite descriptor_loop_flat_map, Z2Nat.id by exact Hn.
  destruct (byte_at resp 10 * 4 <? 8);
    destruct (truthy (RepBroadcast.verbose op)
              || truthy (sg_get_unaligned_be16 resp 4));
    cbv beta iota zeta
        delta [bind ret when leave emit emits pr2serr printf fst snd];
    cbn [app]; rewrite ?app_nil_r; repeat f_equal.
  all: apply flat_map_ext; intros i; f_equal; lia.
Qed.

Lemma rep_broadcast_validate_ok (L : smp_lib) (op : RepBroadcast.opts)
    (resp : list Z) :
  header_valid (SMP_FN_REPORT_BROADCAST L) resp = true ->
  RepBroadcast.validate L op resp = ([], inr tt).
Proof.
  unfold header_valid. intros H.
  apply andb_prop in H. destruct H as [H H2].
  apply andb_prop in H. destruct H as [H0 H1].
  unfold RepBroadcast.validate. cbv zeta.
  rewrite rep_broadcast_req_fn, H0, H1. unfold truthy. rewrite H2.
  reflexivity.
Qed.

(** [main] of smp_rep_broadcast when neither --hex nor --raw is given and
    the header of the response is valid: the exchange, the length, and
    then the report. *)
Lemma rep_broadcast_body_report (L : smp_lib) (tobj : interface)
    (op : RepBroadcast.opts) (buf : list Z) :
  let req := RepBroadcast.build_req L op in
  let n := RepBroadcast.SMP_FN_REPORT_BROADCAST_RESP_LEN in
  let resp := received tobj req n buf in
  send_ok (send tobj req n) -> long_enough (send tobj req n) ->
  truthy (RepBroadcast.do_hex op) || RepBroadcast.do_raw op = false ->
  header_valid (SMP_FN_REPORT_BROADCAST L) resp = true ->
  RepBroadcast.main_body L tobj op buf
  = ((RepBroadcast.dump_req L op ++ [SendReq req n])
       ++ out (RepBroadcast.resolve_len L op resp
                 (act_response_len (send tobj req n)) : M Z Z)
       ++ out (RepBroadcast.report op resp),
     match outcome (RepBroadcast.report op resp) with
     | inl e => inl e
     | inr _ => inr 0
     end).
Proof.
  intros req n resp Hok Hlong Hplain Hvalid.
  set (act := act_response_len (send tobj req n)).
  pose proof (proj1 (rep_broadcast_resolve_len L (E:=Z) op resp act)) as Hlen.
  unfold RepBroadcast.main_body.
  rewrite (rep_broadcast_exchange_ok L tobj op buf Hok Hlong), bind_pair_inr.
  cbv beta zeta. cbn [fst snd]. fold req n. fold (received tobj req n buf).
  fold resp. fold act.
  rewrite (bind_inr _ _ _ Hlen), Hplain, bind_when_false.
  rewrite (rep_broadcast_validate_ok L op resp Hvalid), bind_pair_inr.
  cbn [out outcome fst snd app].
  destruct (RepBroadcast.report op resp) as [t [e | []]];
    [reflexivity|].
  rewrite bind_pair_inr. cbn [out outcome ret fst snd].
  now rewrite app_nil_r.
Qed.

(** C7, as the code has it.  For a response with a valid header, and
    without --hex and --raw, smp_rep_broadcast prints the descriptor
    length of byte 10 and the number of descriptors of byte 11.  When the
    stride (byte 10 times 4) is below 8 it then reports the low length and
    fails before any descriptor: [ret] is -1, so the exit status is
    [SMP_LIB_CAT_OTHER], the status of the failures that are not
    malformed responses.  Otherwise, when the descriptors that the header
    announces lie inside the response array of 1028 bytes (the code does
    not test that), it decodes the descriptors [0 .. num - 1], the one
    with index [k] at offset [12 + k * stride], and nothing else, and
    exits with 0. *)
Theorem report_broadcast_descriptors (L : smp_lib) (tobj : interface)
    (op : RepBroadcast.opts) (buf : list Z)
    (Hsize : Z.of_nat (List.length buf)
             = RepBroadcast.SMP_FN_REPORT_BROADCAST_RESP_LEN)
    (Hopen : 0 <= initiator_open_res tobj)
    (Hclose : 0 <= initiator_close_res tobj)
    (Hok : send_ok (send tobj (RepBroadcast.build_req L op)
                         RepBroadcast.SMP_FN_REPORT_BROADCAST_RESP_LEN))
    (Hlong : long_enough (send tobj (RepBroadcast.build_req L op)
                            RepBroadcast.SMP_FN_REPORT_BROADCAST_RESP_LEN))
    (Hplain : truthy (RepBroadcast.do_hex op) || RepBroadcast.do_raw op
              = false)
    (Hvalid : header_valid (SMP_FN_REPORT_BROADCAST L)
                (received tobj (RepBroadcast.build_req L op)
                   RepBroadcast.SMP_FN_REPORT_BROADCAST_RESP_LEN buf)
              = true)
    (Hnum : 0 <= byte_at (received tobj (RepBroadcast.build_req L op)
                            RepBroadcast.SMP_FN_REPORT_BROADCAST_RESP_LEN
                            buf) 11) :
  let req := RepBroadcast.build_req L op in
  let n := RepBroadcast.SMP_FN_REPORT_BROADCAST_RESP_LEN in
  let resp := received tobj req n buf in
  let stride := byte_at resp 10 * 4 in
  let num := byte_at resp 11 in
  let before := (RepBroadcast.dump_req L op ++ [SendReq req n])
                ++ out (RepBroadcast.resolve_len L op resp
                          (act_response_len (send tobj req n)) : M Z Z)
                ++ rb_header op resp in
  (stride < 8 ->
   RepBroadcast.main L tobj op buf
   = ((before
         ++ [Pr2serr "Unexpectedly low descriptor length: %d bytes\n"
                     [AInt stride]])
        ++ [CloseTarget]
        ++ (if truthy (RepBroadcast.verbose op)
               && truthy (SMP_LIB_CAT_OTHER L)
            then [Pr2serr "Exit status %d indicates error detected\n"
                          [AInt (SMP_LIB_CAT_OTHER L)]]
            else []),
      SMP_LIB_CAT_OTHER L)) /\
  (8 <= stride -> descriptors_inside resp ->
   RepBroadcast.main L tobj op buf
   = ((before ++ rb_descriptors op resp stride num) ++ [CloseTarget], 0)) /\
  Z.of_nat (List.length (upto num)) = num.
Proof.
  intros req n resp stride num before.
  assert (Ho : (initiator_open_res tobj <? 0) = false) by lia.
  assert (Hc : (initiator_close_res tobj <? 0) = false) by lia.
  pose proof (rep_broadcast_body_report L tobj op buf Hok Hlong Hplain Hvalid)
    as Hbody.
  cbv zeta in Hbody. fold req n resp in Hbody.
  rewrite (rep_broadcast_report op resp Hnum) in Hbody.
  fold stride num in Hbody.
  split; [|split].
  - intros Hlow. unfold RepBroadcast.main, RepBroadcast.err_out.
    rewrite Ho, Hbody.
    replace (stride <? 8) with true by lia.
    cbn [out outcome fst snd run]. rewrite Hc. cbn [andb app].
    change (-1 <? 0) with true. cbv iota.
    unfold before. rewrite <- !app_assoc. reflexivity.
  - intros Hhigh _. unfold RepBroadcast.main, RepBroadcast.err_out.
    rewrite Ho, Hbody.
    replace (stride <? 8) with false by lia.
    cbn [out outcome fst snd run]. rewrite Hc. cbn [andb app].
    change (0 <? 0) with false. cbv iota.
    change (truthy 0) with false. rewrite andb_false_r.
    unfold before. rewrite <- !app_assoc, ?app_nil_r. reflexivity.
  - apply length_upto. exact Hnum.
Qed.

Lemma report_broadcast_descriptors_witness :
  let tobj := plain_interface rb_two_target in
  let buf := repeat 0 1028%nat in
  let resp := received tobj (RepBroadcast.build_req sample_lib rb_opts_plain)
                RepBroadcast.SMP_FN_REPORT_BROADCAST_RESP_LEN buf in
  snd (RepBroadcast.main sample_lib tobj rb_opts_plain buf) = 0 /\
  rb_descriptors rb_opts_plain resp 8 2
  = [Printf "   Descriptor %d:\n" [AInt 1];
     Printf "     phy id: %d\n" [AInt 5];
     Printf "     broadcast reason: %d\n" [AInt 1];
     Printf "     broadcast count: %d\n" [AInt 9];
     Printf "   Descriptor %d:\n" [AInt 2];
     Printf "     broadcast type: %d [%s]\n"
            [AInt 4; AStr "Broadcast (Expander)"];
     Printf "     no specific phy id\n" [];
     Printf "     broadcast reason: %d\n" [AInt 2];
     Printf "     broadcast count: %d\n" [AInt 256]].
Proof.
  intros tobj buf resp.
  assert (Hopen : 0 <= initiator_open_res tobj) by (simpl; lia).
  assert (Hclose : 0 <= initiator_close_res tobj) by (simpl; lia).
  assert (Hok : send_ok (send tobj
                           (RepBroadcast.build_req sample_lib rb_opts_plain)
                           RepBroadcast.SMP_FN_REPORT_BROADCAST_RESP_LEN))
    by (split; reflexivity).
  assert (Hlong : long_enough
                    (send tobj
                       (RepBroadcast.build_req sample_lib rb_opts_plain)
                       RepBroadcast.SMP_FN_REPORT_BROADCAST_RESP_LEN))
    by (right; simpl; lia).
  assert (Hplain : truthy (RepBroadcast.do_hex rb_opts_plain)
                   || RepBroadcast.do_raw rb_opts_plain = false)
    by reflexivity.
  assert (Hvalid : header_valid (SMP_FN_REPORT_BROADCAST sample_lib) resp
                   = true) by (vm_compute; reflexivity).
  assert (Hnum : 0 <= byte_at resp 11) by (vm_compute; discriminate).
  assert (Hsize : Z.of_nat (List.length buf)
                  = RepBroadcast.SMP_FN_REPORT_BROADCAST_RESP_LEN)
    by (unfold buf; rewrite repeat_length; reflexivity).
  destruct (report_broadcast_descriptors sample_lib tobj rb_opts_plain buf
              Hsize Hopen Hclose Hok Hlong Hplain Hvalid Hnum)
    as (_ & Hhigh & _).
  split.
  - rewrite Hhigh;
      [reflexivity | vm_compute; discriminate | vm_compute; discriminate].
  - vm_compute. reflexivity.
Defined.

(** The claim C7 as it is stated fails: here the stride is four bytes and
    the header is valid, and the exit status is [SMP_LIB_CAT_OTHER] (99),
    not the status of a malformed response (97). *)
Lemma report_broadcast_low_stride_not_malformed :
  let tobj := plain_interface rb_low_stride_target in
  let buf := repeat 0 1028%nat in
  let resp := received tobj (RepBroadcast.build_req sample_lib rb_opts_plain)
                RepBroadcast.SMP_FN_REPORT_BROADCAST_RESP_LEN buf in
  ~ (byte_at resp 10 * 4 < 8 ->
     snd (RepBroadcast.main sample_lib tobj rb_opts_plain buf)
     = SMP_LIB_CAT_MALFORMED sample_lib).
Proof.
  intros tobj buf resp H.
  assert (Hlow : byte_at resp 10 * 4 < 8) by (vm_compute; reflexivity).
  specialize (H Hlow). vm_compute in H. discriminate H.
Qed.

(** ** The enclosure logical identifier of REPORT GENERAL *)

Lemma truthy_true (x : Z) : x <> 0 -> truthy x = true.
Proof.
  intros H. unfold truthy. now replace (x =? 0) with false by lia.
Qed.

Lemma truthy_false (x : Z) : x = 0 -> truthy x = false.
Proof. intros ->. reflexivity. Qed.








(** ** The response buffer of [do_discover] *)

Lemma memset0_full (buf : list Z) (n : Z) :
  Z.of_nat (List.length buf) = n -> memset0 buf n = repeat 0 (Z.to_nat n).
Proof.
  intros H. unfold memset0.
  assert (Hn : Z.to_nat n = List.length buf) by lia.
  rewrite Hn, Nat.min_id, skipn_all. apply app_nil_r.
Qed.

Lemma byte_at_repeat0 (n : nat) (i : Z) : byte_at (repeat 0 n) i = 0.
Proof.
  unfold byte_at. destruct (i <? 0); [reflexivity|].
  destruct (nth_in_or_default (Z.to_nat i) (repeat 0 n) 0) as [Hin | ->];
    [|reflexivity].
  now apply repeat_spec in Hin.
Qed.

(** A buffer of zeros under the bytes that the transport stored: the
    bytes beyond them read as zero. *)
Lemma write_resp_zeros (n : nat) (data : list Z) :
  write_resp (repeat 0 n) data
  = firstn n data ++ repeat 0 (n - List.length data).
Proof.
  unfold write_resp. rewrite repeat_length, firstn_app.
  f_equal.
  assert (Hskip : skipn (List.length data) (repeat 0 n)
                  = repeat 0 (n - List.length data)).
  { generalize (List.length data) as m. clear data.
    induction n as [|n IH]; intros m.
    - now rewrite skipn_nil.
    - destruct m as [|m]; [reflexivity|]. cbn [skipn repeat]. apply IH. }
  rewrite Hskip. apply firstn_all2. rewrite repeat_length. lia.
Qed.

Lemma byte_at_beyond (l1 : list Z) (m : nat) (i : Z) :
  Z.of_nat (List.length l1) <= i -> byte_at (l1 ++ repeat 0 m) i = 0.
Proof.
  intros Hi. unfold byte_at.
  replace (i <? 0) with false by lia.
  rewrite app_nth2 by lia.
  destruct (nth_in_or_default (Z.to_nat i - List.length l1) (repeat 0 m) 0)
    as [Hin | ->]; [|reflexivity].
  now apply repeat_spec in Hin.
Qed.

(** On every path through [do_discover], the buffer that the caller gets
    back is the cleared buffer with the delivered bytes on top. *)
Lemma do_discover_buffer (L : smp_lib) (tobj : interface) (k : Z)
    (buf : list Z) (n : Z) (silence : bool) (op : Discover.opts_t) :
  snd (snd (Discover.do_discover L tobj k buf n silence op))
  = received tobj (Discover.build_req L k n op) n (memset0 buf n).
Proof.
  unfold Discover.do_discover, Discover.do_discover_body, Discover.exchange,
    Discover.hex_or_raw, Discover.validate, Discover.resolve_len,
    smp_get_func_def_resp_len, received.
  cbv zeta.
  set (req := Discover.build_req L k n op).
  set (rr := send tobj req n).
  set (resp := write_resp (memset0 buf n) (firstn (Z.to_nat n) (resp_data rr))).
  rewrite bind_emits, bind_send_req. fold rr. fold resp.
  cbn [fst snd].
  repeat (cbv beta iota zeta
              delta [bind ret when leave emit emits pr2serr printf out
                     outcome fst snd run];
          match goal with
          | |- context [if ?c then _ else _] => destruct c
          end);
    cbv beta iota zeta
        delta [bind ret when leave emit emits pr2serr printf out
               outcome fst snd run dStrRaw];
    reflexivity.
Qed.

(** C9.  [do_discover] clears the response buffer before the exchange.
    For a buffer of [max_resp_len] bytes, what the caller gets back for
    decoding is the delivered bytes followed by zeros, so every byte at or
    beyond the delivered data reads as zero; and nothing that
    [do_discover] or [do_single] prints or returns depends on what the
    buffer held before. *)
Theorem do_discover_clears_buffer (L : smp_lib) (tobj : interface) (k : Z)
    (buf : list Z) (n : Z) (silence : bool) (op : Discover.opts_t)
    (Hlen : Z.of_nat (List.length buf) = n) :
  let written := firstn (Z.to_nat n)
                   (resp_data (send tobj (Discover.build_req L k n op) n)) in
  let rp := snd (snd (Discover.do_discover L tobj k buf n silence op)) in
  rp = written ++ repeat 0 (Z.to_nat n - List.length written) /\
  (forall i, Z.of_nat (List.length written) <= i -> byte_at rp i = 0) /\
  (forall buf',
      Z.of_nat (List.length buf') = n ->
      Discover.do_discover L tobj k buf' n silence op
      = Discover.do_discover L tobj k buf n silence op) /\
  (forall buf',
      n = Discover.SMP_FN_DISCOVER_RESP_LEN ->
      Z.of_nat (List.length buf') = n ->
      Discover.do_single L tobj op (Some buf')
      = Discover.do_single L tobj op (Some buf)).
Proof.
  intros written rp.
  assert (Hrp : rp = written ++ repeat 0 (Z.to_nat n - List.length written)).
  { unfold rp. rewrite do_discover_buffer. unfold received.
    rewrite (memset0_full buf n Hlen), write_resp_zeros.
    fold written. f_equal.
    apply firstn_all2. unfold written. rewrite length_firstn. lia. }
  assert (Hsame : forall k' silence' buf',
             Z.of_nat (List.length buf') = n ->
             Discover.do_discover L tobj k' buf' n silence' op
             = Discover.do_discover L tobj k' buf n silence' op).
  { intros k' silence' buf' Hlen'.
    unfold Discover.do_discover, Discover.do_discover_body,
      Discover.exchange.
    cbv zeta.
    now rewrite (memset0_full buf n Hlen), (memset0_full buf' n Hlen'). }
  split; [exact Hrp | split; [|split]].
  - intros i Hi. rewrite Hrp. now apply byte_at_beyond.
  - apply Hsame.
  - intros buf' -> Hlen'.
    unfold Discover.do_single, Discover.do_single_body.
    now rewrite (Hsame (Discover.phy_id op) false buf' Hlen').
Qed.

Lemma do_discover_clears_buffer_witness :
  byte_at (snd (snd (Discover.do_discover sample_lib
                       (plain_interface enum_target) 0
                       (repeat 0xee 124%nat) 124 true disc_opts_plain)))
          100 = 0.
Proof.
  assert (Hlen : Z.of_nat (List.length (repeat 0xee 124%nat)) = 124)
    by reflexivity.
  apply (proj1 (proj2 (do_discover_clears_buffer sample_lib
                         (plain_interface enum_target) 0
                         (repeat 0xee 124%nat) 124 true disc_opts_plain
                         Hlen))).
  vm_compute. discriminate.
Defined.

(** ** The enumeration of phys *)

Lemma ret_of_len_result (code : Z) :
  0 < code -> Discover.ret_of_len (-4 - code) = code.
Proof. apply ret_of_len_malformed. Qed.

(** A response with the function result [code], not zero, makes
    [do_discover] return [-4 - code], with and without --hex and --raw. *)
Lemma do_discover_function_result (L : smp_lib) (tobj : interface)
    (op : Discover.opts_t) (k : Z) (buf : list Z) (silence : bool)
    (code : Z) :
  code <> 0 ->
  discover_result_is L tobj op k buf code ->
  exists t,
    Discover.do_discover L tobj k buf Discover.SMP_FN_DISCOVER_RESP_LEN
      silence op
    = (t, (-4 - code, discover_answer L tobj op k buf)).
Proof.
  intros Hcode (Hok & Hlong & H0 & H1 & H2).
  set (n := Discover.SMP_FN_DISCOVER_RESP_LEN) in *.
  set (req := Discover.build_req L k n op) in *.
  set (resp := discover_answer L tobj op k buf) in *.
  set (act := act_response_len (send tobj req n)).
  pose proof (proj1 (do_discover_resolve_len L (E:=Z * list Z) op resp act))
    as Hlen.
  assert (Hc0 : (SMP_FRAME_TYPE_RESP =? byte_at resp 0) = true)
    by (rewrite H0; apply Z.eqb_refl).
  assert (Hc1 : (byte_at resp 1 =? byte_at req 1) = true).
  { unfold req. rewrite discover_req_fn, H1. apply Z.eqb_refl. }
  assert (Hc2 : truthy (byte_at resp 2) = true)
    by (apply truthy_true; now rewrite H2).
  unfold Discover.do_discover, Discover.do_discover_body.
  rewrite (do_discover_exchange_ok L tobj op k buf n Hok Hlong),
    bind_pair_inr.
  cbv beta zeta. cbn [fst snd]. fold req.
  fold (received tobj req n (memset0 buf n)).
  change (received tobj req n (memset0 buf n)) with resp. fold act.
  rewrite (bind_inr _ _ _ Hlen).
  destruct (truthy (Discover.do_hex op) || Discover.do_raw op); eexists.
  - rewrite (bind_when_true_inl _ _ (-4 - code, resp)).
    + cbn [run out outcome fst snd]. reflexivity.
    + unfold Discover.hex_or_raw. cbv zeta. fold req.
      rewrite Hc0, Hc1, Hc2, H2. cbn [negb].
      rewrite !outcome_bind, outcome_dump.
      cbn [when ret outcome snd].
      rewrite !outcome_bind, outcome_when.
      destruct (truthy (Discover.verbose op)); reflexivity.
  - rewrite bind_when_false.
    rewrite (bind_inl _ _ (-4 - code, resp)).
    + cbn [run out outcome fst snd]. reflexivity.
    + unfold Discover.validate. cbv zeta. fold req.
      rewrite Hc0, Hc1, Hc2, H2. cbn [negb].
      rewrite !outcome_bind. cbn [when ret outcome snd].
      rewrite !outcome_bind, outcome_when.
      destruct ((Discover.verbose op >? 0) || negb silence); reflexivity.
Qed.

Lemma bind_when_true_leave {E B} (e : E) (f : unit -> M E B) :
  bind (when true (leave e)) f = ([], inl e).
Proof. reflexivity. Qed.








(** ** The length gates of the DISCOVER report *)

Lemma ends_bind {E B} (m : M E unit) (f : unit -> M E B) (b : B) :
  outcome m = inr tt -> outcome (f tt) = inr b ->
  outcome (bind m f) = inr b.
Proof. intros H1 H2. now rewrite outcome_bind, H1. Qed.

Lemma ends_when {E} (c : bool) (m : M E unit) :
  outcome m = inr tt -> outcome (when c m) = inr tt.
Proof. now destruct c. Qed.

(** Shows that a computation without [leave] runs to its end. *)
Ltac runs_to_end :=
  repeat first
    [ reflexivity
    | apply ends_when
    | apply ends_bind
    | progress cbv beta ].

Lemma ends_if {E A} (c : bool) (m1 m2 : M E A) (a : A) :
  outcome m1 = inr a -> outcome m2 = inr a ->
  outcome (if c then m1 else m2) = inr a.
Proof. now destruct c. Qed.

Lemma phy_cap_line_intro (fmt : string) (args : list arg) :
  existsb (String.eqb fmt) phy_cap_formats = true ->
  is_phy_cap_line (Printf fmt args).
Proof.
  intros H. apply existsb_exists in H. destruct H as (f & Hin & Heq).
  apply String.eqb_eq in Heq. subst f. exact Hin.
Qed.

Ltac phy_cap_lines :=
  repeat (apply Forall_cons;
          [apply phy_cap_line_intro; vm_compute; reflexivity|]);
  try apply Forall_nil.

Lemma decode_phy_cap_step_lines (op : Discover.opts_t) (g15_val : Z)
    (st : Z * bool * trace) (k : Z) :
  Forall is_phy_cap_line (snd st) ->
  Forall is_phy_cap_line (snd (Discover.decode_phy_cap_step op g15_val st k)).
Proof.
  destruct st as [[skip prev_nl] t]. cbn [snd]. intros Ht.
  unfold Discover.decode_phy_cap_step.
  repeat match goal with
         | |- context [if ?c then _ else _] => destruct c
         end.
  all: cbn [snd].
  all: repeat (apply Forall_app; split); try exact Ht.
  all: phy_cap_lines.
Qed.

Lemma decode_phy_cap_lines (p_cap : Z) (op : Discover.opts_t) :
  Forall is_phy_cap_line (Discover.decode_phy_cap p_cap op).
Proof.
  unfold Discover.decode_phy_cap. cbv zeta.
  set (g15 := Z.land (Z.shiftr p_cap 14) 1023).
  set (t0 := [Printf _ _]).
  assert (H0 : Forall is_phy_cap_line (snd ((0, true, t0) : Z * bool * trace))).
  { cbn [snd]. unfold t0. phy_cap_lines. }
  revert H0. generalize ((0, true, t0) : Z * bool * trace).
  generalize [4; 3; 2; 1; 0].
  intros ks. induction ks as [|k ks IH]; intros st Hst.
  - cbn [fold_left]. destruct st as [[skip prev_nl] t]. cbn [snd] in Hst.
    repeat (apply Forall_app; split); try exact Hst.
    + destruct (negb prev_nl); phy_cap_lines.
    + phy_cap_lines.
  - cbn [fold_left]. apply IH. now apply decode_phy_cap_step_lines.
Qed.

(** Every line of [decode_phy_cap] has the threshold 75. *)
Lemma phy_cap_line_gate (op : Discover.opts_t) (ev : event) :
  is_phy_cap_line ev ->
  exists fmt args, ev = Printf fmt args /\ min_len_gate op fmt = Some 75.
Proof.
  destruct ev as [fmt args | | | | |]; cbn [is_phy_cap_line]; try tauto.
  intros Hin. exists fmt, args. split; [reflexivity|].
  unfold phy_cap_formats in Hin. cbn [In] in Hin.
  repeat (destruct Hin as [<- | Hin]; [vm_compute; reflexivity|]).
  destruct Hin.
Qed.

Lemma decode_phy_cap_gate_ok (op : Discover.opts_t) (len p_cap : Z) :
  75 < len -> Forall (gate_ok op len) (Discover.decode_phy_cap p_cap op).
Proof.
  intros Hlen. eapply Forall_impl; [|apply decode_phy_cap_lines].
  intros ev Hev. destruct (phy_cap_line_gate op ev Hev) as (f & a & -> & Hg).
  cbn [gate_ok]. unfold fmt_ok. now rewrite Hg.
Qed.

(** Closes [gate_ok op len (Printf fmt args)] for a format [fmt] that is
    written out: without a threshold there is nothing to show; with one,
    the tests of [len] that the line is under have to provide it. *)
(** Turns the tests that a line of [print_single] is under into facts
    about [len]. *)
Ltac gate_hyps :=
  repeat match goal with a : unit |- _ => destruct a end;
  repeat match goal with
         | H : outcome (when ?c (leave _)) = inr _ |- _ =>
           destruct c eqn:?; [discriminate H | clear H]
         | H : outcome (when _ (bind _ (fun _ => leave _))) = inr _
           |- _ => apply outcome_when_leave in H
         | H : outcome _ = inr _ |- _ => clear H
         end;
  repeat match goal with
         | H : (_ && _) = true |- _ =>
           apply andb_prop in H; destruct H
         end.

Ltac gate_leaf :=
  lazymatch goal with
  | |- gate_ok ?op ?len (Printf ?f ?a) =>
    change (fmt_ok op len f); unfold fmt_ok, min_len_gate;
    let b := eval vm_compute in (String.eqb f "  zone group: %d\n") in
    change (String.eqb f "  zone group: %d\n") with b; cbv iota;
    try (let g := eval vm_compute in (lookup_gate f discover_gates) in
         change (lookup_gate f discover_gates) with g; cbv iota);
    first
      [ exact I
      | gate_hyps;
        repeat match goal with
               | |- context [if ?c then _ else _] => destruct c eqn:?
               end;
        try congruence; lia ]
  | |- Forall (gate_ok _ _) (Discover.decode_phy_cap _ _) =>
    apply decode_phy_cap_gate_ok; gate_hyps; lia
  | |- gate_ok _ _ _ => exact I
  end.

(** The line of the SAS address passes when the address was fetched,
    and shows 0 when it was not. *)
Ltac gate_or_unread_leaf :=
  lazymatch goal with
  | |- gate_ok_or_unread _ ?len (Printf "  SAS address: 0x%lx\n" _) =>
    destruct (len >? 23) eqn:?; [ left; gate_leaf | right; reflexivity ]
  | |- Forall (gate_ok_or_unread _ _) (Discover.decode_phy_cap _ _) =>
    eapply Forall_impl; [ intros ? ?; left; eassumption | gate_leaf ]
  | |- gate_ok_or_unread _ _ _ => left; gate_leaf
  end.

Lemma print_single_gated (L : smp_lib) (rp : list Z) (len : Z) (just1 : bool)
    (op : Discover.opts_t) :
  all_events (gate_ok_or_unread op len)
             (Discover.print_single L rp len just1 op).
Proof.
  unfold Discover.print_single.
  all_ev ltac:(idtac; gate_or_unread_leaf).
Qed.

Lemma gate_ok_of_fetched (op : Discover.opts_t) (len : Z) (ev : event) :
  23 < len -> gate_ok_or_unread op len ev -> gate_ok op len ev.
Proof.
  intros Hlen [H | ->]; [exact H |].
  cbn [gate_ok sas_address_unread]. unfold fmt_ok.
  change (min_len_gate op "  SAS address: 0x%lx\n") with (Some 23).
  exact Hlen.
Qed.

(** *** The lines that are printed whatever the length *)

Lemma in_bind_here {E A} (ev : event) (f : unit -> M E A) :
  In ev (out (bind (emit ev) f)).
Proof. rewrite out_bind. now left. Qed.

Lemma in_bind_first {E A B} (ev : event) (m : M E A) (f : A -> M E B) :
  In ev (out m) -> In ev (out (bind m f)).
Proof. intros H. rewrite out_bind. apply in_or_app. now left. Qed.

Lemma in_bind_later {E A B} (ev : event) (m : M E A) (f : A -> M E B)
    (a : A) :
  outcome m = inr a -> In ev (out (f a)) -> In ev (out (bind m f)).
Proof.
  intros Ho H. rewrite out_bind, Ho. apply in_or_app. now right.
Qed.

Lemma in_emit {E} (ev : event) : In ev (out (emit ev : M E unit)).
Proof. now left. Qed.

Lemma in_when_true {E} (ev : event) (c : bool) (m : M E unit) :
  c = true -> In ev (out m) -> In ev (out (when c m)).
Proof. now intros ->. Qed.

Lemma prints_intro (fmt : string) (args : list arg) (t : trace) :
  In (Printf fmt args) t -> prints fmt t = true.
Proof.
  intros H. apply existsb_exists. exists (Printf fmt args).
  split; [exact H | apply String.eqb_refl].
Qed.

(** A computation of [printf]s, [when]s and [if]s without exits runs to
    its end. *)
Ltac runs_on :=
  repeat first
    [ reflexivity
    | apply ends_when
    | apply ends_bind
    | apply ends_if
    | progress cbv beta ].

(** Finds the [printf] of an event in a computation, past the parts
    that run to their end. *)
Ltac find_line given :=
  cbv beta;
  first
    [ apply in_bind_here
    | apply in_emit
    | apply in_when_true; [ given | find_line given ]
    | apply in_bind_first; find_line given
    | eapply in_bind_later; [ solve [runs_on] | find_line given ] ].

Lemma print_single_prints (L : smp_lib) (rp : list Z) (len : Z)
    (just1 : bool) (op : Discover.opts_t) :
  stops_at_device_type op rp = false ->
  In (Printf "  SAS address: 0x%lx\n"
             [AInt (if len >? 23 then sg_get_unaligned_be64 rp 16 else 0)])
     (out (Discover.print_single L rp len just1 op)) /\
  Forall (fun fmt =>
            prints fmt (out (Discover.print_single L rp len just1 op)) = true)
         discover_always /\
  (Discover.do_brief op = 0 ->
   Forall (fun fmt =>
             prints fmt (out (Discover.print_single L rp len just1 op))
             = true)
          discover_always_plain).
Proof.
  unfold stops_at_device_type. intros Hstop.
  unfold Discover.print_single. cbv zeta. rewrite Hstop.
  unfold printf.
  split; [| split].
  - find_line ltac:(idtac; fail).
  - repeat apply Forall_cons; try apply Forall_nil.
    all: eapply prints_intro; find_line ltac:(idtac; fail).
  - intros Hb.
    assert (Hplain : (0 =? Discover.do_brief op) = true) by lia.
    repeat apply Forall_cons; try apply Forall_nil.
    all: eapply prints_intro; find_line ltac:(idtac; exact Hplain).
Qed.

Section Shortened.
Context {E : Type} (keep : event -> bool).

Lemma shortened_ret {A} (a : A) : shortened keep (ret a : M E A) (ret a).
Proof. now split. Qed.

Lemma shortened_leave {A} (e : E) :
  shortened keep (leave e : M E A) (leave e).
Proof. now split. Qed.

Lemma shortened_bind {A B} (m m' : M E A) (f f' : A -> M E B) :
  shortened keep m m' -> (forall a, shortened keep (f a) (f' a)) ->
  shortened keep (bind m f) (bind m' f').
Proof.
  intros [Ho Ht] Hf. split.
  - rewrite !outcome_bind, Ho. destruct (outcome m'); [reflexivity|].
    apply Hf.
  - rewrite !out_bind, Ho, filter_app, Ht.
    destruct (outcome m'); [reflexivity|]. f_equal. apply Hf.
Qed.

Lemma shortened_if {A} (c : bool) (m1 m1' m2 m2' : M E A) :
  shortened keep m1 m1' -> shortened keep m2 m2' ->
  shortened keep (if c then m1 else m2) (if c then m1' else m2').
Proof. now destruct c. Qed.

Lemma shortened_emit (ev : event) :
  keep ev = true -> shortened keep (emit ev : M E unit) (emit ev).
Proof. intros H. split; [reflexivity|]. cbn. now rewrite H. Qed.

Lemma shortened_emits (t : trace) :
  Forall (fun ev => keep ev = true) t ->
  shortened keep (emits t : M E unit) (emits t).
Proof.
  intros H. split; [reflexivity|]. cbn.
  induction H as [|ev t Hev _ IH]; cbn; [reflexivity|].
  rewrite Hev. now f_equal.
Qed.

Lemma shortened_none (m' : M E unit) :
  suppressed keep m' -> shortened keep (ret tt) m'.
Proof. intros [Ho Ht]. split; cbn; congruence. Qed.

Lemma suppressed_ret : suppressed keep (ret tt : M E unit).
Proof. now split. Qed.

Lemma suppressed_bind (m' : M E unit) (f' : unit -> M E unit) :
  suppressed keep m' -> suppressed keep (f' tt) ->
  suppressed keep (bind m' f').
Proof.
  intros [Ho Ht] [Ho' Ht']. split.
  - now rewrite outcome_bind, Ho.
  - now rewrite out_bind, Ho, filter_app, Ht, Ht'.
Qed.

Lemma suppressed_if (c : bool) (m1 m2 : M E unit) :
  suppressed keep m1 -> suppressed keep m2 ->
  suppressed keep (if c then m1 else m2).
Proof. now destruct c. Qed.

Lemma suppressed_emit (ev : event) :
  keep ev = false -> suppressed keep (emit ev : M E unit).
Proof. intros H. split; [reflexivity|]. cbn. now rewrite H. Qed.

Lemma suppressed_emits (t : trace) :
  Forall (fun ev => keep ev = false) t -> suppressed keep (emits t : M E unit).
Proof.
  intros H. split; [reflexivity|]. cbn.
  induction H as [|ev t Hev _ IH]; cbn; [reflexivity|]. now rewrite Hev.
Qed.

Lemma suppressed_filter (m' : M E unit) :
  suppressed keep m' -> filter keep (out m') = [].
Proof. now intros [_ H]. Qed.

Lemma same_output_shortened {A} (m m' : M E A) :
  shortened keep m m' -> same_output keep m m'.
Proof. now intros [_ H]. Qed.

Lemma same_output_bind {A B} (m m' : M E A) (f f' : A -> M E B) :
  shortened keep m m' -> (forall a, same_output keep (f a) (f' a)) ->
  same_output keep (bind m f) (bind m' f').
Proof.
  intros [Ho Ht] Hf. unfold same_output.
  rewrite !out_bind, Ho, filter_app, Ht.
  destruct (outcome m'); [reflexivity|]. f_equal. apply Hf.
Qed.

(** Both computations stop at [m]. *)
Lemma same_output_bind_left {A B} (m m' : M E A) (f f' : A -> M E B)
    (e : E) :
  shortened keep m m' -> outcome m' = inl e ->
  same_output keep (bind m f) (bind m' f').
Proof.
  intros [Ho Ht] He. unfold same_output.
  now rewrite !out_bind, Ho, He, !app_nil_r.
Qed.

(** The short computation stops at [m]; the long one goes on, and
    nothing of what follows passes [keep]. *)
Lemma same_output_bind_cut {B} (m m' : M E unit) (f f' : unit -> M E B)
    (e : E) :
  same_output keep m m' -> outcome m = inl e ->
  filter keep (out (f' tt)) = [] ->
  same_output keep (bind m f) (bind m' f').
Proof.
  unfold same_output. intros Ht He Hf.
  rewrite !out_bind, He, filter_app, <- Ht.
  destruct (outcome m') as [|[]]; [reflexivity|]. now rewrite Hf.
Qed.

Lemma same_output_leave_ret {A} (e : E) (a : A) :
  same_output keep (leave e : M E A) (ret a).
Proof. reflexivity. Qed.

Lemma outcome_emit_then {A} (ev : event) (f : unit -> M E A) :
  outcome (bind (emit ev) f) = outcome (f tt).
Proof. now rewrite outcome_bind. Qed.

Lemma outcome_leave_then {A B} (e : E) (f : A -> M E B) :
  outcome (bind (leave e) f) = inl e.
Proof. reflexivity. Qed.

Lemma outcome_bind_leave (m : M E unit) (e : E) :
  outcome m = inr tt -> outcome (bind m (fun _ => leave e : M E unit)) = inl e.
Proof. intros H. now rewrite outcome_bind, H. Qed.

End Shortened.

(** The lines of [decode_phy_cap] pass for the lengths above 75. *)
Lemma decode_phy_cap_passes (op : Discover.opts_t) (len p_cap : Z) :
  Forall (fun ev => passes_gate op len ev = (75 <? len))
         (Discover.decode_phy_cap p_cap op).
Proof.
  eapply Forall_impl; [|apply decode_phy_cap_lines].
  intros ev Hev. destruct (phy_cap_line_gate op ev Hev) as (f & a & -> & Hg).
  cbn [passes_gate]. unfold fmt_passes. now rewrite Hg.
Qed.

Lemma decode_phy_cap_kept (op : Discover.opts_t) (len p_cap : Z) :
  75 < len ->
  Forall (fun ev => passes_gate op len ev = true)
         (Discover.decode_phy_cap p_cap op).
Proof.
  intros H. eapply Forall_impl; [|apply decode_phy_cap_passes].
  cbn beta. intros ev ->. lia.
Qed.

Lemma decode_phy_cap_dropped (op : Discover.opts_t) (len p_cap : Z) :
  len <= 75 ->
  Forall (fun ev => passes_gate op len ev = false)
         (Discover.decode_phy_cap p_cap op).
Proof.
  intros H. eapply Forall_impl; [|apply decode_phy_cap_passes].
  cbn beta. intros ev ->. lia.
Qed.

(** Decides [passes_gate op len] of a line whose format is written out,
    from what the context knows of [len] and of --brief. *)
Ltac gate_len :=
  lazymatch goal with
  | |- passes_gate ?op ?len (Printf ?f ?a) = _ =>
    unfold passes_gate, fmt_passes, min_len_gate;
    let b := eval vm_compute in (String.eqb f "  zone group: %d\n") in
    change (String.eqb f "  zone group: %d\n") with b; cbv iota;
    try (let g := eval vm_compute in (lookup_gate f discover_gates) in
         change (lookup_gate f discover_gates) with g; cbv iota);
    try match goal with
        | H : truthy (Discover.do_brief _) = _ |- _ => rewrite H
        end;
    first [ reflexivity | lia ]
  end.

(** The three tactics below follow the structure of two computations
    whose [when]s have been unfolded. *)
Ltac suppressed_run :=
  repeat first
    [ apply suppressed_ret
    | apply suppressed_bind
    | apply suppressed_if
    | apply suppressed_emit; gate_len
    | apply suppressed_emits; apply decode_phy_cap_dropped; lia
    | progress cbv beta ].

Ltac shortened_run :=
  repeat first
    [ apply shortened_leave
    | apply shortened_ret
    | apply shortened_bind; [ | intros ? ]
    | apply shortened_if
    | apply shortened_emit; gate_len
    | apply shortened_emits; apply decode_phy_cap_kept; lia
    | apply shortened_none; solve [suppressed_run]
    | progress cbv beta ].

Ltac ends_here :=
  lazymatch goal with
  | |- outcome (if ?c then _ else _) = _ => destruct c; ends_here
  | |- _ => reflexivity
  end.

Ltac leaves_here :=
  first [ apply outcome_leave_then
        | apply outcome_bind_leave; ends_here
        | rewrite outcome_emit_then; cbv beta; leaves_here
        | reflexivity ].

Ltac same_output_run :=
  cbv beta;
  first
    [ eapply same_output_bind_left; [ | leaves_here ]; solve [shortened_run]
    | apply same_output_bind;
      [ solve [shortened_run] | intros ?; same_output_run ]
    | eapply same_output_bind_cut;
      [ same_output_run
      | leaves_here
      | apply suppressed_filter; solve [suppressed_run] ]
    | apply same_output_leave_ret
    | apply same_output_shortened; solve [shortened_run] ].

(** The report for a length of at most 59 against the report for a
    length of at least 76: both run to the same end. *)
Lemma print_single_shortened (L : smp_lib) (rp : list Z) (len full : Z)
    (just1 : bool) (op : Discover.opts_t) :
  23 < len <= 59 -> 76 <= full ->
  shortened (passes_gate op len)
            (Discover.print_single L rp len just1 op)
            (Discover.print_single L rp full just1 op).
Proof.
  intros Hlen Hfull.
  assert (F23 : (full >? 23) = true) by lia.
  assert (F59 : (full >? 59) = true) by lia.
  assert (F63 : (full >? 63) = true) by lia.
  assert (F76 : (full <? 76) = false) by lia.
  assert (L23 : (len >? 23) = true) by lia.
  assert (L59 : (len >? 59) = false) by lia.
  assert (L63 : (len >? 63) = false) by lia.
  assert (L95 : (len >? 95) = false) by lia.
  assert (L107 : (len >? 107) = false) by lia.
  assert (L109 : (len >? 109) = false) by lia.
  assert (L115 : (len >? 115) = false) by lia.
  assert (L117 : (len >? 117) = false) by lia.
  assert (L118 : (len >? 118) = false) by lia.
  unfold Discover.print_single. cbv zeta.
  rewrite F23, F59, F63, F76, L23, L59, L63, L95, L107, L109, L115, L117,
    L118.
  destruct (truthy (Discover.do_brief op)) eqn:Hb.
  all: cbn [andb]; unfold when; cbv iota.
  all: shortened_run.
Qed.

(** The report for any length above 23 against the report for a length
    that passes every gate.  For the lengths 60 to 75 the short report
    returns at [if (len < 76) return 0] where the long one goes on. *)
Lemma print_single_cut (L : smp_lib) (rp : list Z) (len full : Z)
    (just1 : bool) (op : Discover.opts_t) :
  23 < len -> 118 < full ->
  same_output (passes_gate op len)
              (Discover.print_single L rp len just1 op)
              (Discover.print_single L rp full just1 op).
Proof.
  intros Hlen Hfull.
  assert (F23 : (full >? 23) = true) by lia.
  assert (F59 : (full >? 59) = true) by lia.
  assert (F63 : (full >? 63) = true) by lia.
  assert (F76 : (full <? 76) = false) by lia.
  assert (F95 : (full >? 95) = true) by lia.
  assert (F107 : (full >? 107) = true) by lia.
  assert (F109 : (full >? 109) = true) by lia.
  assert (F115 : (full >? 115) = true) by lia.
  assert (F117 : (full >? 117) = true) by lia.
  assert (F118 : (full >? 118) = true) by lia.
  assert (L23 : (len >? 23) = true) by lia.
  unfold Discover.print_single. cbv zeta.
  rewrite F23, F59, F63, F76, F95, F107, F109, F115, F117, F118, L23.
  destruct (truthy (Discover.do_brief op)) eqn:Hb;
    destruct (len >? 59) eqn:L59;
    destruct (len >? 63) eqn:L63; try (exfalso; lia);
    destruct (len <? 76) eqn:L76; try (exfalso; lia);
    destruct (len >? 95) eqn:L95; try (exfalso; lia);
    destruct (len >? 107) eqn:L107; try (exfalso; lia);
    destruct (len >? 109) eqn:L109; try (exfalso; lia);
    destruct (len >? 115) eqn:L115; try (exfalso; lia);
    destruct (len >? 117) eqn:L117; try (exfalso; lia);
    destruct (len >? 118) eqn:L118; try (exfalso; lia).
  all: cbn [andb]; unfold when; cbv iota.
  all: first [ apply same_output_shortened; solve [shortened_run]
             | same_output_run ].
Qed.

Lemma lookup_gate_in (fmt : string) (tbl : list (string * Z)) (t : Z) :
  lookup_gate fmt tbl = Some t -> In t (map snd tbl).
Proof.
  induction tbl as [|[f t'] tbl IH]; cbn; [discriminate|].
  destruct (String.eqb fmt f); [intros [= ->]; now left | auto].
Qed.

Lemma lookup_gate_entry (fmt : string) (tbl : list (string * Z)) (t : Z) :
  lookup_gate fmt tbl = Some t -> In (fmt, t) tbl.
Proof.
  induction tbl as [|[f t'] tbl IH]; cbn; [discriminate|].
  destruct (String.eqb fmt f) eqn:He.
  - intros [= ->]. apply String.eqb_eq in He. subst f. now left.
  - auto.
Qed.

(** The SAS address has the only threshold that does not exceed 40. *)
Lemma min_len_gate_thresholds (op : Discover.opts_t) (fmt : string) (t : Z) :
  min_len_gate op fmt = Some t ->
  (fmt = "  SAS address: 0x%lx\n" /\ t = 23) \/ 40 < t.
Proof.
  unfold min_len_gate. destruct (String.eqb fmt _).
  - intros [= <-]. right. destruct (truthy _); lia.
  - intros H. apply lookup_gate_entry in H.
    unfold discover_gates in H. cbn [In] in H.
    destruct H as [[= <- <-] | H]; [left; now split |].
    right.
    repeat (destruct H as [[= _ <-] | H]; [reflexivity |]).
    destruct H.
Qed.

(** C3, as the code has it.  In the report of [print_single] every line
    under a test of the length is printed only if [len] exceeds the
    threshold of its test (the zone group under [len > 63] with --brief
    and [len > 59] without, the rest as in [discover_gates]), with one
    exception: the test [len > 23] of the expander's SAS address governs
    the read only, and the line is printed at every length, showing 0
    when [len] does not exceed 23.  For the lengths above 23 the claim
    holds of every line, and the thresholds are the ones of the code: the
    report is the report for a full length (above 118) with exactly the
    lines left out whose threshold [len] does not exceed.  The SAS
    address has the only threshold that does not exceed 40.  So for
    [len = 40] no line with a threshold above 40 is printed, while the
    SAS address is printed with the value of bytes 16 to 23, and so are
    the lines without a test, in the order and with the values of the
    full report. *)
Theorem discover_fields_gated (L : smp_lib) (rp : list Z) (just1 : bool)
    (op : Discover.opts_t) :
  (forall len,
      Forall (gate_ok_or_unread op len)
             (out (Discover.print_single L rp len just1 op)))
  /\ (forall len,
        23 < len ->
        Forall (gate_ok op len)
               (out (Discover.print_single L rp len just1 op)))
  /\ (forall len,
        stops_at_device_type op rp = false ->
        In (Printf "  SAS address: 0x%lx\n"
                   [AInt (if len >? 23 then sg_get_unaligned_be64 rp 16
                          else 0)])
           (out (Discover.print_single L rp len just1 op))
        /\ Forall (fun fmt =>
                     prints fmt
                       (out (Discover.print_single L rp len just1 op))
                     = true)
                  discover_always
        /\ (Discover.do_brief op = 0 ->
            Forall (fun fmt =>
                      prints fmt
                        (out (Discover.print_single L rp len just1 op))
                      = true)
                   discover_always_plain))
  /\ (forall len full,
        23 < len -> 118 < full ->
        out (Discover.print_single L rp len just1 op)
        = filter (passes_gate op len)
                 (out (Discover.print_single L rp full just1 op)))
  /\ (forall fmt t,
        min_len_gate op fmt = Some t ->
        (fmt = "  SAS address: 0x%lx\n" /\ t = 23) \/ 40 < t)
  /\ (forall full,
        76 <= full ->
        out (Discover.print_single L rp 40 just1 op)
        = filter (passes_gate op 40)
                 (out (Discover.print_single L rp full just1 op))
        /\ outcome (Discover.print_single L rp 40 just1 op)
           = outcome (Discover.print_single L rp full just1 op))
  /\ (stops_at_device_type op rp = false ->
      In (Printf "  SAS address: 0x%lx\n"
                 [AInt (sg_get_unaligned_be64 rp 16)])
         (out (Discover.print_single L rp 40 just1 op))).
Proof.
  split; [|split; [|split; [|split; [|split; [|split]]]]].
  - intros len. apply print_single_gated.
  - intros len Hlen.
    eapply Forall_impl; [| apply print_single_gated].
    intros ev. now apply gate_ok_of_fetched.
  - intros len Hstop. now apply print_single_prints.
  - intros len full Hlen Hfull. now apply print_single_cut.
  - apply min_len_gate_thresholds.
  - intros full Hfull.
    assert (H40 : 23 < 40 <= 59) by lia.
    destruct (print_single_shortened L rp 40 full just1 op H40 Hfull)
      as [Ho Ht].
    split; [exact Ht | exact Ho].
  - intros Hstop.
    exact (proj1 (print_single_prints L rp 40 just1 op Hstop)).
Qed.

Lemma discover_fields_gated_witness :
  out (Discover.print_single sample_lib disc_full_resp 40 true
         disc_opts_plain)
  = filter (passes_gate disc_opts_plain 40)
           (out (Discover.print_single sample_lib disc_full_resp 120 true
                   disc_opts_plain))
  /\ out (Discover.print_single sample_lib disc_full_resp 64 true
            disc_opts_plain)
     = filter (passes_gate disc_opts_plain 64)
              (out (Discover.print_single sample_lib disc_full_resp 120 true
                      disc_opts_plain))
  /\ In (Printf "  SAS address: 0x%lx\n"
                [AInt (sg_get_unaligned_be64 disc_full_resp 16)])
        (out (Discover.print_single sample_lib disc_full_resp 40 true
                disc_opts_plain))
  /\ prints "  zone group: %d\n"
       (out (Discover.print_single sample_lib disc_full_resp 40 true
               disc_opts_plain)) = false
  /\ prints "  routing attribute: %s\n"
       (out (Discover.print_single sample_lib disc_full_resp 40 true
               disc_opts_plain)) = true.
Proof.
  assert (Hfull : 76 <= 120) by lia.
  assert (Hlen : 23 < 64) by lia.
  assert (Hall : 118 < 120) by lia.
  assert (Hstop : stops_at_device_type disc_opts_plain disc_full_resp = false)
    by reflexivity.
  destruct (discover_fields_gated sample_lib disc_full_resp true
              disc_opts_plain) as (_ & _ & _ & Hcut & _ & H40 & Hsas).
  split; [| split; [| split; [| split]]].
  - exact (proj1 (H40 120 Hfull)).
  - exact (Hcut 64 120 Hlen Hall).
  - exact (Hsas Hstop).
  - vm_compute. reflexivity.
  - vm_compute. reflexivity.
Defined.

(** The claim as it is stated fails for the expander's SAS address: a
    response of 20 bytes does not reach the threshold 23 of that field,
    yet its line is printed, as 0 although bytes 16 to 19 are set. *)
Lemma discover_sas_address_not_gated :
  In sas_address_unread
     (out (Discover.print_single sample_lib disc_short_resp 20 true
             disc_opts_plain))
  /\ min_len_gate disc_opts_plain "  SAS address: 0x%lx\n" = Some 23
  /\ sg_get_unaligned_be64 disc_short_resp 16 <> 0
  /\ ~ Forall (gate_ok disc_opts_plain 20)
         (out (Discover.print_single sample_lib disc_short_resp 20 true
                 disc_opts_plain)).
Proof.
  assert (Hin : In sas_address_unread
                  (out (Discover.print_single sample_lib disc_short_resp 20
                          true disc_opts_plain))).
  { vm_compute. repeat first [ left; reflexivity | right ]. }
  split; [exact Hin |].
  split; [reflexivity |].
  split; [vm_compute; discriminate |].
  intros H. rewrite Forall_forall in H. specialize (H _ Hin).
  vm_compute in H. discriminate H.
Qed.

(** * Further properties of the programs *)

(** ** The length resolution of the other four sites *)

Lemma spec_resolved_len_le_act (L : smp_lib) (resp : list Z) (act : Z) :
  0 <= act -> spec_resolved_len L resp act <= act.
Proof.
  intros H. unfold spec_resolved_len. cbv zeta.
  destruct ((act >=? 0) && (_ >? act)) eqn:Hc; [lia|].
  apply andb_false_iff in Hc. lia.
Qed.

Lemma spec_length_dwords_nonneg (L : smp_lib) (resp : list Z) :
  0 <= byte_at resp 3 -> 0 <= spec_length_dwords L resp.
Proof.
  intros H. unfold spec_length_dwords.
  destruct (spec_consults_table resp); [|exact H].
  cbv zeta. destruct (_ <? 0) eqn:Hd; lia.
Qed.

Lemma spec_resolved_len_header (L : smp_lib) (resp : list Z) (act : Z) :
  0 <= byte_at resp 3 -> act < 0 \/ 4 <= act ->
  4 <= spec_resolved_len L resp act.
Proof.
  intros Hb Hact. pose proof (spec_length_dwords_nonneg L resp Hb).
  unfold spec_resolved_len. cbv zeta.
  destruct ((act >=? 0) && (_ >? act)) eqn:Hc; [|lia].
  apply andb_prop in Hc. lia.
Qed.

(** X1.  smp_conf_general, smp_rep_broadcast, [get_num_phys] and
    [do_discover] resolve the response length alike: the length in dwords
    is byte 3, or the default of the table when byte 3 and the function
    result are both zero (0 when the table has no entry), and the table is
    consulted in that case only; the length in bytes is [4 + 4 * dwords],
    cut down to the count of the transport when that is known and smaller.
    So the length never exceeds a known count, and it covers the header
    whenever the exchange got past the test for a short response. *)
Theorem length_resolution_clamps (L : smp_lib) (resp : list Z) (act : Z) :
  (forall op,
      outcome (ConfGeneral.resolve_len L op resp act : M Z Z)
      = inr (spec_resolved_len L resp act) /\
      consults_table (out (ConfGeneral.resolve_len L op resp act : M Z Z))
      = (byte_at resp 3 =? 0) && (byte_at resp 2 =? 0)) /\
  (forall op,
      outcome (RepBroadcast.resolve_len L op resp act : M Z Z)
      = inr (spec_resolved_len L resp act) /\
      consults_table (out (RepBroadcast.resolve_len L op resp act : M Z Z))
      = (byte_at resp 3 =? 0) && (byte_at resp 2 =? 0)) /\
  (forall op,
      outcome (Discover.rg_resolve_len L op resp act
               : M (Z * option bool) Z)
      = inr (spec_resolved_len L resp act) /\
      consults_table (out (Discover.rg_resolve_len L op resp act
                           : M (Z * option bool) Z))
      = (byte_at resp 3 =? 0) && (byte_at resp 2 =? 0)) /\
  (forall op,
      outcome (Discover.resolve_len L op resp act : M (Z * list Z) Z)
      = inr (spec_resolved_len L resp act) /\
      consults_table (out (Discover.resolve_len L op resp act
                           : M (Z * list Z) Z))
      = (byte_at resp 3 =? 0) && (byte_at resp 2 =? 0)) /\
  spec_resolved_len L resp act
  = (let dwords :=
       if (byte_at resp 3 =? 0) && (byte_at resp 2 =? 0)
       then (if def_resp_len_table L (byte_at resp 1) <? 0 then 0
             else def_resp_len_table L (byte_at resp 1))
       else byte_at resp 3 in
     if (act >=? 0) && (4 + 4 * dwords >? act) then act
     else 4 + 4 * dwords) /\
  (0 <= act -> spec_resolved_len L resp act <= act) /\
  (0 <= byte_at resp 3 -> act < 0 \/ 4 <= act ->
   4 <= spec_resolved_len L resp act).
Proof.
  repeat apply conj.
  - intros op. apply (conf_general_resolve_len L (E:=Z)).
  - intros op. apply (rep_broadcast_resolve_len L (E:=Z)).
  - intros op. apply (get_num_phys_resolve_len L (E:=Z * option bool)).
  - intros op. apply (do_discover_resolve_len L (E:=Z * list Z)).
  - reflexivity.
  - apply spec_resolved_len_le_act.
  - apply spec_resolved_len_header.
Qed.

Lemma length_resolution_clamps_witness :
  spec_resolved_len sample_lib [0x41; 0x10; 0; 12] 10 <= 10 /\
  4 <= spec_resolved_len sample_lib [0x41; 0x10; 0; 12] 10.
Proof.
  assert (Hact : 0 <= 10) by lia.
  assert (Hb : 0 <= byte_at [0x41; 0x10; 0; 12] 3)
    by (vm_compute; discriminate).
  assert (Hlong : 10 < 0 \/ 4 <= 10) by lia.
  destruct (length_resolution_clamps sample_lib [0x41; 0x10; 0; 12] 10)
    as (_ & _ & _ & _ & _ & Hle & Hge).
  split; [exact (Hle Hact) | exact (Hge Hb Hlong)].
Defined.

(** ** A send that fails *)

Lemma filter_none {A} (f : A -> bool) (l : list A) :
  Forall (fun x => f x = false) l -> filter f l = [].
Proof.
  induction 1 as [|x l Hx _ IH]; cbn; [reflexivity|]. now rewrite Hx.
Qed.

Lemma send_failure_lines_stderr (pre : string) (verbose : Z)
    (rr : send_result) :
  Forall (fun ev => on_stdout ev = false) (send_failure_lines pre verbose rr).
Proof. unfold send_failure_lines. forall_ev. Qed.

(** The part of an [exchange] after [smp_send_req], for a send that
    failed. *)
Lemma failed_send_leaves {E B} (verbose : Z) (rr : send_result) (e : E)
    (rest : M E B) :
  send_failed rr ->
  (when (truthy (send_res rr))
        (pr2serr "smp_send_req failed, res=%d\n" [AInt (send_res rr)];;
         when (verbose =? 0)
              (pr2serr "    try adding '-v' option for more debug\n" []);;
         leave e);;
   when (truthy (transport_err rr))
        (pr2serr "smp_send_req transport_error=%d\n"
                 [AInt (transport_err rr)];;
         leave e);;
   rest)
  = (send_failure_lines "" verbose rr, inl e).
Proof.
  intros Hf. unfold send_failure_lines.
  destruct (truthy (send_res rr)) eqn:Hs.
  - destruct (verbose =? 0); reflexivity.
  - assert (Ht : truthy (transport_err rr) = true).
    { unfold truthy in *. destruct Hf as [Hf | Hf].
      - apply negb_false_iff, Z.eqb_eq in Hs. contradiction.
      - apply negb_true_iff, Z.eqb_neq. exact Hf. }
    rewrite Ht. reflexivity.
Qed.

Section FailedSend.
Variable L : smp_lib.
Variable tobj : interface.

Lemma rep_general_body_failed (op : RepGeneral.opts) (buf : list Z) :
  let rr := send tobj (RepGeneral.smp_req L) RepGeneral.smp_resp_size in
  send_failed rr ->
  RepGeneral.main_body L tobj op buf
  = (RepGeneral.dump_req L op
       ++ SendReq (RepGeneral.smp_req L) RepGeneral.smp_resp_size
       :: send_failure_lines "" (RepGeneral.verbose op) rr,
     inl (-1)).
Proof.
  intros rr Hf. unfold RepGeneral.main_body, RepGeneral.exchange.
  rewrite bind_emits, bind_send_req. cbn [fst snd]. fold rr.
  rewrite (failed_send_leaves _ _ _ _ Hf). reflexivity.
Qed.

Lemma conf_general_body_failed (op : ConfGeneral.opts) (buf : list Z) :
  let rr := send tobj (ConfGeneral.build_req L op)
                 ConfGeneral.smp_resp_size in
  send_failed rr ->
  ConfGeneral.main_body L tobj op buf
  = (ConfGeneral.dump_req L op
       ++ SendReq (ConfGeneral.build_req L op) ConfGeneral.smp_resp_size
       :: send_failure_lines "" (ConfGeneral.verbose op) rr,
     inl (-1)).
Proof.
  intros rr Hf. unfold ConfGeneral.main_body, ConfGeneral.exchange.
  cbv zeta.
  rewrite bind_emits, bind_send_req. cbn [fst snd]. fold rr.
  rewrite (failed_send_leaves _ _ _ _ Hf). reflexivity.
Qed.

Lemma rep_broadcast_body_failed (op : RepBroadcast.opts) (buf : list Z) :
  let rr := send tobj (RepBroadcast.build_req L op)
                 RepBroadcast.SMP_FN_REPORT_BROADCAST_RESP_LEN in
  send_failed rr ->
  RepBroadcast.main_body L tobj op buf
  = (RepBroadcast.dump_req L op
       ++ SendReq (RepBroadcast.build_req L op)
                  RepBroadcast.SMP_FN_REPORT_BROADCAST_RESP_LEN
       :: send_failure_lines "" (RepBroadcast.verbose op) rr,
     inl (-1)).
Proof.
  intros rr Hf. unfold RepBroadcast.main_body, RepBroadcast.exchange.
  cbv zeta.
  rewrite bind_emits, bind_send_req. cbn [fst snd]. fold rr.
  rewrite (failed_send_leaves _ _ _ _ Hf). reflexivity.
Qed.

Lemma do_discover_failed (op : Discover.opts_t) (k : Z) (buf : list Z)
    (n : Z) (silence : bool) :
  let req := Discover.build_req L k n op in
  let rr := send tobj req n in
  send_failed rr ->
  Discover.do_discover L tobj k buf n silence op
  = (Discover.dump_req L k n op
       ++ SendReq req n :: send_failure_lines "" (Discover.verbose op) rr,
     (-1, received tobj req n (memset0 buf n))).
Proof.
  intros req rr Hf.
  unfold Discover.do_discover, Discover.do_discover_body, Discover.exchange.
  cbv zeta.
  rewrite bind_emits, bind_send_req. cbn [fst snd]. fold req rr.
  rewrite (failed_send_leaves _ _ _ _ Hf). reflexivity.
Qed.

End FailedSend.

Lemma dump_req_stderr (L : smp_lib) :
  (forall op, Forall (fun ev => on_stdout ev = false)
                     (RepGeneral.dump_req L op)) /\
  (forall op, Forall (fun ev => on_stdout ev = false)
                     (ConfGeneral.dump_req L op)) /\
  (forall op, Forall (fun ev => on_stdout ev = false)
                     (RepBroadcast.dump_req L op)) /\
  (forall op, Forall (fun ev => on_stdout ev = false)
                     (Discover.rg_dump_req L op)) /\
  (forall k n op, Forall (fun ev => on_stdout ev = false)
                         (Discover.dump_req L k n op)).
Proof.
  repeat split; intros;
    unfold RepGeneral.dump_req, ConfGeneral.dump_req,
      RepBroadcast.dump_req, Discover.rg_dump_req, Discover.dump_req;
    cbv zeta; forall_ev.
Qed.

Lemma close_lines_stderr (tobj : interface) (verbose status : Z) :
  Forall (fun ev => on_stdout ev = false) (close_lines tobj verbose status).
Proof. unfold close_lines. forall_ev. Qed.

(** X2.  When [smp_send_req] fails (its result or the transport error is
    not zero), each program reports the failure on stderr, closes the
    target and exits with [SMP_LIB_CAT_OTHER]: [ret] is -1.  Nothing is
    written to stdout by smp_rep_general, smp_conf_general and
    smp_rep_broadcast; [do_single] of smp_discover returns -1 and writes
    to stdout only the [0x0] of --my.  What is printed and returned does
    not involve the response buffer. *)
Theorem failed_send_is_reported (L : smp_lib) (tobj : interface)
    (Hopen : 0 <= initiator_open_res tobj)
    (Hfail : forall req n, send_failed (send tobj req n)) :
  (forall op buf,
      let req := RepGeneral.smp_req L in
      let n := RepGeneral.smp_resp_size in
      RepGeneral.main L tobj op buf
      = ((RepGeneral.dump_req L op
            ++ SendReq req n
            :: send_failure_lines "" (RepGeneral.verbose op)
                 (send tobj req n))
           ++ [CloseTarget],
         SMP_LIB_CAT_OTHER L) /\
      filter on_stdout (fst (RepGeneral.main L tobj op buf)) = []) /\
  (forall op buf,
      let req := ConfGeneral.build_req L op in
      let n := ConfGeneral.smp_resp_size in
      ConfGeneral.main L tobj op buf
      = ((ConfGeneral.dump_req L op
            ++ SendReq req n
            :: send_failure_lines "" (ConfGeneral.verbose op)
                 (send tobj req n))
           ++ close_lines tobj (ConfGeneral.verbose op)
                (SMP_LIB_CAT_OTHER L),
         SMP_LIB_CAT_OTHER L) /\
      filter on_stdout (fst (ConfGeneral.main L tobj op buf)) = []) /\
  (forall op buf,
      let req := RepBroadcast.build_req L op in
      let n := RepBroadcast.SMP_FN_REPORT_BROADCAST_RESP_LEN in
      RepBroadcast.main L tobj op buf
      = ((RepBroadcast.dump_req L op
            ++ SendReq req n
            :: send_failure_lines "" (RepBroadcast.verbose op)
                 (send tobj req n))
           ++ close_lines tobj (RepBroadcast.verbose op)
                (SMP_LIB_CAT_OTHER L),
         SMP_LIB_CAT_OTHER L) /\
      filter on_stdout (fst (RepBroadcast.main L tobj op buf)) = []) /\
  (forall op buf,
      SMP_FRES_PHY_VACANT L <> -1 ->
      let n := Discover.SMP_FN_DISCOVER_RESP_LEN in
      let req := Discover.build_req L (Discover.phy_id op) n op in
      Discover.do_single L tobj op (Some buf)
      = ((Discover.dump_req L (Discover.phy_id op) n op
            ++ SendReq req n
            :: send_failure_lines "" (Discover.verbose op) (send tobj req n))
           ++ (if truthy (Discover.do_hex op) || Discover.do_raw op then []
               else if Discover.do_my op then [Printf "0x%lx\n" [AInt 0]]
               else []),
         -1)) /\
  (forall op0 dsn_env h buf,
      SMP_FRES_PHY_VACANT L <> -1 ->
      Discover.disc_block h = Some buf ->
      truthy (Discover.multiple (Discover.settle_opts op0 dsn_env)) = false ->
      snd (Discover.main L tobj op0 dsn_env h) = SMP_LIB_CAT_OTHER L).
Proof.
  assert (Ho : (initiator_open_res tobj <? 0) = false) by lia.
  pose proof (dump_req_stderr L) as (Drg & Dcg & Drb & _ & Ddi).
  assert (Hsingle : forall op buf,
      SMP_FRES_PHY_VACANT L <> -1 ->
      let n := Discover.SMP_FN_DISCOVER_RESP_LEN in
      let req := Discover.build_req L (Discover.phy_id op) n op in
      Discover.do_single L tobj op (Some buf)
      = ((Discover.dump_req L (Discover.phy_id op) n op
            ++ SendReq req n
            :: send_failure_lines "" (Discover.verbose op) (send tobj req n))
           ++ (if truthy (Discover.do_hex op) || Discover.do_raw op then []
               else if Discover.do_my op then [Printf "0x%lx\n" [AInt 0]]
               else []),
         -1)).
  { intros op buf Hv n req.
    unfold Discover.do_single, Discover.do_single_body.
    rewrite (do_discover_failed L tobj op _ buf _ false (Hfail _ _)).
    fold n req.
    change (Discover.ret_of_len (-1)) with (-1).
    change (-1 >? 23) with false. change (truthy (-1)) with true.
    replace (SMP_FRES_PHY_VACANT L =? -1) with false by lia.
    rewrite andb_false_r.
    destruct (truthy (Discover.do_hex op) || Discover.do_raw op);
      [reflexivity|].
    destruct (Discover.do_my op); cbn; now rewrite ?app_nil_r. }
  repeat apply conj.
  - intros op buf req n.
    assert (Hmain : RepGeneral.main L tobj op buf
      = ((RepGeneral.dump_req L op
            ++ SendReq req n
            :: send_failure_lines "" (RepGeneral.verbose op)
                 (send tobj req n))
           ++ [CloseTarget],
         SMP_LIB_CAT_OTHER L)).
    { unfold RepGeneral.main.
      rewrite Ho, (rep_general_body_failed L tobj op buf (Hfail _ _)).
      cbn [run]. now rewrite andb_false_r. }
    split; [exact Hmain|]. rewrite Hmain. cbn [fst].
    apply filter_none. repeat (apply Forall_app; split).
    + apply Drg.
    + constructor; [reflexivity | apply send_failure_lines_stderr].
    + forall_ev.
  - intros op buf req n.
    assert (Hmain : ConfGeneral.main L tobj op buf
      = ((ConfGeneral.dump_req L op
            ++ SendReq req n
            :: send_failure_lines "" (ConfGeneral.verbose op)
                 (send tobj req n))
           ++ close_lines tobj (ConfGeneral.verbose op)
                (SMP_LIB_CAT_OTHER L),
         SMP_LIB_CAT_OTHER L)).
    { unfold ConfGeneral.main, ConfGeneral.err_out, close_lines.
      rewrite Ho, (conf_general_body_failed L tobj op buf (Hfail _ _)).
      cbn [run]. rewrite andb_false_r. cbv zeta.
      change (-1 <? 0) with true. cbv iota.
      now rewrite <- !app_assoc. }
    split; [exact Hmain|]. rewrite Hmain. cbn [fst].
    apply filter_none.
    apply Forall_app; split; [apply Forall_app; split|].
    + apply Dcg.
    + constructor; [reflexivity | apply send_failure_lines_stderr].
    + apply close_lines_stderr.
  - intros op buf req n.
    assert (Hmain : RepBroadcast.main L tobj op buf
      = ((RepBroadcast.dump_req L op
            ++ SendReq req n
            :: send_failure_lines "" (RepBroadcast.verbose op)
                 (send tobj req n))
           ++ close_lines tobj (RepBroadcast.verbose op)
                (SMP_LIB_CAT_OTHER L),
         SMP_LIB_CAT_OTHER L)).
    { unfold RepBroadcast.main, RepBroadcast.err_out, close_lines.
      rewrite Ho, (rep_broadcast_body_failed L tobj op buf (Hfail _ _)).
      cbn [run]. rewrite andb_false_r. cbv zeta.
      change (-1 <? 0) with true. cbv iota.
      now rewrite <- !app_assoc. }
    split; [exact Hmain|]. rewrite Hmain. cbn [fst].
    apply filter_none.
    apply Forall_app; split; [apply Forall_app; split|].
    + apply Drb.
    + constructor; [reflexivity | apply send_failure_lines_stderr].
    + apply close_lines_stderr.
  - exact Hsingle.
  - intros op0 dsn_env h buf Hv Hblock Hmult.
    unfold Discover.main. cbv zeta. rewrite Ho, Hmult, Hblock.
    pose proof (Hsingle (Discover.settle_opts op0 dsn_env) buf Hv) as Hs.
    cbv zeta in Hs. rewrite Hs.
    rewrite andb_false_r. reflexivity.
Qed.

Lemma failed_send_is_reported_witness :
  snd (RepGeneral.main sample_lib (plain_interface dead_target)
         rg_opts_plain (repeat 0 128%nat))
  = SMP_LIB_CAT_OTHER sample_lib /\
  filter on_stdout
    (fst (RepGeneral.main sample_lib (plain_interface dead_target)
            rg_opts_plain (repeat 0 128%nat))) = [].
Proof.
  assert (Hopen : 0 <= initiator_open_res (plain_interface dead_target))
    by (simpl; lia).
  assert (Hfail : forall req n,
             send_failed (send (plain_interface dead_target) req n))
    by (intros req n; right; simpl; lia).
  destruct (failed_send_is_reported sample_lib (plain_interface dead_target)
              Hopen Hfail) as (Hrg & _).
  destruct (Hrg rg_opts_plain (repeat 0 128%nat)) as [Hmain Hout].
  split; [|exact Hout].
  rewrite Hmain. reflexivity.
Defined.

(** ** A response whose header is not valid *)

(** Decides the three tests of a [validate] from the tests of
    [header_valid]. *)
Ltac header_cases Hv :=
  unfold header_valid in Hv; unfold header_status, truthy;
  destruct (SMP_FRAME_TYPE_RESP =? byte_at _ 0);
  [ destruct (byte_at _ 1 =? _);
    [ cbn [andb] in Hv; rewrite Hv | ] | ];
  reflexivity.

Ltac stderr_only := all_ev ltac:(reflexivity).

Section BadHeader.
Variable L : smp_lib.

Lemma rep_general_validate_bad (resp : list Z) :
  header_valid (SMP_FN_REPORT_GENERAL L) resp = false ->
  outcome (RepGeneral.validate L resp)
  = inl (header_status (SMP_LIB_CAT_MALFORMED L) (SMP_FN_REPORT_GENERAL L)
           resp).
Proof.
  intros Hv. unfold RepGeneral.validate.
  change (byte_at (RepGeneral.smp_req L) 1) with (SMP_FN_REPORT_GENERAL L).
  header_cases Hv.
Qed.

Lemma conf_general_validate_bad (op : ConfGeneral.opts) (resp : list Z) :
  header_valid (SMP_FN_CONFIG_GENERAL L) resp = false ->
  outcome (ConfGeneral.validate L op resp)
  = inl (header_status (SMP_LIB_CAT_MALFORMED L) (SMP_FN_CONFIG_GENERAL L)
           resp).
Proof.
  intros Hv. unfold ConfGeneral.validate. cbv zeta.
  rewrite conf_general_req_fn. header_cases Hv.
Qed.

Lemma rep_broadcast_validate_bad (op : RepBroadcast.opts) (resp : list Z) :
  header_valid (SMP_FN_REPORT_BROADCAST L) resp = false ->
  outcome (RepBroadcast.validate L op resp)
  = inl (header_status (SMP_LIB_CAT_MALFORMED L)
           (SMP_FN_REPORT_BROADCAST L) resp).
Proof.
  intros Hv. unfold RepBroadcast.validate. cbv zeta.
  rewrite rep_broadcast_req_fn. header_cases Hv.
Qed.

Lemma discover_validate_bad (k n : Z) (silence : bool)
    (op : Discover.opts_t) (resp : list Z) :
  header_valid (SMP_FN_DISCOVER L) resp = false ->
  outcome (Discover.validate L k n silence op resp)
  = inl (-4 - header_status (SMP_LIB_CAT_MALFORMED L) (SMP_FN_DISCOVER L)
                resp, resp).
Proof.
  intros Hv. unfold Discover.validate. cbv zeta.
  rewrite discover_req_fn.
  unfold header_valid in Hv; unfold header_status, truthy.
  destruct (SMP_FRAME_TYPE_RESP =? byte_at _ 0); [|reflexivity].
  destruct (byte_at _ 1 =? _); [|reflexivity].
  cbn [andb] in Hv; rewrite Hv.
  destruct ((Discover.verbose op >? 0) || negb silence); reflexivity.
Qed.

Lemma validate_stderr :
  (forall resp,
      all_events (fun ev => on_stdout ev = false)
                 (RepGeneral.validate L resp)) /\
  (forall op resp,
      all_events (fun ev => on_stdout ev = false)
                 (ConfGeneral.validate L op resp)) /\
  (forall op resp,
      all_events (fun ev => on_stdout ev = false)
                 (RepBroadcast.validate L op resp)) /\
  (forall k n silence op resp,
      all_events (fun ev => on_stdout ev = false)
                 (Discover.validate L k n silence op resp)).
Proof.
  repeat split; intros;
    unfold RepGeneral.validate, ConfGeneral.validate,
      RepBroadcast.validate, Discover.validate;
    stderr_only.
Qed.

Lemma resolve_len_stderr {E : Type} :
  (forall op resp,
      all_events (fun ev => on_stdout ev = false)
                 (RepGeneral.resolve_len L op resp : M E Z)) /\
  (forall op resp act,
      all_events (fun ev => on_stdout ev = false)
                 (ConfGeneral.resolve_len L op resp act : M E Z)) /\
  (forall op resp act,
      all_events (fun ev => on_stdout ev = false)
                 (RepBroadcast.resolve_len L op resp act : M E Z)) /\
  (forall op resp act,
      all_events (fun ev => on_stdout ev = false)
                 (Discover.rg_resolve_len L op resp act : M E Z)) /\
  (forall op resp act,
      all_events (fun ev => on_stdout ev = false)
                 (Discover.resolve_len L op resp act : M E Z)).
Proof.
  repeat split; intros;
    unfold RepGeneral.resolve_len, ConfGeneral.resolve_len,
      RepBroadcast.resolve_len, Discover.rg_resolve_len,
      Discover.resolve_len, smp_get_func_def_resp_len;
    stderr_only.
Qed.

End BadHeader.

Section BadHeaderRuns.
Variable L : smp_lib.
Variable tobj : interface.
Hypothesis Hgood :
  forall req n, send_ok (send tobj req n) /\ long_enough (send tobj req n).

Lemma rep_general_body_bad (op : RepGeneral.opts) (buf : list Z) :
  let resp := received tobj (RepGeneral.smp_req L) RepGeneral.smp_resp_size
                buf in
  truthy (RepGeneral.do_hex op) || truthy (RepGeneral.do_raw op) = false ->
  header_valid (SMP_FN_REPORT_GENERAL L) resp = false ->
  outcome (RepGeneral.main_body L tobj op buf)
  = inl (header_status (SMP_LIB_CAT_MALFORMED L) (SMP_FN_REPORT_GENERAL L)
           resp) /\
  Forall (fun ev => on_stdout ev = false)
         (out (RepGeneral.main_body L tobj op buf)).
Proof.
  intros resp Hplain Hv.
  destruct (Hgood (RepGeneral.smp_req L) RepGeneral.smp_resp_size)
    as [Hok Hlong].
  pose proof (proj1 (rep_general_resolve_len L (E:=Z) op resp)) as Hlen.
  unfold RepGeneral.main_body.
  rewrite (rep_general_exchange_ok L tobj op buf Hok Hlong), bind_pair_inr.
  cbv beta zeta. cbn [fst snd].
  fold (received tobj (RepGeneral.smp_req L) RepGeneral.smp_resp_size buf).
  fold resp.
  rewrite (bind_inr _ _ _ Hlen), Hplain, bind_when_false.
  rewrite (bind_inl _ _ _ (rep_general_validate_bad L resp Hv)).
  cbn [out outcome fst snd]. split; [reflexivity|].
  repeat (apply Forall_app; split).
  - apply (proj1 (dump_req_stderr L)).
  - forall_ev.
  - apply (proj1 (resolve_len_stderr L (E:=Z))).
  - apply (proj1 (validate_stderr L)).
Qed.

Lemma conf_general_body_bad (op : ConfGeneral.opts) (buf : list Z) :
  let resp := received tobj (ConfGeneral.build_req L op)
                ConfGeneral.smp_resp_size buf in
  truthy (ConfGeneral.do_hex op) || ConfGeneral.do_raw op = false ->
  header_valid (SMP_FN_CONFIG_GENERAL L) resp = false ->
  outcome (ConfGeneral.main_body L tobj op buf)
  = inl (header_status (SMP_LIB_CAT_MALFORMED L) (SMP_FN_CONFIG_GENERAL L)
           resp) /\
  Forall (fun ev => on_stdout ev = false)
         (out (ConfGeneral.main_body L tobj op buf)).
Proof.
  intros resp Hplain Hv.
  destruct (Hgood (ConfGeneral.build_req L op) ConfGeneral.smp_resp_size)
    as [Hok Hlong].
  pose proof (proj1 (conf_general_resolve_len L (E:=Z) op resp
                       (act_response_len
                          (send tobj (ConfGeneral.build_req L op)
                                ConfGeneral.smp_resp_size)))) as Hlen.
  unfold ConfGeneral.main_body.
  rewrite (conf_general_exchange_ok L tobj op buf Hok Hlong), bind_pair_inr.
  cbv beta zeta. cbn [fst snd].
  fold (received tobj (ConfGeneral.build_req L op) ConfGeneral.smp_resp_size
          buf).
  fold resp.
  rewrite (bind_inr _ _ _ Hlen), Hplain, bind_when_false.
  rewrite (bind_inl _ _ _ (conf_general_validate_bad L op resp Hv)).
  cbn [out outcome fst snd]. split; [reflexivity|].
  repeat (apply Forall_app; split).
  - apply (dump_req_stderr L).
  - forall_ev.
  - apply (resolve_len_stderr L (E:=Z)).
  - apply (validate_stderr L).
Qed.

Lemma rep_broadcast_body_bad (op : RepBroadcast.opts) (buf : list Z) :
  let resp := received tobj (RepBroadcast.build_req L op)
                RepBroadcast.SMP_FN_REPORT_BROADCAST_RESP_LEN buf in
  truthy (RepBroadcast.do_hex op) || RepBroadcast.do_raw op = false ->
  header_valid (SMP_FN_REPORT_BROADCAST L) resp = false ->
  outcome (RepBroadcast.main_body L tobj op buf)
  = inl (header_status (SMP_LIB_CAT_MALFORMED L)
           (SMP_FN_REPORT_BROADCAST L) resp) /\
  Forall (fun ev => on_stdout ev = false)
         (out (RepBroadcast.main_body L tobj op buf)).
Proof.
  intros resp Hplain Hv.
  destruct (Hgood (RepBroadcast.build_req L op)
              RepBroadcast.SMP_FN_REPORT_BROADCAST_RESP_LEN) as [Hok Hlong].
  pose proof (proj1 (rep_broadcast_resolve_len L (E:=Z) op resp
                       (act_response_len
                          (send tobj (RepBroadcast.build_req L op)
                             RepBroadcast.SMP_FN_REPORT_BROADCAST_RESP_LEN))))
    as Hlen.
  unfold RepBroadcast.main_body.
  rewrite (rep_broadcast_exchange_ok L tobj op buf Hok Hlong), bind_pair_inr.
  cbv beta zeta. cbn [fst snd].
  fold (received tobj (RepBroadcast.build_req L op)
          RepBroadcast.SMP_FN_REPORT_BROADCAST_RESP_LEN buf).
  fold resp.
  rewrite (bind_inr _ _ _ Hlen), Hplain, bind_when_false.
  rewrite (bind_inl _ _ _ (rep_broadcast_validate_bad L op resp Hv)).
  cbn [out outcome fst snd]. split; [reflexivity|].
  repeat (apply Forall_app; split).
  - apply (dump_req_stderr L).
  - forall_ev.
  - apply (resolve_len_stderr L (E:=Z)).
  - apply (validate_stderr L).
Qed.

Lemma do_discover_bad (op : Discover.opts_t) (k : Z) (buf : list Z)
    (n : Z) (silence : bool) :
  let resp := received tobj (Discover.build_req L k n op) n
                (memset0 buf n) in
  truthy (Discover.do_hex op) || Discover.do_raw op = false ->
  header_valid (SMP_FN_DISCOVER L) resp = false ->
  snd (Discover.do_discover L tobj k buf n silence op)
  = (-4 - header_status (SMP_LIB_CAT_MALFORMED L) (SMP_FN_DISCOVER L) resp,
     resp) /\
  Forall (fun ev => on_stdout ev = false)
         (fst (Discover.do_discover L tobj k buf n silence op)).
Proof.
  intros resp Hplain Hv.
  destruct (Hgood (Discover.build_req L k n op) n) as [Hok Hlong].
  pose proof (proj1 (do_discover_resolve_len L (E:=Z * list Z) op resp
                       (act_response_len
                          (send tobj (Discover.build_req L k n op) n))))
    as Hlen.
  unfold Discover.do_discover, Discover.do_discover_body.
  rewrite (do_discover_exchange_ok L tobj op k buf n Hok Hlong),
    bind_pair_inr.
  cbv beta zeta. cbn [fst snd].
  fold (received tobj (Discover.build_req L k n op) n (memset0 buf n)).
  fold resp.
  rewrite (bind_inr _ _ _ Hlen), Hplain, bind_when_false.
  rewrite (bind_inl _ _ _ (discover_validate_bad L k n silence op resp Hv)).
  cbn [run out outcome fst snd]. split; [reflexivity|].
  repeat (apply Forall_app; split).
  - apply (dump_req_stderr L).
  - forall_ev.
  - apply (resolve_len_stderr L (E:=Z * list Z)).
  - apply (validate_stderr L).
Qed.

End BadHeaderRuns.

Lemma run_of_exit {A} (m : M A A) (a : A) :
  outcome m = inl a -> run m = (out m, a).
Proof. destruct m as [t [e | e]]; cbn; congruence. Qed.

(** X3.  Outside --hex and --raw, a response whose header fails one of
    the three checks is not decoded.  The checks are made in the order
    frame type, function code, function result; the exit status of
    smp_rep_general, smp_conf_general and smp_rep_broadcast is
    [SMP_LIB_CAT_MALFORMED] for the first two and the function result for
    the third, and nothing is written to stdout.  [do_single] of
    smp_discover returns the same status; it writes to stdout only the
    [0x0] of --my or, when the function result is "phy vacant", the line
    that says so. *)
Theorem invalid_header_not_decoded (L : smp_lib) (tobj : interface)
    (Hm : 0 < SMP_LIB_CAT_MALFORMED L)
    (Hopen : 0 <= initiator_open_res tobj)
    (Hgood : forall req n,
        send_ok (send tobj req n) /\ long_enough (send tobj req n)) :
  (forall op buf,
      let resp := received tobj (RepGeneral.smp_req L)
                    RepGeneral.smp_resp_size buf in
      truthy (RepGeneral.do_hex op) || truthy (RepGeneral.do_raw op) = false ->
      header_valid (SMP_FN_REPORT_GENERAL L) resp = false ->
      0 <= byte_at resp 2 ->
      snd (RepGeneral.main L tobj op buf)
      = header_status (SMP_LIB_CAT_MALFORMED L) (SMP_FN_REPORT_GENERAL L)
          resp /\
      filter on_stdout (fst (RepGeneral.main L tobj op buf)) = []) /\
  (forall op buf,
      let resp := received tobj (ConfGeneral.build_req L op)
                    ConfGeneral.smp_resp_size buf in
      truthy (ConfGeneral.do_hex op) || ConfGeneral.do_raw op = false ->
      header_valid (SMP_FN_CONFIG_GENERAL L) resp = false ->
      0 <= byte_at resp 2 ->
      snd (ConfGeneral.main L tobj op buf)
      = header_status (SMP_LIB_CAT_MALFORMED L) (SMP_FN_CONFIG_GENERAL L)
          resp /\
      filter on_stdout (fst (ConfGeneral.main L tobj op buf)) = []) /\
  (forall op buf,
      let resp := received tobj (RepBroadcast.build_req L op)
                    RepBroadcast.SMP_FN_REPORT_BROADCAST_RESP_LEN buf in
      truthy (RepBroadcast.do_hex op) || RepBroadcast.do_raw op = false ->
      header_valid (SMP_FN_REPORT_BROADCAST L) resp = false ->
      0 <= byte_at resp 2 ->
      snd (RepBroadcast.main L tobj op buf)
      = header_status (SMP_LIB_CAT_MALFORMED L) (SMP_FN_REPORT_BROADCAST L)
          resp /\
      filter on_stdout (fst (RepBroadcast.main L tobj op buf)) = []) /\
  (forall op buf,
      let n := Discover.SMP_FN_DISCOVER_RESP_LEN in
      let resp := received tobj (Discover.build_req L (Discover.phy_id op)
                                   n op) n (memset0 buf n) in
      let status := header_status (SMP_LIB_CAT_MALFORMED L)
                      (SMP_FN_DISCOVER L) resp in
      truthy (Discover.do_hex op) || Discover.do_raw op = false ->
      header_valid (SMP_FN_DISCOVER L) resp = false ->
      0 <= byte_at resp 2 ->
      snd (Discover.do_single L tobj op (Some buf)) = status /\
      filter on_stdout (fst (Discover.do_single L tobj op (Some buf)))
      = (if Discover.do_my op then [Printf "0x%lx\n" [AInt 0]]
         else if SMP_FRES_PHY_VACANT L =? status
         then [Printf "  phy identifier: %d  inaccessible (phy vacant)\n"
                      [AInt (Discover.phy_id op)]]
         else [])).
Proof.
  assert (Ho : (initiator_open_res tobj <? 0) = false) by lia.
  repeat apply conj.
  - intros op buf resp Hplain Hv Hb.
    destruct (rep_general_body_bad L tobj Hgood op buf Hplain Hv)
      as [Hout Hev].
    pose proof (header_status_pos _ _ _ Hm Hb Hv) as Hpos. fold resp in Hout.
    unfold RepGeneral.main. rewrite Ho, (run_of_exit _ _ Hout).
    replace (header_status _ _ resp =? 0) with false by lia.
    rewrite andb_false_r.
    replace (header_status _ _ resp >=? 0) with true by lia. cbn [fst snd].
    split; [reflexivity|]. apply filter_none.
    apply Forall_app. split; [exact Hev | forall_ev].
  - intros op buf resp Hplain Hv Hb.
    destruct (conf_general_body_bad L tobj Hgood op buf Hplain Hv)
      as [Hout Hev].
    pose proof (header_status_pos _ _ _ Hm Hb Hv) as Hpos. fold resp in Hout.
    unfold ConfGeneral.main, ConfGeneral.err_out.
    rewrite Ho, (run_of_exit _ _ Hout).
    replace (header_status _ _ resp =? 0) with false by lia.
    rewrite andb_false_r.
    replace (header_status _ _ resp <? 0) with false by lia. cbn [fst snd].
    split; [reflexivity|]. apply filter_none.
    repeat (apply Forall_app; split); try exact Hev; forall_ev.
  - intros op buf resp Hplain Hv Hb.
    destruct (rep_broadcast_body_bad L tobj Hgood op buf Hplain Hv)
      as [Hout Hev].
    pose proof (header_status_pos _ _ _ Hm Hb Hv) as Hpos. fold resp in Hout.
    unfold RepBroadcast.main, RepBroadcast.err_out.
    rewrite Ho, (run_of_exit _ _ Hout).
    replace (header_status _ _ resp =? 0) with false by lia.
    rewrite andb_false_r.
    replace (header_status _ _ resp <? 0) with false by lia. cbn [fst snd].
    split; [reflexivity|]. apply filter_none.
    repeat (apply Forall_app; split); try exact Hev; forall_ev.
  - intros op buf n resp status Hplain Hv Hb.
    destruct (do_discover_bad L tobj Hgood op (Discover.phy_id op) buf n
                false Hplain Hv) as [Hout Hev].
    pose proof (header_status_pos _ _ _ Hm Hb Hv) as Hpos.
    fold resp in Hout. fold status in Hout, Hpos.
    unfold Discover.do_single, Discover.do_single_body. fold n.
    destruct (Discover.do_discover L tobj (Discover.phy_id op) buf n false
                op) as [t [len rp]].
    change ((len, rp) = (-4 - status, resp)) in Hout.
    change (Forall (fun ev => on_stdout ev = false) t) in Hev.
    apply pair_equal_spec in Hout. destruct Hout as [-> ->].
    cbv beta iota zeta.
    rewrite (ret_of_len_malformed _ Hpos), Hplain.
    replace (-4 - status >? 23) with false by lia.
    assert (Htr : truthy status = true).
    { unfold truthy. now replace (status =? 0) with false by lia. }
    rewrite Htr, bind_emits, bind_when_false. cbv beta.
    rewrite andb_false_l.
    destruct (Discover.do_my op).
    + cbn [when bind printf emit leave run out outcome fst snd app ret].
      split; [reflexivity|].
      rewrite filter_app, (filter_none _ _ Hev). reflexivity.
    + destruct (SMP_FRES_PHY_VACANT L =? status).
      * cbn [when bind printf emit leave run out outcome fst snd app ret].
        split; [reflexivity|].
        rewrite filter_app, (filter_none _ _ Hev). reflexivity.
      * cbn [when bind printf emit leave run out outcome fst snd app ret].
        split; [reflexivity|].
        rewrite app_nil_r. apply (filter_none _ _ Hev).
Qed.

Lemma invalid_header_not_decoded_witness :
  snd (RepGeneral.main sample_lib (plain_interface rg_error_target)
         rg_opts_plain (repeat 0 128%nat)) = 1 /\
  filter on_stdout
    (fst (RepGeneral.main sample_lib (plain_interface rg_error_target)
            rg_opts_plain (repeat 0 128%nat))) = [].
Proof.
  assert (Hm : 0 < SMP_LIB_CAT_MALFORMED sample_lib) by reflexivity.
  assert (Hopen : 0 <= initiator_open_res (plain_interface rg_error_target))
    by (simpl; lia).
  assert (Hgood : forall req n,
             send_ok (send (plain_interface rg_error_target) req n) /\
             long_enough (send (plain_interface rg_error_target) req n))
    by (intros req n; split; [split; reflexivity | right; simpl; lia]).
  assert (Hplain : truthy (RepGeneral.do_hex rg_opts_plain)
                   || truthy (RepGeneral.do_raw rg_opts_plain) = false)
    by reflexivity.
  assert (Hv : header_valid (SMP_FN_REPORT_GENERAL sample_lib)
                 (received (plain_interface rg_error_target)
                    (RepGeneral.smp_req sample_lib) RepGeneral.smp_resp_size
                    (repeat 0 128%nat)) = false)
    by (vm_compute; reflexivity).
  assert (Hb : 0 <= byte_at (received (plain_interface rg_error_target)
                               (RepGeneral.smp_req sample_lib)
                               RepGeneral.smp_resp_size (repeat 0 128%nat)) 2)
    by (vm_compute; discriminate).
  destruct (invalid_header_not_decoded sample_lib
              (plain_interface rg_error_target) Hm Hopen Hgood) as (Hrg & _).
  destruct (Hrg rg_opts_plain (repeat 0 128%nat) Hplain Hv Hb)
    as [Hst Hout].
  split; [|exact Hout].
  rewrite Hst. vm_compute. reflexivity.
Defined.

(** ** One request, one close *)

Lemma descriptor_loop_all (P : event -> Prop) (op : RepBroadcast.opts)
    (resp : list Z) (bt_hdr bd_len : Z) (n : nat) (k bdp : Z) :
  (forall fmt args, P (Printf fmt args)) ->
  Forall P (RepBroadcast.descriptor_loop op resp bt_hdr bd_len n k bdp).
Proof.
  intros HP. revert k bdp.
  induction n as [|n IH]; intros k bdp; cbn [RepBroadcast.descriptor_loop].
  - constructor.
  - apply Forall_app. split; [|apply IH].
    unfold RepBroadcast.descriptor.
    repeat first
      [ apply Forall_nil
      | apply Forall_cons; [ apply HP | ]
      | apply Forall_app; split
      | apply Forall_map_intro; intros ?; apply HP
      | match goal with
        | |- Forall _ (if ?c then _ else _) => destruct c
        end ].
Qed.

Lemma decode_phy_cap_all (P : event -> Prop) (p_cap : Z)
    (op : Discover.opts_t) :
  (forall fmt args, P (Printf fmt args)) ->
  Forall P (Discover.decode_phy_cap p_cap op).
Proof.
  intros HP. eapply Forall_impl; [|apply decode_phy_cap_lines].
  intros [fmt args | | | | |]; cbn [is_phy_cap_line]; try tauto.
  intros _. apply HP.
Qed.

Section NoTransport.
Variable L : smp_lib.
Variable P : event -> Prop.
Hypothesis Hall : holds_of_output P.

(** Closes [P ev], and [Forall P t] for a trace that is written out, for
    the events of [holds_of_output]. *)
Ltac output_event :=
  first [ apply (proj1 Hall)
        | apply (proj1 (proj2 Hall))
        | apply (proj1 (proj2 (proj2 Hall)))
        | apply (proj2 (proj2 (proj2 Hall))) ].

Ltac local_leaf :=
  first
    [ output_event
    | apply descriptor_loop_all; exact (proj1 Hall)
    | apply decode_phy_cap_all; exact (proj1 Hall)
    | solve [ repeat first
                [ apply Forall_nil
                | apply Forall_cons; [ output_event | ]
                | apply Forall_app; split
                | apply Forall_map_intro; intros ?; output_event
                | apply Forall_flat_map_intro; intros ?
                | match goal with
                  | |- Forall _ (if ?c then _ else _) => destruct c
                  end ] ] ].

Lemma print_single_all (rp : list Z) (len : Z) (just1 : bool)
    (op : Discover.opts_t) :
  all_events P (Discover.print_single L rp len just1 op).
Proof. unfold Discover.print_single. all_ev ltac:(idtac; local_leaf). Qed.

Lemma print_single_list_all (rp : list Z) (len : Z) (show : bool)
    (brief : Z) :
  all_events P (Discover.print_single_list rp len show brief).
Proof.
  unfold Discover.print_single_list. all_ev ltac:(idtac; local_leaf).
Qed.

Variable tobj : interface.

Lemma dump_req_all :
  (forall op, Forall P (RepGeneral.dump_req L op)) /\
  (forall op, Forall P (ConfGeneral.dump_req L op)) /\
  (forall op, Forall P (RepBroadcast.dump_req L op)) /\
  (forall op, Forall P (Discover.rg_dump_req L op)) /\
  (forall k n op, Forall P (Discover.dump_req L k n op)).
Proof.
  repeat split; intros;
    unfold RepGeneral.dump_req, ConfGeneral.dump_req,
      RepBroadcast.dump_req, Discover.rg_dump_req, Discover.dump_req;
    cbv zeta; local_leaf.
Qed.

(** What an [exchange] prints after the [SendReq]. *)
Lemma rep_general_body_events (op : RepGeneral.opts) (buf : list Z) :
  exists rest,
    out (RepGeneral.main_body L tobj op buf)
    = RepGeneral.dump_req L op
        ++ SendReq (RepGeneral.smp_req L) RepGeneral.smp_resp_size :: rest /\
    Forall P rest.
Proof.
  unfold RepGeneral.main_body. rewrite out_bind.
  unfold RepGeneral.exchange at 1.
  rewrite bind_emits, bind_send_req. cbn [out fst].
  eexists. split; [rewrite <- app_assoc; cbn [app]; reflexivity|].
  apply Forall_app. split.
  - all_ev ltac:(idtac; local_leaf).
  - destruct (outcome _) as [e | sr]; [constructor|].
    unfold RepGeneral.resolve_len, RepGeneral.hex_or_raw,
      RepGeneral.validate, RepGeneral.report, smp_get_func_def_resp_len.
    all_ev ltac:(idtac; local_leaf).
Qed.

Lemma conf_general_body_events (op : ConfGeneral.opts) (buf : list Z) :
  exists rest,
    out (ConfGeneral.main_body L tobj op buf)
    = ConfGeneral.dump_req L op
        ++ SendReq (ConfGeneral.build_req L op) ConfGeneral.smp_resp_size
        :: rest /\
    Forall P rest.
Proof.
  unfold ConfGeneral.main_body. rewrite out_bind.
  unfold ConfGeneral.exchange at 1. cbv zeta.
  rewrite bind_emits, bind_send_req. cbn [out fst].
  eexists. split; [rewrite <- app_assoc; cbn [app]; reflexivity|].
  apply Forall_app. split.
  - all_ev ltac:(idtac; local_leaf).
  - destruct (outcome _) as [e | sr]; [constructor|].
    unfold ConfGeneral.resolve_len, ConfGeneral.hex_or_raw,
      ConfGeneral.validate, smp_get_func_def_resp_len.
    all_ev ltac:(idtac; local_leaf).
Qed.

Lemma rep_broadcast_body_events (op : RepBroadcast.opts) (buf : list Z) :
  exists rest,
    out (RepBroadcast.main_body L tobj op buf)
    = RepBroadcast.dump_req L op
        ++ SendReq (RepBroadcast.build_req L op)
                   RepBroadcast.SMP_FN_REPORT_BROADCAST_RESP_LEN
        :: rest /\
    Forall P rest.
Proof.
  unfold RepBroadcast.main_body. rewrite out_bind.
  unfold RepBroadcast.exchange at 1. cbv zeta.
  rewrite bind_emits, bind_send_req. cbn [out fst].
  eexists. split; [rewrite <- app_assoc; cbn [app]; reflexivity|].
  apply Forall_app. split.
  - all_ev ltac:(idtac; local_leaf).
  - destruct (outcome _) as [e | sr]; [constructor|].
    unfold RepBroadcast.resolve_len, RepBroadcast.hex_or_raw,
      RepBroadcast.validate, RepBroadcast.report, smp_get_func_def_resp_len.
    all_ev ltac:(idtac; local_leaf).
Qed.

Lemma do_discover_events (op : Discover.opts_t) (k : Z) (buf : list Z)
    (n : Z) (silence : bool) :
  exists rest,
    fst (Discover.do_discover L tobj k buf n silence op)
    = Discover.dump_req L k n op
        ++ SendReq (Discover.build_req L k n op) n :: rest /\
    Forall P rest.
Proof.
  unfold Discover.do_discover. rewrite run_out.
  unfold Discover.do_discover_body. rewrite out_bind.
  unfold Discover.exchange at 1. cbv zeta.
  rewrite bind_emits, bind_send_req. cbn [out fst].
  eexists. split; [rewrite <- app_assoc; cbn [app]; reflexivity|].
  apply Forall_app. split.
  - all_ev ltac:(idtac; local_leaf).
  - destruct (outcome _) as [e | sr]; [constructor|].
    unfold Discover.resolve_len, Discover.hex_or_raw,
      Discover.validate, smp_get_func_def_resp_len.
    all_ev ltac:(idtac; local_leaf).
Qed.

Lemma get_num_phys_events (op : Discover.opts_t) (buf : list Z) :
  exists rest,
    fst (Discover.get_num_phys L tobj op (Some buf))
    = Discover.rg_dump_req L op
        ++ SendReq (Discover.rg_smp_req L)
                   Discover.SMP_FN_REPORT_GENERAL_RESP_LEN :: rest /\
    Forall P rest.
Proof.
  unfold Discover.get_num_phys. rewrite run_out.
  unfold Discover.get_num_phys_body. rewrite out_bind.
  unfold Discover.rg_exchange at 1.
  rewrite bind_emits, bind_send_req. cbn [out fst].
  eexists. split; [rewrite <- app_assoc; cbn [app]; reflexivity|].
  apply Forall_app. split.
  - all_ev ltac:(idtac; local_leaf).
  - destruct (outcome _) as [e | sr]; [constructor|].
    unfold Discover.rg_resolve_len, smp_get_func_def_resp_len.
    all_ev ltac:(idtac; local_leaf).
Qed.

Lemma do_single_events (op : Discover.opts_t) (buf : list Z) :
  let n := Discover.SMP_FN_DISCOVER_RESP_LEN in
  exists rest,
    fst (Discover.do_single L tobj op (Some buf))
    = Discover.dump_req L (Discover.phy_id op) n op
        ++ SendReq (Discover.build_req L (Discover.phy_id op) n op) n
        :: rest /\
    Forall P rest.
Proof.
  intros n. unfold Discover.do_single. rewrite run_out.
  unfold Discover.do_single_body. fold n.
  destruct (do_discover_events op (Discover.phy_id op) buf n false)
    as (rest & Ht & Hrest).
  destruct (Discover.do_discover L tobj (Discover.phy_id op) buf n false op)
    as [t [len rp]].
  change (t = Discover.dump_req L (Discover.phy_id op) n op
              ++ SendReq (Discover.build_req L (Discover.phy_id op) n op) n
              :: rest) in Ht.
  cbv beta iota zeta. rewrite bind_emits. cbn [out fst]. rewrite Ht.
  eexists. split; [rewrite <- app_assoc; cbn [app]; reflexivity|].
  apply Forall_app. split; [exact Hrest|].
  all_ev ltac:(idtac; first [ local_leaf
                            | apply print_single_list_all
                            | apply print_single_all ]).
Qed.

Lemma multiple_turn_events (op : Discover.opts_t) (has_t2t : bool) (k : Z)
    (st : Discover.loop_state) :
  let n := Discover.SMP_FN_DISCOVER_RESP_LEN in
  exists rest,
    fst (run (Discover.multiple_turn L tobj op has_t2t k st))
    = Discover.dump_req L k n op
        ++ SendReq (Discover.build_req L k n op) n :: rest /\
    Forall P rest.
Proof.
  intros n. rewrite run_out.
  unfold Discover.multiple_turn. fold n.
  destruct (do_discover_events op k (Discover.rp st) n true)
    as (rest & Ht & Hrest).
  destruct (Discover.do_discover L tobj k (Discover.rp st) n true op)
    as [t [len rp]].
  change (t = Discover.dump_req L k n op
              ++ SendReq (Discover.build_req L k n op) n :: rest) in Ht.
  cbv beta iota zeta. rewrite bind_emits. cbn [out fst]. rewrite Ht.
  eexists. split; [rewrite <- app_assoc; cbn [app]; reflexivity|].
  apply Forall_app. split; [exact Hrest|].
  all_ev ltac:(idtac; first [ local_leaf
                            | apply print_single_list_all
                            | apply print_single_all ]).
Qed.

End NoTransport.

(** A trace that consists of lines for stderr, one [SendReq] and events
    that are neither a send nor a close. *)
Lemma one_send_no_close (dump rest : trace) (req : list Z) (n : Z) :
  Forall (fun ev => is_send ev = false /\ is_close ev = false) dump ->
  Forall (fun ev => is_send ev = false /\ is_close ev = false) rest ->
  filter is_send (dump ++ SendReq req n :: rest) = [SendReq req n] /\
  filter is_close (dump ++ SendReq req n :: rest) = [].
Proof.
  intros Hd Hr.
  assert (H : forall l,
             Forall (fun ev => is_send ev = false /\ is_close ev = false) l ->
             filter is_send l = [] /\ filter is_close l = []).
  { intros l Hl. split; apply filter_none;
      (eapply Forall_impl; [|exact Hl]); cbn beta; tauto. }
  destruct (H _ Hd) as [Hd1 Hd2]. destruct (H _ Hr) as [Hr1 Hr2].
  rewrite !filter_app. cbn [filter is_send is_close].
  now rewrite Hd1, Hd2, Hr1, Hr2.
Qed.

Lemma quiet_output :
  holds_of_output (fun ev => is_send ev = false /\ is_close ev = false).
Proof. repeat split. Qed.

Lemma multiple_loop_requests (L : smp_lib) (tobj : interface)
    (op : Discover.opts_t) (has_t2t : bool) (n : nat) (k : Z)
    (st : Discover.loop_state) :
  exists m,
    (m <= n)%nat /\
    filter is_send (fst (Discover.multiple_loop L tobj op has_t2t n k st))
    = discover_requests L op k m /\
    filter is_close (fst (Discover.multiple_loop L tobj op has_t2t n k st))
    = [].
Proof.
  revert k st. induction n as [|n IH]; intros k st.
  - exists 0%nat. split; [lia | split; reflexivity].
  - cbn [Discover.multiple_loop].
    destruct (multiple_turn_events L _ quiet_output tobj op has_t2t k st)
      as (rest & Ht & Hrest).
    pose proof (proj2 (proj2 (proj2 (proj2
                  (dump_req_all L _ quiet_output))))
                  k Discover.SMP_FN_DISCOVER_RESP_LEN op) as Hdump.
    destruct (one_send_no_close _ _
                (Discover.build_req L k Discover.SMP_FN_DISCOVER_RESP_LEN op)
                Discover.SMP_FN_DISCOVER_RESP_LEN Hdump Hrest) as [Hs Hc].
    cbv zeta in Ht. rewrite <- Ht in Hs, Hc.
    destruct (run (Discover.multiple_turn L tobj op has_t2t k st))
      as [t [st' | r]].
    + destruct (IH (k + 1) st') as (m & Hm & Hs' & Hc').
      destruct (Discover.multiple_loop L tobj op has_t2t n (k + 1) st')
        as [t' r'].
      cbn [fst] in *. exists (S m). split; [lia | split].
      * rewrite filter_app, Hs, Hs'. unfold discover_requests.
        cbn [seq map app]. rewrite Z.add_0_r. f_equal.
        rewrite <- seq_shift, map_map. apply map_ext. intros j.
        do 2 f_equal. lia.
      * now rewrite filter_app, Hc, Hc'.
    + cbn [fst] in *. exists 1%nat. split; [lia | split].
      * rewrite Hs. unfold discover_requests. cbn [seq map].
        now rewrite Z.add_0_r.
      * exact Hc.
Qed.


Lemma get_num_phys_requests (L : smp_lib) (tobj : interface)
    (op : Discover.opts_t) (block : option (list Z)) :
  filter is_send (fst (Discover.get_num_phys L tobj op block))
  = match block with
    | Some _ => [SendReq (Discover.rg_smp_req L)
                         Discover.SMP_FN_REPORT_GENERAL_RESP_LEN]
    | None => []
    end /\
  filter is_close (fst (Discover.get_num_phys L tobj op block)) = [].
Proof.
  destruct block as [buf|]; [|split; reflexivity].
  destruct (get_num_phys_events L _ quiet_output tobj op buf)
    as (rest & -> & Hrest).
  apply one_send_no_close; [|exact Hrest].
  apply (dump_req_all L _ quiet_output).
Qed.

Lemma do_multiple_requests (L : smp_lib) (tobj : interface)
    (op : Discover.opts_t) (h : Discover.heap) :
  filter is_close (fst (Discover.do_multiple L tobj op h)) = [] /\
  forall b1 b2,
    Discover.rg_block h = Some b1 -> Discover.disc_block h = Some b2 ->
    let num0 := fst (snd (Discover.get_num_phys L tobj op (Some b1))) in
    let rg := SendReq (Discover.rg_smp_req L)
                      Discover.SMP_FN_REPORT_GENERAL_RESP_LEN in
    if (0 <? num0) && (Discover.phy_id op >=? num0)
    then Discover.do_multiple L tobj op h
         = (fst (Discover.get_num_phys L tobj op (Some b1))
              ++ [Printf "Given phy_id=%d at or beyond number of phys (%d)\n"
                         [AInt (Discover.phy_id op); AInt num0]], 0) /\
         filter is_send (fst (Discover.do_multiple L tobj op h)) = [rg]
    else exists m,
        (m <= Z.to_nat (multiple_limit op num0 - Discover.phy_id op))%nat /\
        filter is_send (fst (Discover.do_multiple L tobj op h))
        = rg :: discover_requests L op (Discover.phy_id op) m.
Proof.
  unfold Discover.do_multiple.
  destruct (Discover.disc_block h) as [rp0|]; [|split; [reflexivity|]].
  2: { intros b1 b2 _ [=]. }
  destruct (get_num_phys_requests L tobj op (Discover.rg_block h))
    as [Hgs Hgc].
  destruct (Discover.get_num_phys L tobj op (Discover.rg_block h))
    as [t [num t2t]] eqn:Hg.
  cbn [fst] in Hgs, Hgc.
  set (has_t2t := match t2t with Some b => b | None => false end).
  cbv zeta.
  split.
  - destruct (num <=? 0).
    + destruct (multiple_loop_requests L tobj op has_t2t
                  (Z.to_nat ((if truthy (Discover.do_num op)
                              then s32 (Discover.phy_id op
                                        + Discover.do_num op)
                              else Discover.MAX_PHY_ID) - Discover.phy_id op))
                  (Discover.phy_id op)
                  {| Discover.first := true; Discover.expander_sa := 0;
                     Discover.dsn := None; Discover.rp := rp0;
                     Discover.ret_var := 0 |}) as (m & _ & _ & Hc).
      destruct (Discover.multiple_loop _ _ _ _ _ _ _) as [t' r].
      cbn [fst] in *. now rewrite filter_app, Hgc, Hc.
    + destruct (Discover.phy_id op >=? num).
      * cbn [fst]. now rewrite filter_app, Hgc.
      * match goal with
        | |- context [Discover.multiple_loop L tobj op has_t2t ?n ?k ?s] =>
          destruct (multiple_loop_requests L tobj op has_t2t n k s)
            as (m & _ & _ & Hc);
          destruct (Discover.multiple_loop L tobj op has_t2t n k s)
            as [t' r]
        end.
        cbn [fst] in *. now rewrite filter_app, Hgc, Hc.
  - intros b1 b2 Hb1 [= <-]. rewrite Hb1 in Hg, Hgs. rewrite Hg.
    cbn [fst snd]. unfold multiple_limit.
    replace (0 <? num) with (negb (num <=? 0)) by lia.
    destruct (num <=? 0); cbn [negb andb].
    + match goal with
      | |- context [Discover.multiple_loop L tobj op has_t2t ?n ?k ?s] =>
        destruct (multiple_loop_requests L tobj op has_t2t n k s)
          as (m & Hm & Hs & _);
        destruct (Discover.multiple_loop L tobj op has_t2t n k s)
          as [t' r]
      end.
      cbn [fst] in *. exists m. split; [exact Hm|].
      now rewrite filter_app, Hgs, Hs.
    + destruct (Discover.phy_id op >=? num).
      * split; [reflexivity|]. cbn [fst]. now rewrite filter_app, Hgs.
      * cbv zeta.
        match goal with
        | |- context [Discover.multiple_loop L tobj op has_t2t ?n ?k ?s] =>
          destruct (multiple_loop_requests L tobj op has_t2t n k s)
            as (m & Hm & Hs & _);
          destruct (Discover.multiple_loop L tobj op has_t2t n k s)
            as [t' r]
        end.
        cbn [fst] in *. exists m. split; [exact Hm|].
        now rewrite filter_app, Hgs, Hs.
Qed.

Lemma rep_general_main_trace (L : smp_lib) (tobj : interface)
    (op : RepGeneral.opts) (buf : list Z) :
  0 <= initiator_open_res tobj ->
  fst (RepGeneral.main L tobj op buf)
  = out (RepGeneral.main_body L tobj op buf) ++ [CloseTarget].
Proof.
  intros Ho. unfold RepGeneral.main.
  replace (initiator_open_res tobj <? 0) with false by lia.
  rewrite <- run_out.
  destruct (run (RepGeneral.main_body L tobj op buf)) as [t r].
  now destruct (_ && _).
Qed.

Lemma conf_general_main_trace (L : smp_lib) (tobj : interface)
    (op : ConfGeneral.opts) (buf : list Z) :
  0 <= initiator_open_res tobj ->
  exists status,
    fst (ConfGeneral.main L tobj op buf)
    = out (ConfGeneral.main_body L tobj op buf)
        ++ CloseTarget :: status /\
    Forall (fun ev => exists fmt args, ev = Pr2serr fmt args) status.
Proof.
  intros Ho. unfold ConfGeneral.main, ConfGeneral.err_out.
  replace (initiator_open_res tobj <? 0) with false by lia.
  rewrite <- run_out.
  destruct (run (ConfGeneral.main_body L tobj op buf)) as [t r].
  cbv zeta.
  destruct (initiator_close_res tobj <? 0), (r =? 0); cbn [andb fst app];
    try destruct (_ && _);
    eexists; (split; [rewrite <- ?app_assoc; cbn [app]; reflexivity|]);
    repeat (constructor; [eexists; eexists; reflexivity|]); constructor.
Qed.

Lemma rep_broadcast_main_trace (L : smp_lib) (tobj : interface)
    (op : RepBroadcast.opts) (buf : list Z) :
  0 <= initiator_open_res tobj ->
  exists status,
    fst (RepBroadcast.main L tobj op buf)
    = out (RepBroadcast.main_body L tobj op buf)
        ++ CloseTarget :: status /\
    Forall (fun ev => exists fmt args, ev = Pr2serr fmt args) status.
Proof.
  intros Ho. unfold RepBroadcast.main, RepBroadcast.err_out.
  replace (initiator_open_res tobj <? 0) with false by lia.
  rewrite <- run_out.
  destruct (run (RepBroadcast.main_body L tobj op buf)) as [t r].
  cbv zeta.
  destruct (initiator_close_res tobj <? 0), (r =? 0); cbn [andb fst app];
    try destruct (_ && _);
    eexists; (split; [rewrite <- ?app_assoc; cbn [app]; reflexivity|]);
    repeat (constructor; [eexists; eexists; reflexivity|]); constructor.
Qed.

Lemma discover_main_trace (L : smp_lib) (tobj : interface)
    (op0 : Discover.opts_t) (dsn_env : bool) (h : Discover.heap) :
  0 <= initiator_open_res tobj ->
  let op := Discover.settle_opts op0 dsn_env in
  exists status,
    fst (Discover.main L tobj op0 dsn_env h)
    = fst (if truthy (Discover.multiple op)
           then Discover.do_multiple L tobj op h
           else Discover.do_single L tobj op (Discover.disc_block h))
        ++ CloseTarget :: status /\
    Forall (fun ev => exists fmt args, ev = Pr2serr fmt args) status.
Proof.
  intros Ho op. unfold Discover.main. fold op. cbv zeta.
  replace (initiator_open_res tobj <? 0) with false by lia.
  destruct (if truthy (Discover.multiple op)
            then Discover.do_multiple L tobj op h
            else Discover.do_single L tobj op (Discover.disc_block h))
    as [t r].
  destruct ((initiator_close_res tobj <? 0) && (r =? 0)); cbn [fst];
    try destruct (_ && _);
    eexists; (split; [rewrite <- ?app_assoc; cbn [app]; reflexivity|]);
    repeat (constructor; [eexists; eexists; reflexivity|]); constructor.
Qed.

Lemma stderr_lines (status : trace) :
  Forall (fun ev => exists fmt args, ev = Pr2serr fmt args) status ->
  filter is_send status = [] /\ filter is_close status = [] /\
  filter on_stdout status = [].
Proof.
  intros H. repeat split; apply filter_none;
    (eapply Forall_impl; [|exact H]); intros ev (fmt & args & ->);
    reflexivity.
Qed.

Lemma after_close (body status : trace) (sends : trace) :
  filter is_send body = sends -> filter is_close body = [] ->
  Forall (fun ev => exists fmt args, ev = Pr2serr fmt args) status ->
  filter is_send (body ++ CloseTarget :: status) = sends /\
  filter is_close (body ++ CloseTarget :: status) = [CloseTarget].
Proof.
  intros Hs Hc Hst.
  destruct (stderr_lines _ Hst) as (H1 & H2 & _).
  rewrite !filter_app. cbn [filter is_send is_close].
  now rewrite Hs, Hc, H1, H2, app_nil_r.
Qed.

(** X4.  A run makes no request when the open fails, and otherwise
    closes the target exactly once, whatever happens in between, as long
    as its reads stay inside the response array (a dump of --hex or
    --raw, and the descriptors of smp_rep_broadcast, are not tested
    against it).  smp_rep_general, smp_conf_general and smp_rep_broadcast
    send exactly one request, and so does smp_discover for a single phy;
    the requests are the ones that the request builders give. *)
Theorem one_request_one_close (L : smp_lib) (tobj : interface) :
  (initiator_open_res tobj < 0 ->
   (forall op buf,
       RepGeneral.main L tobj op buf = ([], SMP_LIB_FILE_ERROR L)) /\
   (forall op buf,
       ConfGeneral.main L tobj op buf = ([], SMP_LIB_FILE_ERROR L)) /\
   (forall op buf,
       RepBroadcast.main L tobj op buf = ([], SMP_LIB_FILE_ERROR L)) /\
   (forall op0 dsn_env h,
       Discover.main L tobj op0 dsn_env h = ([], SMP_LIB_FILE_ERROR L))) /\
  (0 <= initiator_open_res tobj ->
   (forall op buf,
       let resp := received tobj (RepGeneral.smp_req L)
                     RepGeneral.smp_resp_size buf in
       dump_inside RepGeneral.smp_resp_size buf
         (truthy (RepGeneral.do_hex op) || truthy (RepGeneral.do_raw op))
         (rep_general_len L resp) ->
       filter is_send (fst (RepGeneral.main L tobj op buf))
       = [SendReq (RepGeneral.smp_req L) RepGeneral.smp_resp_size] /\
       filter is_close (fst (RepGeneral.main L tobj op buf))
       = [CloseTarget]) /\
   (forall op buf,
       let req := ConfGeneral.build_req L op in
       let resp := received tobj req ConfGeneral.smp_resp_size buf in
       dump_inside ConfGeneral.smp_resp_size buf
         (truthy (ConfGeneral.do_hex op) || ConfGeneral.do_raw op)
         (spec_resolved_len L resp
            (act_response_len (send tobj req ConfGeneral.smp_resp_size))) ->
       filter is_send (fst (ConfGeneral.main L tobj op buf))
       = [SendReq req ConfGeneral.smp_resp_size] /\
       filter is_close (fst (ConfGeneral.main L tobj op buf))
       = [CloseTarget]) /\
   (forall op buf,
       let req := RepBroadcast.build_req L op in
       let n := RepBroadcast.SMP_FN_REPORT_BROADCAST_RESP_LEN in
       let resp := received tobj req n buf in
       dump_inside n buf
         (truthy (RepBroadcast.do_hex op) || RepBroadcast.do_raw op)
         (spec_resolved_len L resp (act_response_len (send tobj req n))) ->
       (truthy (RepBroadcast.do_hex op) || RepBroadcast.do_raw op = false ->
        descriptors_inside resp) ->
       filter is_send (fst (RepBroadcast.main L tobj op buf))
       = [SendReq req n] /\
       filter is_close (fst (RepBroadcast.main L tobj op buf))
       = [CloseTarget]) /\
   (forall op0 dsn_env h,
       let op := Discover.settle_opts op0 dsn_env in
       heap_sized h ->
       truthy (Discover.do_hex op) || Discover.do_raw op = false ->
       filter is_close (fst (Discover.main L tobj op0 dsn_env h))
       = [CloseTarget]) /\
   (forall op0 dsn_env h buf,
       let op := Discover.settle_opts op0 dsn_env in
       let n := Discover.SMP_FN_DISCOVER_RESP_LEN in
       let req := Discover.build_req L (Discover.phy_id op) n op in
       let resp := received tobj req n (memset0 buf n) in
       Discover.disc_block h = Some buf ->
       truthy (Discover.multiple op) = false ->
       dump_inside n buf (truthy (Discover.do_hex op) || Discover.do_raw op)
         (spec_resolved_len L resp (act_response_len (send tobj req n))) ->
       filter is_send (fst (Discover.main L tobj op0 dsn_env h))
       = [SendReq req n] /\
       filter is_close (fst (Discover.main L tobj op0 dsn_env h))
       = [CloseTarget])).
Proof.
  split.
  - intros Hopen.
    assert (Ho : (initiator_open_res tobj <? 0) = true) by lia.
    repeat split; intros;
      unfold RepGeneral.main, ConfGeneral.main, RepBroadcast.main,
        Discover.main; cbv zeta; now rewrite Ho.
  - intros Hopen.
    pose proof (dump_req_all L _ quiet_output)
      as (Drg & Dcg & Drb & _ & Ddi).
    repeat apply conj.
    + intros op buf. cbv zeta. intros _.
      rewrite (rep_general_main_trace L tobj op buf Hopen).
      destruct (rep_general_body_events L _ quiet_output tobj op buf)
        as (rest & -> & Hrest).
      destruct (one_send_no_close _ _ (RepGeneral.smp_req L)
                  RepGeneral.smp_resp_size (Drg op) Hrest) as [Hs Hc].
      apply (after_close _ [] _ Hs Hc). constructor.
    + intros op buf. cbv zeta. intros _.
      destruct (conf_general_main_trace L tobj op buf Hopen)
        as (status & -> & Hst).
      destruct (conf_general_body_events L _ quiet_output tobj op buf)
        as (rest & -> & Hrest).
      destruct (one_send_no_close _ _ (ConfGeneral.build_req L op)
                  ConfGeneral.smp_resp_size (Dcg op) Hrest) as [Hs Hc].
      apply (after_close _ _ _ Hs Hc Hst).
    + intros op buf. cbv zeta. intros _ _.
      destruct (rep_broadcast_main_trace L tobj op buf Hopen)
        as (status & -> & Hst).
      destruct (rep_broadcast_body_events L _ quiet_output tobj op buf)
        as (rest & -> & Hrest).
      destruct (one_send_no_close _ _ (RepBroadcast.build_req L op)
                  RepBroadcast.SMP_FN_REPORT_BROADCAST_RESP_LEN (Drb op)
                  Hrest) as [Hs Hc].
      apply (after_close _ _ _ Hs Hc Hst).
    + intros op0 dsn_env h. cbv zeta. intros _ _.
      destruct (discover_main_trace L tobj op0 dsn_env h Hopen)
        as (status & -> & Hst).
      set (op := Discover.settle_opts op0 dsn_env).
      assert (Hc : filter is_close
                     (fst (if truthy (Discover.multiple op)
                           then Discover.do_multiple L tobj op h
                           else Discover.do_single L tobj op
                                  (Discover.disc_block h))) = []).
      { destruct (truthy (Discover.multiple op)).
        - apply do_multiple_requests.
        - destruct (Discover.disc_block h) as [buf|]; [|reflexivity].
          destruct (do_single_events L _ quiet_output tobj op buf)
            as (rest & -> & Hrest).
          apply (one_send_no_close _ _ _ _ (Ddi _ _ _) Hrest). }
      apply (after_close _ _ _ eq_refl Hc Hst).
    + intros op0 dsn_env h buf op n req resp Hblock Hmult _.
      subst n req. clear resp.
      destruct (discover_main_trace L tobj op0 dsn_env h Hopen)
        as (status & -> & Hst).
      fold op. rewrite Hmult, Hblock.
      destruct (do_single_events L _ quiet_output tobj op buf)
        as (rest & -> & Hrest).
      destruct (one_send_no_close _ _
                  (Discover.build_req L (Discover.phy_id op)
                     Discover.SMP_FN_DISCOVER_RESP_LEN op)
                  Discover.SMP_FN_DISCOVER_RESP_LEN
                  (Ddi (Discover.phy_id op) Discover.SMP_FN_DISCOVER_RESP_LEN
                       op) Hrest) as [Hs Hc].
      apply (after_close _ _ _ Hs Hc Hst).
Qed.

Lemma one_request_one_close_witness :
  filter is_send
    (fst (RepBroadcast.main sample_lib (plain_interface rb_two_target)
            rb_opts_plain (repeat 0 1028%nat)))
  = [SendReq (RepBroadcast.build_req sample_lib rb_opts_plain)
             RepBroadcast.SMP_FN_REPORT_BROADCAST_RESP_LEN] /\
  filter is_close
    (fst (Discover.main sample_lib (plain_interface enum_target)
            disc_opts_multiple false enum_heap))
  = [CloseTarget].
Proof.
  assert (H1 : 0 <= initiator_open_res (plain_interface rb_two_target))
    by (simpl; lia).
  assert (H2 : 0 <= initiator_open_res (plain_interface enum_target))
    by (simpl; lia).
  split.
  - refine (proj1 (proj1 (proj2 (proj2
             (proj2 (one_request_one_close sample_lib
                       (plain_interface rb_two_target)) H1)))
             rb_opts_plain (repeat 0 1028%nat) _ _)).
    + split; [reflexivity | discriminate].
    + intros _. vm_compute. discriminate.
  - refine (proj1 (proj2 (proj2 (proj2
             (proj2 (one_request_one_close sample_lib
                       (plain_interface enum_target)) H2))))
             disc_opts_multiple false enum_heap _ _).
    + split; intros b [= <-]; reflexivity.
    + reflexivity.
Defined.

(** ** The enumeration of smp_discover *)

Lemma discover_req_phy (L : smp_lib) (k n : Z) (op : Discover.opts_t) :
  byte_at (Discover.build_req L k n op) 9 = k mod 256.
Proof.
  unfold Discover.build_req.
  destruct (Discover.do_zero op), (Discover.ign_zp op);
    lazy -[Z.modulo Z.land Z.shiftr Z.lor Z.shiftl Z.div Z.ltb Z.sub];
    reflexivity.
Qed.

(** X5.  [do_multiple] first asks for the number of phys with one REPORT
    GENERAL request and then sends DISCOVER requests for consecutive phy
    identifiers in ascending order, starting at --phy_id, each with the
    identifier in byte 9 of the request; it stops at the bound of the
    loop or earlier.  The bound is the one of the code: when the number
    of phys is not known and --num is given it is the [int] sum
    [phy_id + do_num], which wraps for a --num close to the largest
    [int], so that no DISCOVER request is sent then.  When the expander reports a number of phys and
    --phy_id is at or beyond it, no DISCOVER request is sent and the
    function returns 0. *)
Theorem enumeration_requests (L : smp_lib) (tobj : interface)
    (op : Discover.opts_t) :
  (forall has_t2t n k st,
      exists m,
        (m <= n)%nat /\
        filter is_send
          (fst (Discover.multiple_loop L tobj op has_t2t n k st))
        = discover_requests L op k m) /\
  (forall k n, byte_at (Discover.build_req L k n op) 9 = k mod 256) /\
  (forall h b1 b2,
      Discover.rg_block h = Some b1 -> Discover.disc_block h = Some b2 ->
      let num0 := fst (snd (Discover.get_num_phys L tobj op (Some b1))) in
      let rg := SendReq (Discover.rg_smp_req L)
                        Discover.SMP_FN_REPORT_GENERAL_RESP_LEN in
      if (0 <? num0) && (Discover.phy_id op >=? num0)
      then Discover.do_multiple L tobj op h
           = (fst (Discover.get_num_phys L tobj op (Some b1))
                ++ [Printf
                      "Given phy_id=%d at or beyond number of phys (%d)\n"
                      [AInt (Discover.phy_id op); AInt num0]], 0) /\
           filter is_send (fst (Discover.do_multiple L tobj op h)) = [rg]
      else exists m,
          (m <= Z.to_nat (multiple_limit op num0 - Discover.phy_id op))%nat
          /\ filter is_send (fst (Discover.do_multiple L tobj op h))
             = rg :: discover_requests L op (Discover.phy_id op) m).
Proof.
  split; [|split].
  - intros has_t2t n k st.
    destruct (multiple_loop_requests L tobj op has_t2t n k st)
      as (m & Hm & Hs & _).
    now exists m.
  - intros k n. apply discover_req_phy.
  - intros h. apply do_multiple_requests.
Qed.

Lemma enumeration_requests_witness :
  (exists m,
      (m <= 8)%nat /\
      filter is_send
        (fst (Discover.do_multiple sample_lib (plain_interface enum_target)
                disc_opts_multiple enum_heap))
      = SendReq (Discover.rg_smp_req sample_lib)
                Discover.SMP_FN_REPORT_GENERAL_RESP_LEN
        :: discover_requests sample_lib disc_opts_multiple 0 m) /\
  multiple_limit disc_opts_overflow (-1) = -2147483395 /\
  filter is_send
    (fst (Discover.do_multiple sample_lib (plain_interface dead_target)
            disc_opts_overflow enum_heap))
  = [SendReq (Discover.rg_smp_req sample_lib)
             Discover.SMP_FN_REPORT_GENERAL_RESP_LEN].
Proof.
  assert (H1 : Discover.rg_block enum_heap = Some (repeat 0xee 76%nat))
    by reflexivity.
  assert (H2 : Discover.disc_block enum_heap = Some (repeat 0xee 124%nat))
    by reflexivity.
  split; [| split].
  - exact (proj2 (proj2 (enumeration_requests sample_lib
                           (plain_interface enum_target) disc_opts_multiple))
             enum_heap _ _ H1 H2).
  - reflexivity.
  - pose proof (proj2 (proj2 (enumeration_requests sample_lib
                                (plain_interface dead_target)
                                disc_opts_overflow))
                  enum_heap _ _ H1 H2) as H.
    cbv zeta in H.
    change ((0 <? _) && _) with false in H. cbv iota in H.
    destruct H as (m & Hm & Hs).
    change (Z.to_nat _) with 0%nat in Hm.
    assert (Hz : m = 0%nat) by lia.
    rewrite Hs, Hz. reflexivity.
Defined.

(** A turn whose DISCOVER failed with anything but "phy does not exist"
    and "phy vacant" jumps to [fini] with the failure. *)
Lemma turn_stops (L : smp_lib) (tobj : interface) (op : Discover.opts_t)
    (has_t2t : bool) (k : Z) (st : Discover.loop_state) (r : Z) :
  let d := Discover.do_discover L tobj k (Discover.rp st)
             Discover.SMP_FN_DISCOVER_RESP_LEN true op in
  Discover.ret_of_len (fst (snd d)) = r ->
  r <> 0 -> r <> SMP_FRES_NO_PHY L -> r <> SMP_FRES_PHY_VACANT L ->
  run (Discover.multiple_turn L tobj op has_t2t k st)
  = (fst d, Discover.Fini r).
Proof.
  intros d Hr H0 Hno Hvac. unfold Discover.multiple_turn. fold d.
  destruct d as [t [len rp]].
  change (Discover.ret_of_len len = r) in Hr.
  cbv beta iota zeta. rewrite Hr, bind_emits.
  replace (SMP_FRES_NO_PHY L =? r) with false by lia.
  replace (SMP_FRES_PHY_VACANT L =? r) with false by lia.
  rewrite !bind_when_false, (truthy_true _ H0), bind_when_true_leave.
  cbn [run out outcome fst snd]. now rewrite app_nil_r.
Qed.

(** X6.  The loop of [do_multiple] ends at the first phy whose DISCOVER
    fails with anything but "phy does not exist" and "phy vacant": a
    function result of another kind, a failed send, or a response
    shorter than its header.  No later phy is asked, and the loop returns
    the function result, -1, or [SMP_LIB_CAT_MALFORMED]. *)
Theorem enumeration_stops_at_failure (L : smp_lib) (tobj : interface)
    (op : Discover.opts_t) (has_t2t : bool) (n : nat) (k : Z)
    (st : Discover.loop_state) :
  let d := Discover.do_discover L tobj k (Discover.rp st)
             Discover.SMP_FN_DISCOVER_RESP_LEN true op in
  let rr := send tobj (Discover.build_req L k
                         Discover.SMP_FN_DISCOVER_RESP_LEN op)
                 Discover.SMP_FN_DISCOVER_RESP_LEN in
  (forall code,
      0 < code -> code <> SMP_FRES_NO_PHY L ->
      code <> SMP_FRES_PHY_VACANT L ->
      discover_result_is L tobj op k (Discover.rp st) code ->
      Discover.multiple_loop L tobj op has_t2t (S n) k st = (fst d, code)) /\
  (send_failed rr ->
   SMP_FRES_NO_PHY L <> -1 -> SMP_FRES_PHY_VACANT L <> -1 ->
   Discover.multiple_loop L tobj op has_t2t (S n) k st = (fst d, -1)) /\
  (send_ok rr -> too_short rr ->
   0 < SMP_LIB_CAT_MALFORMED L ->
   SMP_LIB_CAT_MALFORMED L <> SMP_FRES_NO_PHY L ->
   SMP_LIB_CAT_MALFORMED L <> SMP_FRES_PHY_VACANT L ->
   Discover.multiple_loop L tobj op has_t2t (S n) k st
   = (fst d, SMP_LIB_CAT_MALFORMED L)).
Proof.
  intros d rr. repeat apply conj.
  - intros code Hpos Hno Hvac Hres.
    destruct (do_discover_function_result L tobj op k (Discover.rp st) true
                code ltac:(lia) Hres) as [t Hd].
    cbn [Discover.multiple_loop].
    rewrite (turn_stops L tobj op has_t2t k st code); try lia; [reflexivity|].
    rewrite Hd. cbn [fst snd]. now apply ret_of_len_result.
  - intros Hf Hno Hvac.
    cbn [Discover.multiple_loop].
    rewrite (turn_stops L tobj op has_t2t k st (-1)); try lia;
      [reflexivity|].
    rewrite (do_discover_failed L tobj op k (Discover.rp st) _ true Hf).
    reflexivity.
  - intros Hok Hshort Hm Hno Hvac.
    cbn [Discover.multiple_loop].
    rewrite (turn_stops L tobj op has_t2t k st (SMP_LIB_CAT_MALFORMED L));
      try lia; [reflexivity|].
    unfold Discover.do_discover, Discover.do_discover_body.
    rewrite (bind_inl _ _ (-4 - SMP_LIB_CAT_MALFORMED L,
                           received tobj
                             (Discover.build_req L k
                                Discover.SMP_FN_DISCOVER_RESP_LEN op)
                             Discover.SMP_FN_DISCOVER_RESP_LEN
                             (memset0 (Discover.rp st)
                                Discover.SMP_FN_DISCOVER_RESP_LEN))).
    + cbn [run fst snd]. now apply ret_of_len_malformed.
    + rewrite (do_discover_exchange_short L tobj op k (Discover.rp st) _
                 Hok Hshort).
      reflexivity.
Qed.

Lemma enumeration_stops_at_failure_witness :
  snd (Discover.multiple_loop sample_lib (plain_interface (fres_target 2))
         disc_opts_multiple false 3 0 enum_start) = 2.
Proof.
  assert (Hpos : 0 < 2) by lia.
  assert (Hno : 2 <> SMP_FRES_NO_PHY sample_lib) by (simpl; lia).
  assert (Hvac : 2 <> SMP_FRES_PHY_VACANT sample_lib) by (simpl; lia).
  assert (Hres : discover_result_is sample_lib
                   (plain_interface (fres_target 2)) disc_opts_multiple 0
                   (Discover.rp enum_start) 2)
    by (repeat split; vm_compute; try reflexivity; right; discriminate).
  rewrite (proj1 (enumeration_stops_at_failure sample_lib
                    (plain_interface (fres_target 2)) disc_opts_multiple
                    false 2 0 enum_start) 2 Hpos Hno Hvac Hres).
  reflexivity.
Defined.

(** ** What --hex and --raw write *)

Lemma filter_all {A} (f : A -> bool) (l : list A) :
  Forall (fun x => f x = true) l -> filter f l = l.
Proof.
  induction 1 as [|x l Hx _ IH]; cbn; [reflexivity|].
  now rewrite Hx, IH.
Qed.

Lemma dump_events_stdout (hex : bool) (resp : list Z) (len : Z) :
  filter on_stdout (dump_events hex resp len) = dump_events hex resp len.
Proof.
  apply filter_all. unfold dump_events. destruct hex; forall_ev.
Qed.

Lemma out_dump {E} (hex : bool) (resp : list Z) (len : Z) :
  out (if hex then emit (HexDump resp len) else dStrRaw resp len : M E unit)
  = dump_events hex resp len.
Proof. now destruct hex. Qed.

(** The stdout of a computation that dumps the response and then ends
    with events for stderr. *)
Lemma dump_then_stderr {E A} (hex : bool) (resp : list Z) (len : Z)
    (rest : M E A) :
  all_events (fun ev => on_stdout ev = false) rest ->
  filter on_stdout
    (out ((if hex then emit (HexDump resp len) else dStrRaw resp len);; rest))
  = dump_events hex resp len.
Proof.
  intros Hf. rewrite out_bind, outcome_dump, out_dump, filter_app.
  rewrite dump_events_stdout, (filter_none _ _ Hf). apply app_nil_r.
Qed.

Section DumpModes.
Variable L : smp_lib.

Lemma hex_or_raw_stdout :
  (forall op resp len,
      filter on_stdout (out (RepGeneral.hex_or_raw L op resp len))
      = dump_events (truthy (RepGeneral.do_hex op)) resp len /\
      exists e, outcome (RepGeneral.hex_or_raw L op resp len) = inl e) /\
  (forall op resp len,
      filter on_stdout (out (ConfGeneral.hex_or_raw L op resp len))
      = dump_events (truthy (ConfGeneral.do_hex op)) resp len /\
      exists e, outcome (ConfGeneral.hex_or_raw L op resp len) = inl e) /\
  (forall op resp len,
      filter on_stdout (out (RepBroadcast.hex_or_raw L op resp len))
      = dump_events (truthy (RepBroadcast.do_hex op)) resp len /\
      exists e, outcome (RepBroadcast.hex_or_raw L op resp len) = inl e) /\
  (forall k n op resp len,
      filter on_stdout (out (Discover.hex_or_raw L k n op resp len))
      = dump_events (truthy (Discover.do_hex op)) resp len /\
      exists e, outcome (Discover.hex_or_raw L k n op resp len) = inl e).
Proof.
  repeat apply conj; intros;
    unfold RepGeneral.hex_or_raw, ConfGeneral.hex_or_raw,
      RepBroadcast.hex_or_raw, Discover.hex_or_raw; cbv zeta.
  all: split; [apply dump_then_stderr; stderr_only|].
  all: outcome_inl; eexists; reflexivity.
Qed.

End DumpModes.

Section DumpRuns.
Variable L : smp_lib.
Variable tobj : interface.
Hypothesis Hgood :
  forall req n, send_ok (send tobj req n) /\ long_enough (send tobj req n).

Lemma rep_general_body_dump (op : RepGeneral.opts) (buf : list Z) :
  let resp := received tobj (RepGeneral.smp_req L) RepGeneral.smp_resp_size
                buf in
  truthy (RepGeneral.do_hex op) || truthy (RepGeneral.do_raw op) = true ->
  filter on_stdout (out (RepGeneral.main_body L tobj op buf))
  = dump_events (truthy (RepGeneral.do_hex op)) resp
      (4 + (if byte_at resp 3 =? 0
            then (let d := def_resp_len_table L (byte_at resp 1) in
                  if d <? 0 then 0 else d)
            else byte_at resp 3) * 4).
Proof.
  intros resp Hhex.
  destruct (Hgood (RepGeneral.smp_req L) RepGeneral.smp_resp_size)
    as [Hok Hlong].
  pose proof (proj1 (rep_general_resolve_len L (E:=Z) op resp)) as Hlen.
  set (len := 4 + _ * 4) in *.
  destruct (proj1 (hex_or_raw_stdout L) op resp len) as (Hd & e & He).
  unfold RepGeneral.main_body.
  rewrite (rep_general_exchange_ok L tobj op buf Hok Hlong), bind_pair_inr.
  cbv beta zeta. cbn [fst snd].
  fold (received tobj (RepGeneral.smp_req L) RepGeneral.smp_resp_size buf).
  fold resp.
  rewrite (bind_inr _ _ _ Hlen), Hhex.
  rewrite (bind_when_true_inl _ _ _ He).
  cbn [out outcome fst snd]. rewrite !filter_app, Hd.
  rewrite (filter_none _ _ (proj1 (dump_req_stderr L) op)).
  rewrite (filter_none _ _ (proj1 (resolve_len_stderr L (E:=Z)) op resp)).
  reflexivity.
Qed.

Lemma conf_general_body_dump (op : ConfGeneral.opts) (buf : list Z) :
  let req := ConfGeneral.build_req L op in
  let resp := received tobj req ConfGeneral.smp_resp_size buf in
  truthy (ConfGeneral.do_hex op) || ConfGeneral.do_raw op = true ->
  filter on_stdout (out (ConfGeneral.main_body L tobj op buf))
  = dump_events (truthy (ConfGeneral.do_hex op)) resp
      (spec_resolved_len L resp
         (act_response_len (send tobj req ConfGeneral.smp_resp_size))).
Proof.
  intros req resp Hhex.
  destruct (Hgood req ConfGeneral.smp_resp_size) as [Hok Hlong].
  set (act := act_response_len (send tobj req ConfGeneral.smp_resp_size)).
  pose proof (proj1 (conf_general_resolve_len L (E:=Z) op resp act)) as Hlen.
  destruct (proj1 (proj2 (hex_or_raw_stdout L)) op resp
              (spec_resolved_len L resp act)) as (Hd & e & He).
  unfold ConfGeneral.main_body.
  rewrite (conf_general_exchange_ok L tobj op buf Hok Hlong), bind_pair_inr.
  cbv beta zeta. cbn [fst snd]. fold req.
  fold (received tobj req ConfGeneral.smp_resp_size buf).
  fold resp. fold act.
  rewrite (bind_inr _ _ _ Hlen), Hhex.
  rewrite (bind_when_true_inl _ _ _ He).
  cbn [out outcome fst snd]. rewrite !filter_app, Hd.
  rewrite (filter_none _ _ (proj1 (proj2 (dump_req_stderr L)) op)).
  rewrite (filter_none _ _
             (proj1 (proj2 (resolve_len_stderr L (E:=Z))) op resp act)).
  reflexivity.
Qed.

Lemma rep_broadcast_body_dump (op : RepBroadcast.opts) (buf : list Z) :
  let req := RepBroadcast.build_req L op in
  let n := RepBroadcast.SMP_FN_REPORT_BROADCAST_RESP_LEN in
  let resp := received tobj req n buf in
  truthy (RepBroadcast.do_hex op) || RepBroadcast.do_raw op = true ->
  filter on_stdout (out (RepBroadcast.main_body L tobj op buf))
  = dump_events (truthy (RepBroadcast.do_hex op)) resp
      (spec_resolved_len L resp (act_response_len (send tobj req n))).
Proof.
  intros req n resp Hhex.
  destruct (Hgood req n) as [Hok Hlong].
  set (act := act_response_len (send tobj req n)).
  pose proof (proj1 (rep_broadcast_resolve_len L (E:=Z) op resp act))
    as Hlen.
  destruct (proj1 (proj2 (proj2 (hex_or_raw_stdout L))) op resp
              (spec_resolved_len L resp act)) as (Hd & e & He).
  unfold RepBroadcast.main_body.
  rewrite (rep_broadcast_exchange_ok L tobj op buf Hok Hlong), bind_pair_inr.
  cbv beta zeta. cbn [fst snd]. fold req n.
  fold (received tobj req n buf).
  fold resp. fold act.
  rewrite (bind_inr _ _ _ Hlen), Hhex.
  rewrite (bind_when_true_inl _ _ _ He).
  cbn [out outcome fst snd]. rewrite !filter_app, Hd.
  rewrite (filter_none _ _ (proj1 (proj2 (proj2 (dump_req_stderr L))) op)).
  rewrite (filter_none _ _
             (proj1 (proj2 (proj2 (resolve_len_stderr L (E:=Z))))
                op resp act)).
  reflexivity.
Qed.

Lemma do_discover_dump (op : Discover.opts_t) (k : Z) (buf : list Z)
    (n : Z) (silence : bool) :
  let req := Discover.build_req L k n op in
  let resp := received tobj req n (memset0 buf n) in
  truthy (Discover.do_hex op) || Discover.do_raw op = true ->
  filter on_stdout (fst (Discover.do_discover L tobj k buf n silence op))
  = dump_events (truthy (Discover.do_hex op)) resp
      (spec_resolved_len L resp (act_response_len (send tobj req n))).
Proof.
  intros req resp Hhex.
  destruct (Hgood req n) as [Hok Hlong].
  set (act := act_response_len (send tobj req n)).
  pose proof (proj1 (do_discover_resolve_len L (E:=Z * list Z) op resp act))
    as Hlen.
  destruct (proj2 (proj2 (proj2 (hex_or_raw_stdout L))) k n op resp
              (spec_resolved_len L resp act)) as (Hd & e & He).
  unfold Discover.do_discover. rewrite run_out.
  unfold Discover.do_discover_body.
  rewrite (do_discover_exchange_ok L tobj op k buf n Hok Hlong),
    bind_pair_inr.
  cbv beta zeta. cbn [fst snd]. fold req.
  fold (received tobj req n (memset0 buf n)).
  fold resp. fold act.
  rewrite (bind_inr _ _ _ Hlen), Hhex.
  rewrite (bind_when_true_inl _ _ _ He).
  cbn [out outcome fst snd]. rewrite !filter_app, Hd.
  rewrite (filter_none _ _
             (proj2 (proj2 (proj2 (proj2 (dump_req_stderr L)))) k n op)).
  rewrite (filter_none _ _
             (proj2 (proj2 (proj2 (proj2
                (resolve_len_stderr L (E:=Z * list Z))))) op resp act)).
  reflexivity.
Qed.

End DumpRuns.

Lemma stdout_after_close (body status : trace) :
  Forall (fun ev => exists fmt args, ev = Pr2serr fmt args) status ->
  filter on_stdout (body ++ CloseTarget :: status) = filter on_stdout body.
Proof.
  intros Hst. destruct (stderr_lines _ Hst) as (_ & _ & H).
  rewrite filter_app. cbn [filter on_stdout]. rewrite H. apply app_nil_r.
Qed.

(** X7.  With --hex or --raw, a send that worked and a dump that stays
    inside the response array, stdout receives the response and nothing
    else: one hex dump of the resolved length, or with --raw alone
    exactly the bytes [0 .. len-1] of the response buffer in order.  The
    length is the resolved one: in smp_conf_general, smp_rep_broadcast and
    smp_discover it never exceeds the count of the transport;
    smp_rep_general uses [4 + 4 * dwords] as it stands.  None of the
    programs tests the length against the size of the array. *)
Theorem dump_is_resolved_length (L : smp_lib) (tobj : interface)
    (Hopen : 0 <= initiator_open_res tobj)
    (Hgood : forall req n,
        send_ok (send tobj req n) /\ long_enough (send tobj req n)) :
  (forall op buf,
      let resp := received tobj (RepGeneral.smp_req L)
                    RepGeneral.smp_resp_size buf in
      truthy (RepGeneral.do_hex op) || truthy (RepGeneral.do_raw op) = true ->
      dump_inside RepGeneral.smp_resp_size buf true (rep_general_len L resp) ->
      filter on_stdout (fst (RepGeneral.main L tobj op buf))
      = dump_events (truthy (RepGeneral.do_hex op)) resp
          (rep_general_len L resp)) /\
  (forall op buf,
      let req := ConfGeneral.build_req L op in
      let resp := received tobj req ConfGeneral.smp_resp_size buf in
      let len := spec_resolved_len L resp
                   (act_response_len
                      (send tobj req ConfGeneral.smp_resp_size)) in
      truthy (ConfGeneral.do_hex op) || ConfGeneral.do_raw op = true ->
      dump_inside ConfGeneral.smp_resp_size buf true len ->
      filter on_stdout (fst (ConfGeneral.main L tobj op buf))
      = dump_events (truthy (ConfGeneral.do_hex op)) resp len) /\
  (forall op buf,
      let req := RepBroadcast.build_req L op in
      let n := RepBroadcast.SMP_FN_REPORT_BROADCAST_RESP_LEN in
      let resp := received tobj req n buf in
      let len := spec_resolved_len L resp
                   (act_response_len (send tobj req n)) in
      truthy (RepBroadcast.do_hex op) || RepBroadcast.do_raw op = true ->
      dump_inside n buf true len ->
      filter on_stdout (fst (RepBroadcast.main L tobj op buf))
      = dump_events (truthy (RepBroadcast.do_hex op)) resp len) /\
  (forall op buf,
      let n := Discover.SMP_FN_DISCOVER_RESP_LEN in
      let req := Discover.build_req L (Discover.phy_id op) n op in
      let resp := received tobj req n (memset0 buf n) in
      let len := spec_resolved_len L resp
                   (act_response_len (send tobj req n)) in
      truthy (Discover.do_hex op) || Discover.do_raw op = true ->
      dump_inside n buf true len ->
      filter on_stdout (fst (Discover.do_single L tobj op (Some buf)))
      = dump_events (truthy (Discover.do_hex op)) resp len) /\
  (forall resp len,
      List.length (dump_events false resp len) = Z.to_nat len).
Proof.
  repeat apply conj.
  - intros op buf resp Hhex _.
    rewrite (rep_general_main_trace L tobj op buf Hopen).
    rewrite (stdout_after_close _ []); [|constructor].
    now apply rep_general_body_dump.
  - intros op buf req resp len Hhex _.
    destruct (conf_general_main_trace L tobj op buf Hopen)
      as (status & -> & Hst).
    rewrite (stdout_after_close _ _ Hst).
    now apply conf_general_body_dump.
  - intros op buf req n resp len Hhex _.
    destruct (rep_broadcast_main_trace L tobj op buf Hopen)
      as (status & -> & Hst).
    rewrite (stdout_after_close _ _ Hst).
    now apply rep_broadcast_body_dump.
  - intros op buf n req resp len0 Hhex _. subst len0.
    pose proof (do_discover_dump L tobj Hgood op (Discover.phy_id op) buf n
                  false Hhex) as Hd.
    cbv zeta in Hd. fold req resp in Hd.
    unfold Discover.do_single, Discover.do_single_body. fold n.
    destruct (Discover.do_discover L tobj (Discover.phy_id op) buf n false op)
      as [t [len rp]].
    change (filter on_stdout t = dump_events (truthy (Discover.do_hex op))
              resp (spec_resolved_len L resp
                      (act_response_len (send tobj req n)))) in Hd.
    cbv beta iota zeta.
    rewrite Hhex, bind_emits, bind_when_true_leave.
    cbn [run out fst]. now rewrite app_nil_r.
  - intros resp len. unfold dump_events, upto.
    now rewrite !length_map, length_seq.
Qed.

Lemma dump_is_resolved_length_witness :
  filter on_stdout
    (fst (RepGeneral.main sample_lib (plain_interface rg_error_target)
            rg_opts_hex (repeat 0 128%nat)))
  = [HexDump (received (plain_interface rg_error_target)
                (RepGeneral.smp_req sample_lib) RepGeneral.smp_resp_size
                (repeat 0 128%nat)) 28].
Proof.
  assert (Hopen : 0 <= initiator_open_res (plain_interface rg_error_target))
    by (simpl; lia).
  assert (Hgood : forall req n,
             send_ok (send (plain_interface rg_error_target) req n) /\
             long_enough (send (plain_interface rg_error_target) req n))
    by (intros req n; split; [split; reflexivity | right; simpl; lia]).
  assert (Hhex : truthy (RepGeneral.do_hex rg_opts_hex)
                 || truthy (RepGeneral.do_raw rg_opts_hex) = true)
    by reflexivity.
  refine (proj1 (dump_is_resolved_length sample_lib
                   (plain_interface rg_error_target) Hopen Hgood)
            rg_opts_hex (repeat 0 128%nat) Hhex _).
  split; [reflexivity | intros _; vm_compute; discriminate].
Defined.

(** ** The report of smp_rep_general by length *)

(** The tests of [len] in the report of smp_rep_general, decided one
    after the other; the cases that cannot be are dropped. *)
Ltac rg_len_cases len :=
  destruct (len <? 36) eqn:?;
  destruct (len <? 40) eqn:?; try (exfalso; lia);
  destruct (len <? 48) eqn:?; try (exfalso; lia);
  destruct (len <? 50) eqn:?; try (exfalso; lia);
  destruct (len <? 56) eqn:?; try (exfalso; lia);
  destruct (len <? 60) eqn:?; try (exfalso; lia);
  destruct (len <? 68) eqn:?; try (exfalso; lia).

Lemma rep_general_report_gates (op : RepGeneral.opts) (resp : list Z)
    (len : Z) :
  Forall (fun g => prints (fst g) (out (RepGeneral.report op resp len))
                   = negb (len <? snd g)) rg_gates /\
  Forall (fun fmt => prints fmt (out (RepGeneral.report op resp len)) = true)
         rg_always.
Proof.
  unfold RepGeneral.report, rg_gates, rg_always. cbv zeta.
  rg_len_cases len;
    destruct (truthy (byte_at resp 12));
    destruct ((byte_at resp 12 =? 0) && truthy (RepGeneral.verbose op)).
  all: split; repeat (apply Forall_cons; [cbn [fst snd] | ]);
    try apply Forall_nil.
  all: try match goal with
           | H : (?l <? ?t) = _ |- _ = negb (?l <? ?t) => rewrite H
           end.
  all: reflexivity.
Qed.

Lemma bind_congr {E A B} (m : M E A) (f f' : A -> M E B) :
  (forall a, f a = f' a) -> bind m f = bind m f'.
Proof.
  intros H. destruct m as [t [e | a]]; cbn; [reflexivity|]. now rewrite H.
Qed.

Lemma bind_leave_any {E B} (e : E) (f f' : unit -> M E B) :
  bind (when true (leave e)) f = bind (when true (leave e)) f'.
Proof. reflexivity. Qed.

Lemma printf_bytes_same {E} (fmt : string) (b1 b2 : list Z) (n off cnt : Z) :
  same_below n b1 b2 -> off + cnt <= n ->
  (printf_bytes fmt b1 off cnt : M E unit) = printf_bytes fmt b2 off cnt.
Proof.
  intros H Hn. unfold printf_bytes. f_equal.
  apply map_ext_in. intros k Hk. unfold upto in Hk.
  apply in_map_iff in Hk. destruct Hk as (j & <- & Hj).
  apply in_seq in Hj. rewrite (H (off + Z.of_nat j)); [reflexivity|]. lia.
Qed.

(** The report reads the response below [len] only, and below 20. *)
Lemma rep_general_report_frame (op : RepGeneral.opts) (resp resp' : list Z)
    (len : Z) :
  same_below (Z.max len 20) resp resp' ->
  RepGeneral.report op resp len = RepGeneral.report op resp' len.
Proof.
  intros H. unfold RepGeneral.report. cbv zeta.
  rewrite (printf_bytes_same "%02x" resp resp' _ 12 8 H) by lia.
  rg_len_cases len;
    try rewrite (printf_bytes_same "%02x" resp resp' _ 40 8 H) by lia;
    repeat match goal with
           | |- context [byte_at resp ?i] => rewrite (H i) by lia
           end;
    repeat first [ reflexivity
                 | apply bind_leave_any
                 | apply bind_congr; intros ? ].
Qed.

Lemma prefix_bind_same {E A B} (m : M E A) (f f' : A -> M E B) :
  (forall a, exists rest, out (f' a) = out (f a) ++ rest) ->
  exists rest, out (bind m f') = out (bind m f) ++ rest.
Proof.
  intros H. rewrite !out_bind.
  destruct (outcome m) as [e | a].
  - exists []. now rewrite !app_nil_r.
  - destruct (H a) as [rest ->]. exists rest. now rewrite app_assoc.
Qed.

Lemma prefix_cut {E B} (e : E) (f : unit -> M E B) (m' : M E B) :
  exists rest, out m' = out (bind (when true (leave e)) f) ++ rest.
Proof. now exists (out m'). Qed.

Lemma rep_general_report_grows (op : RepGeneral.opts) (resp : list Z)
    (len len' : Z) :
  len <= len' ->
  exists rest,
    out (RepGeneral.report op resp len')
    = out (RepGeneral.report op resp len) ++ rest.
Proof.
  intros Hle. unfold RepGeneral.report. cbv zeta.
  rg_len_cases len; rg_len_cases len';
    repeat first [ apply prefix_cut
                 | apply prefix_bind_same; intros ?
                 | (exists []; now rewrite app_nil_r) ].
Qed.

(** X8.  The report of smp_rep_general grows with the length.  Its first
    eight lines are printed for every length; each later line is printed
    exactly when the length has reached the bound of the
    [if (len < ...) goto err_out] before it (36, 40, 48, 50, 56, 60, 68).
    The report for a shorter length is the beginning of the report for a
    longer one, and a report reads no byte of the response at or beyond
    its length, apart from the first 20 bytes. *)
Theorem report_general_by_length (op : RepGeneral.opts) (resp : list Z)
    (len : Z) :
  Forall (fun g => prints (fst g) (out (RepGeneral.report op resp len))
                   = negb (len <? snd g)) rg_gates /\
  Forall (fun fmt => prints fmt (out (RepGeneral.report op resp len)) = true)
         rg_always /\
  (forall len',
      len <= len' ->
      exists rest,
        out (RepGeneral.report op resp len')
        = out (RepGeneral.report op resp len) ++ rest) /\
  (forall resp',
      same_below (Z.max len 20) resp resp' ->
      RepGeneral.report op resp len = RepGeneral.report op resp' len).
Proof.
  destruct (rep_general_report_gates op resp len) as [Hg Ha].
  repeat apply conj.
  - exact Hg.
  - exact Ha.
  - intros len'. apply rep_general_report_grows.
  - intros resp'. apply rep_general_report_frame.
Qed.

Lemma report_general_by_length_witness :
  exists rest,
    out (RepGeneral.report rg_opts_plain rg_resp 68)
    = out (RepGeneral.report rg_opts_plain rg_resp 28) ++ rest.
Proof.
  assert (Hle : 28 <= 68) by lia.
  exact (proj1 (proj2 (proj2 (report_general_by_length rg_opts_plain rg_resp
                                28))) 68 Hle).
Defined.

(** ** The attribute list of smp_discover by length *)

(** Decides [list_passes len] of a line whose format is written out. *)
Ltac list_gate :=
  lazymatch goal with
  | |- list_passes ?len (Printf ?f ?a) = _ =>
    unfold list_passes;
    let g := eval vm_compute in (lookup_gate f list_gates) in
    change (lookup_gate f list_gates) with g; cbv iota;
    first [ reflexivity | lia ]
  end.

Ltac list_suppressed :=
  repeat first
    [ apply suppressed_ret
    | apply suppressed_bind
    | apply suppressed_if
    | apply suppressed_emit; list_gate
    | progress cbv beta ].

Ltac list_shortened :=
  repeat first
    [ apply shortened_ret
    | apply shortened_bind; [ | intros ? ]
    | apply shortened_if
    | apply shortened_emit; list_gate
    | apply shortened_none; solve [list_suppressed]
    | progress cbv beta ].

Lemma print_single_list_shortened (rp : list Z) (len full : Z)
    (show : bool) (brief : Z) :
  118 < full ->
  shortened (list_passes len)
            (Discover.print_single_list rp len show brief)
            (Discover.print_single_list rp full show brief).
Proof.
  intros Hfull.
  assert (F59 : (full >? 59) = true) by lia.
  assert (F95 : (full >? 95) = true) by lia.
  assert (F109 : (full >? 109) = true) by lia.
  assert (F118 : (full >? 118) = true) by lia.
  unfold Discover.print_single_list. cbv zeta.
  rewrite F59, F95, F109, F118.
  destruct (len >? 59) eqn:L59;
    destruct (len >? 95) eqn:L95; try (exfalso; lia);
    destruct (len >? 109) eqn:L109; try (exfalso; lia);
    destruct (len >? 118) eqn:L118; try (exfalso; lia).
  all: rewrite ?andb_true_r, ?andb_false_r; unfold when; cbv iota.
  all: list_shortened.
Qed.

Lemma Forall_filter_true {A} (f : A -> bool) (l : list A) :
  Forall (fun x => f x = true) (filter f l).
Proof.
  apply Forall_forall. intros x Hx. now apply filter_In in Hx.
Qed.

(** X9.  In the attribute list of smp_discover (--list), the lines under
    a test of the length are printed exactly when [len] exceeds the
    bound of their test: [att_dev_name] above 59; [hw_mux_sup],
    [neg_phy_lrate], [opt_m_en] and [reason] above 95; the two device
    slot lines above 109; [buff_phy_bs] above 118.  The list for a length
    is the list for a full length (above 118) without the lines that the
    length does not reach; every other line is printed whatever the
    length, and the function always runs to its end. *)
Theorem attribute_list_by_length (rp : list Z) (len full : Z) (show : bool)
    (brief : Z) :
  118 < full ->
  out (Discover.print_single_list rp len show brief)
  = filter (list_passes len)
           (out (Discover.print_single_list rp full show brief)) /\
  Forall (fun ev => list_passes len ev = true)
         (out (Discover.print_single_list rp len show brief)) /\
  outcome (Discover.print_single_list rp len show brief) = inr tt.
Proof.
  intros Hfull.
  destruct (print_single_list_shortened rp len full show brief Hfull)
    as [Ho Ht].
  repeat apply conj.
  - exact Ht.
  - rewrite Ht. apply Forall_filter_true.
  - unfold Discover.print_single_list. cbv zeta. runs_to_end.
Qed.

Lemma attribute_list_by_length_witness :
  out (Discover.print_single_list disc_full_resp 64 true 0)
  = filter (list_passes 64)
           (out (Discover.print_single_list disc_full_resp 120 true 0)).
Proof.
  assert (Hfull : 118 < 120) by lia.
  exact (proj1 (attribute_list_by_length disc_full_resp 64 120 true 0
                  Hfull)).
Defined.

(** ** A DISCOVER response that is reported *)

Lemma discover_validate_ok (L : smp_lib) (k n : Z) (silence : bool)
    (op : Discover.opts_t) (resp : list Z) :
  header_valid (SMP_FN_DISCOVER L) resp = true ->
  Discover.validate L k n silence op resp = ([], inr tt).
Proof.
  unfold header_valid. intros H.
  apply andb_prop in H. destruct H as [H H2].
  apply andb_prop in H. destruct H as [H0 H1].
  unfold Discover.validate. cbv zeta.
  rewrite discover_req_fn, H0, H1. unfold truthy. rewrite H2.
  reflexivity.
Qed.

Lemma do_discover_ok (L : smp_lib) (tobj : interface)
    (op : Discover.opts_t) (k : Z) (buf : list Z) (n : Z) (silence : bool) :
  let req := Discover.build_req L k n op in
  let resp := received tobj req n (memset0 buf n) in
  let act := act_response_len (send tobj req n) in
  send_ok (send tobj req n) -> long_enough (send tobj req n) ->
  truthy (Discover.do_hex op) || Discover.do_raw op = false ->
  header_valid (SMP_FN_DISCOVER L) resp = true ->
  Discover.do_discover L tobj k buf n silence op
  = ((Discover.dump_req L k n op ++ [SendReq req n])
       ++ out (Discover.resolve_len L op resp act : M (Z * list Z) Z),
     (spec_resolved_len L resp act, resp)).
Proof.
  intros req resp act Hok Hlong Hplain Hv.
  pose proof (proj1 (do_discover_resolve_len L (E:=Z * list Z) op resp act))
    as Hlen.
  unfold Discover.do_discover, Discover.do_discover_body.
  rewrite (do_discover_exchange_ok L tobj op k buf n Hok Hlong),
    bind_pair_inr.
  cbv beta zeta. cbn [fst snd]. fold req.
  fold (received tobj req n (memset0 buf n)). fold resp. fold act.
  rewrite (bind_inr _ _ _ Hlen), Hplain, bind_when_false.
  rewrite (discover_validate_ok L k n silence op resp Hv), bind_pair_inr.
  cbn [run out outcome ret fst snd app]. now rewrite app_nil_r.
Qed.

(** X10.  [do_single] of smp_discover, for a send that worked and a
    response with a valid header, outside --hex and --raw: it returns 0,
    and what it prints after the exchange is the report of the response
    buffer for the resolved length, by [print_single] or with --list by
    [print_single_list].  With --my it prints one line instead: the SAS
    address of bytes 16 to 23 when the resolved length exceeds 23, and 0
    otherwise. *)
Theorem single_discover_report (L : smp_lib) (tobj : interface)
    (op : Discover.opts_t) (buf : list Z)
    (Hgood : forall req n,
        send_ok (send tobj req n) /\ long_enough (send tobj req n))
    (Hplain : truthy (Discover.do_hex op) || Discover.do_raw op = false) :
  let n := Discover.SMP_FN_DISCOVER_RESP_LEN in
  let req := Discover.build_req L (Discover.phy_id op) n op in
  let resp := received tobj req n (memset0 buf n) in
  let len := spec_resolved_len L resp (act_response_len (send tobj req n)) in
  header_valid (SMP_FN_DISCOVER L) resp = true ->
  0 <= byte_at resp 3 ->
  Discover.do_single L tobj op (Some buf)
  = (((Discover.dump_req L (Discover.phy_id op) n op ++ [SendReq req n])
        ++ out (Discover.resolve_len L op resp
                  (act_response_len (send tobj req n)) : M (Z * list Z) Z))
       ++ (if Discover.do_my op
           then [Printf "0x%lx\n"
                        [AInt (if len >? 23
                               then sg_get_unaligned_be64 resp 16 else 0)]]
           else if Discover.do_list op
           then out (Discover.print_single_list resp len true
                       (Discover.do_brief op))
           else out (Discover.print_single L resp len true op)),
     0).
Proof.
  intros n req resp len Hv Hb.
  destruct (Hgood req n) as [Hok Hlong].
  pose proof (spec_resolved_len_header L resp _ Hb Hlong) as Hlen.
  fold len in Hlen.
  unfold Discover.do_single, Discover.do_single_body. fold n.
  rewrite (do_discover_ok L tobj op (Discover.phy_id op) buf n false Hok
             Hlong Hplain Hv).
  fold req resp len. cbv beta iota zeta.
  assert (Hr : Discover.ret_of_len len = 0).
  { unfold Discover.ret_of_len. now replace (len <? 0) with false by lia. }
  rewrite Hr, Hplain, bind_emits, bind_when_false.
  change (truthy 0) with false.
  destruct (Discover.do_my op).
  - unfold run.
    destruct ((_ >? 0) && _); reflexivity.
  - rewrite bind_when_false, bind_when_false.
    unfold run.
    destruct (Discover.do_list op);
      cbn [out outcome bind emits ret fst snd]; now rewrite app_nil_r.
Qed.

Lemma single_discover_report_witness :
  snd (Discover.do_single sample_lib (plain_interface (fres_target 0))
         disc_opts_plain (Some (repeat 0xee 124%nat))) = 0 /\
  filter on_stdout
    (fst (Discover.do_single sample_lib (plain_interface (fres_target 0))
            disc_opts_plain (Some (repeat 0xee 124%nat))))
  = filter on_stdout
      (out (Discover.print_single sample_lib ([0x41; 0x10] ++ repeat 0 122%nat) 4 true
              disc_opts_plain)).
Proof.
  assert (Hgood : forall req n,
             send_ok (send (plain_interface (fres_target 0)) req n) /\
             long_enough (send (plain_interface (fres_target 0)) req n))
    by (intros req n; split; [split; reflexivity | right; simpl; lia]).
  pose proof (single_discover_report sample_lib
                (plain_interface (fres_target 0)) disc_opts_plain (repeat 0xee 124%nat)
                Hgood eq_refl) as H.
  cbv zeta in H. rewrite H.
  - split; vm_compute; reflexivity.
  - reflexivity.
  - vm_compute. discriminate.
Defined.

(** ** The option loop of smp_conf_general *)

Ltac chr_values :=
  repeat match goal with
         | |- context [chr ?s] =>
             let v := eval vm_compute in (chr s) in change (chr s) with v
         | H : context [chr ?s] |- _ =>
             let v := eval vm_compute in (chr s) in
             change (chr s) with v in H
         end.

Ltac closed_tests :=
  repeat match goal with
         | |- context [Z.eqb ?a ?b] =>
             let r := eval vm_compute in (Z.eqb a b) in
             match r with
             | true => idtac
             | false => idtac
             end;
             change (Z.eqb a b) with r
         end;
  cbn [orb andb negb existsb].

Ltac switch_on c :=
  repeat match goal with
         | |- context [c =? ?k] =>
             destruct (Z.eqb_spec c k); [ subst c; closed_tests | ]
         end.

Section OptionLoop.
Variable SE : Z.
Variable num llnum : string -> Z.

Lemma cg_number_accepted (v : cg_vars) (p : cg_param) (hi : Z)
    (msg optarg : string) :
  ConfGeneral.in_range 0 hi (num optarg) = true ->
  cg_number SE num v p hi msg optarg
  = ([], inr (cg_with_opts v (cg_assign p (num optarg) (cg_opts v)))).
Proof.
  unfold ConfGeneral.in_range, cg_number. intros H.
  apply andb_prop in H. destruct H as [H1 H2].
  cbv zeta.
  replace (num optarg <? 0) with false by lia.
  replace (num optarg >? hi) with false by lia.
  reflexivity.
Qed.

Lemma cg_number_refused (v : cg_vars) (p : cg_param) (hi : Z)
    (msg optarg : string) :
  ConfGeneral.in_range 0 hi (num optarg) = false ->
  cg_number SE num v p hi msg optarg = ([Pr2serr msg []], inl SE).
Proof.
  unfold ConfGeneral.in_range, cg_number. intros H.
  apply andb_false_iff in H.
  cbv zeta.
  replace ((num optarg <? 0) || (num optarg >? hi)) with true
    by (symmetry; apply orb_true_iff; destruct H; [left | right]; lia).
  reflexivity.
Qed.

Lemma cg_assign_ok (p : cg_param) (val : Z) (op : ConfGeneral.opts) :
  ConfGeneral.in_range 0
    (match p with P_itdefoi | P_pdt | P_reduced => 255 | _ => 65535 end)
    val = true ->
  ConfGeneral.opts_ok op = true ->
  ConfGeneral.opts_ok (cg_assign p val op) = true.
Proof.
  intros Hval Hok.
  unfold ConfGeneral.opts_ok in *.
  repeat match type of Hok with
         | _ && _ = true =>
             let H := fresh in
             apply andb_prop in Hok; destruct Hok as [Hok H]
         end.
  destruct p;
    cbn [cg_assign ConfGeneral.connect_val ConfGeneral.itdefoi_val
         ConfGeneral.expected_cc ConfGeneral.inactivity_val
         ConfGeneral.nexus_val ConfGeneral.open_val ConfGeneral.power_val
         ConfGeneral.reduced_val ConfGeneral.ssp_ctl];
    repeat match goal with
           | H : ConfGeneral.in_range _ _ _ = true |- _ => rewrite H; clear H
           end;
    reflexivity.
Qed.

Lemma cg_option_accepted (v : cg_vars) (c : Z) (optarg : string) :
  cg_accepted num llnum (c, optarg) = true ->
  exists v', cg_option SE num llnum v c optarg = ([], inr v') /\
             cg_turns_ok num v v' [(c, optarg)].
Proof.
  unfold cg_accepted, cg_option, cg_turns_ok, cg_last_given, cg_numbers,
    cg_lookup.
  chr_values. cbv zeta. cbn [existsb].
  switch_on c; cbn [orb andb negb existsb]; intros Hacc;
    try discriminate.
  1: { rewrite (cg_number_accepted _ _ _ _ _ Hacc). eexists.
            split; [reflexivity |].
            split; [intros Hok; match goal with |- context [cg_assign ?p _ _] => apply (cg_assign_ok p _ _ Hacc Hok) end
                   | split; intros []; reflexivity]. }
  all: try (rewrite (cg_number_accepted _ _ _ _ _ Hacc); eexists;
            split; [reflexivity |];
            split; [intros Hok; match goal with |- context [cg_assign ?p _ _] => apply (cg_assign_ok p _ _ Hacc Hok) end
                   | split; intros []; reflexivity]).
  all: try (eexists; split; [reflexivity |];
            split; [exact (fun H => H) | split; intros []; reflexivity]).
  - (* --expected *)
    unfold ConfGeneral.in_range in Hacc.
    apply andb_prop in Hacc. destruct Hacc as [H1 H2].
    replace (num optarg <? 0) with false by lia.
    replace (num optarg >? 65535) with false by lia.
    eexists. split; [reflexivity |].
    split; [| split; intros []; reflexivity].
    unfold ConfGeneral.opts_ok, ConfGeneral.in_range. cbn.
    intros Hok. rewrite H1, H2.
    repeat match type of Hok with
           | _ && _ = true =>
               let H := fresh in
               apply andb_prop in Hok; destruct Hok as [Hok H]
           end.
    repeat match goal with H : _ = true |- _ => rewrite H end.
    reflexivity.
  - (* --sa *)
    replace (-1 =? llnum optarg) with false
      by (symmetry; rewrite Z.eqb_sym; now apply negb_true_iff).
    eexists. split; [reflexivity |].
    split; [exact (fun H => H) | split; intros []; reflexivity].
Qed.

Lemma cg_option_refused (v : cg_vars) (c : Z) (optarg : string) :
  cg_accepted num llnum (c, optarg) = false ->
  exists t status,
    cg_option SE num llnum v c optarg = (t, inl status) /\
    (status = 0 \/ status = SE) /\ t <> [] /\ Forall stderr_line t.
Proof.
  unfold cg_accepted, cg_option, cg_numbers, cg_lookup.
  chr_values. cbv zeta. cbn [existsb].
  switch_on c; cbn [orb andb negb existsb]; intros Hacc;
    try discriminate.
  all: try (rewrite (cg_number_refused _ _ _ _ _ Hacc);
            eexists; eexists; split; [reflexivity |];
            split; [now right |];
            split; [discriminate |];
            repeat constructor; eexists; eexists; reflexivity).
  all: try (eexists; eexists; split; [reflexivity |];
            split; [(now left) || (now right) |];
            split; [discriminate |];
            repeat constructor; eexists; eexists; reflexivity).
  - (* --expected *)
    unfold ConfGeneral.in_range in Hacc.
    apply andb_false_iff in Hacc.
    replace ((num optarg <? 0) || (num optarg >? 65535)) with true
      by (symmetry; apply orb_true_iff; destruct Hacc; [left | right]; lia).
    eexists; eexists; split; [reflexivity |].
    split; [now right |]. split; [discriminate |].
    repeat constructor; eexists; eexists; reflexivity.
  - (* --sa *)
    apply negb_false_iff, Z.eqb_eq in Hacc. rewrite Hacc.
    eexists; eexists; split; [reflexivity |].
    split; [now right |]. split; [discriminate |].
    repeat constructor; eexists; eexists; reflexivity.
Qed.

Lemma cg_last_given_cons (p : cg_param) (c : Z) (optarg : string)
    (rest : list (Z * string)) :
  cg_last_given p ((c, optarg) :: rest)
  = match cg_last_given p rest with
    | Some a => Some a
    | None => cg_last_given p [(c, optarg)]
    end.
Proof. cbn. now destruct (cg_last_given p rest). Qed.

Lemma cg_option_loop_accepted (turns : list (Z * string)) :
  forall v,
    forallb (cg_accepted num llnum) turns = true ->
    exists v', cg_option_loop SE num llnum v turns = ([], inr v') /\
               cg_turns_ok num v v' turns.
Proof.
  induction turns as [| [c optarg] rest IH]; intros v Hall.
  - exists v. split; [reflexivity |].
    split; [exact (fun H => H) | split; reflexivity].
  - cbn [forallb] in Hall. apply andb_prop in Hall.
    destruct Hall as [Hhead Hrest].
    destruct (cg_option_accepted v c optarg Hhead)
      as (v1 & Hstep & Hok1 & Hs1 & Hv1).
    destruct (IH v1 Hrest) as (v' & Hloop & Hok & Hs & Hv).
    exists v'. cbn [cg_option_loop].
    rewrite Hstep, bind_pair_inr, Hloop. split; [reflexivity |].
    split; [exact (fun H => Hok (Hok1 H)) |].
    split; intros p; rewrite cg_last_given_cons.
    + rewrite Hs, Hs1. now destruct (cg_last_given p rest).
    + rewrite Hv, Hv1. now destruct (cg_last_given p rest).
Qed.

Lemma cg_option_loop_refused (turns : list (Z * string)) :
  forall v,
    forallb (cg_accepted num llnum) turns = false ->
    exists t status,
      cg_option_loop SE num llnum v turns = (t, inl status) /\
      (status = 0 \/ status = SE) /\ t <> [] /\ Forall stderr_line t.
Proof.
  induction turns as [| [c optarg] rest IH]; intros v Hall.
  - discriminate.
  - cbn [forallb] in Hall. cbn [cg_option_loop].
    destruct (cg_accepted num llnum (c, optarg)) eqn:Hhead.
    + destruct (cg_option_accepted v c optarg Hhead) as (v1 & Hstep & _).
      rewrite Hstep, bind_pair_inr.
      destruct (IH v1 Hall) as (t & status & Hloop & Hrest).
      rewrite Hloop. exists t, status. split; [reflexivity | exact Hrest].
    + destruct (cg_option_refused v c optarg Hhead)
        as (t & status & Hstep & Hrest).
      rewrite Hstep. exists t, status. split; [reflexivity | exact Hrest].
Qed.

End OptionLoop.

(** X11.  The option loop of smp_conf_general goes through the options
    in order.  When every option is one it accepts (a number option with
    its number in range, --sa with a number that was read, --hex,
    --interface, --raw, --verbose) it prints nothing and leaves the
    variables of the request within the ranges the request builder
    relies on, each parameter flagged exactly when it was flagged before
    or an option gave it, with the number of the last option that gave
    it.  Otherwise it ends the program before any request is built, with
    status 0 or [SMP_LIB_SYNTAX_ERROR], having written to stderr and
    only there. *)
Theorem option_loop_accepts (SE : Z) (num llnum : string -> Z)
    (v : cg_vars) (turns : list (Z * string)) :
  ConfGeneral.opts_ok (cg_opts v) = true ->
  if forallb (cg_accepted num llnum) turns
  then exists v',
      cg_option_loop SE num llnum v turns = ([], inr v') /\
      ConfGeneral.opts_ok (cg_opts v') = true /\
      (forall p,
          cg_supplied (cg_opts v') p
          = match cg_last_given p turns with
            | Some _ => true
            | None => cg_supplied (cg_opts v) p
            end) /\
      (forall p,
          cg_value (cg_opts v') p
          = match cg_last_given p turns with
            | Some a => num a
            | None => cg_value (cg_opts v) p
            end)
  else exists t status,
      cg_option_loop SE num llnum v turns = (t, inl status) /\
      (status = 0 \/ status = SE) /\ t <> [] /\ Forall stderr_line t.
Proof.
  intros Hok.
  destruct (forallb (cg_accepted num llnum) turns) eqn:Hall.
  - destruct (cg_option_loop_accepted SE num llnum turns v Hall)
      as (v' & Hloop & Hok' & Hs & Hv).
    exists v'. repeat split; auto.
  - exact (cg_option_loop_refused SE num llnum turns v Hall).
Qed.

Lemma option_loop_accepts_witness :
  exists v',
    cg_option_loop 1 decimal decimal cg_vars_init
      [(chr "c", "300"); (chr "p", "9"); (chr "S", "65535"); (chr "p", "7")]
    = ([], inr v') /\
    ConfGeneral.opts_ok (cg_opts v') = true /\
    cg_opts v' = cg_sample_opts.
Proof.
  pose proof (option_loop_accepts 1 decimal decimal cg_vars_init
                [(chr "c", "300"); (chr "p", "9"); (chr "S", "65535");
                 (chr "p", "7")] eq_refl) as H.
  change (forallb _ _) with true in H. cbv iota in H.
  destruct H as (v' & Hloop & Hok & _).
  exists v'. split; [exact Hloop |]. split; [exact Hok |].
  vm_compute in Hloop. now injection Hloop as <-.
Defined.

(** ** The long options of smp_conf_general *)

Lemma long_option_val_in (tbl : list (string * Z)) (name : string) :
  In (long_option_val tbl name) (chr "?" :: map snd tbl).
Proof.
  induction tbl as [| [n c] rest IH]; cbn [long_option_val map snd].
  - now left.
  - destruct (String.eqb n name).
    + right. now left.
    + destruct IH as [IH | IH]; [now left | right; now right].
Qed.

Lemma cg_long_never_nexus (turns : list (Z * string)) :
  Forall (fun t => In (fst t) (chr "?" :: map snd cg_long_options)) turns ->
  cg_last_given P_nexus turns = None.
Proof.
  induction 1 as [| [c optarg] rest Hc _ IH]; [reflexivity |].
  rewrite cg_last_given_cons, IH.
  cbn [fst] in Hc. cbn in Hc.
  repeat (destruct Hc as [<- | Hc]; [reflexivity |]).
  contradiction.
Qed.

(** X12.  In the table of long options of smp_conf_general, --nexus has
    the option character of --power.  So --nexus=NE is handled as
    --power=NE, and a command line of long options only (written out or
    abbreviated) never sets the STP SMP I_T nexus loss time: when the
    loop accepts it, the flag and the value of that parameter are what
    they were before the loop. *)
Theorem long_nexus_sets_power (SE : Z) (num llnum : string -> Z)
    (v v' : cg_vars) (turns : list (Z * string)) :
  Forall (fun t => In (fst t) (chr "?" :: map snd cg_long_options)) turns ->
  outcome (cg_option_loop SE num llnum v turns) = inr v' ->
  (forall name,
      In (long_option_val cg_long_options name)
         (chr "?" :: map snd cg_long_options)) /\
  (forall w optarg,
      cg_option SE num llnum w (long_option_val cg_long_options "nexus")
        optarg
      = cg_number SE num w P_pdt 255
          "bad argument to '--power', expect value from 0 to 255\n"
          optarg) /\
  ConfGeneral.do_nexus (cg_opts v') = ConfGeneral.do_nexus (cg_opts v) /\
  ConfGeneral.nexus_val (cg_opts v') = ConfGeneral.nexus_val (cg_opts v).
Proof.
  intros Hlong Hout.
  split; [intros name; apply long_option_val_in |].
  split; [reflexivity |].
  destruct (forallb (cg_accepted num llnum) turns) eqn:Hall.
  - destruct (cg_option_loop_accepted SE num llnum turns v Hall)
      as (v'' & Hloop & _ & Hs & Hv).
    rewrite Hloop in Hout. injection Hout as <-.
    specialize (Hs P_nexus). specialize (Hv P_nexus).
    rewrite (cg_long_never_nexus turns Hlong) in Hs, Hv.
    split; assumption.
  - destruct (cg_option_loop_refused SE num llnum turns v Hall)
      as (t & status & Hloop & _).
    rewrite Hloop in Hout. discriminate.
Qed.

Lemma long_nexus_sets_power_witness :
  exists v',
    outcome (cg_option_loop 1 decimal decimal cg_vars_init
               [(long_option_val cg_long_options "nexus", "200");
                (long_option_val cg_long_options "open", "5")]) = inr v' /\
    ConfGeneral.do_nexus (cg_opts v') = false /\
    ConfGeneral.do_pdt (cg_opts v') = true /\
    ConfGeneral.power_val (cg_opts v') = 200.
Proof.
  eexists. split; [vm_compute; reflexivity |].
  split; [| split; reflexivity].
  refine (proj1 (proj2 (proj2
            (long_nexus_sets_power 1 decimal decimal cg_vars_init _
               [(long_option_val cg_long_options "nexus", "200");
                (long_option_val cg_long_options "open", "5")] _ _)))).
  - repeat constructor; apply long_option_val_in.
  - vm_compute. reflexivity.
Defined.
